(* ===== verification/_CoqProject ===== *)
-Q . S2P
Prelude.v
ElfTypes.v
ElfFile.v
ElfHash.v
ElfLink.v
ElfTables.v
ElfLinkImage.v
ElfHeaders.v
ElfOpen.v
ElfImage.v
ElfLoad.v
ElfLifecycle.v
ElfPipeline.v
ElfLinkFile.v
ElfObject.v
ElfSpace.v
GTest.v
OatFileTest.v
OatFileHandles.v
ScratchWorld.v
