(* ===== verification/Prelude.v ===== *)
(** * Verification of the ELF loader's interface and of its tests (ART)

    ** The program

    The sources are two files of the Android Runtime:

    - [src/runtime/oat/elf_file_impl.h]: the class template [ElfFileImpl],
      the loader of ELF images (oat files).  The header holds the data
      members, five accessors with their bodies ([GetFilePath],
      [GetBaseAddress], [Begin], [End], [Size]) and the declarations of
      every other member function: the opener ([Open], [Setup], [SetMap],
      [CheckSectionsExist]), the views of the header and of the tables,
      the segment loader ([Load]) and the symbol resolver
      ([FindDynamicSymbolAddress]).  The bodies of the declared functions
      are in a file that is not part of the sources; the design document
      describes them.
    - [src/runtime/oat/oat_file_test.cc]: one helper
      ([GetFirstDexFileOffset]) and four googletest bodies ([LoadOat],
      [ChangingMultiDexUncompressed], [DlOpenLoad], [RejectsCdex]) that
      drive the loader through [OatFile::Open] and check what it accepts
      and what it rejects.

    A caller opens a file ([Open]: map it, validate the ELF header, find
    the tables, check that the sections the resolver needs exist), loads
    it ([Load]: reserve the loaded range, map every loadable segment,
    find the program headers and the tables in the loaded image) and then
    asks for addresses of dynamic symbols.

    ** How the code is modelled

    What the header defines is translated from it: the data members are
    the record [ElfFileImpl], the accessors with bodies are functions on
    it, and each group of declared member functions is a class whose
    fields have the declared signatures ([HeaderAccess],
    [ProgramHeaderAccess], [DynamicAccess], [HashAccess], [SymbolAccess],
    [StringAccess], [SectionStarts], [SectionSearch],
    [ProgramHeaderSearch], [SymbolResolver], [ImageOpener],
    [SegmentLoader]).  The
    algorithms are written against these classes.  The bodies that the
    sources do not contain are instances of the classes, written from the
    design document, over the bytes of the mapping; the laws that the
    algorithms need of an instance are classes of their own
    ([HashAccessLaws], [LoaderLaws]) which the instances are proved to keep.
    A pointer is an [option] of an address; a [MemMap] is a start address,
    a protection and the bytes; a [File] is a path and the bytes; an error
    is a value of [Error], and a function that may fail returns a
    [Result].  The test file is translated line by line.

    ** The files

    - [Prelude] (this file): the notations of the option and error monads
      (scope [elf_scope]), tactics, the hint database [elf], unsigned
      machine integers ([wrap]), little-endian reads and writes
      ([le_combine], [le_split]), bounds-checked sub-lists ([slice]), C
      strings, substring search ([has_substr], which is [HasSubstr] and
      [std::string::find]), the scan for the first entry of a table that
      passes a test ([find_first]), and the counting lemma behind the
      bound of the resolver.
    - [ElfTypes]: the template parameter of [ElfFileImpl] (lines 28-42 of
      the header) as the class [ElfTypes]: five integer widths and seven
      struct layouts; the instances for 32-bit and 64-bit images; reading
      and writing a field of a struct, and their round trip.
    - [ElfFile]: the state, a record with the data members of lines 134-157;
      the five accessors; [ValidPointer] and the bounds-checked reads; the
      setters of the members; the declared member functions as classes;
      the constants of the format; [File], [Platform] and [MapFile]; the
      invariant [pointers_valid] (every cached pointer is in a region the
      object owns), the predicate [owns] (a range of addresses lies in one
      region of the object) and the equivalence [same_maps] (two objects
      with the same regions), under which the reads are [Proper].
    - [ElfHash]: the resolver, written against the classes: [elf_hash]
      on 32-bit integers, the walk along a chain ([walk_chain]),
      [FindDynamicSymbol] and [FindDynamicSymbolAddress]; and its
      specifications: the walk without a bound as the relation [Walk], and
      the search in index order [LinearScan].
    - [ElfLink]: the other side of the hash table: the bucket and chain
      arrays as a linker writes them for a list of symbols ([link]), and
      what an image with these tables gives the accessors, the class
      [LinkedImage].  It models no code of the loader; it shows that the
      hypothesis of the resolver's theorems is what a linker produces.
    - [ElfLinkImage]: the hash table, the dynamic symbol table and the
      string table of a linked image in bytes ([hash_bytes],
      [dynsym_bytes], [dynstr_bytes]), and what it means that an object
      has them in its regions ([held], [holds_tables]); the views of
      [ElfTables] read them back.
    - [ElfTables]: the module [Mapped], the views of the hash, symbol and
      string tables over the mapped bytes, which implement the classes
      ([Mapped_HashAccess], ...) and keep the laws the resolver needs
      ([Mapped_Laws]).
    - [ElfHeaders]: the module [View], the views of the ELF header, the
      program headers, the section headers and the dynamic section over
      the mapped bytes, each struct with its decoder and encoder;
      [FindProgamHeaderByType] and [FindSectionByType].
    - [ElfOpen]: the opener: [SetMap] (the identification bytes, the place
      of the header tables), [Setup] (map the file, then find the dynamic
      section, the symbol tables with their string tables and the hash
      table), [CheckSectionsExist], [Open]; what an opened object
      satisfies, the record [opened].
    - [ElfImage]: the tables of a small 64-bit image, byte by byte, with a
      well-formed and a cyclic chain array; the resolver runs on them and
      the theorems of [ElfHash] and [ElfTables] are applied to them.
    - [ElfLoad]: the segment loader, written against the classes and a
      record [Platform] that places and maps regions:
      [GetLoadedAddressRange], [GetLoadedSize],
      [GetElfSegmentAlignmentFromFile] and [Load], whose last step finds
      the program headers and the tables of the dynamic section in the
      loaded image ([locate_program_headers], [resolve_dynamic]); and the
      example of the design document, an image with one segment.
    - [ElfLifecycle]: the states of a loader object ([Unopened],
      [HeaderValidated], [Loaded]) and the calls that move it, as the
      relation [step] and the function [next], for any opener and any
      segment loader; the invariant [state_ok] of the reachable states;
      the resolver as an accessor of the machine ([resolve]), legal in
      the state [Loaded].
    - [ElfPipeline]: a complete 64-bit image as the bytes of a file (ELF
      header, two program headers, four section headers, a dynamic
      section, the symbol, string and hash tables); [Open], [Load] and the
      resolver run on it and on three damaged copies; the same image in
      the 32-bit layouts, on which the 32-bit instantiation runs; the
      opener and the segment loader over the mapped bytes keep the laws
      of the lifecycle ([View_Laws]).
    - [ElfLinkFile]: a whole file as a linker writes it for a list of
      symbols, without section headers ([link_bytes], [link_file]): the
      ELF header, a PT_LOAD and a PT_DYNAMIC program header, the dynamic
      section and the three tables of [ElfLinkImage]; the objects [Open]
      and [Load] make of it ([opened_object], [loaded_object]).  It models
      no code of the loader; the loader is run on it.
    - [ElfObject]: the bytes of two shared objects that gcc and GNU ld
      wrote, for x86-64 and for i386, with section headers, two loadable
      segments and the hash table the linker chose ([liboat64_bytes],
      [liboat32_bytes]).  Nothing of them comes from the encoders of this
      development; the views, [Open], [Load] and the resolver are run on
      them.
    - [ElfSpace]: the address space as a multiset of mapped ranges;
      [Open] and [Load] with every mapping and unmapping written out
      ([Open_in], [Load_in], the loop [map_segments_in] that carries the
      segments mapped so far), the destructor ([Destroy_in]) and the
      machine of the lifecycle on pairs of an address space and a state
      ([next_in]), whose actions are the two calls and the destruction
      of the object.
    - [GTest]: the control flow of a googletest body as a state monad over
      the world of the collaborators, the trace of the calls, the log of
      recorded test parts and the stack of scope guards: [ASSERT_*] returns
      from the function, [EXPECT_*] goes on, [GTEST_SKIP],
      [ASSERT_NO_FATAL_FAILURE], [make_scope_guard] with [Disable], and the
      destructors of locals; the verdict of a run; the tactics that execute
      a body symbolically ([gtest_exec]).
    - [OatFileTest]: the helper and the four tests, line by line, against
      the interface [Env] of the collaborators (the fixture, [OatFile],
      [VdexFile], [File], [dlerror], [dladdr]); a call leaves an [Event] in
      the trace.  The preprocessor branch of [DlOpenLoad] is the parameter
      [GLIBC]; the width of [size_t] on the host is the parameter
      [size_t_bits].
    - [OatFileHandles]: the protocol of the handles the tests hold (oat
      files, vdex files, files) as an automaton on traces ([follow]); the
      response property that whatever was obtained is given up later
      ([released_later]) with its checker; the patch block of
      [RejectsCdex] with the clean-up written before every return instead
      of a scope guard.
    - [ScratchWorld]: one implementation of [Env], a file system as a
      finite map with toy loaders, on which the tests evaluate and the
      theorems of [OatFileTest] are applied.  It models no code.

    ** The theorems

    - Of the tests ([OatFileTest], [OatFileHandles]), for every
      implementation of the collaborators and every starting state: what a
      verdict tells (a test that passed saw the loader accept, or reject,
      what the test is about); which calls are made on which path and in
      which order; that the trace of every run follows the protocol of the
      handles and ends with none left, and that every handle that was
      obtained is released later; that the scope guard of the patch block
      is equivalent to explicit clean-up; that the write of the patch is
      guarded by the length check, and where that guard does not hold (a
      64-bit [size_t] compared with a negative [int64_t]).
    - Of the state ([ElfFile]): the accessors of the mapping agree; every
      setter keeps [pointers_valid] when the pointer it stores is valid.
    - Of the resolver ([ElfHash]): the hash is a 28-bit number and selects
      a bucket in range; a result is a symbol of that name; the bound of
      the walk loses nothing ([FindDynamicSymbol_complete]), and where
      the chain leads back into itself, so that the walk without a bound
      does not end, the resolver returns not-found
      ([FindDynamicSymbol_Walk]); on a
      well-formed hash table the resolver refines the linear scan
      ([FindDynamicSymbol_LinearScan]).  The table a linker writes for
      symbols of distinct names is well formed, for any positive number
      of buckets, and on it the resolver is the lookup of the name in the
      list of symbols ([linked_image_resolves] of [ElfLink]); the views
      over the mapped bytes read the tables of such an image back,
      so that the resolver over the bytes finds every symbol at its
      address, wherever the object holds the tables
      ([linked_bytes_resolve] of [ElfLinkImage]).
    - Of the views ([ElfTypes], [ElfTables], [ElfHeaders]): no view reads
      outside the regions the object owns, and each view of a table with
      a number of entries returns an entry only for an index in its range
      ([views_in_bounds]; [GetSymbol] is declared without a number of
      symbols, and the region alone bounds its index); a struct that was
      written is read back (the lemmas [decode_encode_Sym],
      [decode_encode_Phdr], ...; they relate the decoders of the views to
      encoders that model no code, and serve the files that write
      images); the searches by type return the first entry of that type.
    - Of the opener ([ElfOpen]), for every implementation of the searches
      by type: an object that [Open] returns satisfies
      [opened]: it owns one region with the bytes of the file, read-only,
      its header has the identification of the instantiation, the header
      tables lie inside the file, every cached pointer is valid, and the
      sections the resolver needs are there; a file with other
      identification bytes, or with a program header table that passes the
      end of the file, is refused with a format error.
    - Of the loader ([ElfLoad]): the loaded size is a multiple of the
      largest alignment and, for segments that follow each other, at least
      the sum of their file sizes; a successful [Load] maps one region for
      each loadable segment, with the bytes of the file followed by zeros;
      an image that is not loaded to be executed has no executable region;
      the regions lie in the reserved span when the range starts at the
      virtual address 0 (and [Load_high_segment] shows a region outside
      the span when it does not); [Load] keeps [pointers_valid]; [Begin],
      [End] and [Size] are those of the file mapping before and after
      [Load], and the base address is the start of the span
      ([Load_keeps_file_mapping]); a span that the platform places for a
      call with [low_4gb] ends below 4GB on a platform that honours the
      flag ([Load_low_4gb]), while a span taken from a reservation is
      where the reservation is ([Load_reservation_above_4gb]).
    - Of the lifecycle ([ElfLifecycle], [ElfPipeline]): the relation and
      the function agree, a step is deterministic, a call is legal in one
      state only, a failed call leaves no object, and every reachable
      state satisfies [state_ok], by induction on the steps, from the laws
      [LoaderLaws] alone; the opener and the loader over the mapped bytes
      keep these laws ([View_Laws], from what [Setup] and [Load] check),
      so that for every file and platform every state they reach
      satisfies [state_ok] and holds an object whose header is still the
      validated one ([loader_reachable_ok]), and an address the
      resolver returns in the state [Loaded] is a base address plus
      the value of a symbol of that name ([loaded_resolves]).  On the
      images of [ElfPipeline] the calls end in the state [Loaded] and the
      resolver returns the address of [oatdata] in the loaded image; each
      instantiation refuses the image of the other class.
    - Of the loader as a whole ([ElfLinkFile]): for every list of symbols
      with distinct names and every number of buckets that the format
      holds, in both layouts and on every platform that maps the file and
      reserves a span apart from it, [Open] and then [Load] on the file a
      linker writes succeed, the object they return is known field by
      field, and the resolver on it is the lookup of the name among the
      symbols, relocated by the start of the span
      ([linked_file_resolves]); [Load] on such a file is known on every
      branch, the errors included ([Load_link_file_cases]); the views of
      the headers and of the dynamic section read back what was written,
      from the file mapping and from the segment.
    - Of the layouts and of the loader against a linker that is not of
      this development ([ElfObject]): on the two shared objects GNU ld
      wrote, the views return the header, the program headers, the section
      headers, the dynamic section and the symbols that [readelf] prints
      for the files; [Open] and [Load] accept them, the hash table the
      linker wrote is well formed ([liboat64_wf], [liboat32_wf]: the
      hypothesis of [FindDynamicSymbol_LinearScan] holds of it), and for
      every name the resolver returns the start of the reservation plus
      the value of the symbol of that name, or nothing when there is none
      ([liboat64_resolves], [liboat32_resolves]).  A layout of [ElfTypes]
      with a field at another offset would not read these files.
    - Of the address space ([ElfSpace]): the calls with the address space
      return what the calls without it return (lemma [next_in_refines],
      which says nothing of the address space itself); after
      every sequence of calls and destructions the address space is the
      one before the first call plus the ranges of the regions the object
      owns ([reachable_accounted]): a failed [Open] or [Load] has
      unmapped what it mapped, and nothing is left of an object that is
      gone.

    ** Bounds and fuel

    - The walk of the resolver takes [nchain + 1] units of fuel, one for
      each symbol it examines, so it follows at most [nchain] links.  That
      this is enough is a theorem: a walk that ends follows the link of no
      index twice (it would never end otherwise), each link it follows is
      at an index below [nchain] (the range check of [GetHashChain]), and
      [nchain] distinct indices is all there are ([NoDup_range_length]).
      On a chain with a cycle the fuel runs out and the result is
      not-found.
    - The scans of the program headers, the section headers and the
      dynamic section ([find_first]) take as many steps as the table has
      entries ([e_phnum], [e_shnum], the size of the dynamic segment
      divided by the size of an entry): no fuel is chosen, and
      [find_first_complete] shows that an entry that passes the test is
      not missed.
    - Addresses, offsets and lengths are unbounded integers; the hash is
      computed on 32-bit unsigned integers with the wrap-around written out,
      and so is the end of a segment, [p_vaddr + p_memsz] in [Elf_Addr],
      whose overflow [GetLoadedAddressRange] reports;
      the sum in the length check of [RejectsCdex] is reduced modulo
      [2^size_t_bits], and the comparison with the [int64_t] that
      [GetLength] returns follows the usual arithmetic conversions
      ([le_size_t_int64]).
    - The test bodies have no loops: symbolic execution reaches the end of
      every path.

    ** Choices where the design document is open

    - [Open] maps the whole file, so that every table it checks is in
      the mapping.
    - The pointers that the code resolves on first use are resolved by
      [Setup] (in the file) and again at the end of [Load] (in the loaded
      image); a pointer that would be invalid is left null.
    - Before [Load] the resolver returns the value of the symbol, without
      a base address ([resolve_before_Load]).
    - A failed [Load] and the destruction of its object are one step of
      the machines, as the design document has it; in the class the
      object lives on until its owner destroys it.
    - An address space may hold a range more than once (a multiset): the
      platform decides from the range alone whether it maps it, and the
      account must not lose a range that an unmapping of its double
      removes.

    ** Not modelled

    - What the platform does with ranges that overlap: [Platform] accepts
      or refuses a range whatever is mapped already, and the theorems hold
      for every such platform.
    - What is left of a reservation after a failed [Load]: the model
      returns a reservation only with a loaded object.
    - Failures of reading the file: a [File] is its bytes, and the only
      failure of mapping is the refusal of the platform.
    - The member functions whose bodies the sources lack are modelled from
      the design document, not from code.  The declarations of the public
      ones, of the accessors of the tables and of the searches by type
      are the classes; the other private ones ([Setup], [SetMap],
      [CheckSectionsExist], [GetLoadedAddressRange], [ValidPointer],
      [FindDynamicSymbol] and the constructor, lines 101-127) are
      definitions and no class: the model leaves out the parameters of
      theirs that the design document gives no use ([flags] of [Setup],
      [file] of [SetMap] and of [CheckSectionsExist]), so a class with
      the declared signature would have no instance.
    - Files a linker writes with section headers, with more than one
      loadable segment or at a virtual address other than 0, for an
      arbitrary list of symbols: [ElfLinkFile] has the stripped file with
      one segment for any list of symbols, [ElfPipeline] and [ElfObject]
      files with section headers for one list of symbols ([ElfObject]
      with two segments), and the theorems of [ElfLoad] segments in
      general.
    - Relocation entries: [Elf_Rel] and [Elf_Rela] have their layouts in
      [ElfTypes] (lines 39-40), and no member function reads them.
    - The collaborators of the tests (dex2oat, [OatFile], [VdexFile],
      [File], the dynamic linker): the tests are verified against their
      interface, for every behaviour they may have; the fixture
      ([CommonRuntimeTest], [DexoptTest]) is part of that interface.
    - Runs of a test that end in a crash.  Line 79 dereferences the result
      of [GetVdexFile()] without a check: the interface gives every oat
      file a vdex file, and [LoadOat] is verified for such oat files.  The
      destructor of a [File] leaves the event of the deletion only; what it
      does to a descriptor that is still open is up to the interface.
    - Memory that changes under the loader, and threads: the loader's
      object is used by one thread. *)

From Stdlib Require Import ZArith Lia Bool Ascii String List FinFun.
From Stdlib Require Import Strings.Byte.
Import ListNotations.

#[local] Open Scope Z_scope.

(** ** Tactics *)

(** [inv H]: inversion that cleans up after itself. *)
Ltac inv H := inversion H; subst; clear H.

(** [break_match]: case analysis on the scrutinee of the first [match] or
    [if] of the goal, keeping the equation. *)
Ltac break_match :=
  match goal with
  | |- context [match ?x with _ => _ end] => destruct x eqn:?
  end.

(** [break_match_hyp]: the same in a hypothesis. *)
Ltac break_match_hyp :=
  match goal with
  | H : context [match ?x with _ => _ end] |- _ => destruct x eqn:?
  end.

(** ** Notations

    The loader threads two kinds of failure through its calls: a null pointer
    ([option]) and an error with a message (a sum, with the error on the
    right).  The notations are a [match], so that [break_match] and
    [destruct] see the scrutinee. *)

Declare Scope elf_scope.
Delimit Scope elf_scope with elf.

Notation "'let?' x := o 'in' k" :=
  (match o with Some x => k | None => None end)
  (at level 10, x pattern, o at level 100, k at level 200) : elf_scope.

Notation "'let!' x := r 'in' k" :=
  (match r with inl x => k | inr err => inr err end)
  (at level 10, x pattern, r at level 100, k at level 200) : elf_scope.

Create HintDb elf discriminated.
Create Rewrite HintDb elf.

(** ** Definitions *)

(** A [w]-bit unsigned integer is a [Z] in [0, 2^w); [wrap w] is the
    reduction every C++ arithmetic operation on such a type performs. *)
Definition wrap (w : Z) (x : Z) : Z := x mod 2 ^ w.

Definition in_range (w : Z) (x : Z) : Prop := 0 <= x < 2 ^ w.

Definition isSome {A} (o : option A) : bool :=
  match o with Some _ => true | None => false end.

(** [has_substr sub s] is [s.find(sub) != std::string::npos], which is also
    what gmock's [HasSubstr(sub)] matches. *)
Fixpoint has_substr (sub s : string) : bool :=
  prefix sub s ||
  match s with
  | EmptyString => false
  | String _ s' => has_substr sub s'
  end.

Definition byte_val (b : Byte.byte) : Z := Z.of_N (Byte.to_N b).

(** The integer a run of bytes holds, least significant byte first. *)
Fixpoint le_combine (bs : list Byte.byte) : Z :=
  match bs with
  | [] => 0
  | b :: bs' => byte_val b + 256 * le_combine bs'
  end.

Definition byte_of_Z (v : Z) : Byte.byte :=
  match Byte.of_N (Z.to_N (v mod 256)) with
  | Some b => b
  | None => Byte.x00
  end.

(** [v] in [n] bytes, least significant byte first. *)
Fixpoint le_split (n : nat) (v : Z) : list Byte.byte :=
  match n with
  | O => []
  | S n' => byte_of_Z v :: le_split n' (v / 256)
  end.

(** The string that ends at the first NUL; [None] if there is no NUL. *)
Fixpoint cstring (bs : list Byte.byte) : option string :=
  match bs with
  | [] => None
  | b :: bs' =>
      if Byte.eqb b Byte.x00 then Some EmptyString
      else option_map (String (ascii_of_byte b)) (cstring bs')
  end.

(** The bytes of a string, with the NUL that ends it. *)
Definition cstring_bytes (s : string) : list Byte.byte :=
  map byte_of_ascii (list_ascii_of_string s) ++ [Byte.x00].

(** [slice off n l] is the [n] elements of [l] from index [off] on, when they
    are all there: the bounds-checked view every table access goes through. *)
Definition slice {A} (off n : nat) (l : list A) : option (list A) :=
  if (off + n <=? length l)%nat then Some (firstn n (skipn off l)) else None.

(** Equality of two byte strings, byte by byte. *)
Fixpoint bytes_eqb (a b : list Byte.byte) : bool :=
  match a, b with
  | [], [] => true
  | x :: a', y :: b' => Byte.eqb x y && bytes_eqb a' b'
  | _, _ => false
  end.

(** The loop [for (i = from; i < from + n; i++) { a = get(i); if (test(a))
    return a; }] over an accessor that can fail: the first index whose
    entry passes the test, with the entry.  An entry that cannot be read
    ends the loop without a result. *)
Fixpoint find_first {A} (get : Z -> option A) (test : A -> bool) (i : Z)
    (n : nat) : option (Z * A) :=
  match n with
  | O => None
  | S n' =>
      match get i with
      | Some a => if test a then Some (i, a)
                  else find_first get test (i + 1) n'
      | None => None
      end
  end.

(** ** Unsigned machine integers *)

Lemma wrap_range w x : 0 <= w -> in_range w (wrap w x).
Proof.
  intros Hw. unfold in_range, wrap. apply Z.mod_pos_bound.
  apply Z.pow_pos_nonneg; lia.
Qed.

Lemma wrap_small w x : in_range w x -> wrap w x = x.
Proof. unfold in_range, wrap. intros H. now apply Z.mod_small. Qed.

Lemma wrap_idem w x : 0 <= w -> wrap w (wrap w x) = wrap w x.
Proof. intros Hw. apply wrap_small, wrap_range, Hw. Qed.

#[export] Hint Resolve wrap_range : elf.
#[export] Hint Rewrite wrap_idem using lia : elf.

(** ** Options and strings *)

Lemma isSome_true {A} (o : option A) : isSome o = true <-> exists a, o = Some a.
Proof.
  destruct o; cbn; split; eauto; try discriminate.
  intros [a H]; discriminate.
Qed.

#[local] Open Scope string_scope.

Lemma prefix_app (sub s : string) :
  prefix sub s = true <-> exists post, s = sub ++ post.
Proof.
  revert s. induction sub as [|a sub IH]; intros s; cbn.
  - destruct s; split; eauto.
  - destruct s as [|b s]; cbn.
    + split; [discriminate|]. intros [post H]. discriminate.
    + destruct (ascii_dec a b) as [->|Hne].
      * split.
        -- intros H. apply IH in H as [post ->]. now exists post.
        -- intros [post H]. apply IH. exists post. congruence.
      * split; [discriminate|]. intros [post H]. congruence.
Qed.

(** [has_substr] decides "[sub] occurs in [s]". *)
Lemma has_substr_spec (sub s : string) :
  has_substr sub s = true <-> exists pre post, s = pre ++ sub ++ post.
Proof.
  induction s as [|c s IH]; cbn [has_substr]; rewrite orb_true_iff.
  - split.
    + intros [H|H]; [|discriminate].
      apply prefix_app in H as [post H]. exists "", post. exact H.
    + intros [pre [post H]]. left. apply prefix_app.
      destruct pre; cbn in H; [eauto | discriminate].
  - split.
    + intros [H|H].
      * apply prefix_app in H as [post H]. exists "", post. exact H.
      * apply IH in H as [pre [post H]].
        exists (String c pre), post. cbn. now rewrite H.
    + intros [pre [post H]]. destruct pre as [|d pre]; cbn in H.
      * left. apply prefix_app. eauto.
      * right. apply IH. exists pre, post. congruence.
Qed.

Lemma append_empty_r (s : string) : s ++ "" = s.
Proof. induction s; cbn; congruence. Qed.

Lemma has_substr_refl (s : string) : has_substr s s = true.
Proof. apply has_substr_spec. exists "", "". cbn. now rewrite append_empty_r. Qed.

#[local] Close Scope string_scope.

(** ** Bytes and little-endian integers *)

Lemma byte_val_range (b : Byte.byte) : 0 <= byte_val b < 256.
Proof.
  unfold byte_val. pose proof (Byte.to_N_bounded b). lia.
Qed.

Lemma le_combine_range (bs : list Byte.byte) :
  0 <= le_combine bs < 2 ^ (8 * Z.of_nat (length bs)).
Proof.
  induction bs as [|b bs IH]; cbn [le_combine length].
  - cbn. lia.
  - pose proof (byte_val_range b).
    replace (8 * Z.of_nat (S (length bs))) with (8 + 8 * Z.of_nat (length bs))
      by lia.
    rewrite Z.pow_add_r by lia. change (2 ^ 8) with 256. lia.
Qed.

Lemma byte_val_of_Z (v : Z) : byte_val (byte_of_Z v) = v mod 256.
Proof.
  unfold byte_of_Z, byte_val.
  pose proof (Z.mod_pos_bound v 256 ltac:(lia)) as Hv.
  destruct (Byte.of_N (Z.to_N (v mod 256))) as [b|] eqn:E.
  - apply Byte.to_of_N in E. rewrite E. lia.
  - apply Byte.of_N_None_iff in E. lia.
Qed.

Lemma le_split_length (n : nat) (v : Z) : length (le_split n v) = n.
Proof. revert v. induction n; intros v; cbn; auto. Qed.

Lemma le_combine_split (n : nat) (v : Z) :
  le_combine (le_split n v) = v mod 2 ^ (8 * Z.of_nat n).
Proof.
  revert v. induction n as [|n IH]; intros v.
  - cbn. now rewrite Z.mod_1_r.
  - cbn [le_split le_combine]. rewrite byte_val_of_Z, IH.
    replace (8 * Z.of_nat (S n)) with (8 + 8 * Z.of_nat n) by lia.
    rewrite Z.pow_add_r by lia. change (2 ^ 8) with 256.
    rewrite Z.rem_mul_r by lia. reflexivity.
Qed.

Lemma le_combine_split_small (n : nat) (v : Z) :
  0 <= v < 2 ^ (8 * Z.of_nat n) -> le_combine (le_split n v) = v.
Proof. intros H. rewrite le_combine_split. now apply Z.mod_small. Qed.

(** A string without a NUL is read back from its bytes, whatever follows
    them. *)
Lemma cstring_bytes_app (s : string) (rest : list Byte.byte) :
  ~ In Ascii.zero (list_ascii_of_string s) ->
  cstring (cstring_bytes s ++ rest) = Some s.
Proof.
  unfold cstring_bytes. induction s as [|c s IH]; intros Hnz; [reflexivity|].
  cbn [list_ascii_of_string map app cstring].
  destruct (Byte.eqb (byte_of_ascii c) Byte.x00) eqn:E.
  - exfalso. apply Hnz. left. apply Byte.byte_dec_bl in E.
    rewrite <- (ascii_of_byte_of_ascii c), E. reflexivity.
  - rewrite IH, ascii_of_byte_of_ascii; [reflexivity|].
    intros Hin. apply Hnz. now right.
Qed.

(** ** Sub-lists by offset and length *)

Lemma slice_length {A} (off n : nat) (l r : list A) :
  slice off n l = Some r -> length r = n.
Proof.
  unfold slice. destruct (Nat.leb_spec (off + n) (length l)); [|discriminate].
  intros [= <-]. rewrite length_firstn, length_skipn. lia.
Qed.

Lemma slice_Some {A} (off n : nat) (l : list A) :
  (off + n <= length l)%nat <-> exists r, slice off n l = Some r.
Proof.
  unfold slice. destruct (Nat.leb_spec (off + n) (length l)).
  - split; eauto.
  - split; [lia|]. intros [r Hr]. discriminate.
Qed.

Lemma slice_None {A} (off n : nat) (l : list A) :
  (length l < off + n)%nat <-> slice off n l = None.
Proof.
  unfold slice. destruct (Nat.leb_spec (off + n) (length l)).
  - split; [lia | discriminate].
  - split; auto.
Qed.

Lemma slice_nth_error {A} (off n i : nat) (l r : list A) :
  slice off n l = Some r -> (i < n)%nat ->
  nth_error r i = nth_error l (off + i).
Proof.
  unfold slice. destruct (Nat.leb_spec (off + n) (length l)); [|discriminate].
  intros [= <-] Hi. rewrite nth_error_firstn.
  destruct (Nat.ltb_spec i n); [|lia]. now rewrite nth_error_skipn.
Qed.

(** ** Counting

    Distinct integers of [0, n) are at most [n]: what bounds a walk through
    a table that meets no index twice. *)

Lemma NoDup_range_length (l : list Z) (n : Z) :
  NoDup l -> (forall j, In j l -> 0 <= j < n) ->
  (length l <= Z.to_nat n)%nat.
Proof.
  intros Hnd Hr.
  rewrite <- (length_map Z.to_nat l), <- (length_seq (Z.to_nat n) 0).
  apply NoDup_incl_length.
  - apply Injective_map_NoDup_in; [|exact Hnd].
    intros x y Hx Hy. apply Hr in Hx, Hy. lia.
  - intros k Hk. apply in_map_iff in Hk as (j & <- & Hj).
    apply Hr in Hj. apply in_seq. lia.
Qed.

(** ** Scans

    What the scan [find_first] returns is the first entry that passes the
    test: it lies in the scanned range, and every entry before it was read
    and failed the test. *)

Lemma find_first_Some {A} (get : Z -> option A) (test : A -> bool) (n : nat) :
  forall i j a, find_first get test i n = Some (j, a) ->
  i <= j < i + Z.of_nat n /\ get j = Some a /\ test a = true /\
  forall k, i <= k < j -> exists b, get k = Some b /\ test b = false.
Proof.
  induction n as [|n IH]; intros i j a; cbn [find_first]; [discriminate|].
  destruct (get i) as [b|] eqn:Hg; [|discriminate].
  destruct (test b) eqn:Ht.
  - intros [= <- <-]. repeat split; auto; lia.
  - intros H. apply IH in H as (Hr & Hj & Ha & Hbefore).
    repeat split; auto; try lia.
    intros k Hk. destruct (Z.eq_dec k i) as [->|]; [eauto|].
    apply Hbefore. lia.
Qed.

(** The scan finds an entry that passes the test if every entry before it
    can be read. *)
Lemma find_first_complete {A} (get : Z -> option A) (test : A -> bool)
    (n : nat) :
  forall i j a, i <= j < i + Z.of_nat n -> get j = Some a -> test a = true ->
  (forall k, i <= k < j -> exists b, get k = Some b) ->
  exists j' a', find_first get test i n = Some (j', a') /\ j' <= j.
Proof.
  induction n as [|n IH]; intros i j a Hr Hj Ha Hread; [lia|].
  cbn [find_first]. destruct (Z.eq_dec j i) as [->|Hne].
  - rewrite Hj, Ha. exists i, a. split; [reflexivity|lia].
  - destruct (Hread i) as (b & Hb); [lia|]. rewrite Hb.
    destruct (test b); [exists i, b; split; [reflexivity|lia]|].
    apply (IH (i + 1) j a); auto; try lia.
    intros k Hk. apply Hread. lia.
Qed.

(** Without an entry that passes the test the scan returns nothing. *)
Lemma find_first_None {A} (get : Z -> option A) (test : A -> bool) (n : nat) :
  forall i, (forall k a, i <= k < i + Z.of_nat n -> get k = Some a ->
                         test a = false) ->
  find_first get test i n = None.
Proof.
  induction n as [|n IH]; intros i Hno; [reflexivity|]. cbn [find_first].
  destruct (get i) as [a|] eqn:Hg; [|reflexivity].
  rewrite (Hno i a) by (auto; lia). apply IH.
  intros k b Hk. apply Hno. lia.
Qed.

(** ** Byte strings *)

Lemma bytes_eqb_eq (a b : list Byte.byte) : bytes_eqb a b = true <-> a = b.
Proof.
  revert b. induction a as [|x a IH]; intros [|y b]; cbn; try easy.
  rewrite andb_true_iff, IH. split.
  - intros [Hx ->]. f_equal. now apply Byte.byte_dec_bl.
  - intros [= -> ->]. split; [|reflexivity]. now apply Byte.byte_dec_lb.
Qed.

Lemma firstn_firstn_le {A} (n m : nat) (l : list A) :
  (n <= m)%nat -> firstn n (firstn m l) = firstn n l.
Proof. intros H. rewrite firstn_firstn. f_equal. lia. Qed.

(** ** Tables of entries of one size

    A table is the entries one after the other; the entry [i] is the
    [n] bytes at the offset [i * n]. *)

(** A slice is where it was cut. *)
Lemma slice_app_inv {A} (off n : nat) (l r : list A) :
  slice off n l = Some r -> l = firstn off l ++ r ++ skipn (off + n) l.
Proof.
  unfold slice. destruct (Nat.leb_spec (off + n) (length l)); [|discriminate].
  intros [= <-]. rewrite (Nat.add_comm off n), <- skipn_skipn.
  now rewrite !firstn_skipn.
Qed.

(** A slice of a slice is a slice of the list. *)
Lemma slice_slice {A} (off n i k : nat) (l r q : list A) :
  slice off n l = Some r -> slice i k r = Some q ->
  slice (off + i) k l = Some q.
Proof.
  intros Hr Hq. pose proof (slice_length _ _ _ _ Hr) as Hlen.
  unfold slice in *. rewrite Hlen in Hq.
  destruct (Nat.leb_spec (off + n) (length l)); [|discriminate].
  destruct (Nat.leb_spec (i + k) n); [|discriminate].
  destruct (Nat.leb_spec (off + i + k) (length l)); [|lia].
  injection Hr as <-. injection Hq as <-. f_equal.
  rewrite skipn_firstn_comm, firstn_firstn_le, skipn_skipn by lia.
  now rewrite (Nat.add_comm i off).
Qed.

Lemma slice_app_skip {A} (off n : nat) (a l : list A) :
  slice (length a + off) n (a ++ l) = slice off n l.
Proof.
  unfold slice. rewrite length_app, skipn_app, skipn_all2 by lia.
  replace (length a + off - length a)%nat with off by lia. cbn [app].
  destruct (Nat.leb_spec (off + n) (length l)),
           (Nat.leb_spec (length a + off + n) (length a + length l));
    try reflexivity; lia.
Qed.

Lemma slice_flat_map {A B} (g : A -> list B) (n : nat) (l : list A) :
  (forall x, length (g x) = n) ->
  forall (i : nat) (x : A),
    nth_error l i = Some x -> slice (i * n) n (flat_map g l) = Some (g x).
Proof.
  intros Hg. induction l as [|a l IH]; intros [|i] x Hx; try discriminate;
    cbn [nth_error flat_map] in *.
  - injection Hx as ->. change (0 * n)%nat with 0%nat. unfold slice.
    rewrite length_app, Hg. cbn [skipn Nat.add].
    destruct (Nat.leb_spec n (n + length (flat_map g l))); [|lia].
    rewrite firstn_app, Hg, Nat.sub_diag, firstn_all2 by (rewrite Hg; lia).
    cbn. now rewrite app_nil_r.
  - cbn [Nat.mul]. rewrite <- (Hg a), slice_app_skip, (Hg a). now apply IH.
Qed.

(** The string at the start of a run of bytes does not depend on what
    follows its NUL. *)
Lemma cstring_app (l rest : list Byte.byte) (s : string) :
  cstring l = Some s -> cstring (l ++ rest) = Some s.
Proof.
  revert s. induction l as [|b l IH]; intros s; cbn; [discriminate|].
  destruct (Byte.eqb b Byte.x00); [auto|].
  destruct (cstring l) as [s'|]; [|discriminate]. intros [= <-].
  now rewrite (IH s').
Qed.

Lemma cstring_bytes_length (s : string) :
  length (cstring_bytes s) = S (String.length s).
Proof.
  unfold cstring_bytes. rewrite length_app, length_map. cbn.
  induction s as [|c s IH]; cbn in *; lia.
Qed.

(** The bytes of an integer that was read from bytes are those bytes. *)
Lemma le_split_combine (bs : list Byte.byte) :
  le_split (length bs) (le_combine bs) = bs.
Proof.
  induction bs as [|b bs IH]; [reflexivity|]. cbn [length le_split le_combine].
  pose proof (byte_val_range b) as Hb.
  assert (Hq : (byte_val b + 256 * le_combine bs) / 256 = le_combine bs)
    by (symmetry; apply (Z.div_unique _ _ _ (byte_val b)); lia).
  assert (Hr : (byte_val b + 256 * le_combine bs) mod 256 = byte_val b)
    by (symmetry; apply (Z.mod_unique _ _ (le_combine bs)); lia).
  rewrite Hq, IH. f_equal. unfold byte_of_Z. rewrite Hr.
  unfold byte_val. now rewrite N2Z.id, Byte.of_to_N.
Qed.

(** A part of a list between two others is the slice at the length of the
    first. *)
Lemma slice_app_mid {A} (a x rest : list A) (o n : nat) :
  length a = o -> length x = n -> slice o n (a ++ x ++ rest) = Some x.
Proof.
  intros <- <-. replace (length a) with (length a + 0)%nat by lia.
  rewrite slice_app_skip. unfold slice. rewrite length_app. cbn [skipn].
  destruct (Nat.leb_spec (0 + length x) (length x + length rest)); [|lia].
  now rewrite firstn_app, Nat.sub_diag, firstn_all, app_nil_r.
Qed.
