(* ===== verification/ElfTypes.v ===== *)
(** * ElfTypes: the type family the loader is instantiated with

    [ElfFileImpl] is a template over [ElfTypes]
    (src/runtime/oat/elf_file_impl.h, lines 28-42): the parameter provides five
    integer types ([Addr], [Off], [Half], [Word], [Sword]) and seven struct
    types ([Ehdr], [Shdr], [Sym], [Rel], [Rela], [Phdr], [Dyn]).  Here an
    integer type is its width in bits and a struct type is its layout: its
    size in bytes and, for every field, its offset and size.  Values of the
    integer types are [Z]s kept in range with [wrap]; a struct is read field
    by field from the bytes of the mapped image, least significant byte
    first.

    The two instantiations of the loader, for 32-bit and 64-bit images, are
    the instances [ElfTypes32] and [ElfTypes64]; their layouts are those of the
    ELF format.  [ElfTypes_ok] is what the views rely on: the fields of a
    layout lie inside the struct, and the identification bytes are the first
    sixteen of the header. *)

From Stdlib Require Import ZArith Lia Bool Ascii String List.
From Stdlib Require Import Strings.Byte.
From S2P Require Import Prelude.
Import ListNotations.

#[local] Open Scope Z_scope.

(** ** Layouts *)

(** A field of a struct: its byte offset and its size in bytes. *)
Record Field : Type := mkField {
  f_name : string;
  f_offset : nat;
  f_size : nat
}.

(** A struct type: [sizeof] and the fields. *)
Record Layout : Type := mkLayout {
  sizeof : nat;
  fields : list Field
}.

(** What the template parameter provides (lines 28-42). *)
Class ElfTypes : Type := mkElfTypes {
  Addr : Z;
  Off : Z;
  Half : Z;
  Word : Z;
  Sword : Z;
  Ehdr : Layout;
  Shdr : Layout;
  Sym : Layout;
  Rel : Layout;
  Rela : Layout;
  Phdr : Layout;
  Dyn : Layout
}.

Definition find_field (L : Layout) (name : string) : option Field :=
  find (fun f => String.eqb (f_name f) name) (fields L).

(** [p->name] for [p] the bytes of one struct of layout [L]: the field's
    bytes, least significant first; [None] if the layout has no such field or
    the bytes end before it does. *)
Definition get_field (L : Layout) (name : string) (bytes : list byte)
  : option Z :=
  match find_field L name with
  | Some f =>
      match slice (f_offset f) (f_size f) bytes with
      | Some bs => Some (le_combine bs)
      | None => None
      end
  | None => None
  end.

(** [bs] written over [l] from index [off] on. *)
Definition put_bytes (off : nat) (bs l : list byte) : list byte :=
  firstn off l ++ bs ++ skipn (off + length bs) l.

(** [p->name = v]: the bytes of the struct with the field overwritten. *)
Definition set_field (L : Layout) (name : string) (v : Z) (bytes : list byte)
  : list byte :=
  match find_field L name with
  | Some f => put_bytes (f_offset f) (le_split (f_size f) v) bytes
  | None => bytes
  end.

(** A struct of layout [L] with the fields [vals], every other byte 0. *)
Definition encode_struct (L : Layout) (vals : list (string * Z)) : list byte :=
  fold_right (fun nv bytes => set_field L (fst nv) (snd nv) bytes)
             (repeat Byte.x00 (sizeof L)) vals.

(** [v] is a value of the field [name] of [L]. *)
Definition fits (L : Layout) (name : string) (v : Z) : bool :=
  match find_field L name with
  | Some f => (0 <=? v) && (v <? 2 ^ (8 * Z.of_nat (f_size f)))
  | None => false
  end.

(** Every field lies inside the struct, and no two fields overlap (the
    fields are listed by increasing offset). *)
Fixpoint fields_ok (from : nat) (size : nat) (fs : list Field) : bool :=
  match fs with
  | [] => true
  | f :: fs' =>
      (from <=? f_offset f)%nat && (1 <=? f_size f)%nat &&
      (f_offset f + f_size f <=? size)%nat &&
      fields_ok (f_offset f + f_size f) size fs'
  end.

Definition layout_ok (L : Layout) : bool := fields_ok 0 (sizeof L) (fields L).

(** The identification bytes are the first 16 bytes of the ELF header. *)
Definition ident_ok (L : Layout) : bool :=
  match find_field L "e_ident" with
  | Some f => (f_offset f =? 0)%nat && (f_size f =? 16)%nat
  | None => false
  end.

Definition ElfTypes_ok (T : ElfTypes) : bool :=
  layout_ok Ehdr && layout_ok Shdr && layout_ok Sym && layout_ok Rel &&
  layout_ok Rela && layout_ok Phdr && layout_ok Dyn &&
  (Half =? 16) && (Word =? 32) && (Sword =? 32) &&
  ((Addr =? 32) || (Addr =? 64)) && (Off =? Addr) && ident_ok Ehdr.

(** ** The 32-bit and the 64-bit instantiation *)

#[local] Open Scope string_scope.

Definition ElfTypes32 : ElfTypes := {|
  Addr := 32; Off := 32; Half := 16; Word := 32; Sword := 32;
  Ehdr := mkLayout 52
    [mkField "e_ident" 0 16; mkField "e_type" 16 2; mkField "e_machine" 18 2;
     mkField "e_version" 20 4; mkField "e_entry" 24 4; mkField "e_phoff" 28 4;
     mkField "e_shoff" 32 4; mkField "e_flags" 36 4; mkField "e_ehsize" 40 2;
     mkField "e_phentsize" 42 2; mkField "e_phnum" 44 2;
     mkField "e_shentsize" 46 2; mkField "e_shnum" 48 2;
     mkField "e_shstrndx" 50 2];
  Shdr := mkLayout 40
    [mkField "sh_name" 0 4; mkField "sh_type" 4 4; mkField "sh_flags" 8 4;
     mkField "sh_addr" 12 4; mkField "sh_offset" 16 4; mkField "sh_size" 20 4;
     mkField "sh_link" 24 4; mkField "sh_info" 28 4;
     mkField "sh_addralign" 32 4; mkField "sh_entsize" 36 4];
  Sym := mkLayout 16
    [mkField "st_name" 0 4; mkField "st_value" 4 4; mkField "st_size" 8 4;
     mkField "st_info" 12 1; mkField "st_other" 13 1; mkField "st_shndx" 14 2];
  Rel := mkLayout 8 [mkField "r_offset" 0 4; mkField "r_info" 4 4];
  Rela := mkLayout 12
    [mkField "r_offset" 0 4; mkField "r_info" 4 4; mkField "r_addend" 8 4];
  Phdr := mkLayout 32
    [mkField "p_type" 0 4; mkField "p_offset" 4 4; mkField "p_vaddr" 8 4;
     mkField "p_paddr" 12 4; mkField "p_filesz" 16 4; mkField "p_memsz" 20 4;
     mkField "p_flags" 24 4; mkField "p_align" 28 4];
  Dyn := mkLayout 8 [mkField "d_tag" 0 4; mkField "d_un" 4 4]
|}.

Definition ElfTypes64 : ElfTypes := {|
  Addr := 64; Off := 64; Half := 16; Word := 32; Sword := 32;
  Ehdr := mkLayout 64
    [mkField "e_ident" 0 16; mkField "e_type" 16 2; mkField "e_machine" 18 2;
     mkField "e_version" 20 4; mkField "e_entry" 24 8; mkField "e_phoff" 32 8;
     mkField "e_shoff" 40 8; mkField "e_flags" 48 4; mkField "e_ehsize" 52 2;
     mkField "e_phentsize" 54 2; mkField "e_phnum" 56 2;
     mkField "e_shentsize" 58 2; mkField "e_shnum" 60 2;
     mkField "e_shstrndx" 62 2];
  Shdr := mkLayout 64
    [mkField "sh_name" 0 4; mkField "sh_type" 4 4; mkField "sh_flags" 8 8;
     mkField "sh_addr" 16 8; mkField "sh_offset" 24 8; mkField "sh_size" 32 8;
     mkField "sh_link" 40 4; mkField "sh_info" 44 4;
     mkField "sh_addralign" 48 8; mkField "sh_entsize" 56 8];
  Sym := mkLayout 24
    [mkField "st_name" 0 4; mkField "st_info" 4 1; mkField "st_other" 5 1;
     mkField "st_shndx" 6 2; mkField "st_value" 8 8; mkField "st_size" 16 8];
  Rel := mkLayout 16 [mkField "r_offset" 0 8; mkField "r_info" 8 8];
  Rela := mkLayout 24
    [mkField "r_offset" 0 8; mkField "r_info" 8 8; mkField "r_addend" 16 8];
  Phdr := mkLayout 56
    [mkField "p_type" 0 4; mkField "p_flags" 4 4; mkField "p_offset" 8 8;
     mkField "p_vaddr" 16 8; mkField "p_paddr" 24 8; mkField "p_filesz" 32 8;
     mkField "p_memsz" 40 8; mkField "p_align" 48 8];
  Dyn := mkLayout 16 [mkField "d_tag" 0 8; mkField "d_un" 8 8]
|}.

#[local] Close Scope string_scope.

(** ** Lemmas *)

Lemma ElfTypes32_ok : ElfTypes_ok ElfTypes32 = true.
Proof. reflexivity. Qed.

Lemma ElfTypes64_ok : ElfTypes_ok ElfTypes64 = true.
Proof. reflexivity. Qed.

Lemma fields_ok_In (from size : nat) (fs : list Field) (f : Field) :
  fields_ok from size fs = true -> In f fs ->
  (from <= f_offset f /\ 1 <= f_size f /\ f_offset f + f_size f <= size)%nat.
Proof.
  revert from. induction fs as [|g fs IH]; intros from Hok [].
  - subst g. cbn [fields_ok] in Hok.
    rewrite !andb_true_iff, !Nat.leb_le in Hok. lia.
  - cbn [fields_ok] in Hok. rewrite !andb_true_iff, !Nat.leb_le in Hok.
    destruct Hok as [[[? ?] ?] Hok]. specialize (IH _ Hok H). lia.
Qed.

Lemma find_field_In (L : Layout) (name : string) (f : Field) :
  find_field L name = Some f -> In f (fields L) /\ f_name f = name.
Proof.
  unfold find_field. intros H. apply find_some in H as [H1 H2].
  split; [assumption|]. now apply String.eqb_eq.
Qed.

(** A field of a well-formed layout is read from any run of [sizeof] bytes,
    and the value read fits the field's size. *)
Lemma get_field_total (L : Layout) (name : string) (f : Field)
    (bytes : list byte) :
  layout_ok L = true -> find_field L name = Some f ->
  (sizeof L <= length bytes)%nat ->
  exists v, get_field L name bytes = Some v /\
            0 <= v < 2 ^ (8 * Z.of_nat (f_size f)).
Proof.
  intros Hok Hf Hlen. unfold get_field. rewrite Hf.
  apply find_field_In in Hf as [Hin _].
  pose proof (fields_ok_In _ _ _ _ Hok Hin) as (_ & _ & Hsz).
  destruct (slice (f_offset f) (f_size f) bytes) as [bs|] eqn:Hs.
  - exists (le_combine bs). split; [reflexivity|].
    rewrite <- (slice_length _ _ _ _ Hs). apply le_combine_range.
  - apply slice_None in Hs. lia.
Qed.

(** ** Writing a field and reading it back *)

Lemma put_bytes_length (off : nat) (bs l : list byte) :
  (off + length bs <= length l)%nat -> length (put_bytes off bs l) = length l.
Proof.
  intros H. unfold put_bytes. rewrite !length_app, length_firstn, length_skipn.
  lia.
Qed.

Lemma slice_put_same (off : nat) (bs l : list byte) :
  (off + length bs <= length l)%nat ->
  slice off (length bs) (put_bytes off bs l) = Some bs.
Proof.
  intros H. unfold slice. rewrite put_bytes_length by assumption.
  destruct (Nat.leb_spec (off + length bs) (length l)); [|lia].
  unfold put_bytes. f_equal.
  rewrite skipn_app, length_firstn, skipn_all2 by (rewrite length_firstn; lia).
  replace (off - Nat.min off (length l))%nat with 0%nat by lia.
  cbn [skipn app]. rewrite firstn_app, Nat.sub_diag, firstn_all. cbn.
  apply app_nil_r.
Qed.

Lemma slice_put_before (off off' n' : nat) (bs l : list byte) :
  (off + length bs <= length l)%nat -> (off' + n' <= off)%nat ->
  slice off' n' (put_bytes off bs l) = slice off' n' l.
Proof.
  intros H Hd. unfold slice. rewrite put_bytes_length by assumption.
  destruct (off' + n' <=? length l)%nat; [|reflexivity].
  unfold put_bytes. f_equal.
  rewrite skipn_app, firstn_app, length_skipn, !length_firstn.
  replace (n' - (Nat.min off (length l) - off'))%nat with 0%nat by lia.
  cbn [firstn]. rewrite app_nil_r, skipn_firstn_comm, firstn_firstn.
  f_equal. lia.
Qed.

Lemma slice_put_after (off off' n' : nat) (bs l : list byte) :
  (off + length bs <= length l)%nat -> (off + length bs <= off')%nat ->
  slice off' n' (put_bytes off bs l) = slice off' n' l.
Proof.
  intros H Hd. unfold slice. rewrite put_bytes_length by assumption.
  destruct (off' + n' <=? length l)%nat; [|reflexivity].
  unfold put_bytes. f_equal. f_equal.
  rewrite !skipn_app, length_firstn.
  rewrite (skipn_all2 (firstn off l)) by (rewrite length_firstn; lia).
  rewrite (skipn_all2 bs) by lia. cbn [app].
  rewrite skipn_skipn. f_equal. lia.
Qed.

(** Two fields of a well-formed layout with different names do not
    overlap. *)
Lemma fields_ok_disjoint (from size : nat) (fs : list Field) (f g : Field) :
  fields_ok from size fs = true -> In f fs -> In g fs ->
  f_name f <> f_name g ->
  (f_offset f + f_size f <= f_offset g \/
   f_offset g + f_size g <= f_offset f)%nat.
Proof.
  revert from. induction fs as [|h fs IH]; intros from Hok Hf Hg Hne; [easy|].
  cbn [fields_ok] in Hok. rewrite !andb_true_iff in Hok.
  destruct Hok as [_ Hok].
  destruct Hf as [->|Hf], Hg as [->|Hg]; [congruence| | |eauto].
  - left. apply (fields_ok_In _ _ _ _ Hok Hg).
  - right. apply (fields_ok_In _ _ _ _ Hok Hf).
Qed.

Section SetField.
Context (L : Layout) (Hok : layout_ok L = true).
Context (bytes : list byte) (Hlen : length bytes = sizeof L).

Lemma set_field_length (name : string) (v : Z) :
  length (set_field L name v bytes) = sizeof L.
Proof.
  unfold set_field. destruct (find_field L name) as [f|] eqn:Hf; [|exact Hlen].
  apply find_field_In in Hf as [Hin _].
  pose proof (fields_ok_In _ _ _ _ Hok Hin).
  rewrite put_bytes_length; rewrite ?le_split_length; lia.
Qed.

(** A field that was written is read back, cut to the field's size. *)
Lemma get_set_field_same (name : string) (f : Field) (v : Z) :
  find_field L name = Some f ->
  get_field L name (set_field L name v bytes) =
    Some (v mod 2 ^ (8 * Z.of_nat (f_size f))).
Proof.
  intros Hf. unfold get_field, set_field. rewrite Hf.
  apply find_field_In in Hf as [Hin _].
  pose proof (fields_ok_In _ _ _ _ Hok Hin).
  pose proof (slice_put_same (f_offset f) (le_split (f_size f) v) bytes) as Hs.
  rewrite le_split_length in Hs. rewrite Hs by lia.
  now rewrite le_combine_split.
Qed.

(** Writing a field leaves the other fields as they were. *)
Lemma get_set_field_other (name name' : string) (v : Z) :
  name <> name' ->
  get_field L name' (set_field L name v bytes) = get_field L name' bytes.
Proof.
  intros Hne. unfold get_field, set_field.
  destruct (find_field L name') as [g|] eqn:Hg; [|reflexivity].
  destruct (find_field L name) as [f|] eqn:Hf; [|reflexivity].
  apply find_field_In in Hf as [Hfin <-], Hg as [Hgin <-].
  pose proof (fields_ok_In _ _ _ _ Hok Hfin).
  destruct (fields_ok_disjoint _ _ _ _ _ Hok Hfin Hgin Hne);
    [rewrite slice_put_after|rewrite slice_put_before];
    rewrite ?le_split_length; try lia; reflexivity.
Qed.

End SetField.

Lemma encode_struct_length (L : Layout) (vals : list (string * Z)) :
  layout_ok L = true -> length (encode_struct L vals) = sizeof L.
Proof.
  intros Hok. induction vals as [|[n v] vals IH]; cbn.
  - apply repeat_length.
  - now apply set_field_length.
Qed.

(** A struct written field by field is read back field by field. *)
Lemma get_encode_struct (L : Layout) (vals : list (string * Z))
    (name : string) (v : Z) :
  layout_ok L = true -> NoDup (map fst vals) -> In (name, v) vals ->
  fits L name v = true -> get_field L name (encode_struct L vals) = Some v.
Proof.
  intros Hok Hnd Hin Hfit. unfold fits in Hfit.
  destruct (find_field L name) as [f|] eqn:Hf; [|discriminate].
  apply andb_true_iff in Hfit as [H0 H1]. apply Z.leb_le in H0.
  apply Z.ltb_lt in H1.
  induction vals as [|[n0 v0] vals IH]; [easy|]. cbn [encode_struct fold_right].
  cbn in Hnd. inv Hnd. destruct Hin as [[= -> ->]|Hin].
  - cbn [fst snd].
    rewrite (get_set_field_same L Hok _ (encode_struct_length L vals Hok) _ f)
      by assumption.
    f_equal. apply Z.mod_small. lia.
  - cbn [fst snd].
    rewrite (get_set_field_other L Hok _ (encode_struct_length L vals Hok)).
    + now apply IH.
    + intros ->. match goal with H : ~ In _ _ |- _ => apply H end.
      change name with (fst (name, v)). now apply in_map.
Qed.
