(* ===== verification/ElfFile.v ===== *)
(** * ElfFile: the state of ElfFileImpl and what its header declares

    src/runtime/oat/elf_file_impl.h holds the data members of [ElfFileImpl]
    (lines 134-157), five accessors with their bodies (lines 48-66) and the
    declarations of every other member function.  This file has

    - [MemMap], the memory region the loader owns, as its start address and
      its bytes (the collaborator of base/mem_map.h, with the accessors the
      header calls);
    - [ElfFileImpl], the data members, a pointer being an [option] of an
      address;
    - the five accessors;
    - the bounds-checked reads through a pointer that every table access of
      the loader goes through ([ValidPointer], [read_bytes]);
    - the declared member functions, as classes with the signatures the
      header declares: [HashAccess] (lines 116-120), [SymbolAccess]
      (lines 79-81), [StringAccess] (lines 131-132), [ProgramHeaderAccess]
      (lines 70-71), [HeaderAccess] (line 68), [DynamicAccess] (lines
      83-84), [SectionStarts] (lines 111-115), [ImageOpener] (lines 44-46),
      [SegmentLoader] (lines 86-98), [SymbolResolver] (line 77),
      [SectionSearch] (lines 73-74) and [ProgramHeaderSearch] (line 129);
    - the collaborators of the opener and of the loader: [File] (its path
      and its bytes), [Platform] (what places and maps regions) and
      [MapFile]; the errors [Error] and the type [Result] of a function
      that may fail; the constants of the format;
    - the setters of the data members, the invariant [pointers_valid]
      (every cached pointer is in a region the object owns), the predicate
      [owns] (a range of addresses lies in one region of the object) and
      the equivalence [same_maps] of two objects with the same regions,
      with the [Proper] instances of the reads. *)

From Stdlib Require Import ZArith Lia Bool Ascii String List.
From Stdlib Require Import Strings.Byte Morphisms RelationClasses.
From S2P Require Import Prelude ElfTypes.
Import ListNotations.

#[local] Open Scope Z_scope.

(** ** The memory region *)

Record MemMap : Type := mkMemMap {
  mm_begin : Z;
  mm_bytes : list byte;
  mm_prot : Z
}.

(** The protection bits of a region. *)
Definition PROT_READ : Z := 1.
Definition PROT_WRITE : Z := 2.
Definition PROT_EXEC : Z := 4.

Definition MemMap_Begin (m : MemMap) : Z := mm_begin m.

Definition MemMap_Size (m : MemMap) : Z := Z.of_nat (length (mm_bytes m)).

Definition MemMap_End (m : MemMap) : Z := MemMap_Begin m + MemMap_Size m.

(** The region a default-constructed [MemMap] stands for: no bytes. *)
Definition MemMap_Invalid : MemMap := mkMemMap 0 [] 0.

(** ** The data members (lines 134-157) *)

Record ElfFileImpl : Type := mkElfFileImpl {
  file_path_ : string;
  map_ : MemMap;
  header_ : option Z;
  segments_ : list MemMap;
  base_address_ : option Z;
  program_headers_start_ : option Z;
  section_headers_start_ : option Z;
  dynamic_program_header_ : option Z;
  dynamic_section_start_ : option Z;
  symtab_section_start_ : option Z;
  dynsym_section_start_ : option Z;
  strtab_section_start_ : option Z;
  dynstr_section_start_ : option Z;
  hash_section_start_ : option Z
}.

(** ** The accessors with a body (lines 48-66) *)

Definition GetFilePath (f : ElfFileImpl) : string := file_path_ f.

Definition GetBaseAddress (f : ElfFileImpl) : option Z := base_address_ f.

Definition Begin (f : ElfFileImpl) : Z := MemMap_Begin (map_ f).

Definition End (f : ElfFileImpl) : Z := MemMap_End (map_ f).

Definition Size (f : ElfFileImpl) : Z := MemMap_Size (map_ f).

(** ** Reads through a pointer *)

(** The regions the object owns: the header mapping and the segments. *)
Definition mappings (f : ElfFileImpl) : list MemMap := map_ f :: segments_ f.

Definition in_map (m : MemMap) (p : Z) : bool :=
  (MemMap_Begin m <=? p) && (p <? MemMap_End m).

(** [ValidPointer(start)]: the address lies in a region the object owns. *)
Definition ValidPointer (f : ElfFileImpl) (start : Z) : bool :=
  existsb (fun m => in_map m start) (mappings f).

(** The [n] bytes at address [p] of one region, if the region holds them
    all. *)
Definition map_read (m : MemMap) (p : Z) (n : nat) : option (list byte) :=
  if MemMap_Begin m <=? p
  then slice (Z.to_nat (p - MemMap_Begin m)) n (mm_bytes m)
  else None.

Fixpoint read_in (ms : list MemMap) (p : Z) (n : nat) : option (list byte) :=
  match ms with
  | [] => None
  | m :: ms' =>
      match map_read m p n with
      | Some bs => Some bs
      | None => read_in ms' p n
      end
  end.

(** The view every table access goes through: [n] bytes at [p], from the
    first region that holds them all. *)
Definition read_bytes (f : ElfFileImpl) (p : Z) (n : nat)
  : option (list byte) :=
  read_in (mappings f) p n.

(** An unsigned integer of [n] bytes at [p]. *)
Definition read_int (f : ElfFileImpl) (p : Z) (n : nat) : option Z :=
  option_map le_combine (read_bytes f p n).

(** ** Section types and symbols *)

Definition SHT_SYMTAB : Z := 2.
Definition SHT_STRTAB : Z := 3.
Definition SHT_HASH : Z := 5.
Definition SHT_DYNAMIC : Z := 6.
Definition SHT_DYNSYM : Z := 11.

(** Program header types and segment flags. *)
Definition PT_LOAD : Z := 1.
Definition PT_DYNAMIC : Z := 2.
Definition PF_X : Z := 1.
Definition PF_W : Z := 2.
Definition PF_R : Z := 4.

(** Tags of the dynamic section. *)
Definition DT_NULL : Z := 0.
Definition DT_HASH : Z := 4.
Definition DT_STRTAB : Z := 5.
Definition DT_SYMTAB : Z := 6.

(** The identification bytes of the ELF header. *)
Definition ELFMAG : list byte := [x7f; x45; x4c; x46].
Definition EI_CLASS : nat := 4.
Definition EI_DATA : nat := 5.
Definition ELFCLASS32 : byte := x01.
Definition ELFCLASS64 : byte := x02.
Definition ELFDATA2LSB : byte := x01.

(** A symbol table entry, read from its bytes. *)
Record Elf_Sym : Type := mkElf_Sym {
  st_name : Z;
  st_value : Z;
  st_size : Z;
  st_info : Z;
  st_shndx : Z
}.

(** A program header, read from its bytes. *)
Record Elf_Phdr : Type := mkElf_Phdr {
  p_type : Z;
  p_offset : Z;
  p_vaddr : Z;
  p_filesz : Z;
  p_memsz : Z;
  p_flags : Z;
  p_align : Z
}.

(** A section header, read from its bytes. *)
Record Elf_Shdr : Type := mkElf_Shdr {
  sh_name : Z;
  sh_type : Z;
  sh_flags : Z;
  sh_addr : Z;
  sh_offset : Z;
  sh_size : Z;
  sh_link : Z;
  sh_entsize : Z
}.

(** ** The accessors the resolver and the loader use, as the header declares
    them *)

(** Lines 70-71.  [GetProgramHeader(i)] gives [None] for a null result. *)
Class ProgramHeaderAccess : Type := mkProgramHeaderAccess {
  GetProgramHeaderNum : ElfFileImpl -> Z;
  GetProgramHeader : ElfFileImpl -> Z -> option Elf_Phdr
}.


(** Lines 116-120.  [GetHashBucket(i, &ok)] and [GetHashChain(i, &ok)] give
    [None] for [ok == false]. *)
Class HashAccess : Type := mkHashAccess {
  GetHashSectionStart : ElfFileImpl -> option Z;
  GetHashBucketNum : ElfFileImpl -> Z;
  GetHashChainNum : ElfFileImpl -> Z;
  GetHashBucket : ElfFileImpl -> Z -> option Z;
  GetHashChain : ElfFileImpl -> Z -> option Z
}.

(** Lines 79-81.  [GetSymbolNum] takes the section header by reference;
    [GetSymbol(section_type, i)] gives [None] for a null result. *)
Class SymbolAccess : Type := mkSymbolAccess {
  IsSymbolSectionType : Z -> bool;
  GetSymbolNum : ElfFileImpl -> Elf_Shdr -> Z;
  GetSymbol : ElfFileImpl -> Z -> Z -> option Elf_Sym
}.

(** Lines 131-132: "Lookup a string by section type. Returns null for special
    0 offset." *)
Class StringAccess : Type := mkStringAccess {
  GetString : ElfFileImpl -> Z -> Z -> option string
}.

(** ** Errors

    A fallible operation of the loader returns its result or an error of one
    of three kinds; the message is the one the caller would read in
    [error_msg]. *)

Inductive Error : Type :=
| FormatError (msg : string)
| BoundsError (msg : string)
| AllocationError (msg : string).

Definition Result (A : Type) : Type := (A + Error)%type.

Definition is_FormatError {A} (r : Result A) : bool :=
  match r with inr (FormatError _) => true | _ => false end.

(** ** The collaborators of the loader *)

(** The platform under the loader: where it places a range of a size
    (below 4GB if asked), and whether it maps a range at an address. *)
Record Platform : Type := mkPlatform {
  place : Z -> bool -> option Z;
  can_map : Z -> Z -> bool
}.

(** What the loader needs of the platform: a range placed below 4GB ends
    below 4GB. *)
Class PlatformLaws (P : Platform) : Prop := mkPlatformLaws {
  place_low_4gb size a :
    place P size true = Some a -> 0 <= a /\ a + size <= 2 ^ 32
}.

(** The raw file handle: a path and the bytes of the file. *)
Record File : Type := mkFile {
  File_GetPath : string;
  File_bytes : list byte
}.

Definition File_GetLength (file : File) : Z :=
  Z.of_nat (length (File_bytes file)).

(** [MemMap::MapFile(byte_count, prot, ..., low_4gb, ...)]: the first
    [byte_count] bytes of the file, where the platform finds room; no region
    if it finds none or the file is shorter. *)
Definition MapFile (P : Platform) (file : File) (byte_count : Z) (prot : Z)
    (low_4gb : bool) : option MemMap :=
  match place P byte_count low_4gb,
        slice 0 (Z.to_nat byte_count) (File_bytes file) with
  | Some a, Some bs => Some (mkMemMap a bs prot)
  | _, _ => None
  end.

(** ** The headers of the image, read from their bytes *)

Record Elf_Ehdr : Type := mkElf_Ehdr {
  e_ident : list byte;
  e_type : Z;
  e_phoff : Z;
  e_shoff : Z;
  e_ehsize : Z;
  e_phentsize : Z;
  e_phnum : Z;
  e_shentsize : Z;
  e_shnum : Z;
  e_shstrndx : Z
}.

Record Elf_Dyn : Type := mkElf_Dyn {
  d_tag : Z;
  d_un : Z
}.

(** ** Further accessors and operations, as the header declares them *)

(** Line 68.  [GetHeader()] dereferences [header_]; [None] stands for a
    header that cannot be read. *)
Class HeaderAccess : Type := mkHeaderAccess {
  GetHeader : ElfFileImpl -> option Elf_Ehdr
}.

(** Lines 83-84. *)
Class DynamicAccess : Type := mkDynamicAccess {
  GetDynamicNum : ElfFileImpl -> Z;
  GetDynamic : ElfFileImpl -> Z -> option Elf_Dyn
}.

(** Lines 111-115: the accessors of the cached pointers, [None] for null.
    [GetDynamicProgramHeader()] returns the header by reference. *)
Class SectionStarts : Type := mkSectionStarts {
  GetProgramHeadersStart : ElfFileImpl -> option Z;
  GetDynamicProgramHeader : ElfFileImpl -> option Elf_Phdr;
  GetDynamicSectionStart : ElfFileImpl -> option Z;
  GetSymbolSectionStart : ElfFileImpl -> Z -> option Z;
  GetStringSectionStart : ElfFileImpl -> Z -> option Z
}.

(** Lines 73-74.  [FindSectionByType(type)] gives [None] for a null
    result. *)
Class SectionSearch : Type := mkSectionSearch {
  GetSectionHeaderNum : ElfFileImpl -> Z;
  FindSectionByType : ElfFileImpl -> Z -> option Elf_Shdr
}.

(** Line 129.  [FindProgamHeaderByType(type)] returns a pointer to the
    program header: here its address and the header it points to, [None]
    for null. *)
Class ProgramHeaderSearch : Type := mkProgramHeaderSearch {
  FindProgamHeaderByType : ElfFileImpl -> Z -> option (Z * Elf_Phdr)
}.

(** Lines 44-46.  [Open] returns the object, or null with [error_msg]
    set. *)
Class ImageOpener : Type := mkImageOpener {
  Open : File -> bool -> Result ElfFileImpl
}.

(** Lines 86-98.  [GetLoadedSize] and [Load] return [false] with
    [error_msg] set on failure; [Load] changes the object and advances the
    reservation, a pair of a start address and a size. *)
Class SegmentLoader : Type := mkSegmentLoader {
  GetLoadedSize : ElfFileImpl -> Result Z;
  GetElfSegmentAlignmentFromFile : ElfFileImpl -> Z;
  Load : ElfFileImpl -> File -> bool -> bool -> option (Z * Z) ->
         Result (ElfFileImpl * option (Z * Z))
}.

(** Line 77: the address of a dynamic symbol, null when the image has no
    symbol of the name. *)
Class SymbolResolver : Type := mkSymbolResolver {
  FindDynamicSymbolAddress : ElfFileImpl -> string -> option Z
}.

(** ** Assignments to the data members *)

(** [map_ = std::move(map); header_ = map_.Begin()] *)
Definition set_map (f : ElfFileImpl) (m : MemMap) : ElfFileImpl :=
  mkElfFileImpl (file_path_ f) m (Some (MemMap_Begin m)) (segments_ f)
    (base_address_ f) (program_headers_start_ f) (section_headers_start_ f)
    (dynamic_program_header_ f) (dynamic_section_start_ f)
    (symtab_section_start_ f) (dynsym_section_start_ f)
    (strtab_section_start_ f) (dynstr_section_start_ f)
    (hash_section_start_ f).

Definition set_program_headers_start (f : ElfFileImpl) (p : option Z)
  : ElfFileImpl :=
  mkElfFileImpl (file_path_ f) (map_ f) (header_ f) (segments_ f)
    (base_address_ f) p (section_headers_start_ f)
    (dynamic_program_header_ f) (dynamic_section_start_ f)
    (symtab_section_start_ f) (dynsym_section_start_ f)
    (strtab_section_start_ f) (dynstr_section_start_ f)
    (hash_section_start_ f).

Definition set_section_headers_start (f : ElfFileImpl) (p : option Z)
  : ElfFileImpl :=
  mkElfFileImpl (file_path_ f) (map_ f) (header_ f) (segments_ f)
    (base_address_ f) (program_headers_start_ f) p
    (dynamic_program_header_ f) (dynamic_section_start_ f)
    (symtab_section_start_ f) (dynsym_section_start_ f)
    (strtab_section_start_ f) (dynstr_section_start_ f)
    (hash_section_start_ f).

(** The pointer to the PT_DYNAMIC program header and the start of the
    dynamic section. *)
Definition set_dynamic (f : ElfFileImpl) (ph start : option Z)
  : ElfFileImpl :=
  mkElfFileImpl (file_path_ f) (map_ f) (header_ f) (segments_ f)
    (base_address_ f) (program_headers_start_ f) (section_headers_start_ f)
    ph start
    (symtab_section_start_ f) (dynsym_section_start_ f)
    (strtab_section_start_ f) (dynstr_section_start_ f)
    (hash_section_start_ f).

(** The symbol table and its string table. *)
Definition set_symtab (f : ElfFileImpl) (symtab strtab : option Z)
  : ElfFileImpl :=
  mkElfFileImpl (file_path_ f) (map_ f) (header_ f) (segments_ f)
    (base_address_ f) (program_headers_start_ f) (section_headers_start_ f)
    (dynamic_program_header_ f) (dynamic_section_start_ f)
    symtab (dynsym_section_start_ f)
    strtab (dynstr_section_start_ f)
    (hash_section_start_ f).

(** The dynamic symbol table and its string table. *)
Definition set_dynsym (f : ElfFileImpl) (dynsym dynstr : option Z)
  : ElfFileImpl :=
  mkElfFileImpl (file_path_ f) (map_ f) (header_ f) (segments_ f)
    (base_address_ f) (program_headers_start_ f) (section_headers_start_ f)
    (dynamic_program_header_ f) (dynamic_section_start_ f)
    (symtab_section_start_ f) dynsym
    (strtab_section_start_ f) dynstr
    (hash_section_start_ f).

Definition set_hash (f : ElfFileImpl) (hash : option Z) : ElfFileImpl :=
  mkElfFileImpl (file_path_ f) (map_ f) (header_ f) (segments_ f)
    (base_address_ f) (program_headers_start_ f) (section_headers_start_ f)
    (dynamic_program_header_ f) (dynamic_section_start_ f)
    (symtab_section_start_ f) (dynsym_section_start_ f)
    (strtab_section_start_ f) (dynstr_section_start_ f)
    hash.

(** [segments_] and [base_address_] after the segments are mapped. *)
Definition set_loaded (f : ElfFileImpl) (base : Z) (ms : list MemMap)
  : ElfFileImpl :=
  mkElfFileImpl (file_path_ f) (map_ f) (header_ f) ms
    (Some base) (program_headers_start_ f) (section_headers_start_ f)
    (dynamic_program_header_ f) (dynamic_section_start_ f)
    (symtab_section_start_ f) (dynsym_section_start_ f)
    (strtab_section_start_ f) (dynstr_section_start_ f)
    (hash_section_start_ f).

(** [p], if it lies in a region the object owns: a pointer is cached only
    after [ValidPointer] has confirmed it. *)
Definition checked (f : ElfFileImpl) (p : Z) : option Z :=
  if ValidPointer f p then Some p else None.

(** A pointer is null or lies in a region the object owns. *)
Definition ok_ptr (f : ElfFileImpl) (o : option Z) : bool :=
  match o with Some p => ValidPointer f p | None => true end.

(** The cached pointers. *)
Definition cached_pointers (f : ElfFileImpl) : list (option Z) :=
  [header_ f; program_headers_start_ f; section_headers_start_ f;
   dynamic_program_header_ f; dynamic_section_start_ f;
   symtab_section_start_ f; dynsym_section_start_ f;
   strtab_section_start_ f; dynstr_section_start_ f; hash_section_start_ f].

(** The invariant of the object: every cached pointer is null or has been
    confirmed by [ValidPointer]. *)
Definition pointers_valid (f : ElfFileImpl) : bool :=
  forallb (ok_ptr f) (cached_pointers f).

(** Two objects with the same regions, header pointer and base address: what
    the assignments to the other cached pointers preserve, and all that the
    reads depend on. *)
Definition same_maps (f g : ElfFileImpl) : Prop :=
  map_ f = map_ g /\ segments_ f = segments_ g /\ header_ f = header_ g /\
  base_address_ f = base_address_ g /\ file_path_ f = file_path_ g.

(** The [n] bytes from the address [p] on lie in one region that the
    object owns. *)
Definition owns (f : ElfFileImpl) (p n : Z) : Prop :=
  exists m, In m (mappings f) /\ MemMap_Begin m <= p /\ p + n <= MemMap_End m.

(** ** Lemmas on the regions and the reads *)

Lemma MemMap_Size_nonneg (m : MemMap) : 0 <= MemMap_Size m.
Proof. unfold MemMap_Size. lia. Qed.

Lemma MemMap_Begin_le_End (m : MemMap) : MemMap_Begin m <= MemMap_End m.
Proof. unfold MemMap_End. pose proof (MemMap_Size_nonneg m). lia. Qed.

(** The three accessors of the file mapping agree: [Size()] is the
    distance from [Begin()] to [End()], and [End()] is not below
    [Begin()]. *)
Theorem Begin_End_Size (f : ElfFileImpl) :
  Size f = End f - Begin f /\ Begin f <= End f.
Proof.
  unfold Size, End, Begin, MemMap_End.
  pose proof (MemMap_Size_nonneg (map_ f)). lia.
Qed.

Lemma map_read_length (m : MemMap) (p : Z) (n : nat) (bs : list byte) :
  map_read m p n = Some bs -> length bs = n.
Proof.
  unfold map_read. destruct (MemMap_Begin m <=? p); [|discriminate].
  apply slice_length.
Qed.

(** A read that succeeds lies inside the region. *)
Lemma map_read_in_bounds (m : MemMap) (p : Z) (n : nat) (bs : list byte) :
  map_read m p n = Some bs ->
  MemMap_Begin m <= p /\ p + Z.of_nat n <= MemMap_End m.
Proof.
  unfold map_read. destruct (Z.leb_spec (MemMap_Begin m) p); [|discriminate].
  intros Hs. assert (Hex : exists r, slice (Z.to_nat (p - MemMap_Begin m)) n
                                       (mm_bytes m) = Some r) by eauto.
  apply slice_Some in Hex. unfold MemMap_End, MemMap_Size. lia.
Qed.

(** A read inside the region succeeds. *)
Lemma map_read_total (m : MemMap) (p : Z) (n : nat) :
  MemMap_Begin m <= p -> p + Z.of_nat n <= MemMap_End m ->
  exists bs, map_read m p n = Some bs.
Proof.
  intros H1 H2. unfold map_read.
  destruct (Z.leb_spec (MemMap_Begin m) p); [|lia].
  apply slice_Some. unfold MemMap_End, MemMap_Size in H2. lia.
Qed.

Lemma read_in_Some (ms : list MemMap) (p : Z) (n : nat) (bs : list byte) :
  read_in ms p n = Some bs ->
  exists m, In m ms /\ map_read m p n = Some bs.
Proof.
  induction ms as [|m ms IH]; cbn; [discriminate|].
  destruct (map_read m p n) eqn:E.
  - intros [= <-]. eauto.
  - intros H. destruct (IH H) as (m' & ? & ?). eauto.
Qed.

Lemma in_map_spec (m : MemMap) (p : Z) :
  in_map m p = true <-> MemMap_Begin m <= p < MemMap_End m.
Proof. unfold in_map. rewrite andb_true_iff, Z.leb_le, Z.ltb_lt. tauto. Qed.

Lemma ValidPointer_spec (f : ElfFileImpl) (p : Z) :
  ValidPointer f p = true <->
  exists m, In m (mappings f) /\ MemMap_Begin m <= p < MemMap_End m.
Proof.
  unfold ValidPointer. rewrite existsb_exists.
  split; intros (m & ? & H); exists m; split; auto; now apply in_map_spec.
Qed.

(** A read that succeeds lies inside a region the object owns. *)
Lemma read_bytes_in_bounds (f : ElfFileImpl) (p : Z) (n : nat)
    (bs : list byte) :
  read_bytes f p n = Some bs ->
  length bs = n /\
  exists m, In m (mappings f) /\
            MemMap_Begin m <= p /\ p + Z.of_nat n <= MemMap_End m.
Proof.
  intros H. apply read_in_Some in H as (m & Hin & Hr). split.
  - eapply map_read_length; eassumption.
  - exists m. split; [assumption|]. eapply map_read_in_bounds; eassumption.
Qed.

Lemma read_int_in_bounds (f : ElfFileImpl) (p : Z) (n : nat) (v : Z) :
  read_int f p n = Some v ->
  0 <= v < 2 ^ (8 * Z.of_nat n) /\
  exists m, In m (mappings f) /\
            MemMap_Begin m <= p /\ p + Z.of_nat n <= MemMap_End m.
Proof.
  unfold read_int. destruct (read_bytes f p n) as [bs|] eqn:E; [|discriminate].
  intros [= <-]. apply read_bytes_in_bounds in E as [Hlen Hm].
  split; [|assumption]. rewrite <- Hlen. apply le_combine_range.
Qed.

#[export] Hint Resolve MemMap_Size_nonneg MemMap_Begin_le_End : elf.

(** ** Objects with the same regions *)

#[export] Instance same_maps_Equivalence : Equivalence same_maps.
Proof.
  split.
  - intros f. repeat split.
  - intros f g (? & ? & ? & ? & ?). repeat split; auto.
  - intros f g h (? & ? & ? & ? & ?) (? & ? & ? & ? & ?).
    repeat split; congruence.
Qed.

#[export] Instance mappings_Proper : Proper (same_maps ==> eq) mappings.
Proof. intros f g (Hm & Hs & _). unfold mappings. now rewrite Hm, Hs. Qed.

#[export] Instance Begin_Proper : Proper (same_maps ==> eq) Begin.
Proof. intros f g (Hm & _). unfold Begin. now rewrite Hm. Qed.

#[export] Instance Size_Proper : Proper (same_maps ==> eq) Size.
Proof. intros f g (Hm & _). unfold Size. now rewrite Hm. Qed.

#[export] Instance ValidPointer_Proper
  : Proper (same_maps ==> eq ==> eq) ValidPointer.
Proof. intros f g H p ? <-. unfold ValidPointer. now rewrite H. Qed.

#[export] Instance read_bytes_Proper
  : Proper (same_maps ==> eq ==> eq ==> eq) read_bytes.
Proof. intros f g H p ? <- n ? <-. unfold read_bytes. now rewrite H. Qed.

#[export] Instance checked_Proper : Proper (same_maps ==> eq ==> eq) checked.
Proof. intros f g H p ? <-. unfold checked. now rewrite H. Qed.

#[export] Instance ok_ptr_Proper : Proper (same_maps ==> eq ==> eq) ok_ptr.
Proof.
  intros f g H o ? <-. destruct o; cbn [ok_ptr]; [now rewrite H|reflexivity].
Qed.

(** The assignments to the cached pointers keep the regions. *)
Lemma set_program_headers_start_same (f : ElfFileImpl) (p : option Z) :
  same_maps (set_program_headers_start f p) f.
Proof. repeat split. Qed.

Lemma set_section_headers_start_same (f : ElfFileImpl) (p : option Z) :
  same_maps (set_section_headers_start f p) f.
Proof. repeat split. Qed.

Lemma set_dynamic_same (f : ElfFileImpl) (ph start : option Z) :
  same_maps (set_dynamic f ph start) f.
Proof. repeat split. Qed.

Lemma set_symtab_same (f : ElfFileImpl) (symtab strtab : option Z) :
  same_maps (set_symtab f symtab strtab) f.
Proof. repeat split. Qed.

Lemma set_dynsym_same (f : ElfFileImpl) (dynsym dynstr : option Z) :
  same_maps (set_dynsym f dynsym dynstr) f.
Proof. repeat split. Qed.

Lemma set_hash_same (f : ElfFileImpl) (hash : option Z) :
  same_maps (set_hash f hash) f.
Proof. repeat split. Qed.

#[export] Hint Resolve set_program_headers_start_same
  set_section_headers_start_same set_dynamic_same set_symtab_same
  set_dynsym_same set_hash_same : elf.

(** ** Valid pointers *)

Lemma checked_ok (f : ElfFileImpl) (p : Z) : ok_ptr f (checked f p) = true.
Proof. unfold checked. now destruct (ValidPointer f p) eqn:E; cbn. Qed.

Lemma checked_Some (f : ElfFileImpl) (p q : Z) :
  checked f p = Some q -> q = p /\ ValidPointer f p = true.
Proof.
  unfold checked. destruct (ValidPointer f p); [|discriminate].
  now intros [= <-].
Qed.

Lemma pointers_valid_spec (f : ElfFileImpl) :
  pointers_valid f = true <->
  forall p, In (Some p) (cached_pointers f) -> ValidPointer f p = true.
Proof.
  unfold pointers_valid. rewrite forallb_forall. split.
  - intros H p Hin. exact (H _ Hin).
  - intros H [p|] Hin; [exact (H _ Hin)|reflexivity].
Qed.

(** [solve_valid]: an assignment of valid pointers keeps the invariant. *)
Ltac solve_valid :=
  unfold pointers_valid, cached_pointers, ok_ptr, ValidPointer, mappings in *;
  cbn in *; repeat rewrite andb_true_iff in *; intuition auto.

Section Setters.
Variable f : ElfFileImpl.
Hypothesis Hf : pointers_valid f = true.

Lemma set_program_headers_start_valid (p : option Z) :
  ok_ptr f p = true -> pointers_valid (set_program_headers_start f p) = true.
Proof. intros Hp. solve_valid. Qed.

Lemma set_section_headers_start_valid (p : option Z) :
  ok_ptr f p = true -> pointers_valid (set_section_headers_start f p) = true.
Proof. intros Hp. solve_valid. Qed.

Lemma set_dynamic_valid (ph start : option Z) :
  ok_ptr f ph = true -> ok_ptr f start = true ->
  pointers_valid (set_dynamic f ph start) = true.
Proof. intros H1 H2. solve_valid. Qed.

Lemma set_symtab_valid (symtab strtab : option Z) :
  ok_ptr f symtab = true -> ok_ptr f strtab = true ->
  pointers_valid (set_symtab f symtab strtab) = true.
Proof. intros H1 H2. solve_valid. Qed.

Lemma set_dynsym_valid (dynsym dynstr : option Z) :
  ok_ptr f dynsym = true -> ok_ptr f dynstr = true ->
  pointers_valid (set_dynsym f dynsym dynstr) = true.
Proof. intros H1 H2. solve_valid. Qed.

Lemma set_hash_valid (hash : option Z) :
  ok_ptr f hash = true -> pointers_valid (set_hash f hash) = true.
Proof. intros Hp. solve_valid. Qed.

End Setters.

(** A region more keeps the pointers valid. *)
Lemma ValidPointer_set_loaded (f : ElfFileImpl) (base : Z) (ms : list MemMap)
    (p : Z) :
  segments_ f = [] -> ValidPointer f p = true ->
  ValidPointer (set_loaded f base ms) p = true.
Proof.
  unfold ValidPointer, mappings. cbn. intros ->. cbn.
  rewrite orb_false_r. intros ->. reflexivity.
Qed.

(** ** Reads from the file mapping *)

Lemma read_bytes_Begin (f : ElfFileImpl) (off : Z) (n : nat) :
  segments_ f = [] -> 0 <= off ->
  read_bytes f (Begin f + off) n
  = slice (Z.to_nat off) n (mm_bytes (map_ f)).
Proof.
  intros Hs Hoff. unfold read_bytes, mappings, Begin. rewrite Hs. cbn.
  unfold map_read. destruct (Z.leb_spec (MemMap_Begin (map_ f))
                               (MemMap_Begin (map_ f) + off)); [|lia].
  replace (MemMap_Begin (map_ f) + off - MemMap_Begin (map_ f)) with off
    by lia.
  now destruct (slice (Z.to_nat off) n (mm_bytes (map_ f))).
Qed.

Lemma ValidPointer_Begin (f : ElfFileImpl) (off : Z) :
  segments_ f = [] ->
  ValidPointer f (Begin f + off) = (0 <=? off) && (off <? Size f).
Proof.
  intros Hs. unfold ValidPointer, mappings, Begin, Size. rewrite Hs. cbn.
  rewrite orb_false_r. unfold in_map, MemMap_End.
  destruct (Z.leb_spec 0 off), (Z.ltb_spec off (MemMap_Size (map_ f)));
    cbn; lia.
Qed.
