(* ===== verification/ElfHash.v ===== *)
(** * ElfHash: the symbol resolver

    [FindDynamicSymbolAddress] (elf_file_impl.h, line 77) and its helper
    [FindDynamicSymbol] (line 124) are declared in the header; their bodies
    are not part of the sources at hand and are modelled after the design
    document: the standard ELF hash of the name selects a bucket, and the chain
    that starts there is followed until a symbol of that name, the terminator
    0 or a value out of range is met, for at most [nchain] links.

    The resolver is written against the accessors of [ElfFile] ([HashAccess],
    [SymbolAccess], [StringAccess]), so its theorems hold for every
    implementation of them that keeps the range checks ([HashAccessLaws]);
    [ElfTables] gives the implementation over the mapped bytes.

    Besides the executable loop ([walk_chain], with its fuel) the file has
    its specification: [Walk], the loop without a bound, as a relation, and
    [linear_scan], the search through the symbol table in index order.
    [Hash_SymbolResolver] makes the resolver the instance of the declared
    operation ([SymbolResolver]) that the state machine of [ElfLifecycle]
    calls. *)

From Stdlib Require Import ZArith Lia Bool Ascii String List.
From S2P Require Import Prelude ElfTypes ElfFile.
Import ListNotations.

#[local] Open Scope Z_scope.

(** ** The hash of a name *)

Definition char_val (c : ascii) : Z := Z.of_N (N_of_ascii c).

(** One round: [h = (h << 4) + c; g = h & 0xf0000000; if (g) h ^= g >> 24;
    h &= ~g], on 32-bit unsigned integers. *)
Definition hash_step (h c : Z) : Z :=
  let h := wrap 32 (Z.shiftl h 4 + c) in
  let g := Z.land h 0xf0000000 in
  let h := if g =? 0 then h else Z.lxor h (Z.shiftr g 24) in
  Z.land h (Z.lnot g).

Definition elf_hash (name : string) : Z :=
  fold_left hash_step (map char_val (list_ascii_of_string name)) 0.

(** A null pointer in address arithmetic. *)
Definition ptr_addr (p : option Z) : Z :=
  match p with Some a => a | None => 0 end.

(** ** The resolver, against the accessors *)

Section Resolver.
Context {HA : HashAccess} {SA : SymbolAccess} {StrA : StringAccess}.

(** [symbol_name == name] for the name [GetString] returned: a null name
    matches nothing. *)
Definition name_matches (symbol_name : option string) (name : string) : bool :=
  match symbol_name with
  | Some s => String.eqb s name
  | None => false
  end.

Definition symbol_matches (f : ElfFileImpl) (name : string) (sym : Elf_Sym)
  : bool :=
  name_matches (GetString f SHT_DYNSYM (st_name sym)) name.

(** The walk along the chain from [index]: each unit of [fuel] examines one
    symbol. *)
Fixpoint walk_chain (fuel : nat) (f : ElfFileImpl) (name : string) (index : Z)
  : option Elf_Sym :=
  match fuel with
  | O => None
  | S fuel' =>
      if index =? 0 then None
      else
        match GetSymbol f SHT_DYNSYM index with
        | None => None
        | Some sym =>
            if symbol_matches f name sym then Some sym
            else
              match GetHashChain f index with
              | Some next => walk_chain fuel' f name next
              | None => None
              end
        end
  end.

(** At most [nchain] links are followed, so at most [nchain + 1] symbols are
    examined. *)
Definition chain_fuel (f : ElfFileImpl) : nat :=
  S (Z.to_nat (GetHashChainNum f)).

Definition FindDynamicSymbol (f : ElfFileImpl) (name : string)
  : option Elf_Sym :=
  let nbucket := GetHashBucketNum f in
  if nbucket <=? 0 then None
  else
    match GetHashBucket f (elf_hash name mod nbucket) with
    | None => None
    | Some first => walk_chain (chain_fuel f) f name first
    end.

Definition FindDynamicSymbolAddress (f : ElfFileImpl) (name : string)
  : option Z :=
  match FindDynamicSymbol f name with
  | Some sym => Some (ptr_addr (GetBaseAddress f) + st_value sym)
  | None => None
  end.

(** The resolver, as the header declares it. *)
Definition Hash_SymbolResolver : SymbolResolver := {|
  ElfFile.FindDynamicSymbolAddress := FindDynamicSymbolAddress
|}.

(** ** Specifications *)

(** The walk without a bound.  [Walk f name i l r]: started at index [i], the
    walk follows the chain entries of the indices [l], in this order, and
    ends with [r]. *)
Inductive Walk (f : ElfFileImpl) (name : string)
  : Z -> list Z -> option Elf_Sym -> Prop :=
| Walk_end : Walk f name 0 [] None
| Walk_nosym i :
    i <> 0 -> GetSymbol f SHT_DYNSYM i = None -> Walk f name i [] None
| Walk_found i sym :
    i <> 0 -> GetSymbol f SHT_DYNSYM i = Some sym ->
    symbol_matches f name sym = true -> Walk f name i [] (Some sym)
| Walk_broken i sym :
    i <> 0 -> GetSymbol f SHT_DYNSYM i = Some sym ->
    symbol_matches f name sym = false -> GetHashChain f i = None ->
    Walk f name i [] None
| Walk_next i sym next l r :
    i <> 0 -> GetSymbol f SHT_DYNSYM i = Some sym ->
    symbol_matches f name sym = false -> GetHashChain f i = Some next ->
    Walk f name next l r -> Walk f name i (i :: l) r.

(** The search in index order through the symbols [i], [i + 1], ...,
    [i + n - 1]. *)
Fixpoint linear_scan (f : ElfFileImpl) (name : string) (n : nat) (i : Z)
  : option Elf_Sym :=
  match n with
  | O => None
  | S n' =>
      match GetSymbol f SHT_DYNSYM i with
      | Some sym =>
          if symbol_matches f name sym then Some sym
          else linear_scan f name n' (i + 1)
      | None => linear_scan f name n' (i + 1)
      end
  end.

(** The symbol table has the entries 0 (reserved) to [n - 1]. *)
Definition LinearScan (f : ElfFileImpl) (name : string) (n : Z)
  : option Elf_Sym :=
  linear_scan f name (Z.to_nat (n - 1)) 1.

(** What the resolver needs of the hash accessors: an entry is only given for
    an index in range. *)
Class HashAccessLaws : Prop := mkHashAccessLaws {
  GetHashBucket_range f i v :
    GetHashBucket f i = Some v -> 0 <= i < GetHashBucketNum f;
  GetHashChain_range f i v :
    GetHashChain f i = Some v -> 0 <= i < GetHashChainNum f
}.

(** [i] is on the chain that starts at [first], behind symbols that can be
    read. *)
Inductive on_chain (f : ElfFileImpl) : Z -> Z -> Prop :=
| on_chain_here i : i <> 0 -> on_chain f i i
| on_chain_later first sym next i :
    first <> 0 -> GetSymbol f SHT_DYNSYM first = Some sym ->
    GetHashChain f first = Some next -> on_chain f next i ->
    on_chain f first i.

(** A hash table as the linker writes it, for a symbol table of [n] entries:
    every entry of a bucket or of the chain array points into the symbol
    table, every named symbol is on the chain of the bucket of its name, and
    no two symbols have the same name. *)
Record hash_table_wf (f : ElfFileImpl) (n : Z) : Prop := mkHashTableWf {
  wf_bucket_entry b v : GetHashBucket f b = Some v -> 0 <= v < n;
  wf_chain_entry i v : GetHashChain f i = Some v -> 0 <= v < n;
  wf_reachable i sym name :
    1 <= i < n -> GetSymbol f SHT_DYNSYM i = Some sym ->
    symbol_matches f name sym = true ->
    exists first,
      GetHashBucket f (elf_hash name mod GetHashBucketNum f) = Some first /\
      on_chain f first i;
  wf_unique i j si sj name :
    1 <= i < n -> 1 <= j < n ->
    GetSymbol f SHT_DYNSYM i = Some si -> GetSymbol f SHT_DYNSYM j = Some sj ->
    symbol_matches f name si = true -> symbol_matches f name sj = true ->
    i = j
}.

End Resolver.

(** ** The hash stays below 2^28 *)

Lemma mask_bits (n : Z) :
  0 <= n -> Z.testbit 0xf0000000 n = (28 <=? n) && (n <? 32).
Proof.
  intros Hn. change 0xf0000000 with (Z.shiftl (Z.ones 4) 28).
  rewrite Z.shiftl_spec by lia.
  destruct (Z.leb_spec 28 n); cbn [andb].
  - destruct (Z.ltb_spec n 32).
    + rewrite Z.ones_spec_low by lia. reflexivity.
    + rewrite Z.ones_spec_high by lia. reflexivity.
  - apply Z.testbit_neg_r. lia.
Qed.

Lemma testbit_above (x n : Z) : 0 <= x < 2 ^ 32 -> 32 <= n -> Z.testbit x n = false.
Proof.
  intros Hx Hn. destruct (Z.eq_dec x 0) as [E|E]; [rewrite E; apply Z.bits_0|].
  apply Z.bits_above_log2; [lia|].
  apply Z.log2_lt_pow2; [lia|].
  apply Z.lt_le_trans with (2 ^ 32); [lia|].
  apply Z.pow_le_mono_r; lia.
Qed.

(** The last operation of a round clears the top four bits. *)
Lemma hash_step_low (h c : Z) :
  hash_step h c = Z.land (hash_step h c) (Z.ones 28).
Proof.
  unfold hash_step. set (x := wrap 32 (Z.shiftl h 4 + c)).
  assert (Hx : 0 <= x < 2 ^ 32) by (apply Z.mod_pos_bound; lia).
  set (g := Z.land x 0xf0000000).
  set (y := if g =? 0 then x else Z.lxor x (Z.shiftr g 24)).
  apply Z.bits_inj'. intros n Hn.
  rewrite !Z.land_spec, Z.lnot_spec by lia.
  destruct (Z.ltb_spec n 28).
  { rewrite Z.ones_spec_low by lia. now rewrite andb_true_r. }
  rewrite Z.ones_spec_high by lia. rewrite andb_false_r.
  assert (Hy : Z.testbit y n = Z.testbit x n).
  { unfold y. destruct (g =? 0); [reflexivity|].
    rewrite Z.lxor_spec, Z.shiftr_spec by lia. unfold g.
    rewrite Z.land_spec, mask_bits by lia.
    replace (n + 24 <? 32) with false by (symmetry; apply Z.ltb_ge; lia).
    now rewrite andb_false_r, andb_false_r, xorb_false_r. }
  rewrite Hy. unfold g. rewrite Z.land_spec, mask_bits by lia.
  destruct (Z.ltb_spec n 32).
  - replace (28 <=? n) with true by (symmetry; apply Z.leb_le; lia).
    cbn. rewrite andb_true_r. apply andb_negb_r.
  - now rewrite (testbit_above x n Hx).
Qed.

Lemma hash_step_range (h c : Z) : 0 <= hash_step h c < 2 ^ 28.
Proof.
  rewrite hash_step_low, Z.land_ones by lia. apply Z.mod_pos_bound. lia.
Qed.

Lemma fold_hash_step_range (cs : list Z) (h : Z) :
  0 <= h < 2 ^ 28 -> 0 <= fold_left hash_step cs h < 2 ^ 28.
Proof.
  revert h. induction cs as [|c cs IH]; intros h Hh; cbn; [exact Hh|].
  apply IH, hash_step_range.
Qed.

(** The hash of a name is a 28-bit number: every round clears the top four
    bits of the 32-bit accumulator. *)
Lemma elf_hash_range (name : string) : 0 <= elf_hash name < 2 ^ 28.
Proof. unfold elf_hash. apply fold_hash_step_range. lia. Qed.

(** The hash of a name is a 28-bit number, the hash of the empty name is
    0, and the index at which the resolver asks for a bucket is below
    [GetHashBucketNum()] whenever there is a bucket. *)
Theorem elf_hash_bucket_index {HA : HashAccess} (f : ElfFileImpl)
    (name : string) :
  0 <= elf_hash name < 2 ^ 28 /\ elf_hash EmptyString = 0 /\
  (0 < GetHashBucketNum f ->
   0 <= elf_hash name mod GetHashBucketNum f < GetHashBucketNum f).
Proof.
  split; [apply elf_hash_range|]. split; [reflexivity|].
  intros H. now apply Z.mod_pos_bound.
Qed.

(** The hash is the one of the System V ABI: its value for "printf", and
    for a name long enough that the top four bits are folded back. *)
Lemma elf_hash_vectors :
  elf_hash "printf" = 0x077905a6 /\ elf_hash "oatdata" = 0x058aa8d1 /\
  elf_hash "oatlastword" = 0x08de6da4.
Proof. vm_compute. repeat split. Qed.

(** ** The walk and its specification *)

Section ResolverFacts.
Context {HA : HashAccess} {SA : SymbolAccess} {StrA : StringAccess}.
Context (f : ElfFileImpl) (name : string).

Lemma symbol_matches_name (sym : Elf_Sym) :
  symbol_matches f name sym = true <->
  GetString f SHT_DYNSYM (st_name sym) = Some name.
Proof.
  unfold symbol_matches, name_matches.
  destruct (GetString f SHT_DYNSYM (st_name sym)) as [s|].
  - rewrite String.eqb_eq. split; congruence.
  - split; discriminate.
Qed.

(** A symbol the walk returns is the symbol at an index of the chain, which
    is not 0, and has the name asked for. *)
Lemma walk_chain_sound (fuel : nat) (i : Z) (sym : Elf_Sym) :
  walk_chain fuel f name i = Some sym ->
  exists j, (j = i \/ exists k, GetHashChain f k = Some j) /\ j <> 0 /\
            GetSymbol f SHT_DYNSYM j = Some sym /\
            symbol_matches f name sym = true.
Proof.
  revert i. induction fuel as [|fuel IH]; intros i; cbn; [discriminate|].
  destruct (Z.eqb_spec i 0); [discriminate|].
  destruct (GetSymbol f SHT_DYNSYM i) as [s|] eqn:Hs; [|discriminate].
  destruct (symbol_matches f name s) eqn:Hm.
  - intros [= <-]. exists i. auto.
  - destruct (GetHashChain f i) as [next|] eqn:Hc; [|discriminate].
    intros H. destruct (IH _ H) as (j & [->|Hj] & ?); eauto 6.
Qed.

(** The walk with fuel computes what the walk without a bound does, when
    the fuel exceeds the number of links followed. *)
Lemma Walk_fuel (i : Z) (l : list Z) (r : option Elf_Sym) (fuel : nat) :
  Walk f name i l r -> (length l < fuel)%nat -> walk_chain fuel f name i = r.
Proof.
  intros HW. revert fuel.
  induction HW as [|i Hi Hs|i sym Hi Hs Hm|i sym Hi Hs Hm Hc
                  |i sym next l r Hi Hs Hm Hc HW IH];
    intros [|fuel] Hlen; cbn in Hlen; try lia; cbn; try reflexivity;
    destruct (Z.eqb_spec i 0); try contradiction; rewrite Hs; try reflexivity;
    rewrite Hm; try reflexivity; rewrite Hc; [reflexivity|].
  apply IH. lia.
Qed.

Lemma Walk_det (i : Z) (l l' : list Z) (r r' : option Elf_Sym) :
  Walk f name i l r -> Walk f name i l' r' -> l = l' /\ r = r'.
Proof.
  intros HW. revert l' r'.
  induction HW as [| | | |i sym next l r Hi Hs Hm Hc HW IH];
    intros l' r' HW'; inv HW'; try congruence; try (split; congruence).
  match goal with
  | Hc' : GetHashChain f i = Some ?n, HW' : Walk f name ?n _ _ |- _ =>
      assert (n = next) by congruence; subst n;
      destruct (IH _ _ HW') as [-> ->]; auto
  end.
Qed.

(** From an index whose link the walk follows, the walk goes on to the same
    result, along a part of the links. *)
Lemma Walk_from (i j : Z) (l : list Z) (r : option Elf_Sym) :
  Walk f name i l r -> In j l ->
  exists l', Walk f name j l' r /\ (length l' <= length l)%nat.
Proof.
  induction 1 as [| | | |i sym next l r Hi Hs Hm Hc HW IH]; try (now intros []).
  intros [<-|Hin].
  - exists (i :: l). split; [econstructor; eassumption|lia].
  - destruct (IH Hin) as (l' & ? & ?). exists l'. split; [assumption|cbn; lia].
Qed.

(** The walk follows the link of no index twice. *)
Lemma Walk_NoDup (i : Z) (l : list Z) (r : option Elf_Sym) :
  Walk f name i l r -> NoDup l.
Proof.
  induction 1 as [| | | |i sym next l r Hi Hs Hm Hc HW IH]; try constructor;
    [|assumption].
  intros Hin. destruct (Walk_from _ _ _ _ HW Hin) as (l' & HW' & Hlen).
  assert (HWi : Walk f name i (i :: l) r) by (econstructor; eassumption).
  destruct (Walk_det _ _ _ _ _ HW' HWi) as [-> _]. cbn in Hlen. lia.
Qed.

Lemma Walk_links (i j : Z) (l : list Z) (r : option Elf_Sym) :
  Walk f name i l r -> In j l -> exists v, GetHashChain f j = Some v.
Proof.
  induction 1 as [| | | |i sym next l r Hi Hs Hm Hc HW IH]; try (now intros []).
  intros [<-|Hin]; eauto.
Qed.

(** The walk with fuel finds only what the walk without a bound finds. *)
Lemma walk_chain_Walk (fuel : nat) (i : Z) (sym : Elf_Sym) :
  walk_chain fuel f name i = Some sym ->
  exists l, Walk f name i l (Some sym).
Proof.
  revert i. induction fuel as [|fuel IH]; intros i; cbn; [discriminate|].
  destruct (Z.eqb_spec i 0); [discriminate|].
  destruct (GetSymbol f SHT_DYNSYM i) as [s|] eqn:Hs; [|discriminate].
  destruct (symbol_matches f name s) eqn:Hm.
  - intros [= <-]. exists []. now constructor.
  - destruct (GetHashChain f i) as [next|] eqn:Hc; [|discriminate].
    intros H. destruct (IH _ H) as (l & HW). exists (i :: l).
    econstructor; eassumption.
Qed.

Context {Laws : HashAccessLaws}.

(** With the range check of [GetHashChain], a walk follows at most [nchain]
    links: [chain_fuel] is enough. *)
Lemma Walk_length (i : Z) (l : list Z) (r : option Elf_Sym) :
  Walk f name i l r -> (length l < chain_fuel f)%nat.
Proof.
  intros HW. unfold chain_fuel. apply Nat.lt_succ_r.
  apply NoDup_range_length; [eapply Walk_NoDup; eassumption|].
  intros j Hj. destruct (Walk_links _ _ _ _ HW Hj) as (v & Hv).
  eapply GetHashChain_range; eassumption.
Qed.

Lemma walk_chain_enough (i : Z) (l : list Z) (r : option Elf_Sym) :
  Walk f name i l r -> walk_chain (chain_fuel f) f name i = r.
Proof.
  intros HW. eapply Walk_fuel; [eassumption|]. eapply Walk_length; eassumption.
Qed.

End ResolverFacts.

(** ** The resolver *)

Section ResolverTheorems.
Context {HA : HashAccess} {SA : SymbolAccess} {StrA : StringAccess}.
Context {Laws : HashAccessLaws}.
Context (f : ElfFileImpl) (name : string).

Lemma FindDynamicSymbol_walk (first : Z) :
  GetHashBucket f (elf_hash name mod GetHashBucketNum f) = Some first ->
  FindDynamicSymbol f name = walk_chain (chain_fuel f) f name first.
Proof.
  intros Hb. unfold FindDynamicSymbol. rewrite Hb.
  apply GetHashBucket_range in Hb.
  destruct (Z.leb_spec (GetHashBucketNum f) 0); [lia|reflexivity].
Qed.

(** What a result of the resolver tells: the bucket of the name had an
    entry, and the symbol is at that entry or at an entry of the chain. *)
Lemma FindDynamicSymbol_inv (sym : Elf_Sym) :
  FindDynamicSymbol f name = Some sym ->
  exists j, j <> 0 /\
    ((exists b, GetHashBucket f b = Some j) \/
     (exists k, GetHashChain f k = Some j)) /\
    GetSymbol f SHT_DYNSYM j = Some sym /\
    symbol_matches f name sym = true.
Proof.
  unfold FindDynamicSymbol. destruct (GetHashBucketNum f <=? 0); [discriminate|].
  destruct (GetHashBucket f _) as [first|] eqn:Hb; [|discriminate].
  intros H. apply walk_chain_sound in H as (j & Hj & Hj0 & Hs & Hm).
  exists j. repeat split; try assumption. destruct Hj as [->|Hj]; eauto.
Qed.

(** C22: a symbol the resolver returns is in the dynamic symbol table, at
    an index other than the reserved 0, and its name in the string table is
    the name asked for. *)
Theorem FindDynamicSymbol_sound (sym : Elf_Sym) :
  FindDynamicSymbol f name = Some sym ->
  exists j, j <> 0 /\ GetSymbol f SHT_DYNSYM j = Some sym /\
            GetString f SHT_DYNSYM (st_name sym) = Some name.
Proof.
  intros H. apply FindDynamicSymbol_inv in H as (j & Hj0 & _ & Hs & Hm).
  apply symbol_matches_name in Hm. eauto.
Qed.

(** C17: the bound on the walk loses nothing: whatever the chain array
    holds, the resolver returns what the walk without a bound ends with,
    because a walk that ends follows the link of no index twice and so
    follows at most [nchain] links. *)
Theorem FindDynamicSymbol_complete (first : Z) (l : list Z)
    (r : option Elf_Sym) :
  GetHashBucket f (elf_hash name mod GetHashBucketNum f) = Some first ->
  Walk f name first l r -> FindDynamicSymbol f name = r.
Proof.
  intros Hb HW. rewrite (FindDynamicSymbol_walk _ Hb).
  eapply walk_chain_enough; eassumption.
Qed.

(** C36: the resolver on any chain array, a corrupted one included.
    Where the walk without a bound ends, the resolver returns what it ends
    with, and the walk has followed at most [nchain] links; where the walk
    does not end, because the chain leads back into itself, the resolver
    returns not-found. *)
Theorem FindDynamicSymbol_Walk (first : Z) :
  GetHashBucket f (elf_hash name mod GetHashBucketNum f) = Some first ->
  (forall l r, Walk f name first l r ->
     FindDynamicSymbol f name = r /\
     (length l <= Z.to_nat (GetHashChainNum f))%nat) /\
  ((forall l r, ~ Walk f name first l r) -> FindDynamicSymbol f name = None).
Proof.
  intros Hb. rewrite (FindDynamicSymbol_walk _ Hb). split.
  - intros l r HW. split; [eapply walk_chain_enough; eassumption|].
    pose proof (Walk_length f name _ _ _ HW) as Hlen.
    unfold chain_fuel in Hlen. lia.
  - intros Hno.
    destruct (walk_chain _ f name first) as [sym|] eqn:E; [|reflexivity].
    apply walk_chain_Walk in E as (l & HW). now destruct (Hno _ _ HW).
Qed.

(** An address the resolver returns is the base address plus the value
    of a symbol of the table that has the name asked for. *)
Theorem FindDynamicSymbolAddress_sound (a : Z) :
  FindDynamicSymbolAddress f name = Some a ->
  exists j sym, j <> 0 /\ GetSymbol f SHT_DYNSYM j = Some sym /\
    GetString f SHT_DYNSYM (st_name sym) = Some name /\
    a = ptr_addr (GetBaseAddress f) + st_value sym.
Proof.
  unfold FindDynamicSymbolAddress.
  destruct (FindDynamicSymbol f name) as [sym|] eqn:E; [|discriminate].
  intros [= <-]. apply FindDynamicSymbol_inv in E as (j & ? & _ & ? & Hm).
  apply symbol_matches_name in Hm. eauto 6.
Qed.

(** *** Refinement of the linear scan *)

Lemma linear_scan_Some (k : nat) (start : Z) (sym : Elf_Sym) :
  linear_scan f name k start = Some sym ->
  exists j, start <= j < start + Z.of_nat k /\
            GetSymbol f SHT_DYNSYM j = Some sym /\
            symbol_matches f name sym = true.
Proof.
  revert start. induction k as [|k IH]; intros start; [discriminate|].
  cbn [linear_scan].
  assert (Hrec : linear_scan f name k (start + 1) = Some sym ->
                 exists j, start <= j < start + Z.of_nat (S k) /\
                   GetSymbol f SHT_DYNSYM j = Some sym /\
                   symbol_matches f name sym = true).
  { intros H. destruct (IH _ H) as (j & ? & ?). exists j. split; [lia|auto]. }
  destruct (GetSymbol f SHT_DYNSYM start) as [s|] eqn:Hs; [|exact Hrec].
  destruct (symbol_matches f name s) eqn:Hm; [|exact Hrec].
  intros [= <-]. exists start. split; [lia|auto].
Qed.

Lemma linear_scan_None (k : nat) (start j : Z) (sym : Elf_Sym) :
  linear_scan f name k start = None ->
  start <= j < start + Z.of_nat k -> GetSymbol f SHT_DYNSYM j = Some sym ->
  symbol_matches f name sym = false.
Proof.
  revert start. induction k as [|k IH]; intros start Hscan Hj Hs; [lia|].
  cbn [linear_scan] in Hscan.
  destruct (Z.eq_dec j start) as [->|Hne].
  - rewrite Hs in Hscan. now destruct (symbol_matches f name sym).
  - apply (IH (start + 1)); [|lia|assumption].
    destruct (GetSymbol f SHT_DYNSYM start) as [s|]; [|assumption].
    now destruct (symbol_matches f name s).
Qed.

Context (n : Z) (Hwf : hash_table_wf f n).

(** In a well-formed table the walk from an index of the chain of a symbol
    with the name arrives at that symbol. *)
Lemma on_chain_Walk (first i : Z) (sym : Elf_Sym) :
  on_chain f first i -> 0 <= first < n -> 1 <= i < n ->
  GetSymbol f SHT_DYNSYM i = Some sym -> symbol_matches f name sym = true ->
  exists l, Walk f name first l (Some sym).
Proof.
  intros Hoc. revert sym.
  induction Hoc as [i Hi|first s next i Hf Hs Hc Hoc IH];
    intros sym Hr Hir Hsym Hm.
  - exists []. now constructor.
  - destruct (symbol_matches f name s) eqn:Hms.
    + assert (first = i) by (eapply (wf_unique _ _ Hwf); eauto; lia).
      subst first. exists []. constructor; congruence.
    + destruct (IH sym) as (l & HW); auto.
      { eapply (wf_chain_entry _ _ Hwf); eassumption. }
      exists (first :: l). econstructor; eassumption.
Qed.

(** In a well-formed table the resolver finds a symbol of the table that
    has the name. *)
Lemma FindDynamicSymbol_found (j : Z) (sym : Elf_Sym) :
  1 <= j < n -> GetSymbol f SHT_DYNSYM j = Some sym ->
  symbol_matches f name sym = true -> FindDynamicSymbol f name = Some sym.
Proof.
  intros Hjn Hs Hm.
  destruct (wf_reachable _ _ Hwf _ _ _ Hjn Hs Hm) as (first & Hb & Hoc).
  destruct (on_chain_Walk _ _ sym Hoc) as (l & HW); auto.
  { eapply (wf_bucket_entry _ _ Hwf); eassumption. }
  rewrite (FindDynamicSymbol_walk _ Hb).
  eapply walk_chain_enough; eassumption.
Qed.

(** What the search in index order finds, the resolver finds. *)
Lemma LinearScan_found (sym : Elf_Sym) :
  LinearScan f name n = Some sym -> FindDynamicSymbol f name = Some sym.
Proof.
  unfold LinearScan. intros (j & Hj & Hs & Hm)%linear_scan_Some.
  apply (FindDynamicSymbol_found j); [lia|assumption..].
Qed.

(** What it does not find is not on a chain. *)
Lemma LinearScan_none :
  LinearScan f name n = None -> FindDynamicSymbol f name = None.
Proof.
  unfold LinearScan. intros E.
  destruct (FindDynamicSymbol f name) as [sym|] eqn:E2; [|reflexivity].
  apply FindDynamicSymbol_inv in E2 as (j & Hj0 & Hj & Hs & Hm).
  assert (Hjn : 0 <= j < n).
  { destruct Hj as [(b & Hb)|(k & Hk)];
      [eapply (wf_bucket_entry _ _ Hwf)|eapply (wf_chain_entry _ _ Hwf)];
      eassumption. }
  rewrite (linear_scan_None _ _ j _ E) in Hm; [discriminate|lia|assumption].
Qed.

(** C16: on a well-formed hash table the resolver returns what the search
    through the dynamic symbol table in index order returns: the hash table
    is an index of the symbol table and nothing more. *)
Theorem FindDynamicSymbol_LinearScan :
  FindDynamicSymbol f name = LinearScan f name n.
Proof.
  destruct (LinearScan f name n) as [sym|] eqn:E;
    [now apply LinearScan_found | now apply LinearScan_none].
Qed.

End ResolverTheorems.
