(* ===== verification/ElfLink.v ===== *)
(** * ElfLink: the resolver on the hash table a linker writes

    [FindDynamicSymbol] (elf_file_impl.h, line 124) relies on the hash
    table of the image: it looks at the symbols of one chain and at no
    other.  This file builds the table the way a linker does, for any list
    of symbols and any number of buckets: the symbols are taken in index
    order, and each is put at the head of the chain of the bucket of its
    name ([link_symbol], [link]).

    What an image with these tables gives the accessors that the header
    declares is the class [LinkedImage]; the theorems are proved against
    it.  They show that the table is well formed in the sense of [ElfHash]
    ([hash_table_wf]) when no two symbols have the same name, and that on
    it the resolver is the lookup of the name in the list of symbols: it
    finds every symbol, and nothing else ([linked_image_resolves]).  The
    tables themselves, read without bytes, are one such image
    ([Linked_image]); [ElfLinkImage] has the image in bytes.

    The file models no code of the loader; it is the counterpart of the
    resolver in the toolchain. *)

From Stdlib Require Import ZArith Lia Bool String List.
From S2P Require Import Prelude ElfTypes ElfFile ElfHash.
Import ListNotations.

#[local] Open Scope Z_scope.
#[local] Open Scope elf_scope.

(** ** The tables *)

(** The bucket array and the chain array, as functions of the index. *)
Record Tables : Type := mkTables {
  buckets : Z -> Z;
  chains : Z -> Z
}.

Definition empty_tables : Tables := mkTables (fun _ => 0) (fun _ => 0).

(** The value of a name among the symbols: the first symbol of the name. *)
Fixpoint value_of (name : string) (syms : list (string * Z)) : option Z :=
  match syms with
  | [] => None
  | (s, v) :: syms' => if String.eqb s name then Some v else value_of name syms'
  end.

(** The symbols of the image of [ElfImage], and an object with a base
    address and no mapping: the accessors of the linked tables read the
    tables, not the bytes of the object. *)
Definition oat_symbols : list (string * Z) :=
  [("oatdata", 0x1000); ("oatexec", 0x2000); ("oatlastword", 0x2ffc)]%string.

Definition linked_object : ElfFileImpl :=
  mkElfFileImpl "/data/test.oat" MemMap_Invalid None [] (Some 0x70000000)
    None None None None None None None None None.

Section Link.
Variables (syms : list (string * Z)) (nbucket : Z).

(** The symbol table has the reserved entry 0 and the symbols, from 1. *)
Definition nsyms : Z := Z.of_nat (length syms) + 1.

Definition entry (k : nat) : option (string * Z) :=
  match k with
  | O => None
  | S k' => nth_error syms k'
  end.

Definition name_of (k : nat) : option string := option_map fst (entry k).

Definition bucket_of (name : string) : Z := elf_hash name mod nbucket.

(** [chain[i] = bucket[b]; bucket[b] = i] for the bucket [b] of the name. *)
Definition link_symbol (t : Tables) (i : Z) (name : string) : Tables :=
  let b := bucket_of name in
  {| buckets := fun b' => if b' =? b then i else buckets t b';
     chains := fun i' => if i' =? i then buckets t b else chains t i' |}.

(** The symbols of [l] are inserted in order, the first one at the index
    [i]. *)
Fixpoint link_from (t : Tables) (i : Z) (l : list (string * Z)) : Tables :=
  match l with
  | [] => t
  | (name, _) :: l' => link_from (link_symbol t i name) (i + 1) l'
  end.

Definition link : Tables := link_from empty_tables 1 syms.

(** What the tables hold: [last_in b k] is the last of the symbols 1 to [k]
    whose name is in the bucket [b], and 0 if there is none. *)
Fixpoint last_in (b : Z) (k : nat) : Z :=
  match k with
  | O => 0
  | S k' =>
      match name_of k with
      | Some s => if bucket_of s =? b then Z.of_nat k else last_in b k'
      | None => last_in b k'
      end
  end.

(** The entry of the chain array of the symbol [j], among [k] symbols: the
    symbol before it in its bucket. *)
Definition chain_of (k : nat) (j : Z) : Z :=
  if (1 <=? j) && (j <=? Z.of_nat k) then
    match name_of (Z.to_nat j) with
    | Some s => last_in (bucket_of s) (Z.to_nat j - 1)
    | None => 0
    end
  else 0.

(** ** An image that holds the linked tables

    What the accessors of an object return when its image holds the tables
    of the symbols: the two numbers and the entries of the hash table, and
    for every symbol of the list an entry of the symbol table with the
    value of the symbol, whose name in the string table is the name of the
    symbol.  Where the name is in the string table is left to the image. *)
Class LinkedImage {HA : HashAccess} {SA : SymbolAccess} {StrA : StringAccess}
    (f : ElfFileImpl) : Prop := mkLinkedImage {
  linked_bucket_num : GetHashBucketNum f = nbucket;
  linked_chain_num : GetHashChainNum f = nsyms;
  linked_bucket b :
    0 <= b < nbucket -> GetHashBucket f b = Some (buckets link b);
  linked_chain i :
    0 <= i < nsyms -> GetHashChain f i = Some (chains link i);
  linked_symbol k e :
    entry k = Some e ->
    exists sym, GetSymbol f SHT_DYNSYM (Z.of_nat k) = Some sym /\
                st_value sym = snd e /\
                GetString f SHT_DYNSYM (st_name sym) = Some (fst e)
}.

(** ** The tables themselves as an image

    The accessors that read the tables, not the bytes of an object: the
    name of the symbol [i] is at the offset [i] of the string table. *)

Definition symbol_at (i : Z) : option Elf_Sym :=
  if i =? 0 then Some (mkElf_Sym 0 0 0 0 0)
  else if i <? 0 then None
  else option_map (fun e => mkElf_Sym i (snd e) 0 0 0) (entry (Z.to_nat i)).

Definition Linked_HashAccess : HashAccess := {|
  GetHashSectionStart := hash_section_start_;
  GetHashBucketNum := fun _ => nbucket;
  GetHashChainNum := fun _ => nsyms;
  GetHashBucket := fun _ b =>
    if (0 <=? b) && (b <? nbucket) then Some (buckets link b) else None;
  GetHashChain := fun _ i =>
    if (0 <=? i) && (i <? nsyms) then Some (chains link i) else None
|}.

Definition Linked_SymbolAccess : SymbolAccess := {|
  IsSymbolSectionType := fun ty => (ty =? SHT_SYMTAB) || (ty =? SHT_DYNSYM);
  GetSymbolNum := fun _ _ => nsyms;
  GetSymbol := fun _ ty i => if ty =? SHT_DYNSYM then symbol_at i else None
|}.

Definition Linked_StringAccess : StringAccess := {|
  GetString := fun _ ty off =>
    if (ty =? SHT_DYNSYM) && (0 <? off) then name_of (Z.to_nat off) else None
|}.

(** ** What the linked tables hold *)

Lemma entry_Some (k : nat) :
  (1 <= k <= length syms)%nat -> exists e, entry k = Some e.
Proof.
  destruct k as [|k]; [lia|]. intros Hk. cbn.
  destruct (nth_error syms k) eqn:E; [eauto|].
  apply nth_error_None in E. lia.
Qed.

Lemma entry_range (k : nat) (e : string * Z) :
  entry k = Some e -> (1 <= k <= length syms)%nat.
Proof.
  destruct k as [|k]; [discriminate|]. cbn [entry]. intros He.
  assert (k < length syms)%nat by (apply nth_error_Some; congruence). lia.
Qed.

Lemma last_in_range (b : Z) (k : nat) : 0 <= last_in b k <= Z.of_nat k.
Proof.
  induction k as [|k IH]; cbn [last_in]; [lia|].
  destruct (name_of (S k)); [destruct (bucket_of _ =? b)|]; lia.
Qed.

Lemma chain_of_range (k : nat) (j : Z) : 0 <= chain_of k j < Z.of_nat k + 1.
Proof.
  unfold chain_of.
  destruct (Z.leb_spec 1 j), (Z.leb_spec j (Z.of_nat k)); cbn [andb];
    try lia.
  destruct (name_of _); [|lia].
  pose proof (last_in_range (bucket_of s) (Z.to_nat j - 1)). lia.
Qed.

(** One more symbol: the tables after [link_symbol] are the tables of one
    more symbol. *)
Lemma link_symbol_spec (pre : list (string * Z)) (s : string) (v : Z)
    (l : list (string * Z)) (t : Tables) :
  syms = pre ++ (s, v) :: l ->
  (forall b, buckets t b = last_in b (length pre)) ->
  (forall j, chains t j = chain_of (length pre) j) ->
  let t' := link_symbol t (Z.of_nat (length pre) + 1) s in
  (forall b, buckets t' b = last_in b (length (pre ++ [(s, v)]))) /\
  (forall j, chains t' j = chain_of (length (pre ++ [(s, v)])) j).
Proof.
  intros Hsyms Hb Hc. rewrite length_app, Nat.add_1_r. cbn [length].
  assert (Hn : name_of (S (length pre)) = Some s).
  { unfold name_of, entry. rewrite Hsyms, nth_error_app2, Nat.sub_diag by lia.
    reflexivity. }
  split.
  - intros b. cbn [link_symbol buckets last_in]. rewrite Hn, Hb.
    rewrite (Z.eqb_sym b). destruct (bucket_of s =? b); [lia|reflexivity].
  - intros j. cbn [link_symbol chains]. rewrite Hb, Hc. unfold chain_of.
    destruct (Z.eqb_spec j (Z.of_nat (length pre) + 1)) as [->|Hj].
    + replace (Z.to_nat (Z.of_nat (length pre) + 1)) with (S (length pre))
        by lia.
      rewrite Hn, Nat.sub_succ, Nat.sub_0_r.
      destruct (Z.leb_spec 1 (Z.of_nat (length pre) + 1)); [|lia].
      destruct (Z.leb_spec (Z.of_nat (length pre) + 1)
                  (Z.of_nat (S (length pre)))); [reflexivity|lia].
    + destruct (Z.leb_spec 1 j); [|reflexivity]. cbn [andb].
      destruct (Z.leb_spec j (Z.of_nat (length pre))),
               (Z.leb_spec j (Z.of_nat (S (length pre)))); try reflexivity;
        lia.
Qed.

Lemma link_from_spec (l : list (string * Z)) :
  forall (pre : list (string * Z)) (t : Tables),
    syms = pre ++ l ->
    (forall b, buckets t b = last_in b (length pre)) ->
    (forall j, chains t j = chain_of (length pre) j) ->
    let t' := link_from t (Z.of_nat (length pre) + 1) l in
    (forall b, buckets t' b = last_in b (length syms)) /\
    (forall j, chains t' j = chain_of (length syms) j).
Proof.
  induction l as [|[s v] l IH]; intros pre t Hsyms Hb Hc; cbn [link_from].
  - rewrite Hsyms, app_nil_r. auto.
  - destruct (link_symbol_spec pre s v l t Hsyms Hb Hc) as [Hb' Hc'].
    assert (Hsyms' : syms = (pre ++ [(s, v)]) ++ l)
      by now rewrite <- app_assoc.
    pose proof (IH _ _ Hsyms' Hb' Hc') as H.
    rewrite length_app, Nat.add_1_r in H.
    now replace (Z.of_nat (S (length pre)) + 1)
      with (Z.of_nat (length pre) + 1 + 1) in H by lia.
Qed.

(** The linked tables: a bucket holds the last symbol of the bucket, the
    entry of a symbol in the chain array the symbol before it in its
    bucket. *)
Lemma link_spec :
  (forall b, buckets link b = last_in b (length syms)) /\
  (forall j, chains link j = chain_of (length syms) j).
Proof.
  apply (link_from_spec syms [] empty_tables); [reflexivity|reflexivity|].
  intros j. unfold chain_of. cbn.
  destruct (Z.leb_spec 1 j), (Z.leb_spec j 0); try reflexivity. lia.
Qed.

(** Every entry of the two arrays is an index of the symbol table. *)
Lemma link_range :
  (forall b, 0 <= buckets link b < nsyms) /\
  (forall j, 0 <= chains link j < nsyms).
Proof.
  destruct link_spec as [Hb Hc]. unfold nsyms. split.
  - intros b. rewrite Hb. pose proof (last_in_range b (length syms)). lia.
  - intros j. rewrite Hc. apply chain_of_range.
Qed.

(** ** The accessors of an image that holds the tables *)

Section Image.
Context {HA : HashAccess} {SA : SymbolAccess} {StrA : StringAccess}.
Context {Laws : HashAccessLaws}.
Context (f : ElfFileImpl) {Himg : LinkedImage f}.

Lemma GetHashBucket_image (b v : Z) :
  GetHashBucket f b = Some v -> 0 <= b < nbucket /\ v = buckets link b.
Proof.
  intros H. pose proof (GetHashBucket_range _ _ _ H) as Hb.
  rewrite linked_bucket_num in Hb. rewrite linked_bucket in H by assumption.
  split; congruence.
Qed.

Lemma GetHashChain_image (i v : Z) :
  GetHashChain f i = Some v -> 0 <= i < nsyms /\ v = chains link i.
Proof.
  intros H. pose proof (GetHashChain_range _ _ _ H) as Hi.
  rewrite linked_chain_num in Hi. rewrite linked_chain in H by assumption.
  split; congruence.
Qed.

(** A symbol at an index of the table is a symbol of the list, and it has
    the name asked for when the symbol of the list has. *)
Lemma GetSymbol_image (i : Z) (sym : Elf_Sym) :
  1 <= i < nsyms -> GetSymbol f SHT_DYNSYM i = Some sym ->
  exists e, entry (Z.to_nat i) = Some e /\ st_value sym = snd e /\
            forall name, symbol_matches f name sym = true <-> fst e = name.
Proof.
  unfold nsyms. intros Hi Hs.
  destruct (entry_Some (Z.to_nat i)) as (e & He); [lia|].
  destruct (linked_symbol _ _ He) as (sym' & Hs' & Hv & Hn).
  rewrite Z2Nat.id, Hs in Hs' by lia. injection Hs' as <-.
  exists e. repeat split; try assumption;
    rewrite symbol_matches_name, Hn; congruence.
Qed.

Lemma GetHashChain_entry (k : nat) (s : string) :
  (1 <= k <= length syms)%nat -> name_of k = Some s ->
  GetHashChain f (Z.of_nat k) = Some (last_in (bucket_of s) (k - 1)).
Proof.
  intros Hk Hs. rewrite linked_chain by (unfold nsyms; lia).
  rewrite (proj2 link_spec). unfold chain_of.
  destruct (Z.leb_spec 1 (Z.of_nat k)); [|lia].
  destruct (Z.leb_spec (Z.of_nat k) (Z.of_nat (length syms))); [|lia].
  cbn [andb]. now rewrite Nat2Z.id, Hs.
Qed.

(** The chain of a bucket passes every symbol of the bucket. *)
Lemma last_in_on_chain (b : Z) (k j : nat) (s : string) :
  (k <= length syms)%nat -> (1 <= j <= k)%nat ->
  name_of j = Some s -> bucket_of s = b ->
  on_chain f (last_in b k) (Z.of_nat j).
Proof.
  intros Hk. induction k as [|k IH]; intros Hj Hs Hb; [lia|].
  destruct (entry_Some (S k)) as (e & He); [lia|].
  assert (Hn : name_of (S k) = Some (fst e)) by (unfold name_of; now rewrite He).
  cbn [last_in]. rewrite Hn.
  destruct (Z.eqb_spec (bucket_of (fst e)) b) as [Hbe|Hbe].
  - destruct (Nat.eq_dec j (S k)) as [->|Hne]; [constructor; lia|].
    destruct (linked_symbol _ _ He) as (sym & Hsym & _).
    eapply on_chain_later; [lia|exact Hsym| |].
    + apply GetHashChain_entry; [lia|exact Hn].
    + rewrite Hbe, Nat.sub_succ, Nat.sub_0_r. apply IH; [lia|lia|assumption..].
  - apply IH; try assumption; [lia|].
    destruct (Nat.eq_dec j (S k)) as [->|Hne]; [congruence|lia].
Qed.

End Image.

(** ** The linked table is well formed, and the resolver finds the symbols *)

Hypothesis Hnames : NoDup (map fst syms).
Hypothesis Hnbucket : 0 < nbucket.

Lemma name_of_inj (j k : nat) (s : string) :
  name_of j = Some s -> name_of k = Some s -> j = k.
Proof.
  unfold name_of, entry. destruct j as [|j], k as [|k]; try discriminate.
  rewrite <- !nth_error_map. intros Hj Hk. f_equal.
  eapply NoDup_nth_error; [exact Hnames| |congruence].
  apply nth_error_Some. congruence.
Qed.

(** The first symbol of a name is a symbol of the list, and a name without
    a value is the name of no symbol. *)
Lemma value_of_Some (l : list (string * Z)) (name : string) (v : Z) :
  value_of name l = Some v -> exists k, nth_error l k = Some (name, v).
Proof.
  induction l as [|[s w] l IH]; cbn [value_of]; [discriminate|].
  destruct (String.eqb_spec s name) as [->|Hne].
  - intros [= ->]. now exists O.
  - intros H. destruct (IH H) as (k & Hk). now exists (S k).
Qed.

Lemma value_of_None (l : list (string * Z)) (name : string) :
  value_of name l = None -> forall k e, nth_error l k = Some e -> fst e <> name.
Proof.
  induction l as [|[s w] l IH]; cbn [value_of]; intros H [|k] e He;
    try discriminate; destruct (String.eqb_spec s name) as [->|Hne];
    try discriminate.
  - now injection He as <-.
  - eauto.
Qed.

Section Resolution.
Context {HA : HashAccess} {SA : SymbolAccess} {StrA : StringAccess}.
Context {Laws : HashAccessLaws}.
Context (f : ElfFileImpl) {Himg : LinkedImage f}.

Lemma linked_wf : hash_table_wf f nsyms.
Proof.
  split.
  - intros b v H. destruct (GetHashBucket_image f _ _ H) as [_ ->].
    apply link_range.
  - intros i v H. destruct (GetHashChain_image f _ _ H) as [_ ->].
    apply link_range.
  - intros i sym name Hi Hs Hm.
    destruct (GetSymbol_image f i sym Hi Hs) as (e & He & _ & Hn).
    apply Hn in Hm.
    exists (last_in (bucket_of name) (length syms)). split.
    + rewrite linked_bucket_num. fold (bucket_of name).
      rewrite linked_bucket by (apply Z.mod_pos_bound, Hnbucket).
      now rewrite (proj1 link_spec).
    + rewrite <- (Z2Nat.id i) by lia. unfold nsyms in Hi.
      apply (last_in_on_chain f _ _ _ name); [lia|lia| |reflexivity].
      unfold name_of. now rewrite He, <- Hm.
  - intros i j si sj name Hi Hj Hsi Hsj Hmi Hmj.
    destruct (GetSymbol_image f i si Hi Hsi) as (ei & Hei & _ & Hni).
    destruct (GetSymbol_image f j sj Hj Hsj) as (ej & Hej & _ & Hnj).
    apply Hni in Hmi. apply Hnj in Hmj.
    assert (Z.to_nat i = Z.to_nat j); [|lia].
    apply (name_of_inj _ _ name); unfold name_of;
      [rewrite Hei|rewrite Hej]; cbn; congruence.
Qed.

(** On an image that holds the hash table a linker writes for a list of
    symbols with distinct names, with any number of buckets, the resolver
    is the lookup of the name in the list: for the name of a symbol it
    returns the base address plus the value of that symbol, whichever chain
    the symbol is on and however long the chain is, and for another name it
    returns not-found. *)
Lemma linked_image_resolves (name : string) :
  FindDynamicSymbolAddress f name
  = option_map (fun v => ptr_addr (GetBaseAddress f) + v)
      (value_of name syms).
Proof.
  unfold FindDynamicSymbolAddress.
  destruct (value_of name syms) as [v|] eqn:Hv; cbn [option_map].
  - apply value_of_Some in Hv as (k & Hk).
    destruct (linked_symbol (S k) (name, v) Hk) as (sym & Hs & Hval & Hn).
    assert (Hlen : (k < length syms)%nat) by (apply nth_error_Some; congruence).
    rewrite (FindDynamicSymbol_found f name nsyms linked_wf
               (Z.of_nat (S k)) sym); [now rewrite Hval|unfold nsyms; lia| |].
    + exact Hs.
    + now apply symbol_matches_name.
  - destruct (FindDynamicSymbol f name) as [sym|] eqn:E; [|reflexivity].
    apply FindDynamicSymbol_inv in E as (j & Hj & Hfrom & Hs & Hm).
    assert (Hr : 1 <= j < nsyms).
    { destruct Hfrom as [(b & Hb)|(k & Hk)];
        [apply (wf_bucket_entry _ _ linked_wf) in Hb
        |apply (wf_chain_entry _ _ linked_wf) in Hk]; lia. }
    destruct (GetSymbol_image f j sym Hr Hs) as (e & He & _ & Hn).
    apply Hn in Hm. destruct (Z.to_nat j) as [|k]; [discriminate|].
    now destruct (value_of_None _ _ Hv k e He).
Qed.

End Resolution.

(** ** The tables themselves are such an image *)

#[local] Existing Instance Linked_HashAccess.
#[local] Existing Instance Linked_SymbolAccess.
#[local] Existing Instance Linked_StringAccess.

Lemma Linked_Laws : HashAccessLaws.
Proof.
  split; cbn; intros f i v H;
    [destruct (Z.leb_spec 0 i), (Z.ltb_spec i nbucket)
    |destruct (Z.leb_spec 0 i), (Z.ltb_spec i nsyms)];
    cbn in H; try discriminate; lia.
Qed.

Lemma Linked_image (f : ElfFileImpl) : LinkedImage f.
Proof.
  split; try reflexivity.
  - intros b Hb. cbn. destruct (Z.leb_spec 0 b), (Z.ltb_spec b nbucket);
      try lia. reflexivity.
  - intros i Hi. cbn. destruct (Z.leb_spec 0 i), (Z.ltb_spec i nsyms);
      try lia. reflexivity.
  - intros k e He. pose proof (entry_range k e He) as Hk.
    exists (mkElf_Sym (Z.of_nat k) (snd e) 0 0 0). cbn.
    unfold symbol_at, name_of.
    destruct (Z.eqb_spec (Z.of_nat k) 0); [lia|].
    destruct (Z.ltb_spec (Z.of_nat k) 0); [lia|].
    destruct (Z.ltb_spec 0 (Z.of_nat k)); [|lia].
    rewrite Nat2Z.id, He. auto.
Qed.

End Link.

(** ** Three symbols in two buckets *)

(** The symbols of the image of [ElfImage], linked into two buckets: the
    tables are those of the image, with the chains in the other order. *)
Lemma link_oat :
  map (buckets (link oat_symbols 2)) [0; 1] = [3; 2] /\
  map (chains (link oat_symbols 2)) [0; 1; 2; 3] = [0; 0; 1; 0] /\
  map (FindDynamicSymbolAddress
         (HA := Linked_HashAccess oat_symbols 2)
         (SA := Linked_SymbolAccess oat_symbols)
         (StrA := Linked_StringAccess oat_symbols) linked_object)
    ["oatdata"; "oatexec"; "oatlastword"; "missing"]%string
  = [Some 0x70001000; Some 0x70002000; Some 0x70002ffc; None].
Proof. vm_compute. auto. Qed.

Lemma oat_symbols_distinct : NoDup (map fst oat_symbols).
Proof. repeat constructor; cbn; intuition discriminate. Qed.

Lemma link_oat_resolves (name : string) :
  FindDynamicSymbolAddress
    (HA := Linked_HashAccess oat_symbols 1)
    (SA := Linked_SymbolAccess oat_symbols)
    (StrA := Linked_StringAccess oat_symbols) linked_object name
  = option_map (fun v => 0x70000000 + v) (value_of name oat_symbols).
Proof.
  apply (linked_image_resolves oat_symbols 1 oat_symbols_distinct ltac:(lia)
           (Laws := Linked_Laws oat_symbols 1) linked_object
           (Himg := Linked_image oat_symbols 1 linked_object)).
Qed.
