(* ===== verification/ElfTables.v ===== *)
(** * ElfTables: the hash, symbol and string tables over the mapped bytes

    The views of the tables that src/runtime/oat/elf_file_impl.h declares
    (lines 79-81, 114-120 and 131-132), with the bodies the design document
    describes: a view adds an offset to a cached section pointer and reads
    there, and no read leaves the regions the object owns.  The module
    [Mapped] holds them under the names of the header; the instances at its
    end make them the accessors the resolver of [ElfHash] runs on, and
    [Mapped_Laws] shows that they keep the range checks the resolver relies
    on. *)

From Stdlib Require Import ZArith Lia Bool Ascii String List.
From Stdlib Require Import Strings.Byte.
From S2P Require Import Prelude ElfTypes ElfFile ElfHash.
Import ListNotations.

#[local] Open Scope Z_scope.

(** The C string at address [p], from the first region that holds [p]; [None]
    if no region does or the region ends before the string does. *)
Fixpoint cstring_in (ms : list MemMap) (p : Z) : option string :=
  match ms with
  | [] => None
  | m :: ms' =>
      if in_map m p
      then cstring (skipn (Z.to_nat (p - MemMap_Begin m)) (mm_bytes m))
      else cstring_in ms' p
  end.

Definition read_cstring (f : ElfFileImpl) (p : Z) : option string :=
  cstring_in (mappings f) p.

Module Mapped.
Section Views.
Context {T : ElfTypes}.

(** [sizeof(Elf_Word)] *)
Definition sizeof_Word : nat := Z.to_nat (Word / 8).

Definition GetSymbolSectionStart (f : ElfFileImpl) (section_type : Z)
  : option Z :=
  if section_type =? SHT_SYMTAB then symtab_section_start_ f
  else if section_type =? SHT_DYNSYM then dynsym_section_start_ f
  else None.

Definition GetStringSectionStart (f : ElfFileImpl) (section_type : Z)
  : option Z :=
  if section_type =? SHT_SYMTAB then strtab_section_start_ f
  else if section_type =? SHT_DYNSYM then dynstr_section_start_ f
  else None.

Definition GetHashSectionStart (f : ElfFileImpl) : option Z :=
  hash_section_start_ f.

(** [GetHashSectionStart()[i]], read with the bounds check. *)
Definition hash_word (f : ElfFileImpl) (i : Z) : option Z :=
  match GetHashSectionStart f with
  | Some p => read_int f (p + i * Z.of_nat sizeof_Word) sizeof_Word
  | None => None
  end.

(** The two leading words of the hash table; without a hash table both
    numbers are 0. *)
Definition GetHashBucketNum (f : ElfFileImpl) : Z :=
  match hash_word f 0 with Some v => v | None => 0 end.

Definition GetHashChainNum (f : ElfFileImpl) : Z :=
  match hash_word f 1 with Some v => v | None => 0 end.

Definition GetHashBucket (f : ElfFileImpl) (i : Z) : option Z :=
  if (0 <=? i) && (i <? GetHashBucketNum f) then hash_word f (2 + i)
  else None.

Definition GetHashChain (f : ElfFileImpl) (i : Z) : option Z :=
  if (0 <=? i) && (i <? GetHashChainNum f)
  then hash_word f (2 + GetHashBucketNum f + i)
  else None.

Definition IsSymbolSectionType (section_type : Z) : bool :=
  (section_type =? SHT_SYMTAB) || (section_type =? SHT_DYNSYM).

(** [section_header.sh_size / section_header.sh_entsize] *)
Definition GetSymbolNum (f : ElfFileImpl) (section_header : Elf_Shdr) : Z :=
  sh_size section_header / sh_entsize section_header.

(** An [Elf_Sym] from the [sizeof(Elf_Sym)] bytes that hold it. *)
Definition decode_Sym (bs : list byte) : option Elf_Sym :=
  match get_field Sym "st_name" bs, get_field Sym "st_value" bs,
        get_field Sym "st_size" bs, get_field Sym "st_info" bs,
        get_field Sym "st_shndx" bs with
  | Some name, Some value, Some size, Some info, Some shndx =>
      Some (mkElf_Sym name value size info shndx)
  | _, _, _, _, _ => None
  end.

Definition Sym_fields (s : Elf_Sym) : list (string * Z) :=
  [("st_name"%string, st_name s); ("st_value"%string, st_value s);
   ("st_size"%string, st_size s); ("st_info"%string, st_info s);
   ("st_shndx"%string, st_shndx s)].

(** The bytes of an [Elf_Sym], as the linker writes them. *)
Definition encode_Sym (s : Elf_Sym) : list byte :=
  encode_struct Sym (Sym_fields s).

(** Every field of the symbol is a value of its type. *)
Definition Sym_fits (s : Elf_Sym) : bool :=
  forallb (fun nv => fits Sym (fst nv) (snd nv)) (Sym_fields s).

(** [GetSymbolSectionStart(section_type) + i] *)
Definition GetSymbol (f : ElfFileImpl) (section_type i : Z)
  : option Elf_Sym :=
  match GetSymbolSectionStart f section_type with
  | Some p =>
      match read_bytes f (p + i * Z.of_nat (sizeof Sym)) (sizeof Sym) with
      | Some bs => decode_Sym bs
      | None => None
      end
  | None => None
  end.

(** [GetStringSectionStart(section_type) + i], null for [i == 0]. *)
Definition GetString (f : ElfFileImpl) (section_type i : Z) : option string :=
  if i =? 0 then None
  else
    match GetStringSectionStart f section_type with
    | Some p => read_cstring f (p + i)
    | None => None
    end.

End Views.
End Mapped.

#[export] Instance Mapped_HashAccess {T : ElfTypes} : HashAccess := {|
  ElfFile.GetHashSectionStart := Mapped.GetHashSectionStart;
  ElfFile.GetHashBucketNum := Mapped.GetHashBucketNum;
  ElfFile.GetHashChainNum := Mapped.GetHashChainNum;
  ElfFile.GetHashBucket := Mapped.GetHashBucket;
  ElfFile.GetHashChain := Mapped.GetHashChain
|}.

#[export] Instance Mapped_SymbolAccess {T : ElfTypes} : SymbolAccess := {|
  ElfFile.IsSymbolSectionType := Mapped.IsSymbolSectionType;
  ElfFile.GetSymbolNum := Mapped.GetSymbolNum;
  ElfFile.GetSymbol := Mapped.GetSymbol
|}.

#[export] Instance Mapped_StringAccess {T : ElfTypes} : StringAccess := {|
  ElfFile.GetString := Mapped.GetString
|}.

(** ** Reads stay inside the regions *)

Lemma cstring_in_valid (ms : list MemMap) (p : Z) (s : string) :
  cstring_in ms p = Some s -> existsb (fun m => in_map m p) ms = true.
Proof.
  induction ms as [|m ms IH]; cbn; [discriminate|].
  destruct (in_map m p); [reflexivity|exact IH].
Qed.

Section ViewFacts.
Context {T : ElfTypes}.

(** The accessors of the hash table give an entry only for an index in
    range. *)
#[export] Instance Mapped_Laws : HashAccessLaws.
Proof.
  split; intros f i v; cbn; unfold Mapped.GetHashBucket, Mapped.GetHashChain.
  - destruct (Z.leb_spec 0 i), (Z.ltb_spec i (Mapped.GetHashBucketNum f));
      cbn; try discriminate. lia.
  - destruct (Z.leb_spec 0 i), (Z.ltb_spec i (Mapped.GetHashChainNum f));
      cbn; try discriminate. lia.
Qed.

Lemma hash_word_in_bounds (f : ElfFileImpl) (i v : Z) :
  Mapped.hash_word f i = Some v ->
  0 <= v < 2 ^ (8 * Z.of_nat Mapped.sizeof_Word) /\
  exists p m, hash_section_start_ f = Some p /\ In m (mappings f) /\
    MemMap_Begin m <= p + i * Z.of_nat Mapped.sizeof_Word /\
    p + (i + 1) * Z.of_nat Mapped.sizeof_Word <= MemMap_End m.
Proof.
  unfold Mapped.hash_word, Mapped.GetHashSectionStart.
  destruct (hash_section_start_ f) as [p|]; [|discriminate].
  intros H. apply read_int_in_bounds in H as (Hv & m & Hin & Hlo & Hhi).
  split; [assumption|]. exists p, m. repeat split; try assumption. lia.
Qed.

(** An entry of a bucket is read inside a region the object owns, at an
    index below [nbucket]. *)
Theorem GetHashBucket_in_bounds (f : ElfFileImpl) (i v : Z) :
  Mapped.GetHashBucket f i = Some v ->
  0 <= i < Mapped.GetHashBucketNum f /\
  exists p m, hash_section_start_ f = Some p /\ In m (mappings f) /\
    MemMap_Begin m <= p + (2 + i) * Z.of_nat Mapped.sizeof_Word /\
    p + (2 + i + 1) * Z.of_nat Mapped.sizeof_Word <= MemMap_End m.
Proof.
  intros H. split; [exact (GetHashBucket_range f i v H)|].
  unfold Mapped.GetHashBucket in H.
  destruct ((0 <=? i) && (i <? Mapped.GetHashBucketNum f)); [|discriminate].
  now apply hash_word_in_bounds in H as [_ H].
Qed.

(** An entry of the chain array is only read at an index below
    [nchain], and the word that is read lies inside a region the object
    owns. *)
Theorem GetHashChain_in_bounds (f : ElfFileImpl) (i v : Z) :
  Mapped.GetHashChain f i = Some v ->
  0 <= i < Mapped.GetHashChainNum f /\
  exists p m, hash_section_start_ f = Some p /\ In m (mappings f) /\
    MemMap_Begin m <=
      p + (2 + Mapped.GetHashBucketNum f + i) * Z.of_nat Mapped.sizeof_Word /\
    p + (2 + Mapped.GetHashBucketNum f + i + 1) * Z.of_nat Mapped.sizeof_Word
      <= MemMap_End m.
Proof.
  intros H. split; [exact (GetHashChain_range f i v H)|].
  unfold Mapped.GetHashChain in H.
  destruct ((0 <=? i) && (i <? Mapped.GetHashChainNum f)); [|discriminate].
  now apply hash_word_in_bounds in H as [_ H].
Qed.

(** Without a hash table the numbers of buckets and of chain entries
    are 0, and every lookup of a dynamic symbol returns not-found. *)
Theorem no_hash_table_not_found (f : ElfFileImpl) (name : string) :
  hash_section_start_ f = None ->
  Mapped.GetHashBucketNum f = 0 /\ Mapped.GetHashChainNum f = 0 /\
  FindDynamicSymbolAddress f name = None.
Proof.
  intros H. unfold FindDynamicSymbolAddress, FindDynamicSymbol. cbn.
  unfold Mapped.GetHashBucketNum, Mapped.GetHashChainNum, Mapped.hash_word,
    Mapped.GetHashSectionStart.
  rewrite H. auto.
Qed.

Lemma GetSymbol_read (f : ElfFileImpl) (section_type i : Z) (sym : Elf_Sym) :
  Mapped.GetSymbol f section_type i = Some sym ->
  exists p bs, Mapped.GetSymbolSectionStart f section_type = Some p /\
    read_bytes f (p + i * Z.of_nat (sizeof Sym)) (sizeof Sym) = Some bs /\
    Mapped.decode_Sym bs = Some sym.
Proof.
  unfold Mapped.GetSymbol.
  destruct (Mapped.GetSymbolSectionStart f section_type) as [p|];
    [|discriminate].
  destruct (read_bytes f _ _) as [bs|] eqn:Hr; [|discriminate]. eauto.
Qed.

(** A symbol is only returned for one of the two symbol section types,
    and its [sizeof(Elf_Sym)] bytes lie inside a region the object owns. *)
Theorem GetSymbol_in_bounds (f : ElfFileImpl) (section_type i : Z)
    (sym : Elf_Sym) :
  Mapped.GetSymbol f section_type i = Some sym ->
  Mapped.IsSymbolSectionType section_type = true /\
  exists p m, Mapped.GetSymbolSectionStart f section_type = Some p /\
    In m (mappings f) /\
    MemMap_Begin m <= p + i * Z.of_nat (sizeof Sym) /\
    p + (i + 1) * Z.of_nat (sizeof Sym) <= MemMap_End m.
Proof.
  intros H. apply GetSymbol_read in H as (p & bs & Hp & Hr & _). split.
  - unfold Mapped.GetSymbolSectionStart in Hp. unfold Mapped.IsSymbolSectionType.
    destruct (section_type =? SHT_SYMTAB); [reflexivity|].
    destruct (section_type =? SHT_DYNSYM); [reflexivity|discriminate].
  - apply read_bytes_in_bounds in Hr as (_ & m & Hin & Hlo & Hhi).
    exists p, m. repeat split; try assumption. lia.
Qed.

(** The reserved offset 0 has no string, and a string that is
    returned starts at an address the object owns. *)
Theorem GetString_valid (f : ElfFileImpl) (section_type i : Z) (s : string) :
  Mapped.GetString f section_type 0 = None /\
  (Mapped.GetString f section_type i = Some s ->
   i <> 0 /\
   exists p, Mapped.GetStringSectionStart f section_type = Some p /\
             ValidPointer f (p + i) = true).
Proof.
  split; [reflexivity|]. unfold Mapped.GetString.
  destruct (Z.eqb_spec i 0); [discriminate|].
  destruct (Mapped.GetStringSectionStart f section_type) as [p|];
    [|discriminate].
  intros H. split; [assumption|]. exists p. split; [reflexivity|].
  eapply cstring_in_valid; eassumption.
Qed.

(** A symbol whose fields are values of their types is read back from
    the bytes it was written to, for every well-formed layout of
    [Elf_Sym]. *)
Theorem decode_encode_Sym (s : Elf_Sym) :
  layout_ok Sym = true -> Mapped.Sym_fits s = true ->
  Mapped.decode_Sym (Mapped.encode_Sym s) = Some s.
Proof.
  intros Hok Hfit. unfold Mapped.Sym_fits in Hfit.
  rewrite forallb_forall in Hfit.
  assert (Hget : forall name v, In (name, v) (Mapped.Sym_fields s) ->
            get_field Sym name (Mapped.encode_Sym s) = Some v).
  { intros name v Hin. apply get_encode_struct; auto.
    - cbn. repeat constructor; cbn; intuition discriminate.
    - exact (Hfit _ Hin). }
  unfold Mapped.decode_Sym.
  rewrite !(fun name v => Hget name v) with (v := st_name s),
          !(Hget _ (st_value s)), !(Hget _ (st_size s)),
          !(Hget _ (st_info s)), !(Hget _ (st_shndx s)) by (cbn; tauto).
  now destruct s.
Qed.

End ViewFacts.
