(* ===== verification/ElfLinkImage.v ===== *)
(** * ElfLinkImage: the tables of a linked image, byte by byte

    The views of [ElfTables] read the hash table, the dynamic symbol table
    and its string table from the bytes of the regions of an object
    (src/runtime/oat/elf_file_impl.h, lines 79-81, 116-120 and 131-132).
    This file writes the three tables the way the format lays them out, for
    the symbols and the hash table of [ElfLink]:

    - [hash_bytes]: the words [nbucket], [nchain], the bucket array and the
      chain array, each an [Elf_Word];
    - [dynsym_bytes]: the reserved symbol 0 and one [Elf_Sym] for each
      symbol, whose [st_name] is the offset of its name in the string
      table;
    - [dynstr_bytes]: a NUL, then the names, each ended by a NUL.

    [held f p bs] says that the object [f] has the bytes [bs] at the address
    [p], in the file mapping or in a segment.  The theorems show that the
    views read back from the bytes what was written ([Mapped_image]), so
    that the resolver over the mapped bytes finds every symbol of a linked
    image at its address, and no other name ([linked_bytes_resolve]).

    The encoders model no code of the loader; the views and the resolver
    they are read with do. *)

From Stdlib Require Import ZArith Lia Bool Ascii String List.
From Stdlib Require Import Strings.Byte.
From S2P Require Import Prelude ElfTypes ElfFile ElfHash ElfLink ElfTables.
Import ListNotations.

#[local] Open Scope Z_scope.

(** ** Where an object holds a table *)

(** The object has the bytes [bs] at the address [p]: they are in one of
    its regions, and no region that a read looks at before that one
    overlaps them. *)
Definition held (f : ElfFileImpl) (p : Z) (bs : list byte) : Prop :=
  exists (before : list MemMap) (m : MemMap) (after : list MemMap)
         (off : nat),
    mappings f = before ++ m :: after /\
    (forall m', In m' before ->
       MemMap_End m' <= p \/ p + Z.of_nat (length bs) <= MemMap_Begin m') /\
    p = MemMap_Begin m + Z.of_nat off /\
    slice off (length bs) (mm_bytes m) = Some bs.

(** A name that a string table can hold: it has no NUL. *)
Definition nul_free (s : string) : bool :=
  forallb (fun c => negb (Ascii.eqb c Ascii.zero)) (list_ascii_of_string s).

(** The indices [0], ..., [n - 1] of an array. *)
Definition indices (n : Z) : list Z := map Z.of_nat (seq 0 (Z.to_nat n)).

(** ** The three tables *)

Section Tables.
Context {T : ElfTypes}.
Variables (syms : list (string * Z)) (nbucket : Z).

(** .hash: [nbucket], [nchain], the buckets, the chains. *)
Definition hash_words : list Z :=
  [nbucket; nsyms syms]
  ++ map (buckets (link syms nbucket)) (indices nbucket)
  ++ map (chains (link syms nbucket)) (indices (nsyms syms)).

Definition encode_Word (w : Z) : list byte := le_split Mapped.sizeof_Word w.

Definition hash_bytes : list byte := flat_map encode_Word hash_words.

(** .dynstr: the names one after the other, behind the NUL at offset 0. *)
Definition dynstr_bytes : list byte :=
  x00 :: flat_map (fun e => cstring_bytes (fst e)) syms.

(** .dynsym: the symbols of [l], the name of the first one at the offset
    [o] of the string table. *)
Fixpoint symbols_from (o : nat) (l : list (string * Z)) : list Elf_Sym :=
  match l with
  | [] => []
  | e :: l' =>
      mkElf_Sym (Z.of_nat o) (snd e) 0 0 0
      :: symbols_from (o + length (cstring_bytes (fst e))) l'
  end.

Definition dynsym_entries : list Elf_Sym :=
  mkElf_Sym 0 0 0 0 0 :: symbols_from 1 syms.

Definition dynsym_bytes : list byte :=
  flat_map Mapped.encode_Sym dynsym_entries.

(** What the format can hold: the two numbers are values of an [Elf_Word],
    no name has a NUL, and every field of every symbol is a value of its
    type. *)
Definition linkable : bool :=
  (0 <? nbucket) && (nbucket <? 2 ^ 32) && (nsyms syms <? 2 ^ 32) &&
  forallb (fun e => nul_free (fst e)) syms &&
  forallb Mapped.Sym_fits dynsym_entries.

(** The object has the three tables where its cached pointers point. *)
Record holds_tables (f : ElfFileImpl) : Prop := mkHoldsTables {
  hash_held :
    exists p, hash_section_start_ f = Some p /\ held f p hash_bytes;
  dynsym_held :
    exists p, dynsym_section_start_ f = Some p /\ held f p dynsym_bytes;
  dynstr_held :
    exists p, dynstr_section_start_ f = Some p /\ held f p dynstr_bytes
}.

End Tables.

(** An object as [Load] leaves it, with the three tables of the symbols of
    [ElfImage] in its segment, one behind the other, and the mapping of the
    file elsewhere. *)
Section Example.
#[local] Existing Instance ElfTypes64.

Definition oat_tables : list byte :=
  hash_bytes oat_symbols 2 ++ dynsym_bytes oat_symbols
  ++ dynstr_bytes oat_symbols.

Definition oat_hash_at : Z := 0x20000.
Definition oat_dynsym_at : Z :=
  oat_hash_at + Z.of_nat (length (hash_bytes oat_symbols 2)).
Definition oat_dynstr_at : Z :=
  oat_dynsym_at + Z.of_nat (length (dynsym_bytes oat_symbols)).

Definition oat_linked : ElfFileImpl :=
  mkElfFileImpl "/data/test.oat" (mkMemMap 0x10000 (repeat x00 64) PROT_READ)
    (Some 0x10000) [mkMemMap 0x20000 oat_tables PROT_READ] (Some 0x20000)
    None None None None None (Some oat_dynsym_at) None (Some oat_dynstr_at)
    (Some oat_hash_at).

End Example.

(** ** Reads of the bytes an object holds *)

Lemma map_read_None (m : MemMap) (p : Z) (n : nat) :
  (0 < n)%nat -> MemMap_End m <= p \/ p < MemMap_Begin m ->
  map_read m p n = None.
Proof.
  unfold map_read, MemMap_End, MemMap_Size. intros Hn H.
  destruct (Z.leb_spec (MemMap_Begin m) p); [|reflexivity].
  apply slice_None. lia.
Qed.

Lemma read_in_app (before ms : list MemMap) (p : Z) (n : nat) :
  (forall m, In m before -> map_read m p n = None) ->
  read_in (before ++ ms) p n = read_in ms p n.
Proof.
  induction before as [|m before IH]; intros H; [reflexivity|].
  cbn [app read_in]. rewrite (H m) by now left.
  apply IH. intros m' Hm'. apply H. now right.
Qed.

Lemma cstring_in_app (before ms : list MemMap) (p : Z) :
  (forall m, In m before -> in_map m p = false) ->
  cstring_in (before ++ ms) p = cstring_in ms p.
Proof.
  induction before as [|m before IH]; intros H; [reflexivity|].
  cbn [app cstring_in]. rewrite (H m) by now left.
  apply IH. intros m' Hm'. apply H. now right.
Qed.

(** The bytes after the offset [off + i] of a list, where the list has the
    slice [r] at the offset [off]. *)
Lemma skipn_slice {A} (off n i : nat) (l r : list A) :
  slice off n l = Some r -> (i <= n)%nat ->
  skipn (off + i) l = skipn i r ++ skipn (off + n) l.
Proof.
  unfold slice. destruct (Nat.leb_spec (off + n) (length l)); [|discriminate].
  intros [= <-] Hi. rewrite skipn_firstn_comm, skipn_skipn.
  replace (skipn (off + n) l) with (skipn (n - i) (skipn (i + off) l))
    by (rewrite skipn_skipn; f_equal; lia).
  now rewrite firstn_skipn, (Nat.add_comm off i).
Qed.

Section Held.
Variables (f : ElfFileImpl) (p : Z) (bs : list byte).
Hypothesis Hheld : held f p bs.

(** A read inside the table returns the bytes of the table. *)
Lemma held_read (i n : nat) (r : list byte) :
  slice i n bs = Some r -> (0 < n)%nat ->
  read_bytes f (p + Z.of_nat i) n = Some r.
Proof.
  destruct Hheld as (before & m & after & off & Hm & Hdis & -> & Hs).
  intros Hr Hn. assert (Hin : (i + n <= length bs)%nat)
    by (apply slice_Some; eauto).
  unfold read_bytes. rewrite Hm, read_in_app.
  - cbn [read_in]. unfold map_read.
    destruct (Z.leb_spec (MemMap_Begin m)
                (MemMap_Begin m + Z.of_nat off + Z.of_nat i)); [|lia].
    replace (Z.to_nat (MemMap_Begin m + Z.of_nat off + Z.of_nat i
                       - MemMap_Begin m)) with (off + i)%nat by lia.
    now rewrite (slice_slice _ _ _ _ _ _ _ Hs Hr).
  - intros m' Hm'. apply map_read_None; [assumption|].
    destruct (Hdis m' Hm'); lia.
Qed.

(** A string that ends inside the table is read as it is. *)
Lemma held_cstring (i : nat) (s : string) :
  (i < length bs)%nat -> cstring (skipn i bs) = Some s ->
  read_cstring f (p + Z.of_nat i) = Some s.
Proof.
  destruct Hheld as (before & m & after & off & Hm & Hdis & -> & Hs).
  intros Hi Hc. assert (Hlen : (off + length bs <= length (mm_bytes m))%nat)
    by (apply slice_Some; eauto).
  unfold read_cstring. rewrite Hm, cstring_in_app.
  - cbn [cstring_in]. unfold in_map, MemMap_End, MemMap_Size.
    destruct (Z.leb_spec (MemMap_Begin m)
                (MemMap_Begin m + Z.of_nat off + Z.of_nat i)); [|lia].
    destruct (Z.ltb_spec (MemMap_Begin m + Z.of_nat off + Z.of_nat i)
                (MemMap_Begin m + Z.of_nat (length (mm_bytes m)))); [|lia].
    cbn [andb].
    replace (Z.to_nat (MemMap_Begin m + Z.of_nat off + Z.of_nat i
                       - MemMap_Begin m)) with (off + i)%nat by lia.
    rewrite (skipn_slice _ _ i _ _ Hs) by lia. now apply cstring_app.
  - intros m' Hm'. unfold in_map.
    destruct (Hdis m' Hm');
      [destruct (Z.ltb_spec (MemMap_Begin m + Z.of_nat off + Z.of_nat i)
                   (MemMap_End m'))
      |destruct (Z.leb_spec (MemMap_Begin m')
                   (MemMap_Begin m + Z.of_nat off + Z.of_nat i))];
      rewrite ?andb_false_r; try reflexivity; lia.
Qed.

(** Every address of the table passes [ValidPointer]. *)
Lemma held_valid (i : nat) :
  (i < length bs)%nat -> ValidPointer f (p + Z.of_nat i) = true.
Proof.
  destruct Hheld as (before & m & after & off & Hm & _ & -> & Hs).
  intros Hi. assert (Hlen : (off + length bs <= length (mm_bytes m))%nat)
    by (apply slice_Some; eauto).
  unfold ValidPointer. rewrite Hm, existsb_app. cbn [existsb].
  unfold in_map at 2, MemMap_End, MemMap_Size.
  destruct (Z.leb_spec (MemMap_Begin m)
              (MemMap_Begin m + Z.of_nat off + Z.of_nat i)); [|lia].
  destruct (Z.ltb_spec (MemMap_Begin m + Z.of_nat off + Z.of_nat i)
              (MemMap_Begin m + Z.of_nat (length (mm_bytes m)))); [|lia].
  cbn [andb orb]. apply orb_true_r.
Qed.

(** A part of the table is held where it is in the table. *)
Lemma held_sub (o n : nat) (r : list byte) :
  slice o n bs = Some r -> held f (p + Z.of_nat o) r.
Proof.
  destruct Hheld as (before & m & after & off & Hm & Hdis & -> & Hs).
  intros Hr. assert (Hin : (o + n <= length bs)%nat)
    by (apply slice_Some; eauto).
  pose proof (slice_length _ _ _ _ Hr) as Hlen.
  exists before, m, after, (off + o)%nat. rewrite Hlen. repeat split.
  - exact Hm.
  - intros m' Hm'. destruct (Hdis m' Hm'); lia.
  - lia.
  - exact (slice_slice _ _ _ _ _ _ _ Hs Hr).
Qed.

(** The whole table, and the entry [i] of a table of entries of [n]
    bytes. *)
Lemma held_read_all :
  (0 < length bs)%nat -> read_bytes f p (length bs) = Some bs.
Proof.
  intros Hn. replace p with (p + Z.of_nat 0) by lia.
  apply held_read; [|assumption]. unfold slice. cbn [skipn Nat.add].
  now rewrite Nat.leb_refl, firstn_all.
Qed.

Lemma held_read_entry {A} (enc : A -> list byte) (n : nat) (l : list A)
    (i : nat) (x : A) :
  bs = flat_map enc l -> (forall x, length (enc x) = n) -> (0 < n)%nat ->
  nth_error l i = Some x ->
  read_bytes f (p + Z.of_nat i * Z.of_nat n) n = Some (enc x).
Proof.
  intros Hbs Hn Hpos Hi. rewrite <- Nat2Z.inj_mul.
  apply held_read; [|assumption]. rewrite Hbs. now apply slice_flat_map.
Qed.

End Held.

(** The file mapping holds its bytes, and a segment that the file mapping
    does not overlap holds its bytes. *)
Lemma held_map (f : ElfFileImpl) :
  held f (Begin f) (mm_bytes (map_ f)).
Proof.
  exists [], (map_ f), (segments_ f), 0%nat. repeat split.
  - intros m' [].
  - unfold Begin. lia.
  - unfold slice. cbn [skipn Nat.add]. now rewrite Nat.leb_refl, firstn_all.
Qed.

Lemma held_segment (f : ElfFileImpl) (m : MemMap) (after : list MemMap) :
  segments_ f = m :: after ->
  End f <= MemMap_Begin m \/ MemMap_End m <= Begin f ->
  held f (MemMap_Begin m) (mm_bytes m).
Proof.
  intros Hs Hdis. exists [map_ f], m, after, 0%nat. repeat split.
  - unfold mappings. now rewrite Hs.
  - intros m' [<-|[]]. unfold End, Begin, MemMap_End, MemMap_Size in *. lia.
  - lia.
  - unfold slice. cbn [skipn Nat.add]. now rewrite Nat.leb_refl, firstn_all.
Qed.

(** Where a table is held depends on the regions of the object only. *)
Lemma held_mappings (f g : ElfFileImpl) (p : Z) (bs : list byte) :
  mappings g = mappings f -> held f p bs -> held g p bs.
Proof.
  intros Hfg (before & m & after & off & Hm & H).
  exists before, m, after, off. now rewrite Hfg.
Qed.

(** ** What the tables hold, entry by entry *)

Lemma nul_free_spec (s : string) :
  nul_free s = true -> ~ In Ascii.zero (list_ascii_of_string s).
Proof.
  unfold nul_free. rewrite forallb_forall. intros H Hin.
  specialize (H _ Hin). now rewrite Ascii.eqb_refl in H.
Qed.

Lemma nth_error_indices {A} (g : Z -> A) (n : Z) (k : nat) :
  (k < Z.to_nat n)%nat ->
  nth_error (map g (indices n)) k = Some (g (Z.of_nat k)).
Proof.
  intros Hk. unfold indices. rewrite !nth_error_map, nth_error_seq.
  now destruct (Nat.ltb_spec k (Z.to_nat n)); [|lia].
Qed.

Lemma indices_length (n : Z) : length (indices n) = Z.to_nat n.
Proof. unfold indices. now rewrite length_map, length_seq. Qed.

Section TableFacts.
Context {T : ElfTypes}.
Variables (syms : list (string * Z)) (nbucket : Z).
Hypothesis HT : ElfTypes_ok T = true.

#[local] Abbreviation names := (fun e : string * Z => cstring_bytes (fst e)).

Lemma sizeof_Word_4 : Mapped.sizeof_Word = 4%nat.
Proof.
  unfold ElfTypes_ok in HT. rewrite !andb_true_iff, !Z.eqb_eq in HT.
  unfold Mapped.sizeof_Word. now replace Word with 32 by (symmetry; tauto).
Qed.

Lemma layout_ok_Sym : layout_ok Sym = true.
Proof. unfold ElfTypes_ok in HT. rewrite !andb_true_iff in HT. tauto. Qed.

(** A symbol has at least the bytes of its name field. *)
Lemma Sym_fits_sizeof (s : Elf_Sym) :
  Mapped.Sym_fits s = true -> (0 < sizeof Sym)%nat.
Proof.
  unfold Mapped.Sym_fits, Mapped.Sym_fields. cbn [forallb fst snd].
  rewrite !andb_true_iff. intros [Hn _]. unfold fits in Hn.
  destruct (find_field Sym "st_name") as [fld|] eqn:E; [|discriminate].
  apply find_field_In in E as [Hin _].
  pose proof (fields_ok_In _ _ _ _ layout_ok_Sym Hin). lia.
Qed.

(** The four parts of the hash table. *)
Lemma hash_words_bucket (b : Z) :
  0 <= b < nbucket ->
  nth_error (hash_words syms nbucket) (2 + Z.to_nat b)
  = Some (buckets (link syms nbucket) b).
Proof.
  intros Hb. unfold hash_words. cbn [app nth_error Nat.add].
  rewrite nth_error_app1 by (rewrite length_map, indices_length; lia).
  rewrite nth_error_indices by lia. now rewrite Z2Nat.id by lia.
Qed.

Lemma hash_words_chain (i : Z) :
  0 <= nbucket -> 0 <= i < nsyms syms ->
  nth_error (hash_words syms nbucket) (2 + Z.to_nat nbucket + Z.to_nat i)
  = Some (chains (link syms nbucket) i).
Proof.
  intros Hn Hi. unfold hash_words.
  replace (2 + Z.to_nat nbucket + Z.to_nat i)%nat
    with (S (S (Z.to_nat nbucket + Z.to_nat i))) by lia.
  cbn [app nth_error].
  rewrite nth_error_app2 by (rewrite length_map, indices_length; lia).
  rewrite length_map, indices_length.
  replace (Z.to_nat nbucket + Z.to_nat i - Z.to_nat nbucket)%nat
    with (Z.to_nat i) by lia.
  rewrite nth_error_indices by lia. now rewrite Z2Nat.id by lia.
Qed.

(** The symbols and their names: the entry of a symbol has the value of
    the symbol and the offset of its name, which is not 0. *)
Lemma symbols_from_spec (l : list (string * Z)) :
  forall (pre : list byte) (j : nat) (e : string * Z),
    forallb (fun e => nul_free (fst e)) l = true ->
    nth_error l j = Some e ->
    exists o,
      nth_error (symbols_from (length pre) l) j
      = Some (mkElf_Sym (Z.of_nat o) (snd e) 0 0 0) /\
      (length pre <= o < length (pre ++ flat_map names l))%nat /\
      cstring (skipn o (pre ++ flat_map names l)) = Some (fst e).
Proof.
  induction l as [|a l IH]; intros pre [|j] e Hnul He; try discriminate;
    cbn [forallb] in Hnul; apply andb_true_iff in Hnul as [Ha Hl];
    cbn [nth_error symbols_from flat_map] in *.
  - injection He as ->. exists (length pre). split; [reflexivity|].
    rewrite !length_app, cstring_bytes_length. split; [lia|].
    rewrite skipn_app, skipn_all, Nat.sub_diag. cbn [app skipn].
    apply cstring_bytes_app, nul_free_spec, Ha.
  - destruct (IH (pre ++ cstring_bytes (fst a)) j e Hl He)
      as (o & Ho & Hr & Hc).
    rewrite length_app in Ho, Hr. rewrite <- app_assoc in Hr, Hc.
    exists o. repeat split; try assumption; lia.
Qed.

Lemma dynsym_entry (k : nat) (e : string * Z) :
  forallb (fun e => nul_free (fst e)) syms = true ->
  entry syms k = Some e ->
  exists o,
    nth_error (dynsym_entries syms) k
    = Some (mkElf_Sym (Z.of_nat o) (snd e) 0 0 0) /\
    (0 < o < length (dynstr_bytes syms))%nat /\
    cstring (skipn o (dynstr_bytes syms)) = Some (fst e).
Proof.
  intros Hnul He. destruct k as [|k]; [discriminate|]. cbn [entry] in He.
  destruct (symbols_from_spec syms [x00] k e Hnul He) as (o & Ho & Hr & Hc).
  exists o. unfold dynsym_entries, dynstr_bytes.
  cbn [length app nth_error] in *. repeat split; try assumption; lia.
Qed.

(** ** What the views read *)

Section Views.
Variable f : ElfFileImpl.

Lemma hash_word_held (p : Z) (i : nat) (w : Z) :
  hash_section_start_ f = Some p -> held f p (hash_bytes syms nbucket) ->
  nth_error (hash_words syms nbucket) i = Some w -> 0 <= w < 2 ^ 32 ->
  Mapped.hash_word f (Z.of_nat i) = Some w.
Proof.
  intros Hp Hh Hi Hw. unfold Mapped.hash_word, Mapped.GetHashSectionStart.
  rewrite Hp. unfold read_int. rewrite <- Nat2Z.inj_mul.
  rewrite (held_read f p _ Hh _ _ (encode_Word w)).
  - cbn [option_map]. f_equal. apply le_combine_split_small.
    rewrite sizeof_Word_4. exact Hw.
  - apply slice_flat_map; [intros x; apply le_split_length|assumption].
  - rewrite sizeof_Word_4. lia.
Qed.

Lemma GetSymbol_held (p : Z) (k : nat) (sym : Elf_Sym) :
  dynsym_section_start_ f = Some p -> held f p (dynsym_bytes syms) ->
  nth_error (dynsym_entries syms) k = Some sym ->
  Mapped.Sym_fits sym = true ->
  Mapped.GetSymbol f SHT_DYNSYM (Z.of_nat k) = Some sym.
Proof.
  intros Hp Hh Hk Hfit. unfold Mapped.GetSymbol, Mapped.GetSymbolSectionStart.
  change (SHT_DYNSYM =? SHT_SYMTAB) with false.
  change (SHT_DYNSYM =? SHT_DYNSYM) with true. cbn match. rewrite Hp.
  rewrite <- Nat2Z.inj_mul.
  rewrite (held_read f p _ Hh _ _ (Mapped.encode_Sym sym)).
  - apply decode_encode_Sym; [apply layout_ok_Sym|assumption].
  - apply slice_flat_map; [|assumption].
    intros x. apply encode_struct_length, layout_ok_Sym.
  - now apply Sym_fits_sizeof with sym.
Qed.

Lemma GetString_held (p : Z) (o : nat) (s : string) :
  dynstr_section_start_ f = Some p -> held f p (dynstr_bytes syms) ->
  (0 < o < length (dynstr_bytes syms))%nat ->
  cstring (skipn o (dynstr_bytes syms)) = Some s ->
  Mapped.GetString f SHT_DYNSYM (Z.of_nat o) = Some s.
Proof.
  intros Hp Hh Ho Hc. unfold Mapped.GetString, Mapped.GetStringSectionStart.
  destruct (Z.eqb_spec (Z.of_nat o) 0); [lia|].
  change (SHT_DYNSYM =? SHT_SYMTAB) with false.
  change (SHT_DYNSYM =? SHT_DYNSYM) with true. cbn match. rewrite Hp.
  apply (held_cstring f p _ Hh); [lia|assumption].
Qed.

End Views.
End TableFacts.

(** ** The image in bytes is a linked image *)

Section Resolve.
Context {T : ElfTypes}.
Variables (syms : list (string * Z)) (nbucket : Z).
Hypothesis HT : ElfTypes_ok T = true.
Hypothesis Hlink : linkable syms nbucket = true.
Variable f : ElfFileImpl.
Hypothesis Hheld : holds_tables syms nbucket f.

Lemma linkable_inv :
  0 < nbucket < 2 ^ 32 /\ nsyms syms < 2 ^ 32 /\
  forallb (fun e => nul_free (fst e)) syms = true /\
  forallb Mapped.Sym_fits (dynsym_entries syms) = true.
Proof.
  unfold linkable in Hlink. rewrite !andb_true_iff, !Z.ltb_lt in Hlink. tauto.
Qed.

Lemma Mapped_numbers :
  Mapped.GetHashBucketNum f = nbucket /\
  Mapped.GetHashChainNum f = nsyms syms.
Proof.
  destruct linkable_inv as (Hnb & Hns & _).
  destruct Hheld as [(p & Hp & Hh) _ _].
  pose proof (hash_word_held syms nbucket HT f p 0 nbucket Hp Hh eq_refl)
    as H0.
  pose proof (hash_word_held syms nbucket HT f p 1 _ Hp Hh eq_refl) as H1.
  unfold Mapped.GetHashBucketNum, Mapped.GetHashChainNum.
  cbn [Z.of_nat Pos.of_succ_nat] in H0, H1. unfold nsyms in *.
  rewrite H0, H1 by lia. auto.
Qed.

(** The views of [ElfTables] read from the bytes what the linker wrote:
    the two numbers and the entries of the hash table, and for every
    symbol its value and its name. *)
Lemma Mapped_image : LinkedImage syms nbucket f.
Proof.
  destruct linkable_inv as (Hnb & Hns & Hnul & Hfit).
  destruct (link_range syms nbucket) as [Hbr Hcr].
  destruct Mapped_numbers as [Hbn Hcn].
  destruct Hheld as [(ph & Hph & Hhh) (ps & Hps & Hhs) (pt & Hpt & Hht)].
  split; cbn [GetHashBucketNum GetHashChainNum GetHashBucket GetHashChain
              GetSymbol GetString Mapped_HashAccess Mapped_SymbolAccess
              Mapped_StringAccess]; try assumption.
  - intros b Hb. unfold Mapped.GetHashBucket. rewrite Hbn.
    destruct (Z.leb_spec 0 b), (Z.ltb_spec b nbucket); try lia. cbn [andb].
    replace (2 + b) with (Z.of_nat (2 + Z.to_nat b)) by lia.
    apply (hash_word_held syms nbucket HT f ph); try assumption.
    + now apply hash_words_bucket.
    + specialize (Hbr b). lia.
  - intros i Hi. unfold Mapped.GetHashChain. rewrite Hcn, Hbn.
    destruct (Z.leb_spec 0 i), (Z.ltb_spec i (nsyms syms)); try lia.
    cbn [andb].
    replace (2 + nbucket + i)
      with (Z.of_nat (2 + Z.to_nat nbucket + Z.to_nat i)) by lia.
    apply (hash_word_held syms nbucket HT f ph); try assumption.
    + apply hash_words_chain; lia.
    + specialize (Hcr i). lia.
  - intros k e He.
    destruct (dynsym_entry syms k e Hnul He) as (o & Hk & Ho & Hc).
    exists (mkElf_Sym (Z.of_nat o) (snd e) 0 0 0). cbn [st_value st_name].
    repeat split.
    + apply (GetSymbol_held syms HT f ps); try assumption.
      rewrite forallb_forall in Hfit. apply Hfit.
      eapply nth_error_In, Hk.
    + now apply (GetString_held syms f pt).
Qed.

End Resolve.

(** C19: for every list of symbols with distinct names that the format can
    hold and every number of buckets, on every object that has the hash
    table, the symbol table and the string table of the linked image in
    its regions, at the addresses of its cached pointers, the resolver over
    the mapped bytes is the lookup of the name in the list: for the name
    of a symbol it returns the base address plus the value of the symbol,
    for another name not-found. *)
Theorem linked_bytes_resolve {T : ElfTypes} (syms : list (string * Z))
    (nbucket : Z) (f : ElfFileImpl) (name : string) :
  ElfTypes_ok T = true -> NoDup (map fst syms) ->
  linkable syms nbucket = true -> holds_tables syms nbucket f ->
  FindDynamicSymbolAddress f name
  = option_map (fun v => ptr_addr (GetBaseAddress f) + v)
      (value_of name syms).
Proof.
  intros HT Hnames Hlink Hheld.
  destruct (linkable_inv syms nbucket Hlink) as ([Hnb _] & _).
  exact (linked_image_resolves syms nbucket Hnames Hnb f
           (Himg := Mapped_image syms nbucket HT Hlink f Hheld) name).
Qed.

(** ** Three symbols in two buckets, in bytes *)

Section ExampleFacts.
#[local] Existing Instance ElfTypes64.

(** The hash table of the three symbols: 2 buckets, 4 chain entries, the
    buckets 3 and 2, the chains 0, 0, 1, 0; and the string table. *)
Lemma oat_tables_bytes :
  hash_bytes oat_symbols 2
  = flat_map (le_split 4) [2; 4; 3; 2; 0; 0; 1; 0] /\
  cstring_bytes "oatdata" ++ cstring_bytes "oatexec"
  ++ cstring_bytes "oatlastword" = tl (dynstr_bytes oat_symbols) /\
  map st_name (dynsym_entries oat_symbols) = [0; 1; 9; 17] /\
  length oat_tables = 157%nat.
Proof. vm_compute. auto. Qed.

Lemma oat_linked_holds : holds_tables oat_symbols 2 oat_linked.
Proof.
  split; eexists; (split; [reflexivity|]);
    exists [map_ oat_linked], (mkMemMap 0x20000 oat_tables PROT_READ), [];
    [exists 0%nat
    |exists (length (hash_bytes oat_symbols 2))
    |exists (length (hash_bytes oat_symbols 2)
             + length (dynsym_bytes oat_symbols))%nat];
    (repeat split; [intros m' [<-|[]]; left; vm_compute; discriminate
                   |vm_compute; reflexivity..]).
Qed.

(** The resolver on the object, run. *)
Lemma oat_linked_resolves :
  map (FindDynamicSymbolAddress oat_linked)
    ["oatdata"; "oatexec"; "oatlastword"; "missing"; ""]%string
  = [Some 0x21000; Some 0x22000; Some 0x22ffc; None; None].
Proof. vm_compute. reflexivity. Qed.

Lemma linked_bytes_resolve_witness :
  FindDynamicSymbolAddress oat_linked "oatexec"
  = option_map (fun v => ptr_addr (GetBaseAddress oat_linked) + v)
      (value_of "oatexec" oat_symbols).
Proof.
  apply (linked_bytes_resolve oat_symbols 2);
    [reflexivity|exact oat_symbols_distinct|vm_compute; reflexivity
    |exact oat_linked_holds].
Defined.

End ExampleFacts.
