(* ===== verification/ElfHeaders.v ===== *)
(** * ElfHeaders: the ELF header, the program headers, the section headers
    and the dynamic section over the mapped bytes

    The views that src/runtime/oat/elf_file_impl.h declares at lines 68-74,
    83-84, 111-113 and 129, with the bodies the design document describes: a
    view adds an offset and a stride to a cached pointer, checks that the
    bytes of the entry lie in a region the object owns, and decodes the
    entry field by field.  The module [View] holds them under the names of
    the header; the instances after it make them the accessors and the
    searches the segment loader of [ElfLoad] and the opener of [ElfOpen]
    run on.

    The theorems show that no view reads outside the regions, those of the
    tables of [ElfTables] included ([views_in_bounds]), that an entry
    written as the format lays it out is read back ([decode_encode_Phdr],
    [decode_encode_Shdr], [decode_encode_Dyn]), and that the two scans ([FindSectionByType], [FindProgamHeaderByType])
    return the first entry of the type asked for. *)

From Stdlib Require Import ZArith Lia Bool Ascii String List.
From Stdlib Require Import Strings.Byte Morphisms.
From S2P Require Import Prelude ElfTypes ElfFile ElfHash ElfTables.
Import ListNotations.

#[local] Open Scope Z_scope.
#[local] Open Scope elf_scope.

Module View.
Section Views.
Context {T : ElfTypes}.

(** The bytes of a field that is an array ([e_ident]). *)
Definition field_bytes (L : Layout) (name : string) (bytes : list byte)
  : option (list byte) :=
  let? f := find_field L name in slice (f_offset f) (f_size f) bytes.

(** ** Decoding and encoding the entries *)

Definition decode_Ehdr (bs : list byte) : option Elf_Ehdr :=
  let? ident := field_bytes Ehdr "e_ident" bs in
  let? type := get_field Ehdr "e_type" bs in
  let? phoff := get_field Ehdr "e_phoff" bs in
  let? shoff := get_field Ehdr "e_shoff" bs in
  let? ehsize := get_field Ehdr "e_ehsize" bs in
  let? phentsize := get_field Ehdr "e_phentsize" bs in
  let? phnum := get_field Ehdr "e_phnum" bs in
  let? shentsize := get_field Ehdr "e_shentsize" bs in
  let? shnum := get_field Ehdr "e_shnum" bs in
  let? shstrndx := get_field Ehdr "e_shstrndx" bs in
  Some (mkElf_Ehdr ident type phoff shoff ehsize phentsize phnum shentsize
          shnum shstrndx).

Definition Ehdr_fields (h : Elf_Ehdr) : list (string * Z) :=
  [("e_ident"%string, le_combine (e_ident h)); ("e_type"%string, e_type h);
   ("e_phoff"%string, e_phoff h); ("e_shoff"%string, e_shoff h);
   ("e_ehsize"%string, e_ehsize h); ("e_phentsize"%string, e_phentsize h);
   ("e_phnum"%string, e_phnum h); ("e_shentsize"%string, e_shentsize h);
   ("e_shnum"%string, e_shnum h); ("e_shstrndx"%string, e_shstrndx h)].

Definition encode_Ehdr (h : Elf_Ehdr) : list byte :=
  encode_struct Ehdr (Ehdr_fields h).

Definition decode_Phdr (bs : list byte) : option Elf_Phdr :=
  let? type := get_field Phdr "p_type" bs in
  let? offset := get_field Phdr "p_offset" bs in
  let? vaddr := get_field Phdr "p_vaddr" bs in
  let? filesz := get_field Phdr "p_filesz" bs in
  let? memsz := get_field Phdr "p_memsz" bs in
  let? flags := get_field Phdr "p_flags" bs in
  let? align := get_field Phdr "p_align" bs in
  Some (mkElf_Phdr type offset vaddr filesz memsz flags align).

Definition Phdr_fields (ph : Elf_Phdr) : list (string * Z) :=
  [("p_type"%string, p_type ph); ("p_offset"%string, p_offset ph);
   ("p_vaddr"%string, p_vaddr ph); ("p_filesz"%string, p_filesz ph);
   ("p_memsz"%string, p_memsz ph); ("p_flags"%string, p_flags ph);
   ("p_align"%string, p_align ph)].

Definition encode_Phdr (ph : Elf_Phdr) : list byte :=
  encode_struct Phdr (Phdr_fields ph).

Definition decode_Shdr (bs : list byte) : option Elf_Shdr :=
  let? name := get_field Shdr "sh_name" bs in
  let? type := get_field Shdr "sh_type" bs in
  let? flags := get_field Shdr "sh_flags" bs in
  let? addr := get_field Shdr "sh_addr" bs in
  let? offset := get_field Shdr "sh_offset" bs in
  let? size := get_field Shdr "sh_size" bs in
  let? link := get_field Shdr "sh_link" bs in
  let? entsize := get_field Shdr "sh_entsize" bs in
  Some (mkElf_Shdr name type flags addr offset size link entsize).

Definition Shdr_fields (sh : Elf_Shdr) : list (string * Z) :=
  [("sh_name"%string, sh_name sh); ("sh_type"%string, sh_type sh);
   ("sh_flags"%string, sh_flags sh); ("sh_addr"%string, sh_addr sh);
   ("sh_offset"%string, sh_offset sh); ("sh_size"%string, sh_size sh);
   ("sh_link"%string, sh_link sh); ("sh_entsize"%string, sh_entsize sh)].

Definition encode_Shdr (sh : Elf_Shdr) : list byte :=
  encode_struct Shdr (Shdr_fields sh).

Definition decode_Dyn (bs : list byte) : option Elf_Dyn :=
  let? tag := get_field Dyn "d_tag" bs in
  let? un := get_field Dyn "d_un" bs in
  Some (mkElf_Dyn tag un).

Definition Dyn_fields (d : Elf_Dyn) : list (string * Z) :=
  [("d_tag"%string, d_tag d); ("d_un"%string, d_un d)].

Definition encode_Dyn (d : Elf_Dyn) : list byte :=
  encode_struct Dyn (Dyn_fields d).

(** Every field of the list is a value of its type in the layout [L]. *)
Definition fields_fit (L : Layout) (vals : list (string * Z)) : bool :=
  forallb (fun nv => fits L (fst nv) (snd nv)) vals.

(** ** The ELF header *)

(** [*header_], read with the bounds check. *)
Definition GetHeader (f : ElfFileImpl) : option Elf_Ehdr :=
  let? p := header_ f in
  let? bs := read_bytes f p (sizeof Ehdr) in
  decode_Ehdr bs.

(** ** The program headers *)

Definition GetProgramHeadersStart (f : ElfFileImpl) : option Z :=
  program_headers_start_ f.

(** [GetHeader().e_phnum] *)
Definition GetProgramHeaderNum (f : ElfFileImpl) : Z :=
  match GetHeader f with Some h => e_phnum h | None => 0 end.

(** The program header at the address [p]. *)
Definition read_Phdr (f : ElfFileImpl) (p : Z) : option Elf_Phdr :=
  let? bs := read_bytes f p (sizeof Phdr) in decode_Phdr bs.

(** [GetProgramHeadersStart() + i * GetHeader().e_phentsize], for [i] below
    [e_phnum]. *)
Definition program_header_ptr (f : ElfFileImpl) (i : Z) : option Z :=
  let? h := GetHeader f in
  let? start := GetProgramHeadersStart f in
  if (0 <=? i) && (i <? e_phnum h) then Some (start + i * e_phentsize h)
  else None.

Definition GetProgramHeader (f : ElfFileImpl) (i : Z) : option Elf_Phdr :=
  let? p := program_header_ptr f i in read_Phdr f p.

(** The first program header of the type, as its address and its
    contents. *)
Definition FindProgamHeaderByType (f : ElfFileImpl) (type : Z)
  : option (Z * Elf_Phdr) :=
  let? (i, ph) := find_first (GetProgramHeader f)
                    (fun ph => p_type ph =? type) 0
                    (Z.to_nat (GetProgramHeaderNum f)) in
  let? p := program_header_ptr f i in
  Some (p, ph).

(** ** The section headers *)

Definition GetSectionHeadersStart (f : ElfFileImpl) : option Z :=
  section_headers_start_ f.

(** [GetHeader().e_shnum] *)
Definition GetSectionHeaderNum (f : ElfFileImpl) : Z :=
  match GetHeader f with Some h => e_shnum h | None => 0 end.

(** [GetSectionHeadersStart() + i * GetHeader().e_shentsize], for [i] below
    [e_shnum]; null without a section header table. *)
Definition GetSectionHeader (f : ElfFileImpl) (i : Z) : option Elf_Shdr :=
  let? h := GetHeader f in
  let? start := GetSectionHeadersStart f in
  if (0 <=? i) && (i <? e_shnum h)
  then let? bs := read_bytes f (start + i * e_shentsize h) (sizeof Shdr) in
       decode_Shdr bs
  else None.

(** The first section header of the type. *)
Definition FindSectionByType (f : ElfFileImpl) (type : Z)
  : option Elf_Shdr :=
  option_map snd
    (find_first (GetSectionHeader f) (fun sh => sh_type sh =? type) 0
       (Z.to_nat (GetSectionHeaderNum f))).

(** ** The dynamic section *)

(** [*dynamic_program_header_] *)
Definition GetDynamicProgramHeader (f : ElfFileImpl) : option Elf_Phdr :=
  let? p := dynamic_program_header_ f in read_Phdr f p.

Definition GetDynamicSectionStart (f : ElfFileImpl) : option Z :=
  dynamic_section_start_ f.

(** [GetDynamicProgramHeader().p_filesz / sizeof(Elf_Dyn)] *)
Definition GetDynamicNum (f : ElfFileImpl) : Z :=
  match GetDynamicProgramHeader f with
  | Some ph => p_filesz ph / Z.of_nat (sizeof Dyn)
  | None => 0
  end.

(** [GetDynamicSectionStart() + i], for [i] below [GetDynamicNum()]. *)
Definition GetDynamic (f : ElfFileImpl) (i : Z) : option Elf_Dyn :=
  let? start := GetDynamicSectionStart f in
  if (0 <=? i) && (i <? GetDynamicNum f)
  then let? bs := read_bytes f (start + i * Z.of_nat (sizeof Dyn))
                    (sizeof Dyn) in
       decode_Dyn bs
  else None.

End Views.
End View.

#[export] Instance View_HeaderAccess {T : ElfTypes} : HeaderAccess := {|
  ElfFile.GetHeader := View.GetHeader
|}.

#[export] Instance View_ProgramHeaderAccess {T : ElfTypes}
  : ProgramHeaderAccess := {|
  ElfFile.GetProgramHeaderNum := View.GetProgramHeaderNum;
  ElfFile.GetProgramHeader := View.GetProgramHeader
|}.

#[export] Instance View_DynamicAccess {T : ElfTypes} : DynamicAccess := {|
  ElfFile.GetDynamicNum := View.GetDynamicNum;
  ElfFile.GetDynamic := View.GetDynamic
|}.

#[export] Instance View_SectionSearch {T : ElfTypes} : SectionSearch := {|
  ElfFile.GetSectionHeaderNum := View.GetSectionHeaderNum;
  ElfFile.FindSectionByType := View.FindSectionByType
|}.

#[export] Instance View_ProgramHeaderSearch {T : ElfTypes}
  : ProgramHeaderSearch := {|
  ElfFile.FindProgamHeaderByType := View.FindProgamHeaderByType
|}.

(** ** An entry that is written is read back *)

Section ViewFacts.
Context {T : ElfTypes}.

Lemma get_encoded (L : Layout) (vals : list (string * Z)) :
  layout_ok L = true -> NoDup (map fst vals) ->
  View.fields_fit L vals = true ->
  forall name v, In (name, v) vals ->
  get_field L name (encode_struct L vals) = Some v.
Proof.
  intros Hok Hnd Hfit name v Hin. apply get_encode_struct; auto.
  unfold View.fields_fit in Hfit. rewrite forallb_forall in Hfit.
  exact (Hfit _ Hin).
Qed.

(** The names of a list of fields are distinct. *)
Ltac distinct_names := cbn; repeat constructor; cbn; intuition discriminate.

(** A program header whose fields are values of their types is read back
    from the bytes it was written to, for every well-formed layout of
    [Elf_Phdr]. *)
Theorem decode_encode_Phdr (ph : Elf_Phdr) :
  layout_ok Phdr = true -> View.fields_fit Phdr (View.Phdr_fields ph) = true ->
  View.decode_Phdr (View.encode_Phdr ph) = Some ph.
Proof.
  intros Hok Hfit.
  pose proof (get_encoded Phdr (View.Phdr_fields ph) Hok
                ltac:(distinct_names) Hfit) as Hget.
  unfold View.decode_Phdr, View.encode_Phdr.
  rewrite (Hget _ (p_type ph)), (Hget _ (p_offset ph)), (Hget _ (p_vaddr ph)),
    (Hget _ (p_filesz ph)), (Hget _ (p_memsz ph)), (Hget _ (p_flags ph)),
    (Hget _ (p_align ph)) by (cbn; tauto).
  now destruct ph.
Qed.

Lemma decode_encode_Shdr (sh : Elf_Shdr) :
  layout_ok Shdr = true -> View.fields_fit Shdr (View.Shdr_fields sh) = true ->
  View.decode_Shdr (View.encode_Shdr sh) = Some sh.
Proof.
  intros Hok Hfit.
  pose proof (get_encoded Shdr (View.Shdr_fields sh) Hok
                ltac:(distinct_names) Hfit) as Hget.
  unfold View.decode_Shdr, View.encode_Shdr.
  rewrite (Hget _ (sh_name sh)), (Hget _ (sh_type sh)), (Hget _ (sh_flags sh)),
    (Hget _ (sh_addr sh)), (Hget _ (sh_offset sh)), (Hget _ (sh_size sh)),
    (Hget _ (sh_link sh)), (Hget _ (sh_entsize sh)) by (cbn; tauto).
  now destruct sh.
Qed.

Lemma decode_encode_Dyn (d : Elf_Dyn) :
  layout_ok Dyn = true -> View.fields_fit Dyn (View.Dyn_fields d) = true ->
  View.decode_Dyn (View.encode_Dyn d) = Some d.
Proof.
  intros Hok Hfit.
  pose proof (get_encoded Dyn (View.Dyn_fields d) Hok
                ltac:(distinct_names) Hfit) as Hget.
  unfold View.decode_Dyn, View.encode_Dyn.
  rewrite (Hget _ (d_tag d)), (Hget _ (d_un d)) by (cbn; tauto).
  now destruct d.
Qed.

(** ** Reads stay inside the regions *)

Lemma read_Phdr_in_bounds (f : ElfFileImpl) (p : Z) (ph : Elf_Phdr) :
  View.read_Phdr f p = Some ph ->
  exists m, In m (mappings f) /\
            MemMap_Begin m <= p /\ p + Z.of_nat (sizeof Phdr) <= MemMap_End m.
Proof.
  unfold View.read_Phdr. destruct (read_bytes f p (sizeof Phdr)) eqn:E;
    [|discriminate].
  intros _. now apply read_bytes_in_bounds in E as [_ Hm].
Qed.

Lemma program_header_ptr_inv (f : ElfFileImpl) (i p : Z) :
  View.program_header_ptr f i = Some p ->
  exists h start, View.GetHeader f = Some h /\
    program_headers_start_ f = Some start /\
    0 <= i < e_phnum h /\ p = start + i * e_phentsize h.
Proof.
  unfold View.program_header_ptr, View.GetProgramHeadersStart.
  destruct (View.GetHeader f) as [h|]; [|discriminate].
  destruct (program_headers_start_ f) as [start|]; [|discriminate].
  destruct (Z.leb_spec 0 i), (Z.ltb_spec i (e_phnum h)); cbn;
    try discriminate.
  intros [= <-]. exists h, start. repeat split; auto.
Qed.

(** [GetProgramHeader(i)] returns a header only for an index below
    [e_phnum], and only from bytes that lie, all of them, in a region the
    object owns. *)
Theorem GetProgramHeader_in_bounds (f : ElfFileImpl) (i : Z) (ph : Elf_Phdr) :
  View.GetProgramHeader f i = Some ph ->
  0 <= i < View.GetProgramHeaderNum f /\
  exists h start m, View.GetHeader f = Some h /\
    program_headers_start_ f = Some start /\ In m (mappings f) /\
    MemMap_Begin m <= start + i * e_phentsize h /\
    start + i * e_phentsize h + Z.of_nat (sizeof Phdr) <= MemMap_End m.
Proof.
  unfold View.GetProgramHeader.
  destruct (View.program_header_ptr f i) as [p|] eqn:Hp; [|discriminate].
  intros Hr. apply program_header_ptr_inv in Hp as (h & start & Hh & Hs & Hi & ->).
  apply read_Phdr_in_bounds in Hr as (m & Hm & Hlo & Hhi).
  unfold View.GetProgramHeaderNum. rewrite Hh. split; [assumption|].
  exists h, start, m. auto.
Qed.

Lemma GetHeader_in_bounds (f : ElfFileImpl) (h : Elf_Ehdr) :
  View.GetHeader f = Some h ->
  exists p m, header_ f = Some p /\ In m (mappings f) /\
    MemMap_Begin m <= p /\ p + Z.of_nat (sizeof Ehdr) <= MemMap_End m.
Proof.
  unfold View.GetHeader. destruct (header_ f) as [p|]; [|discriminate].
  destruct (read_bytes f p (sizeof Ehdr)) eqn:E; [|discriminate].
  intros _. apply read_bytes_in_bounds in E as [_ (m & Hm)].
  exists p, m. tauto.
Qed.

Lemma GetSectionHeader_in_bounds (f : ElfFileImpl) (i : Z) (sh : Elf_Shdr) :
  View.GetSectionHeader f i = Some sh ->
  0 <= i < View.GetSectionHeaderNum f /\
  exists h start m, View.GetHeader f = Some h /\
    section_headers_start_ f = Some start /\ In m (mappings f) /\
    MemMap_Begin m <= start + i * e_shentsize h /\
    start + i * e_shentsize h + Z.of_nat (sizeof Shdr) <= MemMap_End m.
Proof.
  unfold View.GetSectionHeader, View.GetSectionHeaderNum,
    View.GetSectionHeadersStart.
  destruct (View.GetHeader f) as [h|]; [|discriminate].
  destruct (section_headers_start_ f) as [start|]; [|discriminate].
  destruct (Z.leb_spec 0 i), (Z.ltb_spec i (e_shnum h)); cbn [andb];
    try discriminate.
  destruct (read_bytes f (start + i * e_shentsize h) (sizeof Shdr)) eqn:E;
    [|discriminate].
  intros _. apply read_bytes_in_bounds in E as [_ (m & Hm)].
  split; [lia|]. exists h, start, m. tauto.
Qed.

Lemma GetDynamic_in_bounds (f : ElfFileImpl) (i : Z) (d : Elf_Dyn) :
  View.GetDynamic f i = Some d ->
  0 <= i < View.GetDynamicNum f /\
  exists start m, dynamic_section_start_ f = Some start /\
    In m (mappings f) /\
    MemMap_Begin m <= start + i * Z.of_nat (sizeof Dyn) /\
    start + (i + 1) * Z.of_nat (sizeof Dyn) <= MemMap_End m.
Proof.
  unfold View.GetDynamic, View.GetDynamicSectionStart.
  destruct (dynamic_section_start_ f) as [start|]; [|discriminate].
  destruct (Z.leb_spec 0 i), (Z.ltb_spec i (View.GetDynamicNum f));
    cbn [andb]; try discriminate.
  destruct (read_bytes f (start + i * Z.of_nat (sizeof Dyn)) (sizeof Dyn))
    eqn:E; [|discriminate].
  intros _. apply read_bytes_in_bounds in E as [_ (m & Hm)].
  split; [lia|]. exists start, m. repeat split; try tauto. lia.
Qed.

(** Closes a goal [owns f p n] with the region of a hypothesis. *)
Ltac owned_by m := exists m; repeat split; try tauto; lia.

(** C14: no view reads outside the regions the object owns, whatever the
    bytes of the image are.  Whatever a view returns, all the bytes of it
    lie in one region of the object.  A program header, a section header,
    an entry of the dynamic section and an entry of a bucket or of the
    chain array are returned only for an index in the range of their
    table; a symbol is returned only for a symbol section type (no number
    of symbols bounds its index: [GetSymbol] is declared without one, and
    the region bounds it); a string is returned only for an offset other
    than 0 and starts in a region of the object. *)
Theorem views_in_bounds (f : ElfFileImpl) :
  (forall h, View.GetHeader f = Some h ->
     exists p, header_ f = Some p /\ owns f p (Z.of_nat (sizeof Ehdr))) /\
  (forall i ph, View.GetProgramHeader f i = Some ph ->
     0 <= i < View.GetProgramHeaderNum f /\
     exists h start, View.GetHeader f = Some h /\
       program_headers_start_ f = Some start /\
       owns f (start + i * e_phentsize h) (Z.of_nat (sizeof Phdr))) /\
  (forall i sh, View.GetSectionHeader f i = Some sh ->
     0 <= i < View.GetSectionHeaderNum f /\
     exists h start, View.GetHeader f = Some h /\
       section_headers_start_ f = Some start /\
       owns f (start + i * e_shentsize h) (Z.of_nat (sizeof Shdr))) /\
  (forall i d, View.GetDynamic f i = Some d ->
     0 <= i < View.GetDynamicNum f /\
     exists start, dynamic_section_start_ f = Some start /\
       owns f (start + i * Z.of_nat (sizeof Dyn)) (Z.of_nat (sizeof Dyn))) /\
  (forall section_type i sym, Mapped.GetSymbol f section_type i = Some sym ->
     Mapped.IsSymbolSectionType section_type = true /\
     exists p, Mapped.GetSymbolSectionStart f section_type = Some p /\
       owns f (p + i * Z.of_nat (sizeof Sym)) (Z.of_nat (sizeof Sym))) /\
  (forall i v, Mapped.GetHashBucket f i = Some v ->
     0 <= i < Mapped.GetHashBucketNum f /\
     exists p, hash_section_start_ f = Some p /\
       owns f (p + (2 + i) * Z.of_nat Mapped.sizeof_Word)
         (Z.of_nat Mapped.sizeof_Word)) /\
  (forall i v, Mapped.GetHashChain f i = Some v ->
     0 <= i < Mapped.GetHashChainNum f /\
     exists p, hash_section_start_ f = Some p /\
       owns f
         (p + (2 + Mapped.GetHashBucketNum f + i)
              * Z.of_nat Mapped.sizeof_Word)
         (Z.of_nat Mapped.sizeof_Word)) /\
  (forall section_type i s, Mapped.GetString f section_type i = Some s ->
     i <> 0 /\
     exists p, Mapped.GetStringSectionStart f section_type = Some p /\
       ValidPointer f (p + i) = true).
Proof.
  repeat apply conj.
  - intros h H. apply GetHeader_in_bounds in H as (p & m & ? & ?).
    exists p. split; [assumption|owned_by m].
  - intros i ph H.
    apply GetProgramHeader_in_bounds in H as (? & h & start & m & ? & ? & ?).
    split; [assumption|]. exists h, start. repeat split; auto. owned_by m.
  - intros i sh H.
    apply GetSectionHeader_in_bounds in H as (? & h & start & m & ? & ? & ?).
    split; [assumption|]. exists h, start. repeat split; auto. owned_by m.
  - intros i d H. apply GetDynamic_in_bounds in H as (? & start & m & ? & ?).
    split; [assumption|]. exists start. split; [assumption|owned_by m].
  - intros ty i sym H. apply GetSymbol_in_bounds in H as (? & p & m & ? & ?).
    split; [assumption|]. exists p. split; [assumption|owned_by m].
  - intros i v H. apply GetHashBucket_in_bounds in H as (? & p & m & ? & ?).
    split; [assumption|]. exists p. split; [assumption|owned_by m].
  - intros i v H. apply GetHashChain_in_bounds in H as (? & p & m & ? & ?).
    split; [assumption|]. exists p. split; [assumption|owned_by m].
  - intros ty i s H. now apply GetString_valid in H.
Qed.

(** ** The scans *)

(** [FindSectionByType(type)] returns the first section header of the
    type: the header has the type, it is the header of an index below
    [e_shnum], and every header before it was read and has another type. *)
Theorem FindSectionByType_first (f : ElfFileImpl) (type : Z) (sh : Elf_Shdr) :
  View.FindSectionByType f type = Some sh ->
  sh_type sh = type /\
  exists i, 0 <= i < View.GetSectionHeaderNum f /\
    View.GetSectionHeader f i = Some sh /\
    forall k, 0 <= k < i ->
      exists sh', View.GetSectionHeader f k = Some sh' /\ sh_type sh' <> type.
Proof.
  unfold View.FindSectionByType.
  destruct (find_first _ _ _ _) as [[i sh']|] eqn:E; [|discriminate].
  intros [= <-]. apply find_first_Some in E as (Hr & Hi & Ht & Hbefore).
  apply Z.eqb_eq in Ht. split; [assumption|]. exists i.
  split; [apply GetSectionHeader_in_bounds in Hi; tauto|].
  split; [assumption|]. intros k Hk.
  destruct (Hbefore k Hk) as (b & Hb & Hne). apply Z.eqb_neq in Hne. eauto.
Qed.

(** Without a section header table no section is found. *)
Lemma FindSectionByType_stripped (f : ElfFileImpl) (type : Z) :
  section_headers_start_ f = None -> View.FindSectionByType f type = None.
Proof.
  intros Hs. unfold View.FindSectionByType.
  destruct (Z.to_nat (View.GetSectionHeaderNum f)); [reflexivity|].
  cbn [find_first]. unfold View.GetSectionHeader at 1,
    View.GetSectionHeadersStart.
  rewrite Hs. now destruct (View.GetHeader f).
Qed.

Lemma FindProgamHeaderByType_first (f : ElfFileImpl) (type p : Z)
    (ph : Elf_Phdr) :
  View.FindProgamHeaderByType f type = Some (p, ph) ->
  p_type ph = type /\ View.read_Phdr f p = Some ph /\
  exists i, View.program_header_ptr f i = Some p /\
    forall k, 0 <= k < i ->
      exists ph', View.GetProgramHeader f k = Some ph' /\ p_type ph' <> type.
Proof.
  unfold View.FindProgamHeaderByType.
  destruct (find_first _ _ _ _) as [[i ph']|] eqn:E; [|discriminate].
  destruct (View.program_header_ptr f i) as [p'|] eqn:Hp; [|discriminate].
  intros [= <- <-]. apply find_first_Some in E as (Hr & Hi & Ht & Hbefore).
  apply Z.eqb_eq in Ht. split; [assumption|].
  unfold View.GetProgramHeader in Hi. rewrite Hp in Hi.
  split; [assumption|]. exists i. split; [assumption|]. intros k Hk.
  destruct (Hbefore k Hk) as (b & Hb & Hne). apply Z.eqb_neq in Hne. eauto.
Qed.

End ViewFacts.

(** ** The header of objects with the same regions *)


#[export] Instance GetHeader_Proper {T : ElfTypes}
  : Proper (same_maps ==> eq) View.GetHeader.
Proof.
  intros f g H. unfold View.GetHeader.
  destruct H as (Hm & Hs & Hh & _). rewrite Hh.
  destruct (header_ g) as [p|]; [|reflexivity].
  unfold read_bytes, mappings. now rewrite Hm, Hs.
Qed.

Section HeaderFacts.
Context {T : ElfTypes}.

(** The identification bytes of a decoded header are the first 16 bytes. *)
Lemma decode_Ehdr_ident (bs : list byte) (h : Elf_Ehdr) :
  ident_ok Ehdr = true -> View.decode_Ehdr bs = Some h ->
  e_ident h = firstn 16 bs /\ (16 <= length bs)%nat.
Proof.
  unfold ident_ok, View.decode_Ehdr, View.field_bytes.
  destruct (find_field Ehdr "e_ident") as [fd|]; [|discriminate].
  rewrite andb_true_iff, !Nat.eqb_eq. intros [-> ->].
  destruct (slice 0 16 bs) as [ident|] eqn:Hs; [|discriminate].
  intros H. repeat break_match_hyp; try discriminate. injection H as <-.
  cbn [e_ident]. unfold slice in Hs.
  destruct (Nat.leb_spec (0 + 16) (length bs)); [|discriminate].
  injection Hs as <-. split; [reflexivity|lia].
Qed.

(** The header of an object that has only its file mapping is decoded from
    the first bytes of the mapping. *)
Lemma GetHeader_file (f : ElfFileImpl) :
  segments_ f = [] -> header_ f = Some (Begin f) ->
  View.GetHeader f
  = match slice 0 (sizeof Ehdr) (mm_bytes (map_ f)) with
    | Some bs => View.decode_Ehdr bs
    | None => None
    end.
Proof.
  intros Hs Hh. unfold View.GetHeader. rewrite Hh.
  replace (Begin f) with (Begin f + 0) by lia.
  now rewrite read_bytes_Begin by (auto; lia).
Qed.

End HeaderFacts.
