(* ===== verification/ElfOpen.v ===== *)
(** * ElfOpen: opening an image

    [Open] (src/runtime/oat/elf_file_impl.h, lines 44-46), the constructor
    (line 101), [Setup] (line 107), [SetMap] (line 109) and
    [CheckSectionsExist] (lines 126-127) are declared in the header; their
    bodies are modelled after the design document.  [Open] maps the whole
    file, which is what lets it consult the section header table before the
    image counts as valid; the choice is recorded with the theorems.

    - [SetMap] takes the mapping and validates the identification bytes of
      the ELF header: the magic, the class of the instantiation, the byte
      order.
    - [Setup] checks that the program header table, and the section header
      table if the image has one, lie in the mapping, and caches the
      pointers to the tables; a pointer is cached only if [ValidPointer]
      confirms it.
    - [CheckSectionsExist] requires the string table of every symbol table
      that is present, and the hash table of the dynamic symbol table.

    [Setup] finds the sections and the dynamic segment through the searches
    by type as the header declares them ([SectionSearch], lines 73-74, and
    [ProgramHeaderSearch], line 129): the opener and its theorems are
    written against the two classes, and hold whatever the searches
    return.

    The theorems characterise the object [Open] returns (every cached
    pointer is valid, the tables lie in the mapping, no segment is loaded),
    and show the errors of the design document: a corrupted magic and a
    program header table that leaves the file are format errors. *)

From Stdlib Require Import ZArith Lia Bool Ascii String List.
From Stdlib Require Import Strings.Byte.
From S2P Require Import Prelude ElfTypes ElfFile ElfHash ElfTables ElfHeaders.
Import ListNotations.

#[local] Open Scope Z_scope.
#[local] Open Scope elf_scope.

(** The accessors of the cached pointers, over the mapped bytes. *)
#[export] Instance View_SectionStarts {T : ElfTypes} : SectionStarts := {|
  ElfFile.GetProgramHeadersStart := View.GetProgramHeadersStart;
  ElfFile.GetDynamicProgramHeader := View.GetDynamicProgramHeader;
  ElfFile.GetDynamicSectionStart := View.GetDynamicSectionStart;
  ElfFile.GetSymbolSectionStart := Mapped.GetSymbolSectionStart;
  ElfFile.GetStringSectionStart := Mapped.GetStringSectionStart
|}.

(** ** The dependencies between the sections *)

Section Check.
Context {S : SectionStarts} {HA : HashAccess}.

(** A symbol table of the type is present without its string table. *)
Definition lacks_strings (f : ElfFileImpl) (section_type : Z) : bool :=
  isSome (GetSymbolSectionStart f section_type) &&
  negb (isSome (GetStringSectionStart f section_type)).

(** The dynamic symbol table is present without the hash table. *)
Definition lacks_hash (f : ElfFileImpl) : bool :=
  isSome (GetSymbolSectionStart f SHT_DYNSYM) &&
  negb (isSome (GetHashSectionStart f)).

Definition CheckSectionsExist (f : ElfFileImpl) : Result unit :=
  if existsb (lacks_strings f) [SHT_SYMTAB; SHT_DYNSYM]
  then inr (FormatError "a symbol table without its string table")
  else if lacks_hash f
  then inr (FormatError "a dynamic symbol table without a hash table")
  else inl tt.

End Check.

(** ** Open *)

Section Opener.
Context {T : ElfTypes} {SS : SectionSearch} {PS : ProgramHeaderSearch}.
Variable P : Platform.

(** The constructor (line 101): the path of the file, no mapping, every
    pointer null. *)
Definition new_ElfFileImpl (file : File) : ElfFileImpl :=
  mkElfFileImpl (File_GetPath file) MemMap_Invalid None [] None None None
    None None None None None None None.

(** The class of the images this instantiation reads. *)
Definition elf_class : byte := if Addr =? 64 then ELFCLASS64 else ELFCLASS32.

Definition ident_byte (h : Elf_Ehdr) (i : nat) : byte := nth i (e_ident h) x00.

(** The identification bytes: magic, class, byte order. *)
Definition check_ident (h : Elf_Ehdr) : Result unit :=
  if negb (bytes_eqb (firstn 4 (e_ident h)) ELFMAG)
  then inr (FormatError "bad ELF magic")
  else if negb (Byte.eqb (ident_byte h EI_CLASS) elf_class)
  then inr (FormatError "wrong ELF class")
  else if negb (Byte.eqb (ident_byte h EI_DATA) ELFDATA2LSB)
  then inr (FormatError "wrong byte order")
  else inl tt.

(** [SetMap(file, std::move(map), error_msg)]: fails for an invalid mapping;
    otherwise the object takes the mapping, [header_] points to its start,
    and the header is validated. *)
Definition SetMap (f : ElfFileImpl) (map : option MemMap)
  : Result ElfFileImpl :=
  match map with
  | None => inr (AllocationError "failed to map the file")
  | Some m =>
      let f := set_map f m in
      match View.GetHeader f with
      | None => inr (FormatError "the mapping does not hold an ELF header")
      | Some h => let! _ := check_ident h in inl f
      end
  end.

(** A table of [num] entries of [entsize] bytes at the file offset [off]
    lies in the mapping. *)
Definition table_inside (f : ElfFileImpl) (off entsize num : Z) : bool :=
  off + entsize * num <=? Size f.

(** The start of a section, if it lies in the mapping. *)
Definition section_start (f : ElfFileImpl) (sh : Elf_Shdr) : option Z :=
  checked f (Begin f + sh_offset sh).

(** The string table a symbol table links to: the section of index
    [sh_link], if it is a string table. *)
Definition linked_strtab (f : ElfFileImpl) (sh : Elf_Shdr) : option Z :=
  let? str := View.GetSectionHeader f (sh_link sh) in
  if sh_type str =? SHT_STRTAB then section_start f str else None.

(** The pointer to the PT_DYNAMIC program header and to the dynamic section
    it describes. *)
Definition locate_dynamic (f : ElfFileImpl) : ElfFileImpl :=
  match FindProgamHeaderByType f PT_DYNAMIC with
  | Some (p, ph) => set_dynamic f (checked f p)
                      (checked f (Begin f + p_offset ph))
  | None => f
  end.

Definition locate_symtab (f : ElfFileImpl) : ElfFileImpl :=
  match FindSectionByType f SHT_SYMTAB with
  | Some sh => set_symtab f (section_start f sh) (linked_strtab f sh)
  | None => f
  end.

Definition locate_dynsym (f : ElfFileImpl) : ElfFileImpl :=
  match FindSectionByType f SHT_DYNSYM with
  | Some sh => set_dynsym f (section_start f sh) (linked_strtab f sh)
  | None => f
  end.

Definition locate_hash (f : ElfFileImpl) : ElfFileImpl :=
  match FindSectionByType f SHT_HASH with
  | Some sh => set_hash f (section_start f sh)
  | None => f
  end.

(** The pointers to the sections, from the section header table. *)
Definition locate_sections (f : ElfFileImpl) : ElfFileImpl :=
  locate_hash (locate_dynsym (locate_symtab f)).

(** The second half of [Setup], with the validated header [h]: the tables
    must lie in the mapping; then the pointers are cached. *)
Definition Setup_tables (f : ElfFileImpl) (h : Elf_Ehdr)
  : Result ElfFileImpl :=
  match checked f (Begin f + e_phoff h) with
  | None => inr (FormatError "program headers outside the file")
  | Some phdrs =>
      if negb (table_inside f (e_phoff h) (e_phentsize h) (e_phnum h))
      then inr (FormatError "program headers outside the file")
      else if negb (e_shoff h =? 0) &&
              negb (table_inside f (e_shoff h) (e_shentsize h) (e_shnum h))
      then inr (FormatError "section headers outside the file")
      else
        let f := set_program_headers_start f (Some phdrs) in
        let f := set_section_headers_start f
                   (if e_shoff h =? 0 then None
                    else checked f (Begin f + e_shoff h)) in
        inl (locate_sections (locate_dynamic f))
  end.

(** [Setup(file, prot, flags, low_4gb, error_msg)] *)
Definition Setup (f : ElfFileImpl) (file : File) (prot : Z) (low_4gb : bool)
  : Result ElfFileImpl :=
  if File_GetLength file <? Z.of_nat (sizeof Ehdr)
  then inr (FormatError "file too small for an ELF header")
  else
    let! f := SetMap f (MapFile P file (File_GetLength file) prot low_4gb) in
    match View.GetHeader f with
    | None => inr (FormatError "the mapping does not hold an ELF header")
    | Some h => Setup_tables f h
    end.

(** [Open(file, low_4gb, error_msg)]: a new object, set up on a read-only
    mapping of the file; null unless the sections it needs are there. *)
Definition Open (file : File) (low_4gb : bool) : Result ElfFileImpl :=
  let! f := Setup (new_ElfFileImpl file) file PROT_READ low_4gb in
  let! _ := CheckSectionsExist f in
  inl f.

End Opener.

(** ** What [Open] promises

    The object of an image that was opened: it has the path and the bytes of
    the file in a read-only mapping, [header_] points to the start of the
    mapping, nothing is loaded, every cached pointer is valid, the header
    was validated, the program header table lies in the mapping, and the
    sections depend on sections that are there. *)
Record opened {T : ElfTypes} (file : File) (f : ElfFileImpl) : Prop :=
  mk_opened {
  opened_path : file_path_ f = File_GetPath file;
  opened_bytes : mm_bytes (map_ f) = File_bytes file;
  opened_prot : mm_prot (map_ f) = PROT_READ;
  opened_header : header_ f = Some (Begin f);
  opened_segments : segments_ f = [];
  opened_base : base_address_ f = None;
  opened_valid : pointers_valid f = true;
  opened_tables : exists h,
    View.GetHeader f = Some h /\ check_ident h = inl tt /\
    program_headers_start_ f = Some (Begin f + e_phoff h) /\
    0 <= e_phoff h /\ e_phoff h + e_phentsize h * e_phnum h <= Size f;
  opened_sections : CheckSectionsExist f = inl tt
}.

(** [Open] on a platform, as the operation the header declares. *)
Definition View_ImageOpener {T : ElfTypes} (P : Platform) : ImageOpener := {|
  ElfFile.Open := Open P
|}.

(** ** The dependencies that [CheckSectionsExist] enforces *)

Section CheckFacts.
Context {S : SectionStarts} {HA : HashAccess}.

Lemma lacks_strings_false (f : ElfFileImpl) (t : Z) :
  lacks_strings f t = false <->
  (GetSymbolSectionStart f t <> None -> GetStringSectionStart f t <> None).
Proof.
  unfold lacks_strings.
  destruct (GetSymbolSectionStart f t), (GetStringSectionStart f t); cbn;
    split; try easy; intros H; exfalso; now apply H.
Qed.

Lemma lacks_hash_false (f : ElfFileImpl) :
  lacks_hash f = false <->
  (GetSymbolSectionStart f SHT_DYNSYM <> None -> GetHashSectionStart f <> None).
Proof.
  unfold lacks_hash.
  destruct (GetSymbolSectionStart f SHT_DYNSYM), (GetHashSectionStart f); cbn;
    split; try easy; intros H; exfalso; now apply H.
Qed.

Lemma CheckSectionsExist_true (f : ElfFileImpl) :
  CheckSectionsExist f = inl tt <->
  lacks_strings f SHT_SYMTAB = false /\ lacks_strings f SHT_DYNSYM = false /\
  lacks_hash f = false.
Proof.
  unfold CheckSectionsExist. cbn [existsb].
  destruct (lacks_strings f SHT_SYMTAB), (lacks_strings f SHT_DYNSYM),
    (lacks_hash f); cbn; split; try easy; intros (? & ? & ?); discriminate.
Qed.

(** [CheckSectionsExist] succeeds exactly when each of the two symbol
    tables that is present has its string table, and the dynamic symbol
    table, if present, has the hash table; every failure is a format
    error. *)
Theorem CheckSectionsExist_spec (f : ElfFileImpl) :
  (CheckSectionsExist f = inl tt <->
   (forall t, t = SHT_SYMTAB \/ t = SHT_DYNSYM ->
      GetSymbolSectionStart f t <> None ->
      GetStringSectionStart f t <> None) /\
   (GetSymbolSectionStart f SHT_DYNSYM <> None ->
    GetHashSectionStart f <> None)) /\
  (forall e, CheckSectionsExist f = inr e -> exists msg, e = FormatError msg).
Proof.
  split.
  - rewrite CheckSectionsExist_true, !lacks_strings_false, lacks_hash_false.
    split.
    + intros (H1 & H2 & H3). split; [intros t [->| ->]|]; assumption.
    + intros [H1 H3]. repeat split; auto.
  - unfold CheckSectionsExist. intros e.
    repeat break_match; intros [= <-]; eauto.
Qed.

End CheckFacts.

(** ** What the steps of [Setup] keep *)

Section OpenerFacts.
Context {T : ElfTypes} {SS : SectionSearch} {PS : ProgramHeaderSearch}.
Variable P : Platform.

Lemma locate_dynamic_same (f : ElfFileImpl) : same_maps (locate_dynamic f) f.
Proof.
  unfold locate_dynamic. destruct (FindProgamHeaderByType f PT_DYNAMIC)
    as [[p ph]|]; [apply set_dynamic_same|reflexivity].
Qed.

Lemma locate_symtab_same (f : ElfFileImpl) : same_maps (locate_symtab f) f.
Proof.
  unfold locate_symtab. destruct (FindSectionByType f SHT_SYMTAB);
    [apply set_symtab_same|reflexivity].
Qed.

Lemma locate_dynsym_same (f : ElfFileImpl) : same_maps (locate_dynsym f) f.
Proof.
  unfold locate_dynsym. destruct (FindSectionByType f SHT_DYNSYM);
    [apply set_dynsym_same|reflexivity].
Qed.

Lemma locate_hash_same (f : ElfFileImpl) : same_maps (locate_hash f) f.
Proof.
  unfold locate_hash. destruct (FindSectionByType f SHT_HASH);
    [apply set_hash_same|reflexivity].
Qed.

Lemma locate_sections_same (f : ElfFileImpl) :
  same_maps (locate_sections f) f.
Proof.
  unfold locate_sections.
  now rewrite locate_hash_same, locate_dynsym_same, locate_symtab_same.
Qed.

Lemma section_start_ok (f : ElfFileImpl) (sh : Elf_Shdr) :
  ok_ptr f (section_start f sh) = true.
Proof. apply checked_ok. Qed.

Lemma linked_strtab_ok (f : ElfFileImpl) (sh : Elf_Shdr) :
  ok_ptr f (linked_strtab f sh) = true.
Proof.
  unfold linked_strtab.
  destruct (View.GetSectionHeader f (sh_link sh)) as [str|]; [|reflexivity].
  destruct (sh_type str =? SHT_STRTAB); [apply section_start_ok|reflexivity].
Qed.

#[local] Hint Resolve checked_ok section_start_ok linked_strtab_ok : elf.

Lemma locate_dynamic_valid (f : ElfFileImpl) :
  pointers_valid f = true -> pointers_valid (locate_dynamic f) = true.
Proof.
  intros Hf. unfold locate_dynamic.
  destruct (FindProgamHeaderByType f PT_DYNAMIC) as [[p ph]|];
    [|assumption].
  apply set_dynamic_valid; auto with elf.
Qed.

Lemma locate_symtab_valid (f : ElfFileImpl) :
  pointers_valid f = true -> pointers_valid (locate_symtab f) = true.
Proof.
  intros Hf. unfold locate_symtab.
  destruct (FindSectionByType f SHT_SYMTAB); [|assumption].
  apply set_symtab_valid; auto with elf.
Qed.

Lemma locate_dynsym_valid (f : ElfFileImpl) :
  pointers_valid f = true -> pointers_valid (locate_dynsym f) = true.
Proof.
  intros Hf. unfold locate_dynsym.
  destruct (FindSectionByType f SHT_DYNSYM); [|assumption].
  apply set_dynsym_valid; auto with elf.
Qed.

Lemma locate_hash_valid (f : ElfFileImpl) :
  pointers_valid f = true -> pointers_valid (locate_hash f) = true.
Proof.
  intros Hf. unfold locate_hash.
  destruct (FindSectionByType f SHT_HASH); [|assumption].
  apply set_hash_valid; auto with elf.
Qed.

Lemma locate_sections_valid (f : ElfFileImpl) :
  pointers_valid f = true -> pointers_valid (locate_sections f) = true.
Proof.
  intros Hf. unfold locate_sections.
  now apply locate_hash_valid, locate_dynsym_valid, locate_symtab_valid.
Qed.

Lemma locate_sections_program_headers_start (f : ElfFileImpl) :
  program_headers_start_ (locate_sections f) = program_headers_start_ f.
Proof.
  unfold locate_sections, locate_hash, locate_dynsym, locate_symtab.
  repeat break_match; reflexivity.
Qed.

Lemma locate_dynamic_program_headers_start (f : ElfFileImpl) :
  program_headers_start_ (locate_dynamic f) = program_headers_start_ f.
Proof. unfold locate_dynamic. repeat break_match; reflexivity. Qed.

Lemma new_set_map_valid (file : File) (m : MemMap) :
  0 < MemMap_Size m ->
  pointers_valid (set_map (new_ElfFileImpl file) m) = true.
Proof.
  intros Hm. apply pointers_valid_spec. cbn. intros p [[= <-]|H].
  - rewrite orb_false_r. apply in_map_spec. unfold MemMap_End. lia.
  - repeat (destruct H as [H|H]; [discriminate|]). destruct H.
Qed.

Lemma MapFile_whole (file : File) (prot : Z) (low_4gb : bool) (m : MemMap) :
  MapFile P file (File_GetLength file) prot low_4gb = Some m ->
  place P (File_GetLength file) low_4gb = Some (mm_begin m) /\
  mm_bytes m = File_bytes file /\ mm_prot m = prot.
Proof.
  unfold MapFile, File_GetLength, slice.
  destruct (place P _ low_4gb) as [a|]; [|discriminate].
  rewrite Nat2Z.id, Nat.leb_refl. intros [= <-]. cbn.
  now rewrite firstn_all.
Qed.

Lemma SetMap_inv (f f' : ElfFileImpl) (map : option MemMap) :
  SetMap f map = inl f' ->
  exists m h, map = Some m /\ f' = set_map f m /\
    View.GetHeader f' = Some h /\ check_ident h = inl tt.
Proof.
  unfold SetMap. destruct map as [m|]; [|discriminate].
  destruct (View.GetHeader (set_map f m)) as [h|] eqn:Hh; [|discriminate].
  destruct (check_ident h) as [[]|] eqn:Hc; [|discriminate].
  intros [= <-]. eauto 6.
Qed.

(** The steps of [Setup] that succeeded. *)
Lemma Setup_inv (f0 f : ElfFileImpl) (file : File) (prot : Z)
    (low_4gb : bool) :
  Setup P f0 file prot low_4gb = inl f ->
  exists m h,
    MapFile P file (File_GetLength file) prot low_4gb = Some m /\
    View.GetHeader (set_map f0 m) = Some h /\ check_ident h = inl tt /\
    ValidPointer (set_map f0 m) (MemMap_Begin m + e_phoff h) = true /\
    e_phoff h + e_phentsize h * e_phnum h <= MemMap_Size m /\
    f = locate_sections (locate_dynamic
          (set_section_headers_start
             (set_program_headers_start (set_map f0 m)
                (Some (MemMap_Begin m + e_phoff h)))
             (if e_shoff h =? 0 then None
              else checked (set_map f0 m) (MemMap_Begin m + e_shoff h)))).
Proof.
  unfold Setup. destruct (File_GetLength file <? _); [discriminate|].
  destruct (SetMap f0 _) as [f1|] eqn:Hset; [|discriminate].
  apply SetMap_inv in Hset as (m & h & Hmap & -> & Hh & Hc).
  rewrite Hh. unfold Setup_tables.
  change (Begin (set_map f0 m)) with (MemMap_Begin m).
  destruct (checked _ (MemMap_Begin m + e_phoff h)) as [p|] eqn:Hp;
    [|discriminate].
  apply checked_Some in Hp as [-> Hv].
  unfold table_inside. change (Size (set_map f0 m)) with (MemMap_Size m).
  destruct (Z.leb_spec (e_phoff h + e_phentsize h * e_phnum h)
              (MemMap_Size m)); [|discriminate].
  cbn [negb]. destruct (negb (e_shoff h =? 0) && _); [discriminate|].
  intros [= <-]. exists m, h. repeat split; auto.
Qed.

Lemma check_ident_error (h : Elf_Ehdr) (e : Error) :
  check_ident h = inr e -> exists msg, e = FormatError msg.
Proof.
  unfold check_ident. repeat break_match; intros [= <-]; eauto.
Qed.

(** [Setup] on a new object whose file was mapped, in terms of the bytes of
    the file. *)
Lemma Setup_file (file : File) (prot : Z) (low_4gb : bool) (m : MemMap) :
  MapFile P file (File_GetLength file) prot low_4gb = Some m ->
  Setup P (new_ElfFileImpl file) file prot low_4gb
  = if File_GetLength file <? Z.of_nat (sizeof Ehdr)
    then inr (FormatError "file too small for an ELF header")
    else
      match View.decode_Ehdr (firstn (sizeof Ehdr) (File_bytes file)) with
      | None => inr (FormatError "the mapping does not hold an ELF header")
      | Some h => let! _ := check_ident h in
                  Setup_tables (set_map (new_ElfFileImpl file) m) h
      end.
Proof.
  intros Hm. unfold Setup. rewrite Hm.
  destruct (Z.ltb_spec (File_GetLength file) (Z.of_nat (sizeof Ehdr)));
    [reflexivity|].
  apply MapFile_whole in Hm as (_ & Hb & _).
  assert (Hh : View.GetHeader (set_map (new_ElfFileImpl file) m)
               = View.decode_Ehdr (firstn (sizeof Ehdr) (File_bytes file))).
  { rewrite GetHeader_file by reflexivity. cbn [map_ set_map]. rewrite Hb.
    unfold slice, File_GetLength in *.
    destruct (Nat.leb_spec (0 + sizeof Ehdr) (length (File_bytes file)));
      [reflexivity|lia]. }
  unfold SetMap. rewrite Hh.
  destruct (View.decode_Ehdr _) as [h|] eqn:Hd; [|reflexivity].
  destruct (check_ident h) as [[]|]; [|reflexivity].
  cbv beta iota zeta. now rewrite Hh.
Qed.

End OpenerFacts.

(** ** The object [Open] returns *)

Section OpenTheorems.
Context {T : ElfTypes} {SS : SectionSearch} {PS : ProgramHeaderSearch}.
Variable P : Platform.

(** The object that [Setup] makes of a new object owns the file mapping and
    nothing else, and its cached pointers are valid. *)
Lemma Setup_owns (file : File) (prot : Z) (low_4gb : bool) (f : ElfFileImpl) :
  Setup P (new_ElfFileImpl file) file prot low_4gb = inl f ->
  segments_ f = [] /\ base_address_ f = None /\ pointers_valid f = true.
Proof.
  intros Hs. apply Setup_inv in Hs as (m & h & _ & _ & _ & Hv & _ & ->).
  set (f1 := set_map (new_ElfFileImpl file) m) in *.
  set (f2 := set_section_headers_start _ _) in *.
  assert (Hsame : same_maps (locate_sections (locate_dynamic f2)) f1).
  { rewrite locate_sections_same, locate_dynamic_same. subst f2.
    now rewrite set_section_headers_start_same,
      set_program_headers_start_same. }
  destruct Hsame as (_ & -> & _ & -> & _). repeat split.
  change (MemMap_Begin m) with (Begin f1) in Hv.
  assert (Hv' := Hv). rewrite ValidPointer_Begin in Hv' by reflexivity.
  apply andb_true_iff in Hv' as [H1 H2]. apply Z.leb_le in H1.
  apply Z.ltb_lt in H2. change (Size f1) with (MemMap_Size m) in H2.
  apply locate_sections_valid, locate_dynamic_valid.
  subst f2. apply set_section_headers_start_valid.
  - apply set_program_headers_start_valid; [|exact Hv].
    apply new_set_map_valid. lia.
  - destruct (e_shoff h =? 0); [reflexivity|].
    rewrite set_program_headers_start_same. apply checked_ok.
Qed.

(** C13: the object [Open] returns is the object of an opened image: it owns
    a read-only mapping of the whole file and nothing else, the header has
    passed the validation, the program header table lies in the mapping,
    every cached pointer has passed [ValidPointer], and the sections that
    depend on another section have it. *)
Theorem Open_opened (file : File) (low_4gb : bool) (f : ElfFileImpl) :
  Open P file low_4gb = inl f -> opened file f.
Proof.
  unfold Open. destruct (Setup P _ file PROT_READ low_4gb) as [f'|] eqn:Hs;
    [|discriminate].
  destruct (CheckSectionsExist f') as [[]|] eqn:Hc; [|discriminate].
  intros [= <-]. destruct (Setup_owns _ _ _ _ Hs) as (Hseg & Hbase & Hvalid).
  apply Setup_inv in Hs as (m & h & Hm & Hh & Hi & Hv & Ht & ->).
  apply MapFile_whole in Hm as (_ & Hb & Hp).
  set (f1 := set_map (new_ElfFileImpl file) m) in *.
  set (f2 := set_section_headers_start _ _) in *.
  assert (Hsame : same_maps (locate_sections (locate_dynamic f2)) f1).
  { rewrite locate_sections_same, locate_dynamic_same. subst f2.
    now rewrite set_section_headers_start_same,
      set_program_headers_start_same. }
  change (MemMap_Begin m) with (Begin f1) in Hv.
  rewrite ValidPointer_Begin in Hv by reflexivity.
  apply andb_true_iff in Hv as [H1 _]. apply Z.leb_le in H1.
  split; try assumption.
  1-4: destruct Hsame as (Hmap & _ & Hhdr & _ & Hpath); unfold Begin;
    rewrite ?Hmap, ?Hhdr, ?Hpath; try assumption; reflexivity.
  exists h. split.
  - rewrite <- Hh. now apply GetHeader_Proper.
  - rewrite locate_sections_program_headers_start,
      locate_dynamic_program_headers_start, Hsame.
    repeat split; auto.
Qed.

(** [format_error]: the result is the format error in sight. *)
Ltac format_error :=
  cbn; eexists; split; [reflexivity | left; reflexivity].

(** [Open] when the file cannot be mapped. *)
Lemma Open_unmapped (file : File) (low_4gb : bool) :
  MapFile P file (File_GetLength file) PROT_READ low_4gb = None ->
  exists e, Open P file low_4gb = inr e /\
    (is_FormatError (inr e : Result ElfFileImpl) = true \/
     exists msg, e = AllocationError msg).
Proof.
  intros Hm. unfold Open, Setup. rewrite Hm.
  destruct (File_GetLength file <? _); cbn; eauto 7.
Qed.

(** C23: opening a file whose first four bytes are not the ELF magic fails,
    and unless the platform could not map the file at all the failure is a
    format error.  No object is returned, so nothing stays mapped. *)
Theorem Open_bad_magic (file : File) (low_4gb : bool) :
  ident_ok Ehdr = true -> firstn 4 (File_bytes file) <> ELFMAG ->
  exists e, Open P file low_4gb = inr e /\
    (is_FormatError (inr e : Result ElfFileImpl) = true \/
     MapFile P file (File_GetLength file) PROT_READ low_4gb = None).
Proof.
  intros Hid Hmagic.
  destruct (MapFile P file (File_GetLength file) PROT_READ low_4gb)
    as [m|] eqn:Hm.
  2:{ destruct (Open_unmapped file low_4gb Hm) as (e & -> & _). eauto. }
  unfold Open. rewrite (Setup_file _ _ _ _ _ Hm).
  destruct (File_GetLength file <? _); [format_error|].
  destruct (View.decode_Ehdr _) as [h|] eqn:Hd; [|format_error].
  apply (decode_Ehdr_ident _ _ Hid) in Hd as [Hi Hlen].
  rewrite length_firstn in Hlen.
  unfold check_ident. rewrite Hi, !firstn_firstn_le by lia.
  destruct (bytes_eqb (firstn 4 (File_bytes file)) ELFMAG) eqn:E.
  - now apply bytes_eqb_eq in E.
  - format_error.
Qed.

(** C24: opening a file whose header declares a program header table that
    ends after the file fails, and unless the platform could not map the
    file at all the failure is a format error: the table is never read past
    the mapping. *)
Theorem Open_program_headers_outside (file : File) (low_4gb : bool)
    (h : Elf_Ehdr) :
  View.decode_Ehdr (firstn (sizeof Ehdr) (File_bytes file)) = Some h ->
  File_GetLength file < e_phoff h + e_phentsize h * e_phnum h ->
  exists e, Open P file low_4gb = inr e /\
    (is_FormatError (inr e : Result ElfFileImpl) = true \/
     MapFile P file (File_GetLength file) PROT_READ low_4gb = None).
Proof.
  intros Hd Hout.
  destruct (MapFile P file (File_GetLength file) PROT_READ low_4gb)
    as [m|] eqn:Hm.
  2:{ destruct (Open_unmapped file low_4gb Hm) as (e & -> & _). eauto. }
  unfold Open. rewrite (Setup_file _ _ _ _ _ Hm), Hd.
  destruct (File_GetLength file <? _); [format_error|].
  destruct (check_ident h) as [[]|e] eqn:Hc.
  2:{ apply check_ident_error in Hc as [msg ->]. format_error. }
  unfold Setup_tables, table_inside.
  apply MapFile_whole in Hm as (_ & Hb & _).
  change (Size (set_map _ m)) with (MemMap_Size m).
  unfold MemMap_Size. rewrite Hb. fold (File_GetLength file).
  destruct (checked _ _); [|format_error].
  destruct (Z.leb_spec (e_phoff h + e_phentsize h * e_phnum h)
              (File_GetLength file)); [lia|format_error].
Qed.

End OpenTheorems.
