(* ===== verification/ElfImage.v ===== *)
(** * ElfImage: tables of a small 64-bit image, and the resolver run on them

    A region with a hash table of two buckets, a dynamic symbol table of
    four entries (the reserved entry 0, then "oatdata", "oatexec" and
    "oatlastword") and their string table, written with the encoders of
    [ElfTypes] and [ElfTables] the way a linker lays them out, and a second
    region whose chain array was overwritten so that it holds a cycle.  The
    theorems of [ElfHash] and [ElfTables] are applied to them, and the
    resolver is run on them. *)

From Stdlib Require Import ZArith Lia Bool Ascii String List.
From Stdlib Require Import Strings.Byte.
From S2P Require Import Prelude ElfTypes ElfFile ElfHash ElfTables.
Import ListNotations.

#[local] Open Scope Z_scope.
#[local] Existing Instance ElfTypes64.

Definition words (ws : list Z) : list byte := flat_map (le_split 4) ws.

Definition sym_oatdata : Elf_Sym := mkElf_Sym 1 0x1000 0x1000 0x11 5.
Definition sym_oatexec : Elf_Sym := mkElf_Sym 9 0x2000 0xffc 0x11 6.
Definition sym_oatlastword : Elf_Sym := mkElf_Sym 17 0x2ffc 4 0x11 6.

Definition dynsym_bytes : list byte :=
  flat_map Mapped.encode_Sym
    [mkElf_Sym 0 0 0 0 0; sym_oatdata; sym_oatexec; sym_oatlastword].

Definition dynstr_bytes : list byte :=
  x00 :: cstring_bytes "oatdata" ++ cstring_bytes "oatexec" ++
         cstring_bytes "oatlastword".

(** [nbucket = 2], [nchain = 4]; "oatlastword" hashes to bucket 0, "oatdata"
    and "oatexec" to bucket 1. *)
Definition hash_bytes : list byte := words [2; 4; 3; 1; 0; 2; 0; 0].

(** The same table with the chain entry of symbol 2 pointing back to
    symbol 1. *)
Definition cyclic_hash_bytes : list byte := words [2; 4; 3; 1; 0; 2; 1; 0].

Definition image_begin : Z := 0x70000000.

Definition image_of (hash : list byte) (hash_start : option Z)
  : ElfFileImpl := {|
  file_path_ := "/data/test.oat";
  map_ := mkMemMap image_begin (hash ++ dynsym_bytes ++ dynstr_bytes) PROT_READ;
  header_ := None;
  segments_ := [];
  base_address_ := Some image_begin;
  program_headers_start_ := None;
  section_headers_start_ := None;
  dynamic_program_header_ := None;
  dynamic_section_start_ := None;
  symtab_section_start_ := None;
  dynsym_section_start_ := Some (image_begin + 32);
  strtab_section_start_ := None;
  dynstr_section_start_ := Some (image_begin + 32 + 96);
  hash_section_start_ := hash_start
|}.

Definition image : ElfFileImpl := image_of hash_bytes (Some image_begin).

Definition cyclic_image : ElfFileImpl :=
  image_of cyclic_hash_bytes (Some image_begin).

(** The same region, opened without finding the hash section. *)
Definition stripped_image : ElfFileImpl := image_of hash_bytes None.

(** ** The resolver on the image *)

Lemma image_tables :
  GetHashBucketNum image = 2 /\ GetHashChainNum image = 4 /\
  map (GetSymbol image SHT_DYNSYM) [1; 2; 3] =
    [Some sym_oatdata; Some sym_oatexec; Some sym_oatlastword] /\
  map (GetString image SHT_DYNSYM) [0; 1; 9; 17] =
    [None; Some "oatdata"; Some "oatexec"; Some "oatlastword"]%string.
Proof. vm_compute. auto. Qed.

(** On the tables of [image] the resolver returns, for each of the
    three names, the base address plus the value of its symbol, and
    not-found for a name that is not there and for the empty name. *)
Theorem image_resolves :
  FindDynamicSymbolAddress image "oatdata" = Some (image_begin + 0x1000) /\
  FindDynamicSymbolAddress image "oatexec" = Some (image_begin + 0x2000) /\
  FindDynamicSymbolAddress image "oatlastword" = Some (image_begin + 0x2ffc) /\
  FindDynamicSymbolAddress image "missing" = None /\
  FindDynamicSymbolAddress image "" = None.
Proof. vm_compute. auto. Qed.

(** On the cycle the walk stops when the fuel is used up. *)
Lemma cyclic_image_resolves :
  FindDynamicSymbolAddress cyclic_image "oatexec" = Some (image_begin + 0x2000) /\
  FindDynamicSymbolAddress cyclic_image "missing" = None.
Proof. vm_compute. auto. Qed.

(** The entries of the tables of [image], one by one. *)
Lemma image_bucket (b v : Z) :
  GetHashBucket image b = Some v -> (b = 0 /\ v = 3) \/ (b = 1 /\ v = 1).
Proof.
  intros H. pose proof (GetHashBucket_range _ _ _ H) as Hr.
  change (GetHashBucketNum image) with 2 in Hr.
  assert (Hb : b = 0 \/ b = 1) by lia.
  destruct Hb as [-> | ->]; vm_compute in H; inv H; auto.
Qed.

Lemma image_chain (i v : Z) :
  GetHashChain image i = Some v ->
  (i = 0 /\ v = 0) \/ (i = 1 /\ v = 2) \/ (i = 2 /\ v = 0) \/ (i = 3 /\ v = 0).
Proof.
  intros H. pose proof (GetHashChain_range _ _ _ H) as Hr.
  change (GetHashChainNum image) with 4 in Hr.
  assert (Hi : i = 0 \/ i = 1 \/ i = 2 \/ i = 3) by lia.
  destruct Hi as [-> | [-> | [-> | ->]]]; vm_compute in H; inv H; auto 6.
Qed.

Lemma image_symbol (i : Z) (sym : Elf_Sym) (name : string) :
  1 <= i < 4 -> GetSymbol image SHT_DYNSYM i = Some sym ->
  symbol_matches image name sym = true ->
  (i = 1 /\ sym = sym_oatdata /\ name = "oatdata"%string) \/
  (i = 2 /\ sym = sym_oatexec /\ name = "oatexec"%string) \/
  (i = 3 /\ sym = sym_oatlastword /\ name = "oatlastword"%string).
Proof.
  intros Hi Hs Hm. apply symbol_matches_name in Hm.
  assert (Hc : i = 1 \/ i = 2 \/ i = 3) by lia.
  destruct Hc as [-> | [-> | ->]]; vm_compute in Hs; inv Hs;
    vm_compute in Hm; inv Hm; auto 6.
Qed.

(** The hash table of [image] is well formed. *)
Lemma image_wf : hash_table_wf image 4.
Proof.
  split.
  - intros b v H. apply image_bucket in H. lia.
  - intros i v H. apply image_chain in H. lia.
  - intros i sym name Hi Hs Hm.
    destruct (image_symbol _ _ _ Hi Hs Hm)
      as [(-> & -> & ->) | [(-> & -> & ->) | (-> & -> & ->)]].
    + exists 1. split; [reflexivity|]. now constructor.
    + exists 1. split; [reflexivity|].
      apply on_chain_later with (sym := sym_oatdata) (next := 2);
        [lia|reflexivity|reflexivity|]. now constructor.
    + exists 3. split; [reflexivity|]. now constructor.
  - intros i j si sj name Hi Hj Hsi Hsj Hmi Hmj.
    destruct (image_symbol _ _ _ Hi Hsi Hmi)
      as [(-> & -> & ->) | [(-> & -> & ->) | (-> & -> & ->)]];
      destruct (image_symbol _ _ _ Hj Hsj Hmj)
        as [(-> & -> & E) | [(-> & -> & E) | (-> & -> & E)]];
      try reflexivity; discriminate E.
Qed.

(** The walk for "oatexec" on [image], without a bound. *)
Lemma image_Walk_oatexec : Walk image "oatexec" 1 [1] (Some sym_oatexec).
Proof.
  apply Walk_next with (sym := sym_oatdata) (next := 2);
    [lia|reflexivity|reflexivity|reflexivity|].
  apply Walk_found; [lia|reflexivity|reflexivity].
Qed.

(** On [cyclic_image] the walk for a name that is not there does not end:
    from the symbol 1 it goes to the symbol 2 and from there back to 1. *)
Lemma cyclic_Walk_step (i : Z) (l : list Z) (r : option Elf_Sym) :
  i = 1 \/ i = 2 -> Walk cyclic_image "missing" i l r ->
  exists l', l = i :: l' /\ Walk cyclic_image "missing" (3 - i) l' r.
Proof.
  intros Hi HW.
  destruct HW as [|i Hi0 Hs|i sym Hi0 Hs Hm|i sym Hi0 Hs Hm Hc
                 |i sym next l r Hi0 Hs Hm Hc HW]; [lia| | | |].
  - destruct Hi as [-> | ->]; vm_compute in Hs; discriminate.
  - destruct Hi as [-> | ->]; vm_compute in Hs; inv Hs; vm_compute in Hm;
      discriminate.
  - destruct Hi as [-> | ->]; vm_compute in Hc; discriminate.
  - exists l. split; [reflexivity|].
    destruct Hi as [-> | ->]; vm_compute in Hc; inv Hc; exact HW.
Qed.

Lemma cyclic_no_Walk (l : list Z) (r : option Elf_Sym) :
  ~ Walk cyclic_image "missing" 1 l r.
Proof.
  intros HW. pose proof (Walk_NoDup _ _ _ _ _ HW) as Hnd.
  apply cyclic_Walk_step in HW as (l1 & -> & HW); [|auto].
  apply cyclic_Walk_step in HW as (l2 & -> & HW); [|auto].
  apply cyclic_Walk_step in HW as (l3 & -> & _); [|auto].
  inv Hnd. cbn in *. tauto.
Qed.

(** The indices at which the region of [image] holds the bytes of a
    symbol. *)
Lemma image_symbol_range (j : Z) (sym : Elf_Sym) :
  GetSymbol image SHT_DYNSYM j = Some sym -> -1 <= j <= 4.
Proof.
  intros H. apply GetSymbol_read in H as (p & bs & Hp & Hr & _).
  vm_compute in Hp. inv Hp.
  apply read_bytes_in_bounds in Hr as (_ & m & [<-|[]] & Hlo & Hhi).
  change (MemMap_Begin (map_ image)) with image_begin in Hlo.
  change (MemMap_End (map_ image)) with (image_begin + 157) in Hhi.
  change (Z.of_nat (sizeof Sym)) with 24 in *. unfold image_begin in *. lia.
Qed.

(** ** The theorems of [ElfHash] and [ElfTables] at the image *)

Lemma FindDynamicSymbol_LinearScan_witness :
  FindDynamicSymbol image "oatexec" = LinearScan image "oatexec" 4.
Proof. apply (FindDynamicSymbol_LinearScan image "oatexec" 4 image_wf). Defined.

Lemma FindDynamicSymbol_complete_witness :
  FindDynamicSymbol image "oatexec" = Some sym_oatexec.
Proof.
  apply (FindDynamicSymbol_complete image "oatexec" 1 [1]).
  - vm_compute. reflexivity.
  - exact image_Walk_oatexec.
Defined.

Lemma FindDynamicSymbol_Walk_witness :
  FindDynamicSymbol cyclic_image "missing" = None.
Proof.
  apply (FindDynamicSymbol_Walk cyclic_image "missing" 1).
  - vm_compute. reflexivity.
  - exact cyclic_no_Walk.
Defined.

Lemma FindDynamicSymbol_sound_witness :
  exists j, j <> 0 /\ GetSymbol image SHT_DYNSYM j = Some sym_oatdata /\
    GetString image SHT_DYNSYM (st_name sym_oatdata) = Some "oatdata"%string.
Proof.
  apply (FindDynamicSymbol_sound image "oatdata" sym_oatdata).
  vm_compute. reflexivity.
Defined.

Lemma FindDynamicSymbolAddress_sound_witness :
  exists j sym, j <> 0 /\ GetSymbol image SHT_DYNSYM j = Some sym /\
    GetString image SHT_DYNSYM (st_name sym) = Some "oatlastword"%string /\
    image_begin + 0x2ffc = ptr_addr (GetBaseAddress image) + st_value sym.
Proof.
  apply (FindDynamicSymbolAddress_sound image "oatlastword").
  vm_compute. reflexivity.
Defined.

Lemma GetHashChain_in_bounds_witness :
  0 <= 1 < Mapped.GetHashChainNum image /\
  exists p m, hash_section_start_ image = Some p /\ In m (mappings image) /\
    MemMap_Begin m <=
      p + (2 + Mapped.GetHashBucketNum image + 1)
          * Z.of_nat Mapped.sizeof_Word /\
    p + (2 + Mapped.GetHashBucketNum image + 1 + 1)
        * Z.of_nat Mapped.sizeof_Word <= MemMap_End m.
Proof.
  apply (GetHashChain_in_bounds image 1 2). vm_compute. reflexivity.
Defined.

Lemma GetSymbol_in_bounds_witness :
  Mapped.IsSymbolSectionType SHT_DYNSYM = true /\
  exists p m, Mapped.GetSymbolSectionStart image SHT_DYNSYM = Some p /\
    In m (mappings image) /\
    MemMap_Begin m <= p + 3 * Z.of_nat (sizeof Sym) /\
    p + (3 + 1) * Z.of_nat (sizeof Sym) <= MemMap_End m.
Proof.
  apply (GetSymbol_in_bounds image SHT_DYNSYM 3 sym_oatlastword).
  vm_compute. reflexivity.
Defined.

Lemma decode_encode_Sym_witness :
  Mapped.decode_Sym (Mapped.encode_Sym sym_oatexec) = Some sym_oatexec.
Proof. apply (decode_encode_Sym sym_oatexec); reflexivity. Defined.

Lemma no_hash_table_not_found_witness :
  Mapped.GetHashBucketNum stripped_image = 0 /\
  Mapped.GetHashChainNum stripped_image = 0 /\
  FindDynamicSymbolAddress stripped_image "oatdata" = None.
Proof. apply (no_hash_table_not_found stripped_image "oatdata"). reflexivity. Defined.
