(* ===== verification/ElfLoad.v ===== *)
(** * ElfLoad: the segment loader

    [GetLoadedAddressRange] (elf_file_impl.h, lines 103-105), [GetLoadedSize]
    (lines 86-87), [GetElfSegmentAlignmentFromFile] (lines 89-90) and [Load]
    (lines 92-98) are declared in the header; their bodies are not part of
    the sources at hand and are modelled after the design document, against
    the declared accessors of the ELF header, the program headers, the
    cached pointers and the dynamic section ([HeaderAccess],
    [ProgramHeaderAccess], [SectionStarts], [DynamicAccess]).

    The platform that places and maps regions is the record [Platform]: one
    function finds a free range of a size (below 4GB when asked), one says
    whether a mapping at an address succeeds.  [Load] returns the loaded
    object or an error; the regions mapped before a failure are dropped with
    the partial result ([ElfSpace] writes out the unmapping).
    After the segments are mapped [Load] locates the program headers in the
    loaded image and resolves the pointers that the dynamic section gives;
    the code resolves them on first use, the model at the end of [Load],
    which is the same as the regions do not change afterwards. *)

From Stdlib Require Import ZArith Lia Bool Ascii String List.
From Stdlib Require Import Strings.Byte.
From S2P Require Import Prelude ElfTypes ElfFile.
Import ListNotations.

#[local] Open Scope Z_scope.
#[local] Open Scope elf_scope.

Definition RoundDown (x n : Z) : Z := x / n * n.

Definition RoundUp (x n : Z) : Z := RoundDown (x + n - 1) n.

(** ** The loaded address range *)

Section Loader.
Context {T : ElfTypes} {PA : ProgramHeaderAccess} {HdrA : HeaderAccess}
  {SS : SectionStarts} {DA : DynamicAccess}.

(** The width of [size_t]. *)
Context (size_t_bits : Z).

(** The program headers [i], ..., [i + n - 1], if every one can be read. *)
Fixpoint headers_from (f : ElfFileImpl) (i : Z) (n : nat)
  : option (list Elf_Phdr) :=
  match n with
  | O => Some []
  | S n' =>
      match GetProgramHeader f i with
      | Some ph => option_map (cons ph) (headers_from f (i + 1) n')
      | None => None
      end
  end.

Definition is_load (ph : Elf_Phdr) : bool := p_type ph =? PT_LOAD.

(** The loadable program headers, in header order. *)
Definition loadable_headers (f : ElfFileImpl) : option (list Elf_Phdr) :=
  option_map (filter is_load)
    (headers_from f 0 (Z.to_nat (GetProgramHeaderNum f))).

(** [p_vaddr + p_memsz] in [Elf_Addr]. *)
Definition seg_end (ph : Elf_Phdr) : Z := wrap Addr (p_vaddr ph + p_memsz ph).

(** An alignment of zero is no constraint. *)
Definition seg_align (ph : Elf_Phdr) : Z :=
  if p_align ph <=? 0 then 1 else p_align ph.

Definition max_align (l : list Elf_Phdr) : Z :=
  fold_right (fun ph a => Z.max (seg_align ph) a) 1 l.

Definition min_vaddr (l : list Elf_Phdr) : Z :=
  fold_right (fun ph a => Z.min (p_vaddr ph) a) (2 ^ Addr - 1) l.

Definition max_vaddr (l : list Elf_Phdr) : Z :=
  fold_right (fun ph a => Z.max (seg_end ph) a) 0 l.

Definition GetLoadedAddressRange (f : ElfFileImpl) : Result (Z * Z) :=
  match loadable_headers f with
  | None => inr (BoundsError "program header outside the mapping")
  | Some [] => inr (FormatError "no loadable program header")
  | Some l =>
      if negb (forallb (fun ph => p_vaddr ph <=? seg_end ph) l)
      then inr (FormatError "overflow in p_vaddr + p_memsz")
      else
        let vaddr_begin := RoundDown (min_vaddr l) (max_align l) in
        let vaddr_end := RoundUp (max_vaddr l) (max_align l) in
        if 2 ^ size_t_bits <? vaddr_end
        then inr (FormatError "loaded range does not fit the address space")
        else inl (vaddr_begin, vaddr_end - vaddr_begin)
  end.

Definition GetLoadedSize (f : ElfFileImpl) : Result Z :=
  match GetLoadedAddressRange f with
  | inl (_, size) => inl size
  | inr e => inr e
  end.

Definition GetElfSegmentAlignmentFromFile (f : ElfFileImpl) : Z :=
  match loadable_headers f with
  | Some (ph :: _) => p_align ph
  | _ => 0
  end.

(** ** Load *)

(** The protection of a segment: as its flags say, but never executable
    unless the image is loaded to be executed. *)
Definition seg_prot (executable : bool) (ph : Elf_Phdr) : Z :=
  Z.lor (if executable && negb (Z.land (p_flags ph) PF_X =? 0)
         then PROT_EXEC else 0)
    (Z.lor (if Z.land (p_flags ph) PF_W =? 0 then 0 else PROT_WRITE)
           (if Z.land (p_flags ph) PF_R =? 0 then 0 else PROT_READ)).

(** The contents of a segment: [p_filesz] bytes of the file from [p_offset]
    on, then zeros up to [p_memsz]. *)
Definition seg_bytes (file : list byte) (ph : Elf_Phdr)
  : option (list byte) :=
  match slice (Z.to_nat (p_offset ph)) (Z.to_nat (p_filesz ph)) file with
  | Some bs =>
      Some (bs ++ repeat x00 (Z.to_nat (p_memsz ph - p_filesz ph)))
  | None => None
  end.

Definition map_segment (P : Platform) (file : list byte) (executable : bool)
    (base : Z) (ph : Elf_Phdr) : Result MemMap :=
  if negb (p_offset ph mod seg_align ph =? p_vaddr ph mod seg_align ph)
  then inr (FormatError "p_offset and p_vaddr disagree modulo p_align")
  else if p_memsz ph <? p_filesz ph
  then inr (FormatError "p_filesz exceeds p_memsz")
  else
    match seg_bytes file ph with
    | None => inr (FormatError "segment outside the file")
    | Some bytes =>
        if can_map P (base + p_vaddr ph) (p_memsz ph)
        then inl (mkMemMap (base + p_vaddr ph) bytes (seg_prot executable ph))
        else inr (AllocationError "failed to map segment")
    end.

(** The segments in header order; the first failure ends the loop, and the
    regions mapped so far go with it. *)
Fixpoint map_segments (P : Platform) (file : list byte) (executable : bool)
    (base : Z) (l : list Elf_Phdr) : Result (list MemMap) :=
  match l with
  | [] => inl []
  | ph :: l' =>
      match map_segment P file executable base ph with
      | inr e => inr e
      | inl m =>
          match map_segments P file executable base l' with
          | inr e => inr e
          | inl ms => inl (m :: ms)
          end
      end
  end.

(** The start of the span: inside the reservation, which is advanced by the
    size, or where the platform finds room. *)
Definition reserve (P : Platform) (size : Z) (low_4gb : bool)
    (reservation : option (Z * Z)) : option (Z * option (Z * Z)) :=
  match reservation with
  | Some (rbegin, rsize) =>
      if size <=? rsize then Some (rbegin, Some (rbegin + size, rsize - size))
      else None
  | None => option_map (fun a => (a, None)) (place P size low_4gb)
  end.

(** The program headers in the loaded image: at the base address plus the
    offset the ELF header declares, which must lie in a region. *)
Definition locate_program_headers (f : ElfFileImpl) (base : Z)
  : Result ElfFileImpl :=
  match GetHeader f with
  | None => inr (FormatError "no ELF header")
  | Some h =>
      match checked f (base + e_phoff h) with
      | Some p => inl (set_program_headers_start f (Some p))
      | None => inr (FormatError "program headers not in a loaded segment")
      end
  end.

(** What one entry of the dynamic section gives: the hash table, the
    dynamic string table or the dynamic symbol table, at the base address
    plus the value of the entry, if [ValidPointer] confirms the address. *)
Definition dynamic_pointer (f : ElfFileImpl) (base : Z) (d : Elf_Dyn)
  : ElfFileImpl :=
  let p := checked f (base + d_un d) in
  if d_tag d =? DT_HASH then set_hash f p
  else if d_tag d =? DT_STRTAB then set_dynsym f (dynsym_section_start_ f) p
  else if d_tag d =? DT_SYMTAB then set_dynsym f p (dynstr_section_start_ f)
  else f.

(** The loop over the entries [i], ..., [i + n - 1] of the dynamic
    section. *)
Fixpoint dynamic_pointers (f : ElfFileImpl) (base : Z) (i : Z) (n : nat)
  : ElfFileImpl :=
  match n with
  | O => f
  | S n' =>
      match GetDynamic f i with
      | Some d => dynamic_pointers (dynamic_pointer f base d) base (i + 1) n'
      | None => f
      end
  end.

(** The dynamic section of the loaded image, at the virtual address of the
    PT_DYNAMIC program header, and the pointers its entries give. *)
Definition resolve_dynamic (f : ElfFileImpl) (base : Z) : ElfFileImpl :=
  match GetDynamicProgramHeader f with
  | Some ph =>
      let f := set_dynamic f (dynamic_program_header_ f)
                 (checked f (base + p_vaddr ph)) in
      dynamic_pointers f base 0 (Z.to_nat (GetDynamicNum f))
  | None => f
  end.

Definition Load (P : Platform) (f : ElfFileImpl) (file : File)
    (executable low_4gb : bool) (reservation : option (Z * Z))
  : Result (ElfFileImpl * option (Z * Z)) :=
  let! (_, size) := GetLoadedAddressRange f in
  match reserve P size low_4gb reservation with
  | None => inr (AllocationError "failed to reserve the loaded range")
  | Some (base, reservation') =>
      match loadable_headers f with
      | None => inr (BoundsError "program header outside the mapping")
      | Some l =>
          let! ms := map_segments P (File_bytes file) executable base l in
          let! f := locate_program_headers (set_loaded f base ms) base in
          inl (resolve_dynamic f base, reservation')
      end
  end.

(** ** Images the toolchain produces *)

(** Every field is a value of its type, and the file part of a segment is
    not larger than the segment. *)
Definition Phdr_fits (ph : Elf_Phdr) : bool :=
  (0 <=? p_vaddr ph) && (p_vaddr ph <? 2 ^ Addr) &&
  (0 <=? p_filesz ph) && (p_filesz ph <=? p_memsz ph) &&
  (p_memsz ph <? 2 ^ Addr).

(** From [lo] on the segments follow each other without overlap. *)
Fixpoint sorted_from (lo : Z) (l : list Elf_Phdr) : bool :=
  match l with
  | [] => true
  | ph :: l' =>
      (lo <=? p_vaddr ph) && Phdr_fits ph &&
      sorted_from (p_vaddr ph + p_memsz ph) l'
  end.

Definition segments_sorted (l : list Elf_Phdr) : bool :=
  match l with
  | [] => true
  | ph :: _ => sorted_from (p_vaddr ph) l
  end.

Definition sum_filesz (l : list Elf_Phdr) : Z :=
  fold_right (fun ph a => p_filesz ph + a) 0 l.

End Loader.

(** The three operations on a platform, as the header declares them. *)
Definition Mapped_SegmentLoader {T : ElfTypes} {PA : ProgramHeaderAccess}
    {HdrA : HeaderAccess} {SS : SectionStarts} {DA : DynamicAccess}
    (size_t_bits : Z) (P : Platform) : SegmentLoader := {|
  ElfFile.GetLoadedSize := GetLoadedSize size_t_bits;
  ElfFile.GetElfSegmentAlignmentFromFile := GetElfSegmentAlignmentFromFile;
  ElfFile.Load := Load size_t_bits P
|}.

(** ** An image with one segment, and a platform

    The program headers of an image as a list, a platform that places every
    range at one address and maps everything, and the image of the example
    of the design document: one loadable segment at file offset 0, of size
    0x1000, at virtual address 0, aligned to 0x1000, readable and
    executable. *)

Definition ListHeaders (phs : list Elf_Phdr) : ProgramHeaderAccess := {|
  GetProgramHeaderNum := fun _ => Z.of_nat (length phs);
  GetProgramHeader :=
    fun _ i => if i <? 0 then None else nth_error phs (Z.to_nat i)
|}.

(** The ELF header of such an image: the loader reads the offset of the
    program headers and nothing else. *)
Definition ListHeader (phoff : Z) : HeaderAccess := {|
  GetHeader := fun _ => Some (mkElf_Ehdr [] 0 phoff 0 0 0 0 0 0 0)
|}.

(** An image without a dynamic section. *)
Definition NoSections : SectionStarts := {|
  GetProgramHeadersStart := program_headers_start_;
  GetDynamicProgramHeader := fun _ => None;
  GetDynamicSectionStart := fun _ => None;
  GetSymbolSectionStart := fun _ _ => None;
  GetStringSectionStart := fun _ _ => None
|}.

Definition NoDynamic : DynamicAccess := {|
  GetDynamicNum := fun _ => 0;
  GetDynamic := fun _ _ => None
|}.

Definition flat_platform (a : Z) : Platform := {|
  place := fun _ _ => Some a;
  can_map := fun _ _ => true
|}.

Definition one_segment : Elf_Phdr :=
  mkElf_Phdr PT_LOAD 0 0 0x1000 0x1000 (Z.lor PF_R PF_X) 0x1000.

(** A segment that starts at the virtual address 0x2000. *)
Definition high_segment : Elf_Phdr :=
  mkElf_Phdr PT_LOAD 0 0x2000 0x1000 0x1000 PF_R 0x1000.

Definition unopened : ElfFileImpl := {|
  file_path_ := "/data/one.oat";
  map_ := MemMap_Invalid;
  header_ := None;
  segments_ := [];
  base_address_ := None;
  program_headers_start_ := None;
  section_headers_start_ := None;
  dynamic_program_header_ := None;
  dynamic_section_start_ := None;
  symtab_section_start_ := None;
  dynsym_section_start_ := None;
  strtab_section_start_ := None;
  dynstr_section_start_ := None;
  hash_section_start_ := None
|}.

Definition one_file : File := mkFile "/data/one.oat" (repeat x2a 4096).

(** The object of that image after [Load] at 0x10000 for inspection. *)
Definition one_loaded : ElfFileImpl :=
  set_program_headers_start
    (set_loaded unopened 0x10000
       [mkMemMap 0x10000 (File_bytes one_file) PROT_READ])
    (Some 0x10040).

(** ** Rounding *)

Lemma RoundDown_divide (x n : Z) : (n | RoundDown x n).
Proof. exists (x / n). reflexivity. Qed.

Lemma RoundDown_le (x n : Z) : 0 < n -> RoundDown x n <= x.
Proof.
  intros Hn. unfold RoundDown. rewrite Z.mul_comm. now apply Z.mul_div_le.
Qed.

Lemma RoundUp_ge (x n : Z) : 0 < n -> x <= RoundUp x n.
Proof.
  intros Hn. unfold RoundUp, RoundDown.
  pose proof (Z.div_mod (x + n - 1) n ltac:(lia)).
  pose proof (Z.mod_pos_bound (x + n - 1) n Hn). lia.
Qed.

(** ** The loaded address range *)

Section LoaderFacts.
Context {T : ElfTypes} {PA : ProgramHeaderAccess}.

Lemma max_align_pos (l : list Elf_Phdr) : 0 < max_align l.
Proof. unfold max_align. induction l; cbn [fold_right]; lia. Qed.

Lemma min_vaddr_head (ph : Elf_Phdr) (l : list Elf_Phdr) :
  min_vaddr (ph :: l) <= p_vaddr ph.
Proof. unfold min_vaddr. cbn [fold_right]. lia. Qed.

Context (HAddr : 0 <= Addr).

Lemma seg_end_exact (ph : Elf_Phdr) :
  Phdr_fits ph = true -> (p_vaddr ph <=? seg_end ph) = true ->
  seg_end ph = p_vaddr ph + p_memsz ph.
Proof.
  unfold Phdr_fits, seg_end, wrap.
  rewrite !andb_true_iff, !Z.leb_le, !Z.ltb_lt. intros Hf Hle.
  assert (Hp : 0 < 2 ^ Addr) by (apply Z.pow_pos_nonneg; lia).
  destruct (Z.lt_ge_cases (p_vaddr ph + p_memsz ph) (2 ^ Addr)) as [Hlt|Hge].
  - apply Z.mod_small. lia.
  - exfalso. rewrite <- (Z.mod_add _ (-1)) in Hle by lia.
    rewrite Z.mod_small in Hle; lia.
Qed.

(** Segments that follow each other from [lo] on fit between [lo] and the
    largest end. *)
Lemma sorted_from_sum (lo : Z) (l : list Elf_Phdr) :
  sorted_from lo l = true ->
  forallb (fun ph => p_vaddr ph <=? seg_end ph) l = true ->
  lo + sum_filesz l <= Z.max lo (max_vaddr l).
Proof.
  unfold sum_filesz, max_vaddr.
  revert lo. induction l as [|ph l IH]; intros lo Hs Hov; cbn [fold_right];
    [lia|].
  cbn [sorted_from forallb] in Hs, Hov.
  apply andb_true_iff in Hs as [Hs1 Hs], Hov as [Hov1 Hov].
  apply andb_true_iff in Hs1 as [Hlo Hfit].
  rewrite (seg_end_exact ph Hfit Hov1). specialize (IH _ Hs Hov).
  apply Z.leb_le in Hlo. unfold Phdr_fits in Hfit.
  rewrite !andb_true_iff, !Z.leb_le, !Z.ltb_lt in Hfit. lia.
Qed.

End LoaderFacts.

(** ** The range and the segments *)

Section LoadTheorems.
Context {T : ElfTypes} {PA : ProgramHeaderAccess} {HdrA : HeaderAccess}
  {SS : SectionStarts} {DA : DynamicAccess}.
Context (size_t_bits : Z) (HAddr : 0 <= Addr).

Lemma GetLoadedAddressRange_inv (f : ElfFileImpl) (b size : Z) :
  GetLoadedAddressRange size_t_bits f = inl (b, size) ->
  exists ph l,
    loadable_headers f = Some (ph :: l) /\
    forallb (fun q => p_vaddr q <=? seg_end q) (ph :: l) = true /\
    b = RoundDown (min_vaddr (ph :: l)) (max_align (ph :: l)) /\
    b + size = RoundUp (max_vaddr (ph :: l)) (max_align (ph :: l)) /\
    b + size <= 2 ^ size_t_bits.
Proof.
  unfold GetLoadedAddressRange.
  destruct (loadable_headers f) as [[|ph l]|]; try discriminate.
  destruct (forallb _ (ph :: l)) eqn:Hov; cbn [negb]; [|discriminate].
  cbv zeta.
  destruct (Z.ltb_spec (2 ^ size_t_bits)
              (RoundUp (max_vaddr (ph :: l)) (max_align (ph :: l))));
    [discriminate|].
  intros [= <- <-]. exists ph, l. repeat split; auto;
    unfold min_vaddr, max_vaddr, max_align in *; cbn [fold_right] in *; lia.
Qed.

Lemma seg_end_le_max (ph : Elf_Phdr) (l : list Elf_Phdr) :
  In ph l -> seg_end ph <= max_vaddr l.
Proof.
  unfold max_vaddr. induction l as [|q l IH]; [easy|].
  cbn [fold_right]. intros [->|Hin]; [lia|]. specialize (IH Hin). lia.
Qed.

(** C34: the loaded size is a multiple of the largest alignment of a
    loadable segment, and, for an image whose loadable segments follow each
    other without overlap, at least the sum of their file sizes. *)
Theorem GetLoadedSize_spec (f : ElfFileImpl) (size : Z) (l : list Elf_Phdr) :
  GetLoadedSize size_t_bits f = inl size -> loadable_headers f = Some l ->
  (max_align l | size) /\
  (segments_sorted l = true -> sum_filesz l <= size).
Proof.
  unfold GetLoadedSize.
  destruct (GetLoadedAddressRange size_t_bits f) as [[b sz]|] eqn:E;
    [|discriminate].
  intros [= ->] Hl.
  apply GetLoadedAddressRange_inv in E as (ph & l' & Hl' & Hov & Hb & He & _).
  rewrite Hl in Hl'. injection Hl' as ->.
  pose proof (max_align_pos (ph :: l')) as Ha. split.
  - replace size with (b + size - b) by lia. rewrite He, Hb.
    apply Z.divide_sub_r; apply RoundDown_divide.
  - intros Hs. cbn [segments_sorted] in Hs.
    pose proof (sorted_from_sum HAddr _ _ Hs Hov) as Hsum.
    pose proof (seg_end_le_max ph (ph :: l') (or_introl eq_refl)) as Hmax.
    pose proof (RoundUp_ge (max_vaddr (ph :: l')) _ Ha).
    pose proof (RoundDown_le (min_vaddr (ph :: l')) _ Ha).
    pose proof (min_vaddr_head ph l').
    cbn [forallb] in Hov. apply andb_true_iff in Hov as [Hov _].
    apply Z.leb_le in Hov. lia.
Qed.

Lemma map_segments_Forall2 (P : Platform) (file : list byte) (ex : bool)
    (base : Z) (l : list Elf_Phdr) (ms : list MemMap) :
  map_segments P file ex base l = inl ms ->
  Forall2 (fun ph m => map_segment P file ex base ph = inl m) l ms.
Proof.
  revert ms. induction l as [|ph l IH]; intros ms; cbn [map_segments].
  - intros [= <-]. constructor.
  - destruct (map_segment P file ex base ph) as [m|] eqn:Hm; [|discriminate].
    destruct (map_segments P file ex base l) as [ms'|]; [|discriminate].
    intros [= <-]. constructor; auto.
Qed.

Lemma locate_program_headers_same (f f' : ElfFileImpl) (base : Z) :
  locate_program_headers f base = inl f' -> same_maps f' f.
Proof.
  unfold locate_program_headers. destruct (GetHeader f); [|discriminate].
  destruct (checked f _); [|discriminate]. intros [= <-]. auto with elf.
Qed.

Lemma dynamic_pointer_same (f : ElfFileImpl) (base : Z) (d : Elf_Dyn) :
  same_maps (dynamic_pointer f base d) f.
Proof.
  unfold dynamic_pointer. repeat break_match; auto with elf. reflexivity.
Qed.

Lemma dynamic_pointers_same (base : Z) (n : nat) :
  forall f i, same_maps (dynamic_pointers f base i n) f.
Proof.
  induction n as [|n IH]; intros f i; cbn [dynamic_pointers]; [reflexivity|].
  destruct (GetDynamic f i); [|reflexivity].
  now rewrite IH, dynamic_pointer_same.
Qed.

Lemma resolve_dynamic_same (f : ElfFileImpl) (base : Z) :
  same_maps (resolve_dynamic f base) f.
Proof.
  unfold resolve_dynamic. destruct (GetDynamicProgramHeader f);
    [|reflexivity].
  now rewrite dynamic_pointers_same, set_dynamic_same.
Qed.

(** The steps of [Load] that succeeded, and what the loaded object owns. *)
Lemma Load_inv (P : Platform) (f : ElfFileImpl) (file : File)
    (ex low : bool) (res : option (Z * Z)) (f' : ElfFileImpl)
    (res' : option (Z * Z)) :
  Load size_t_bits P f file ex low res = inl (f', res') ->
  exists b size base l ms,
    GetLoadedAddressRange size_t_bits f = inl (b, size) /\
    reserve P size low res = Some (base, res') /\
    loadable_headers f = Some l /\
    map_segments P (File_bytes file) ex base l = inl ms /\
    segments_ f' = ms /\ base_address_ f' = Some base /\
    same_maps f' (set_loaded f base ms).
Proof.
  unfold Load.
  destruct (GetLoadedAddressRange size_t_bits f) as [[b size]|] eqn:E1;
    [|discriminate].
  destruct (reserve P size low res) as [[base r]|] eqn:E2; [|discriminate].
  destruct (loadable_headers f) as [l|] eqn:E3; [|discriminate].
  destruct (map_segments P (File_bytes file) ex base l) as [ms|] eqn:E4;
    [|discriminate].
  destruct (locate_program_headers _ base) as [f1|] eqn:E5; [|discriminate].
  intros [= <- <-]. exists b, size, base, l, ms.
  apply locate_program_headers_same in E5.
  assert (Hs : same_maps (resolve_dynamic f1 base) (set_loaded f base ms))
    by now rewrite resolve_dynamic_same.
  repeat split; auto; apply Hs.
Qed.

Lemma map_segment_inv (P : Platform) (file : list byte) (ex : bool)
    (base : Z) (ph : Elf_Phdr) (m : MemMap) :
  map_segment P file ex base ph = inl m ->
  p_filesz ph <= p_memsz ph /\
  exists bs,
    slice (Z.to_nat (p_offset ph)) (Z.to_nat (p_filesz ph)) file = Some bs /\
    m = mkMemMap (base + p_vaddr ph)
          (bs ++ repeat x00 (Z.to_nat (p_memsz ph - p_filesz ph)))
          (seg_prot ex ph).
Proof.
  unfold map_segment, seg_bytes.
  destruct (negb _); [discriminate|].
  destruct (Z.ltb_spec (p_memsz ph) (p_filesz ph)); [discriminate|].
  destruct (slice _ _ file) as [bs|]; [|discriminate].
  destruct (can_map P _ _); [|discriminate].
  intros [= <-]. eauto.
Qed.

(** C31: after a successful [Load] the base address is set and there is one
    region for each loadable program header, in header order: it starts at
    the base address plus [p_vaddr], holds the [p_filesz] bytes of the file
    from [p_offset] on followed by zeros, and has [p_memsz] bytes. *)
Theorem Load_segments (P : Platform) (f : ElfFileImpl) (file : File)
    (ex low : bool) (res : option (Z * Z)) (f' : ElfFileImpl)
    (res' : option (Z * Z)) :
  Load size_t_bits P f file ex low res = inl (f', res') ->
  exists base l,
    GetBaseAddress f' = Some base /\ loadable_headers f = Some l /\
    Forall2
      (fun ph m =>
         MemMap_Begin m = base + p_vaddr ph /\
         (0 <= p_filesz ph -> MemMap_Size m = p_memsz ph) /\
         exists bs,
           slice (Z.to_nat (p_offset ph)) (Z.to_nat (p_filesz ph))
             (File_bytes file) = Some bs /\
           mm_bytes m =
             bs ++ repeat x00 (Z.to_nat (p_memsz ph - p_filesz ph)))
      l (segments_ f').
Proof.
  intros H. apply Load_inv in H as (b & size & base & l & ms & _ & _ & Hl
                                      & Hms & Hseg & Hbase & _).
  exists base, l. rewrite Hseg. repeat split; auto.
  apply map_segments_Forall2 in Hms.
  eapply Forall2_impl; [|exact Hms]. cbn beta. intros ph m Hm.
  apply map_segment_inv in Hm as (Hle & bs & Hs & ->). cbn.
  split; [reflexivity|]. split; [|eauto]. intros H0.
  unfold MemMap_Size. cbn. rewrite length_app, repeat_length.
  rewrite (slice_length _ _ _ _ Hs). lia.
Qed.

Lemma seg_prot_no_exec (ph : Elf_Phdr) :
  Z.land (seg_prot false ph) PROT_EXEC = 0.
Proof.
  unfold seg_prot. cbn [andb].
  destruct (Z.land (p_flags ph) PF_W =? 0), (Z.land (p_flags ph) PF_R =? 0);
    reflexivity.
Qed.

(** C32: an image that is loaded to be looked at, not executed, has no
    executable region, whatever the flags of its segments say. *)
Theorem Load_not_executable (P : Platform) (f : ElfFileImpl)
    (file : File) (low : bool) (res : option (Z * Z))
    (f' : ElfFileImpl) (res' : option (Z * Z)) :
  Load size_t_bits P f file false low res = inl (f', res') ->
  Forall (fun m => Z.land (mm_prot m) PROT_EXEC = 0) (segments_ f').
Proof.
  intros H. apply Load_inv in H as (b & size & base & l & ms & _ & _ & _
                                      & Hms & Hseg & Hbase & _).
  apply map_segments_Forall2 in Hms. rewrite Hseg. clear Hseg.
  induction Hms as [|ph m l ms Hm _ IH]; constructor; [|exact IH].
  apply map_segment_inv in Hm as (_ & bs & _ & ->). apply seg_prot_no_exec.
Qed.

Lemma map_segments_in_span (P : Platform) (file : list byte) (ex : bool)
    (base bound : Z) (l : list Elf_Phdr) (ms : list MemMap) :
  map_segments P file ex base l = inl ms ->
  (forall ph, In ph l ->
     0 <= p_vaddr ph /\ 0 <= p_filesz ph /\
     p_vaddr ph + p_memsz ph <= bound) ->
  Forall (fun m => base <= MemMap_Begin m /\ MemMap_End m <= base + bound) ms.
Proof.
  intros Hms Hl. apply map_segments_Forall2 in Hms.
  induction Hms as [|ph m l ms Hm _ IH]; constructor.
  - apply map_segment_inv in Hm as (Hle & bs & Hs & ->).
    destruct (Hl ph (or_introl eq_refl)) as (Hv & Hf & Hb).
    unfold MemMap_End, MemMap_Size, MemMap_Begin. cbn.
    rewrite length_app, repeat_length, (slice_length _ _ _ _ Hs). lia.
  - apply IH. intros q Hq. apply Hl. now right.
Qed.

(** When the loaded range starts at the virtual address 0, every
    region of a loaded image lies in the span that was reserved for it. *)
Theorem Load_segments_in_span (P : Platform) (f : ElfFileImpl)
    (file : File) (ex low : bool) (res : option (Z * Z))
    (f' : ElfFileImpl) (res' : option (Z * Z)) (size base : Z)
    (l : list Elf_Phdr) :
  Load size_t_bits P f file ex low res = inl (f', res') ->
  GetLoadedAddressRange size_t_bits f = inl (0, size) ->
  loadable_headers f = Some l -> forallb Phdr_fits l = true ->
  GetBaseAddress f' = Some base ->
  Forall (fun m => base <= MemMap_Begin m /\ MemMap_End m <= base + size)
    (segments_ f').
Proof.
  intros H Hr Hl Hfit Hb.
  apply Load_inv in H as (b & size' & base' & l' & ms & Hr' & _ & Hl' & Hms
                            & Hseg & Hbase & _).
  rewrite Hr in Hr'. injection Hr' as <-.
  rewrite Hl in Hl'. injection Hl' as <-.
  unfold GetBaseAddress in Hb. rewrite Hbase in Hb. injection Hb as ->.
  apply GetLoadedAddressRange_inv in Hr as (ph0 & l0 & Hl0 & Hov & _ & He & _).
  rewrite Hl in Hl0. injection Hl0 as ->.
  pose proof (RoundUp_ge (max_vaddr (ph0 :: l0)) _
                (max_align_pos (ph0 :: l0))) as Hup.
  rewrite Hseg. eapply map_segments_in_span; [exact Hms|].
  rewrite forallb_forall in Hfit, Hov. intros ph Hph.
  pose proof (seg_end_exact HAddr ph (Hfit _ Hph) (Hov _ Hph)) as Hend.
  pose proof (seg_end_le_max _ _ Hph). specialize (Hfit _ Hph).
  unfold Phdr_fits in Hfit.
  rewrite !andb_true_iff, !Z.leb_le, !Z.ltb_lt in Hfit. lia.
Qed.

(** Below 4GB when asked: the span the platform places ends below 4GB. *)
Lemma Load_low_4gb (P : Platform) {Laws : PlatformLaws P} (f : ElfFileImpl)
    (file : File) (ex : bool) (f' : ElfFileImpl)
    (res' : option (Z * Z)) :
  Load size_t_bits P f file ex true None = inl (f', res') ->
  exists base size,
    GetBaseAddress f' = Some base /\
    GetLoadedSize size_t_bits f = inl size /\
    0 <= base /\ base + size <= 2 ^ 32.
Proof.
  intros H. apply Load_inv in H as (b & size & base & l & ms & Hr & Hres & _
                                      & _ & Hseg & Hbase & _).
  exists base, size. unfold GetLoadedSize, GetBaseAddress.
  rewrite Hr, Hbase. cbn in Hres.
  destruct (place P size true) as [a|] eqn:Hp; [|discriminate].
  injection Hres as <- _. apply place_low_4gb in Hp. auto.
Qed.

(** C33: [Load] leaves the file mapping as it is.  [Begin()], [End()] and
    [Size()] of the loaded object are those of the object that was opened:
    they describe the mapping of the file, not the loaded image.  The base
    address is the start of the span of the loaded size that was taken
    from the reservation or placed by the platform. *)
Theorem Load_keeps_file_mapping (P : Platform) (f : ElfFileImpl)
    (file : File) (ex low : bool) (res : option (Z * Z)) (f' : ElfFileImpl)
    (res' : option (Z * Z)) :
  Load size_t_bits P f file ex low res = inl (f', res') ->
  Begin f' = Begin f /\ End f' = End f /\ Size f' = Size f /\
  Size f' = End f' - Begin f' /\
  exists size base,
    GetLoadedSize size_t_bits f = inl size /\
    reserve P size low res = Some (base, res') /\
    GetBaseAddress f' = Some base.
Proof.
  intros H. apply Load_inv in H as (b & size & base & l & ms & Hr & Hres & _
                                      & _ & _ & Hbase & Hsame).
  assert (Hm : map_ f' = map_ f) by apply Hsame.
  unfold Begin, End, Size, GetLoadedSize, GetBaseAddress, MemMap_End.
  rewrite Hm, Hr, Hbase. repeat split; eauto; lia.
Qed.

(** ** The cached pointers of the loaded object *)

Lemma set_loaded_valid (f : ElfFileImpl) (base : Z) (ms : list MemMap) :
  segments_ f = [] -> pointers_valid f = true ->
  pointers_valid (set_loaded f base ms) = true.
Proof.
  intros Hs Hf. apply pointers_valid_spec. intros p Hp.
  apply ValidPointer_set_loaded; [assumption|].
  exact (proj1 (pointers_valid_spec f) Hf p Hp).
Qed.

Lemma locate_program_headers_valid (f f' : ElfFileImpl) (base : Z) :
  pointers_valid f = true -> locate_program_headers f base = inl f' ->
  pointers_valid f' = true.
Proof.
  intros Hf. unfold locate_program_headers.
  destruct (GetHeader f); [|discriminate].
  destruct (checked f _) as [p|] eqn:Hp; [|discriminate]. intros [= <-].
  apply set_program_headers_start_valid; [assumption|].
  rewrite <- Hp. apply checked_ok.
Qed.

Lemma dynamic_pointer_valid (f : ElfFileImpl) (base : Z) (d : Elf_Dyn) :
  pointers_valid f = true -> pointers_valid (dynamic_pointer f base d) = true.
Proof.
  intros Hf. assert (Hall := proj1 (pointers_valid_spec f) Hf).
  unfold dynamic_pointer. repeat break_match; [| | |assumption].
  - apply set_hash_valid; [assumption|apply checked_ok].
  - apply set_dynsym_valid; [assumption| |apply checked_ok].
    destruct (dynsym_section_start_ f) eqn:E; [|reflexivity].
    apply Hall. unfold cached_pointers. rewrite E. cbn. tauto.
  - apply set_dynsym_valid; [assumption|apply checked_ok|].
    destruct (dynstr_section_start_ f) eqn:E; [|reflexivity].
    apply Hall. unfold cached_pointers. rewrite E. cbn. tauto.
Qed.

Lemma dynamic_pointers_valid (base : Z) (n : nat) :
  forall f i, pointers_valid f = true ->
  pointers_valid (dynamic_pointers f base i n) = true.
Proof.
  induction n as [|n IH]; intros f i Hf; cbn [dynamic_pointers]; [assumption|].
  destruct (GetDynamic f i); [|assumption].
  now apply IH, dynamic_pointer_valid.
Qed.

Lemma resolve_dynamic_valid (f : ElfFileImpl) (base : Z) :
  pointers_valid f = true -> pointers_valid (resolve_dynamic f base) = true.
Proof.
  intros Hf. assert (Hall := proj1 (pointers_valid_spec f) Hf).
  unfold resolve_dynamic. destruct (GetDynamicProgramHeader f); [|assumption].
  apply dynamic_pointers_valid, set_dynamic_valid;
    [assumption| |apply checked_ok].
  destruct (dynamic_program_header_ f) eqn:E; [|reflexivity].
  apply Hall. unfold cached_pointers. rewrite E. cbn. tauto.
Qed.

(** [Load] keeps the invariant of the object: if every cached pointer of
    the opened object was valid, every cached pointer of the loaded object
    is, the relocated pointer to the program headers and the pointers
    resolved from the dynamic section included. *)
Lemma Load_pointers_valid (P : Platform) (f : ElfFileImpl) (file : File)
    (ex low : bool) (res : option (Z * Z)) (f' : ElfFileImpl)
    (res' : option (Z * Z)) :
  segments_ f = [] -> pointers_valid f = true ->
  Load size_t_bits P f file ex low res = inl (f', res') ->
  pointers_valid f' = true.
Proof.
  intros Hs Hf. unfold Load.
  destruct (GetLoadedAddressRange size_t_bits f) as [[b size]|];
    [|discriminate].
  destruct (reserve P size low res) as [[base r]|]; [|discriminate].
  destruct (loadable_headers f) as [l|]; [|discriminate].
  destruct (map_segments P _ ex base l) as [ms|]; [|discriminate].
  destruct (locate_program_headers _ base) as [f1|] eqn:E; [|discriminate].
  intros [= <- <-]. apply resolve_dynamic_valid.
  eapply locate_program_headers_valid; [|exact E].
  now apply set_loaded_valid.
Qed.

End LoadTheorems.

(** ** The example of the design document *)

Section Example.
#[local] Existing Instance ElfTypes64.
#[local] Existing Instance NoSections.
#[local] Existing Instance NoDynamic.

(** One readable and executable segment, loaded to be looked at: one region
    of 0x1000 bytes at the base address, readable and nothing else. *)
Lemma Load_one_segment :
  Load (PA := ListHeaders [one_segment]) (HdrA := ListHeader 64) 64
    (flat_platform 0x10000) unopened one_file false false None
  = inl (one_loaded, None) /\
  GetBaseAddress one_loaded = Some 0x10000 /\
  map (fun m => (MemMap_Begin m, MemMap_Size m, mm_prot m))
    (segments_ one_loaded) = [(0x10000, 0x1000, PROT_READ)].
Proof. vm_compute. repeat split. Qed.

(** A segment whose virtual address is not 0 is mapped past the span that
    was reserved: the span is [0x10000, 0x11000), the region starts at
    0x12000. *)
Lemma Load_high_segment :
  exists f',
    Load (PA := ListHeaders [high_segment]) (HdrA := ListHeader 0x2040) 64
      (flat_platform 0x10000) unopened one_file false false None
    = inl (f', None) /\
    GetLoadedAddressRange (PA := ListHeaders [high_segment]) 64 unopened
      = inl (0x2000, 0x1000) /\
    map MemMap_Begin (segments_ f') = [0x12000].
Proof. eexists. vm_compute. repeat split. Qed.

(** The program headers must be in a segment: with the program headers at
    the file offset 64 the same image is refused. *)
Lemma Load_high_segment_headers :
  is_FormatError
    (Load (PA := ListHeaders [high_segment]) (HdrA := ListHeader 64) 64
       (flat_platform 0x10000) unopened one_file false false None) = true.
Proof. vm_compute. reflexivity. Qed.

(** With a reservation the span is taken from the reservation, whatever
    [low_4gb] says: the image is loaded at 2^32 although the caller asked
    for an address below 4GB. *)
Lemma Load_reservation_above_4gb :
  exists f',
    Load (PA := ListHeaders [one_segment]) (HdrA := ListHeader 64) 64
      (flat_platform 0x10000) unopened one_file false true
      (Some (2 ^ 32, 0x1000))
    = inl (f', Some (2 ^ 32 + 0x1000, 0)) /\
    GetBaseAddress f' = Some (2 ^ 32).
Proof. eexists. vm_compute. repeat split. Qed.

Lemma Addr64_nonneg : 0 <= @Addr ElfTypes64.
Proof. cbn. lia. Qed.

Lemma GetLoadedSize_spec_witness :
  (max_align [one_segment] | 0x1000) /\
  (segments_sorted [one_segment] = true -> sum_filesz [one_segment] <= 0x1000).
Proof.
  apply (GetLoadedSize_spec (PA := ListHeaders [one_segment]) 64
           Addr64_nonneg unopened 0x1000 [one_segment]); reflexivity.
Defined.

Lemma Load_segments_witness :
  exists base l,
    GetBaseAddress one_loaded = Some base /\
    loadable_headers (PA := ListHeaders [one_segment]) unopened = Some l /\
    Forall2
      (fun ph m =>
         MemMap_Begin m = base + p_vaddr ph /\
         (0 <= p_filesz ph -> MemMap_Size m = p_memsz ph) /\
         exists bs,
           slice (Z.to_nat (p_offset ph)) (Z.to_nat (p_filesz ph))
             (File_bytes one_file) = Some bs /\
           mm_bytes m =
             bs ++ repeat x00 (Z.to_nat (p_memsz ph - p_filesz ph)))
      l (segments_ one_loaded).
Proof.
  apply (Load_segments (PA := ListHeaders [one_segment])
           (HdrA := ListHeader 64) 64
           (flat_platform 0x10000) unopened one_file false false None _ None).
  vm_compute. reflexivity.
Defined.

Lemma Load_not_executable_witness :
  Forall (fun m => Z.land (mm_prot m) PROT_EXEC = 0) (segments_ one_loaded).
Proof.
  apply (Load_not_executable (PA := ListHeaders [one_segment])
           (HdrA := ListHeader 64) 64
           (flat_platform 0x10000) unopened one_file false None _ None).
  vm_compute. reflexivity.
Defined.

(** The span is placed at 0x10000, away from the mapping the object was
    opened on. *)
Lemma Load_keeps_file_mapping_witness :
  Begin one_loaded = Begin unopened /\ End one_loaded = End unopened /\
  Size one_loaded = Size unopened /\
  Size one_loaded = End one_loaded - Begin one_loaded /\
  exists size base,
    GetLoadedSize (PA := ListHeaders [one_segment]) 64 unopened = inl size /\
    reserve (flat_platform 0x10000) size false None = Some (base, None) /\
    GetBaseAddress one_loaded = Some base.
Proof.
  apply (Load_keeps_file_mapping (PA := ListHeaders [one_segment])
           (HdrA := ListHeader 64) 64
           (flat_platform 0x10000) unopened one_file false false None _ None).
  vm_compute. reflexivity.
Defined.

Lemma Load_segments_in_span_witness :
  Forall (fun m => 0x10000 <= MemMap_Begin m /\
                   MemMap_End m <= 0x10000 + 0x1000)
    (segments_ one_loaded).
Proof.
  apply (Load_segments_in_span (PA := ListHeaders [one_segment])
           (HdrA := ListHeader 64) 64
           Addr64_nonneg (flat_platform 0x10000) unopened one_file false
           false None _ None 0x1000 0x10000 [one_segment]);
    vm_compute; reflexivity.
Defined.

End Example.
