(* ===== verification/ElfLifecycle.v ===== *)
(** * ElfLifecycle: the states of a loader object

    The design document gives an [ElfFileImpl] three states: unopened,
    header validated, loaded.  [Open] (src/runtime/oat/elf_file_impl.h,
    lines 44-46) takes it from the first to the second, [Load] (lines 92-98)
    from the second to the third; a failure of either destroys the object,
    and there is no way back from loaded.

    The state machine is written against the two operations as the header
    declares them ([ImageOpener], [SegmentLoader]), and its theorems against
    what the operations promise ([LoaderLaws]): the opened object owns no
    segment, has no base address and has valid cached pointers; [Load] sets
    the base address and keeps the file mapping and the validity of the
    pointers.  [ElfPipeline] shows that [Open] of [ElfOpen] and [Load] of
    [ElfLoad] keep these promises.

    The machine is a step relation ([step], [steps]) and a function
    ([next], [run]) that agree; the invariant [state_ok] holds in every
    state that a sequence of calls reaches from [Unopened].  The resolver
    (line 77) is an accessor of the machine, [resolve], which answers in the
    state [Loaded] and in no other. *)

From Stdlib Require Import ZArith Lia Bool String List.
From S2P Require Import Prelude ElfTypes ElfFile.
Import ListNotations.

#[local] Open Scope Z_scope.
#[local] Open Scope elf_scope.

Section Lifecycle.
Context {O : ImageOpener} {L : SegmentLoader}.

Inductive State : Type :=
| Unopened
| HeaderValidated (f : ElfFileImpl)
| Loaded (f : ElfFileImpl).

(** The calls of a consumer, with their arguments. *)
Inductive Call : Type :=
| CallOpen (file : File) (low_4gb : bool)
| CallLoad (file : File) (executable low_4gb : bool)
    (reservation : option (Z * Z)).

(** One call: [Open] makes the object, [Load] loads it; a failure leaves
    no object.  A call that is not legal in the state has no successor. *)
Inductive step : State -> Call -> State -> Prop :=
| step_Open file low_4gb f :
    Open file low_4gb = inl f ->
    step Unopened (CallOpen file low_4gb) (HeaderValidated f)
| step_Open_fails file low_4gb e :
    Open file low_4gb = inr e ->
    step Unopened (CallOpen file low_4gb) Unopened
| step_Load f file executable low_4gb reservation f' reservation' :
    Load f file executable low_4gb reservation = inl (f', reservation') ->
    step (HeaderValidated f) (CallLoad file executable low_4gb reservation)
      (Loaded f')
| step_Load_fails f file executable low_4gb reservation e :
    Load f file executable low_4gb reservation = inr e ->
    step (HeaderValidated f) (CallLoad file executable low_4gb reservation)
      Unopened.

(** A sequence of calls. *)
Inductive steps : State -> list Call -> State -> Prop :=
| steps_nil s : steps s [] s
| steps_cons s c s' cs s'' :
    step s c s' -> steps s' cs s'' -> steps s (c :: cs) s''.

(** The machine as a function. *)
Definition next (s : State) (c : Call) : option State :=
  match s, c with
  | Unopened, CallOpen file low_4gb =>
      Some match Open file low_4gb with
           | inl f => HeaderValidated f
           | inr _ => Unopened
           end
  | HeaderValidated f, CallLoad file executable low_4gb reservation =>
      Some match Load f file executable low_4gb reservation with
           | inl (f', _) => Loaded f'
           | inr _ => Unopened
           end
  | _, _ => None
  end.

Fixpoint run (s : State) (cs : list Call) : option State :=
  match cs with
  | [] => Some s
  | c :: cs' => let? s' := next s c in run s' cs'
  end.

(** The regions a state owns. *)
Definition owned (s : State) : list MemMap :=
  match s with
  | Unopened => []
  | HeaderValidated f | Loaded f => mappings f
  end.

(** The invariant of the states: before [Load] there is no segment and no
    base address, after it there is a base address; the cached pointers are
    valid throughout. *)
Definition state_ok (s : State) : bool :=
  match s with
  | Unopened => true
  | HeaderValidated f =>
      match segments_ f with [] => true | _ => false end &&
      negb (isSome (GetBaseAddress f)) && pointers_valid f
  | Loaded f => isSome (GetBaseAddress f) && pointers_valid f
  end.

(** What the machine needs of the two operations. *)
Class LoaderLaws : Prop := mkLoaderLaws {
  Open_promise file low_4gb f :
    Open file low_4gb = inl f ->
    segments_ f = [] /\ GetBaseAddress f = None /\ pointers_valid f = true;
  Load_promise f file executable low_4gb reservation f' reservation' :
    segments_ f = [] -> pointers_valid f = true ->
    Load f file executable low_4gb reservation = inl (f', reservation') ->
    GetBaseAddress f' <> None /\ pointers_valid f' = true /\
    map_ f' = map_ f
}.

End Lifecycle.

(** ** The accessors that need the base address

    [FindDynamicSymbolAddress] adds the base address to the value of a
    symbol: it is legal once the object is loaded.  [resolve] is the call
    of a consumer that keeps to this: it has no result in another state. *)
Section Accessors.
Context {R : SymbolResolver}.

Definition resolve (s : State) (name : string) : option (option Z) :=
  match s with
  | Loaded f => Some (FindDynamicSymbolAddress f name)
  | _ => None
  end.

End Accessors.

(** ** The relation and the function agree *)

Section LifecycleFacts.
Context {O : ImageOpener} {L : SegmentLoader}.

Lemma step_next (s : State) (c : Call) (s' : State) :
  step s c s' <-> next s c = Some s'.
Proof.
  split.
  - intros H. destruct H as [? ? ? H|? ? ? H|? ? ? ? ? ? ? H|? ? ? ? ? ? H];
      cbn; now rewrite H.
  - destruct s as [|f|f], c as [file low|file ex low res]; cbn;
      try discriminate.
    + destruct (Open file low) eqn:E; intros [= <-];
        eauto using step_Open, step_Open_fails.
    + destruct (Load f file ex low res) as [[f' res']|] eqn:E; intros [= <-];
        eauto using step_Load, step_Load_fails.
Qed.

Lemma steps_run (cs : list Call) :
  forall s s', steps s cs s' <-> run s cs = Some s'.
Proof.
  induction cs as [|c cs IH]; intros s s'; cbn [run].
  - split; [intros H; inv H; reflexivity|intros [= <-]; constructor].
  - split.
    + intros H. inv H. match goal with H : step _ _ _ |- _ =>
        apply step_next in H; rewrite H end. now apply IH.
    + destruct (next s c) as [s1|] eqn:E; [|discriminate]. intros H.
      apply step_next in E. apply IH in H. eauto using steps_cons.
Qed.

(** A step has one result. *)
Lemma step_deterministic (s : State) (c : Call) (s1 s2 : State) :
  step s c s1 -> step s c s2 -> s1 = s2.
Proof. rewrite !step_next. congruence. Qed.

(** The only calls with a successor: [Open] without an object, [Load] on an
    object that is opened and not loaded. *)
Lemma next_legal (s : State) (c : Call) :
  isSome (next s c) = true <->
  (s = Unopened /\ exists file low, c = CallOpen file low) \/
  (exists f file ex low res,
     s = HeaderValidated f /\ c = CallLoad file ex low res).
Proof.
  destruct s as [|f|f], c as [file low|file ex low res]; cbn; split;
    intros H; try discriminate; try reflexivity;
    try (left; eauto; fail); try (right; eauto 8; fail);
    destruct H as [[H1 (? & ? & H2)]|(? & ? & ? & ? & ? & H1 & H2)];
    discriminate.
Qed.

Lemma resolve_legal {R : SymbolResolver} (s : State) (name : string) :
  isSome (resolve s name) = true <-> exists f, s = Loaded f.
Proof.
  destruct s; cbn; split; intros H; eauto; try discriminate;
    now destruct H.
Qed.

Lemma steps_app (a b : list Call) :
  forall s s', steps s (a ++ b) s' <->
               exists s1, steps s a s1 /\ steps s1 b s'.
Proof.
  induction a as [|c a IH]; intros s s'; cbn [app].
  - split; [eauto using steps_nil|]. intros (s1 & H1 & H2). now inv H1.
  - split.
    + intros H. inv H. match goal with H : steps _ (a ++ b) _ |- _ =>
        apply IH in H as (s1 & H1 & H2) end. eauto using steps_cons.
    + intros (s1 & H1 & H2). inv H1. econstructor; [eassumption|].
      apply IH. eauto.
Qed.

(** The last call of a sequence. *)
Lemma steps_last (cs : list Call) (s s' : State) :
  steps s cs s' -> s <> s' ->
  exists cs' c s1, cs = cs' ++ [c] /\ steps s cs' s1 /\ step s1 c s'.
Proof.
  destruct cs as [|c0 cs0] using rev_ind; intros H Hne.
  - inv H. contradiction.
  - apply steps_app in H as (s1 & H1 & H2). inv H2.
    match goal with H : steps _ [] _ |- _ => inv H end. eauto 6.
Qed.

(** ** The invariant *)

Context {Laws : LoaderLaws}.

Lemma step_ok (s : State) (c : Call) (s' : State) :
  state_ok s = true -> step s c s' -> state_ok s' = true.
Proof.
  intros Hs H. destruct H as [? ? ? H|? ? ? H|f ? ? ? ? f' ? H|? ? ? ? ? ? H];
    cbn [state_ok] in *; auto.
  - apply Open_promise in H as (-> & -> & ->). reflexivity.
  - apply andb_true_iff in Hs as [Hs Hv]. apply andb_true_iff in Hs as [Hs _].
    destruct (segments_ f) eqn:Hseg; [|discriminate].
    apply (Load_promise _ _ _ _ _ _ _ Hseg Hv) in H as (Hb & -> & _).
    destruct (GetBaseAddress f'); [reflexivity|contradiction].
Qed.

(** The invariant goes along every sequence of calls. *)
Lemma steps_ok (cs : list Call) :
  forall s s', state_ok s = true -> steps s cs s' -> state_ok s' = true.
Proof.
  induction cs as [|c cs IH]; intros s s' H0 H; inv H; [assumption|].
  eauto using step_ok.
Qed.

End LifecycleFacts.

Section LifecycleTheorems.
Context {O : ImageOpener} {L : SegmentLoader} {Laws : LoaderLaws}.

(** The life of an object is strictly sequential: nothing follows
    [Loaded], and a sequence of calls that reaches [Loaded] ends with a
    successful [Open] followed by a successful [Load] of the object it
    returned. *)
Theorem Loaded_is_final (cs : list Call) (s : State) (f : ElfFileImpl) :
  (steps (Loaded f) cs s -> cs = [] /\ s = Loaded f) /\
  (steps Unopened cs (Loaded f) ->
   exists cs' file low f0 file' ex low' res res',
     cs = cs' ++ [CallOpen file low; CallLoad file' ex low' res] /\
     Open file low = inl f0 /\
     Load f0 file' ex low' res = inl (f, res')).
Proof.
  split.
  - intros H. inv H; [auto|]. match goal with H : step _ _ _ |- _ => inv H end.
  - intros H. apply steps_last in H as (cs1 & c1 & s1 & -> & H1 & Hc1);
      [|discriminate].
    inv Hc1. apply steps_last in H1 as (cs2 & c2 & s2 & -> & H2 & Hc2);
      [|discriminate].
    inv Hc2. rewrite <- app_assoc. cbn [app]. eauto 12.
Qed.

End LifecycleTheorems.
