(* ===== verification/ElfPipeline.v ===== *)
(** * ElfPipeline: from the bytes of a file to the address of a symbol

    [Open] of [ElfOpen] and [Load] of [ElfLoad], over the views of
    [ElfHeaders] and [ElfTables], are the two operations of the state
    machine of [ElfLifecycle]: [View_Laws] shows that they keep what the
    machine needs of them.  Every state the machine reaches with them
    satisfies [loader_ok] ([loader_reachable_ok]): the invariant of
    [ElfLifecycle], and the header of the object is the one [Open]
    validated, also after [Load] has mapped the segments.  An address
    resolved on a loaded object is relocated ([loaded_resolves]).

    The second half runs the whole loader on the bytes of a 64-bit image
    that is laid out the way a linker lays it out (ELF header, two program
    headers, dynamic symbol table, string table, hash table, dynamic
    section, section headers): [Open], [Load] into a reservation, then the
    resolver on the loaded object; and on three damaged copies of the
    image, which [Open] refuses.  The same image in the 32-bit layouts
    (a header of 52 bytes, program headers of 32, symbols of 16) goes
    through the 32-bit instantiation, below 4GB, to the same addresses. *)

From Stdlib Require Import ZArith Lia Bool Ascii String List.
From Stdlib Require Import Strings.Byte.
From S2P Require Import Prelude ElfTypes ElfFile ElfHash ElfTables ElfHeaders.
From S2P Require Import ElfOpen ElfLoad ElfLifecycle ElfImage.
Import ListNotations.

#[local] Open Scope Z_scope.
#[local] Open Scope elf_scope.

(** ** The machine of the model

    The state machine of [ElfLifecycle] with [Open] of [ElfOpen] and [Load]
    of [ElfLoad] as its operations, from [Unopened]. *)
Section Composition.
Context {T : ElfTypes}.

Definition loader_run (size_t_bits : Z) (P : Platform) (cs : list Call)
  : option State :=
  run (O := View_ImageOpener P) (L := Mapped_SegmentLoader size_t_bits P)
      Unopened cs.

(** The header of an object that was opened: [header_] points to the start
    of the file mapping, the mapping is read-only, and [GetHeader()] returns
    a header with the magic, the class and the byte order of the
    instantiation. *)
Definition validated (f : ElfFileImpl) : Prop :=
  header_ f = Some (Begin f) /\ mm_prot (map_ f) = PROT_READ /\
  exists h, View.GetHeader f = Some h /\ check_ident h = inl tt.

(** The invariant of the machine of the model: [state_ok] of
    [ElfLifecycle], and the object of a state has a validated header. *)
Definition loader_ok (s : State) : Prop :=
  state_ok s = true /\
  match s with
  | Unopened => True
  | HeaderValidated f | Loaded f => validated f
  end.

End Composition.

Section Image.
#[local] Existing Instance ElfTypes64.

(** [bs], then zeros up to [n] bytes. *)
Definition pad_to (n : nat) (bs : list byte) : list byte :=
  bs ++ repeat x00 (n - length bs).

Definition oat_ident : list byte :=
  ELFMAG ++ [ELFCLASS64; ELFDATA2LSB; x01] ++ repeat x00 9.

(** The ELF header: a shared object, two program headers at the offset 64,
    five section headers at the offset 0x200. *)
Definition oat_ehdr : Elf_Ehdr := mkElf_Ehdr oat_ident 3 64 0x200 64 56 2 64 5 0.

(** The whole file is one loadable segment at the virtual address 0. *)
Definition oat_load : Elf_Phdr :=
  mkElf_Phdr PT_LOAD 0 0 0x3000 0x3000 (Z.lor PF_R PF_X) 0x1000.

Definition oat_dynamic : Elf_Phdr :=
  mkElf_Phdr PT_DYNAMIC 0x1a0 0x1a0 64 64 PF_R 8.

Definition oat_dyn_entries : list Elf_Dyn :=
  [mkElf_Dyn DT_HASH 0x180; mkElf_Dyn DT_STRTAB 0x160;
   mkElf_Dyn DT_SYMTAB 0x100; mkElf_Dyn DT_NULL 0].

(** The section headers: the reserved entry, .dynsym (linked to .dynstr),
    .dynstr, .hash and .dynamic. *)
Definition oat_sections (hash_type : Z) : list Elf_Shdr :=
  [mkElf_Shdr 0 0 0 0 0 0 0 0;
   mkElf_Shdr 1 SHT_DYNSYM 2 0x100 0x100 96 2 24;
   mkElf_Shdr 9 SHT_STRTAB 2 0x160 0x160 29 0 0;
   mkElf_Shdr 17 hash_type 2 0x180 0x180 32 1 4;
   mkElf_Shdr 23 SHT_DYNAMIC 3 0x1a0 0x1a0 64 2 16].

(** The bytes of the file, for an ELF header and the type of the fourth
    section. *)
Definition oat_bytes_of (h : Elf_Ehdr) (hash_type : Z) : list byte :=
  pad_to 0x3000
    (pad_to 0x100 (View.encode_Ehdr h ++ View.encode_Phdr oat_load ++
                   View.encode_Phdr oat_dynamic) ++
     dynsym_bytes ++ pad_to 0x20 dynstr_bytes ++ hash_bytes ++
     flat_map View.encode_Dyn oat_dyn_entries ++ repeat x00 0x20 ++
     flat_map View.encode_Shdr (oat_sections hash_type)).

Definition oat_file : File :=
  mkFile "/data/test.oat" (oat_bytes_of oat_ehdr SHT_HASH).

(** The same file with the first byte overwritten. *)
Definition bad_magic_file : File :=
  mkFile "/data/test.oat" (x00 :: tl (File_bytes oat_file)).

(** The same file with a header that declares 0x1000 program headers. *)
Definition long_table_file : File :=
  mkFile "/data/test.oat"
    (oat_bytes_of (mkElf_Ehdr oat_ident 3 64 0x200 64 56 0x1000 64 5 0)
       SHT_HASH).

(** The same file without a section of type SHT_HASH. *)
Definition no_hash_file : File :=
  mkFile "/data/test.oat" (oat_bytes_of oat_ehdr 0).

(** The file is mapped at 0x10000; the image is loaded into the reservation
    that starts at 0x20000. *)
Definition oat_platform : Platform := flat_platform 0x10000.

Definition oat_reservation : option (Z * Z) := Some (0x20000, 0x10000).

(** The two calls of a consumer, and the machine of the model on the
    platform. *)
Definition oat_calls : list Call :=
  [CallOpen oat_file false; CallLoad oat_file false false oat_reservation].

Definition oat_run (cs : list Call) : option State :=
  loader_run 64 oat_platform cs.

(** The object after [Open] and after [Load]. *)
Definition oat_opened : ElfFileImpl :=
  match Open oat_platform oat_file false with
  | inl f => f
  | inr _ => new_ElfFileImpl oat_file
  end.

Definition oat_loaded : ElfFileImpl :=
  match Load 64 oat_platform oat_opened oat_file false false
          oat_reservation with
  | inl (f, _) => f
  | inr _ => oat_opened
  end.

(** What is looked at in an object: the file mapping, the segments with
    their protection, the base address and the cached pointers. *)
Definition summary (f : ElfFileImpl)
  : Z * Z * list (Z * Z * Z) * option Z * list (option Z) :=
  (Begin f, Size f,
   map (fun m => (MemMap_Begin m, MemMap_Size m, mm_prot m)) (segments_ f),
   GetBaseAddress f, cached_pointers f).

End Image.

(** ** The same image for the 32-bit instantiation

    The tables are those of the 64-bit image in the layouts of ELF32: the
    ELF header has 52 bytes, a program header 32, a section header 40, a
    symbol 16 and an entry of the dynamic section 8. *)
Section Image32.
#[local] Existing Instance ElfTypes32.

Definition oat32_ident : list byte :=
  ELFMAG ++ [ELFCLASS32; ELFDATA2LSB; x01] ++ repeat x00 9.

Definition oat32_ehdr : Elf_Ehdr :=
  mkElf_Ehdr oat32_ident 3 52 0x200 52 32 2 40 5 0.

Definition oat32_dynamic : Elf_Phdr :=
  mkElf_Phdr PT_DYNAMIC 0x180 0x180 32 32 PF_R 4.

Definition oat32_dyn_entries : list Elf_Dyn :=
  [mkElf_Dyn DT_HASH 0x160; mkElf_Dyn DT_STRTAB 0x140;
   mkElf_Dyn DT_SYMTAB 0x100; mkElf_Dyn DT_NULL 0].

Definition oat32_sections : list Elf_Shdr :=
  [mkElf_Shdr 0 0 0 0 0 0 0 0;
   mkElf_Shdr 1 SHT_DYNSYM 2 0x100 0x100 64 2 16;
   mkElf_Shdr 9 SHT_STRTAB 2 0x140 0x140 29 0 0;
   mkElf_Shdr 17 SHT_HASH 2 0x160 0x160 32 1 4;
   mkElf_Shdr 23 SHT_DYNAMIC 3 0x180 0x180 32 2 8].

Definition oat32_bytes : list byte :=
  pad_to 0x3000
    (pad_to 0x100 (View.encode_Ehdr oat32_ehdr ++ View.encode_Phdr oat_load ++
                   View.encode_Phdr oat32_dynamic) ++
     flat_map Mapped.encode_Sym
       [mkElf_Sym 0 0 0 0 0; sym_oatdata; sym_oatexec; sym_oatlastword] ++
     pad_to 0x20 dynstr_bytes ++ hash_bytes ++
     flat_map View.encode_Dyn oat32_dyn_entries ++ repeat x00 0x60 ++
     flat_map View.encode_Shdr oat32_sections).

Definition oat32_file : File := mkFile "/data/test32.oat" oat32_bytes.

Definition oat32_calls : list Call :=
  [CallOpen oat32_file true; CallLoad oat32_file false true oat_reservation].

(** The object the two calls end with; a new object if they fail. *)
Definition oat32_loaded : ElfFileImpl :=
  match loader_run 32 oat_platform oat32_calls with
  | Some (Loaded f) => f
  | _ => new_ElfFileImpl oat32_file
  end.

End Image32.

(** ** The operations of the model keep the promises of the machine *)

Section Machine.
Context {T : ElfTypes}.
Variables (size_t_bits : Z) (P : Platform).

#[export] Instance View_Laws
  : @LoaderLaws (View_ImageOpener P) (Mapped_SegmentLoader size_t_bits P).
Proof.
  split; cbn.
  - intros file low f. unfold ElfOpen.Open.
    destruct (Setup P _ file PROT_READ low) as [f'|] eqn:Hs; [|discriminate].
    destruct (CheckSectionsExist f'); [|discriminate]. intros [= <-].
    exact (Setup_owns P _ _ _ _ Hs).
  - intros f file ex low res f' res' Hseg Hv H.
    pose proof (Load_pointers_valid _ _ _ _ _ _ _ _ _ Hseg Hv H) as Hv'.
    apply Load_inv in H as (_ & _ & base & _ & ms & _ & _ & _ & _ & _ & Hb
                              & Hsame).
    unfold GetBaseAddress. rewrite Hb. repeat split; auto; [discriminate|].
    apply Hsame.
Qed.

(** The object [Open] returns has a validated header. *)
Lemma Open_validated (file : File) (low : bool) (f : ElfFileImpl) :
  Open P file low = inl f -> validated f.
Proof.
  unfold Open.
  destruct (Setup P _ file PROT_READ low) as [f'|] eqn:Hs; [|discriminate].
  destruct (CheckSectionsExist f'); [|discriminate]. intros [= <-].
  apply Setup_inv in Hs as (m & h & Hm & Hh & Hc & _ & _ & ->).
  apply MapFile_whole in Hm as (_ & _ & Hp).
  set (f1 := set_map (new_ElfFileImpl file) m) in *.
  set (f2 := set_section_headers_start _ _) in *.
  assert (Hsame : same_maps (locate_sections (locate_dynamic f2)) f1).
  { rewrite locate_sections_same, locate_dynamic_same. subst f2.
    now rewrite set_section_headers_start_same,
      set_program_headers_start_same. }
  repeat split.
  - rewrite (Begin_Proper _ _ Hsame). now destruct Hsame as (_ & _ & -> & _).
  - now destruct Hsame as (-> & _).
  - exists h. now rewrite (GetHeader_Proper _ _ Hsame).
Qed.

(** [Load] keeps the header validated: the file mapping is the first
    region a read looks at, so no segment hides the header. *)
Lemma Load_validated (f : ElfFileImpl) (file : File) (ex low : bool)
    (res : option (Z * Z)) (f' : ElfFileImpl) (res' : option (Z * Z)) :
  segments_ f = [] -> validated f ->
  Load size_t_bits P f file ex low res = inl (f', res') -> validated f'.
Proof.
  intros Hseg (Hh & Hp & h & Hg & Hc) H.
  apply Load_inv in H as (_ & _ & base & _ & ms & _ & _ & _ & _ & _ & _
                            & Hsame).
  repeat split.
  - rewrite (Begin_Proper _ _ Hsame). destruct Hsame as (_ & _ & -> & _).
    exact Hh.
  - destruct Hsame as (-> & _). exact Hp.
  - exists h. split; [|exact Hc]. rewrite (GetHeader_Proper _ _ Hsame).
    revert Hg.
    unfold View.GetHeader. cbn [header_ set_loaded]. rewrite Hh.
    cbn beta iota. unfold read_bytes, mappings. rewrite Hseg.
    cbn [map_ segments_ set_loaded read_in].
    now destruct (map_read (map_ f) (Begin f) (sizeof Ehdr)).
Qed.

(** C12: for the opener of [ElfOpen] and the segment loader of [ElfLoad],
    on every platform and whatever the files hold: every state that a
    sequence of calls reaches from [Unopened] satisfies the invariant.  An
    object that [Open] returned and that is not loaded owns no segment and
    has no base address; an object that [Load] returned has a base address;
    every cached pointer of either lies in a region the object owns; and
    the header stays validated: [header_] points to the start of the
    read-only file mapping, and [GetHeader()] returns a header with the
    magic, the class and the byte order of the instantiation, before and
    after [Load]. *)
Theorem loader_reachable_ok (cs : list Call) (s : State) :
  loader_run size_t_bits P cs = Some s -> loader_ok s.
Proof.
  unfold loader_run.
  assert (H0 : loader_ok Unopened) by (split; [reflexivity|exact I]).
  revert H0. generalize Unopened as s0.
  induction cs as [|c cs IH]; intros s0 H0; cbn [run]; [now intros [= <-]|].
  destruct (next s0 c) as [s1|] eqn:Hn; [|discriminate]. apply IH.
  destruct H0 as [Hs Hv]. split.
  - apply step_next in Hn. exact (step_ok (Laws := View_Laws) _ _ _ Hs Hn).
  - destruct s0 as [|f|f], c as [file low|file ex low res];
      try discriminate;
      cbn [next ElfFile.Open ElfFile.Load View_ImageOpener
           Mapped_SegmentLoader] in Hn.
    + destruct (Open P file low) as [f|] eqn:E; injection Hn as <-;
        [exact (Open_validated _ _ _ E)|exact I].
    + destruct (Load size_t_bits P f file ex low res) as [[f' r]|] eqn:E;
        injection Hn as <-; [|exact I].
      cbn [state_ok] in Hs. destruct (segments_ f) eqn:Hseg; [|discriminate].
      exact (Load_validated _ _ _ _ _ _ _ Hseg Hv E).
Qed.

(** C30: whatever the file and the platform, an address that a consumer
    resolves after a sequence of calls is relocated: the calls have brought
    the object to [Loaded], it has a base address and valid cached
    pointers, and the address is that base address plus the value of a
    symbol of the dynamic symbol table, other than the reserved entry 0,
    whose name in the string table is the name asked for. *)
Theorem loaded_resolves (cs : list Call) (s : State) (name : string)
    (a : Z) :
  loader_run size_t_bits P cs = Some s ->
  resolve (R := Hash_SymbolResolver) s name = Some (Some a) ->
  exists f base j sym,
    s = Loaded f /\
    GetBaseAddress f = Some base /\ pointers_valid f = true /\
    j <> 0 /\ GetSymbol f SHT_DYNSYM j = Some sym /\
    GetString f SHT_DYNSYM (st_name sym) = Some name /\
    a = base + st_value sym.
Proof.
  intros Hr Ha. apply steps_run in Hr.
  apply (steps_ok (Laws := View_Laws)) in Hr; [|reflexivity].
  destruct s as [|f|f]; try discriminate. injection Ha as Ha.
  cbn [state_ok] in Hr. apply andb_true_iff in Hr as [Hb Hv].
  apply FindDynamicSymbolAddress_sound in Ha as (j & sym & ? & ? & ? & ->).
  destruct (GetBaseAddress f) as [base|] eqn:E; [|discriminate].
  exists f, base, j, sym. repeat split; assumption || reflexivity.
Qed.

End Machine.

(** ** The loader on the image *)

Section Run.
#[local] Existing Instance ElfTypes64.

(** [Open] maps the file at 0x10000 and caches the pointers to the tables
    that the program headers and the section headers give. *)
Lemma oat_file_opens :
  Open oat_platform oat_file false = inl oat_opened /\
  summary oat_opened
  = (0x10000, 0x3000, [], None,
     [Some 0x10000; Some 0x10040; Some 0x10200; Some 0x10078; Some 0x101a0;
      None; Some 0x10100; None; Some 0x10160; Some 0x10180]).
Proof. vm_compute. split; reflexivity. Qed.

(** On the bytes of the image, [Open] followed by [Load] into the
    reservation reaches [Loaded]; the loaded object has one readable and
    not executable region for the segment, at the start of the reservation,
    which is the base address; the pointers to the program headers and to
    the tables of the dynamic section point into that region; and the
    resolver returns the base address plus the value of the symbol for the
    names of the image, and not-found for another name. *)
Lemma pipeline_resolves :
  oat_run oat_calls = Some (Loaded oat_loaded) /\
  summary oat_loaded
  = (0x10000, 0x3000, [(0x20000, 0x3000, PROT_READ)], Some 0x20000,
     [Some 0x10000; Some 0x20040; Some 0x10200; Some 0x10078; Some 0x201a0;
      None; Some 0x20100; None; Some 0x20160; Some 0x20180]) /\
  FindDynamicSymbolAddress oat_loaded "oatdata" = Some 0x21000 /\
  FindDynamicSymbolAddress oat_loaded "oatexec" = Some 0x22000 /\
  FindDynamicSymbolAddress oat_loaded "oatlastword" = Some 0x22ffc /\
  FindDynamicSymbolAddress oat_loaded "missing" = None.
Proof. vm_compute. repeat split. Qed.

(** Before [Load] there is no base address: the resolver finds the symbol
    and returns its value, which is not an address of the image. *)
Lemma resolve_before_Load :
  FindDynamicSymbolAddress oat_opened "oatdata" = Some 0x1000 /\
  ValidPointer oat_opened 0x1000 = false.
Proof. vm_compute. split; reflexivity. Qed.

(** The three damaged images are refused, each with a format error. *)
Lemma damaged_files_refused :
  Open oat_platform bad_magic_file false
    = inr (FormatError "bad ELF magic") /\
  Open oat_platform long_table_file false
    = inr (FormatError "program headers outside the file") /\
  Open oat_platform no_hash_file false
    = inr (FormatError "a dynamic symbol table without a hash table").
Proof. vm_compute. repeat split. Qed.

Lemma Open_opened_witness : opened oat_file oat_opened.
Proof.
  apply (Open_opened oat_platform oat_file false). vm_compute. reflexivity.
Defined.

Lemma Open_bad_magic_witness :
  exists e, Open oat_platform bad_magic_file false = inr e /\
    (is_FormatError (inr e : Result ElfFileImpl) = true \/
     MapFile oat_platform bad_magic_file (File_GetLength bad_magic_file)
       PROT_READ false = None).
Proof.
  apply (Open_bad_magic oat_platform bad_magic_file false);
    [reflexivity|vm_compute; discriminate].
Defined.

Lemma Open_program_headers_outside_witness :
  exists e, Open oat_platform long_table_file false = inr e /\
    (is_FormatError (inr e : Result ElfFileImpl) = true \/
     MapFile oat_platform long_table_file (File_GetLength long_table_file)
       PROT_READ false = None).
Proof.
  apply (Open_program_headers_outside oat_platform long_table_file false
           (mkElf_Ehdr oat_ident 3 64 0x200 64 56 0x1000 64 5 0));
    vm_compute; reflexivity.
Defined.

Lemma loaded_resolves_witness :
  exists f base j sym,
    Loaded oat_loaded = Loaded f /\
    GetBaseAddress f = Some base /\ pointers_valid f = true /\ j <> 0 /\
    GetSymbol f SHT_DYNSYM j = Some sym /\
    GetString f SHT_DYNSYM (st_name sym) = Some "oatdata"%string /\
    0x21000 = base + st_value sym.
Proof.
  apply (loaded_resolves 64 oat_platform oat_calls (Loaded oat_loaded)
           "oatdata"); vm_compute; reflexivity.
Defined.

Lemma loader_reachable_ok_witness : loader_ok (Loaded oat_loaded).
Proof.
  apply (loader_reachable_ok 64 oat_platform oat_calls).
  vm_compute. reflexivity.
Defined.

Lemma GetProgramHeader_in_bounds_witness :
  0 <= 1 < View.GetProgramHeaderNum oat_opened /\
  exists h start m, View.GetHeader oat_opened = Some h /\
    program_headers_start_ oat_opened = Some start /\
    In m (mappings oat_opened) /\
    MemMap_Begin m <= start + 1 * e_phentsize h /\
    start + 1 * e_phentsize h + Z.of_nat (sizeof Phdr) <= MemMap_End m.
Proof.
  apply (GetProgramHeader_in_bounds oat_opened 1 oat_dynamic).
  vm_compute. reflexivity.
Defined.

Lemma decode_encode_Phdr_witness :
  View.decode_Phdr (View.encode_Phdr oat_load) = Some oat_load.
Proof. apply (decode_encode_Phdr oat_load); reflexivity. Defined.

Lemma FindSectionByType_first_witness :
  sh_type (mkElf_Shdr 17 SHT_HASH 2 0x180 0x180 32 1 4) = SHT_HASH /\
  exists i, 0 <= i < View.GetSectionHeaderNum oat_opened /\
    View.GetSectionHeader oat_opened i
    = Some (mkElf_Shdr 17 SHT_HASH 2 0x180 0x180 32 1 4) /\
    forall k, 0 <= k < i ->
      exists sh', View.GetSectionHeader oat_opened k = Some sh' /\
                  sh_type sh' <> SHT_HASH.
Proof.
  apply (FindSectionByType_first oat_opened SHT_HASH). vm_compute. reflexivity.
Defined.

End Run.

(** ** The loader on the 32-bit image *)

Section Run32.
#[local] Existing Instance ElfTypes32.

(** The 32-bit instantiation on the 32-bit image: the same regions and the
    same addresses; the pointers differ where the sizes of the structs
    do.  A file of the other class is refused by both instantiations. *)
Lemma pipeline32_resolves :
  loader_run 32 oat_platform oat32_calls = Some (Loaded oat32_loaded) /\
  summary oat32_loaded
  = (0x10000, 0x3000, [(0x20000, 0x3000, PROT_READ)], Some 0x20000,
     [Some 0x10000; Some 0x20034; Some 0x10200; Some 0x10054; Some 0x20180;
      None; Some 0x20100; None; Some 0x20140; Some 0x20160]) /\
  map (FindDynamicSymbolAddress oat32_loaded)
    ["oatdata"; "oatexec"; "oatlastword"; "missing"]%string
  = [Some 0x21000; Some 0x22000; Some 0x22ffc; None] /\
  Open oat_platform oat_file false
    = inr (FormatError "wrong ELF class") /\
  Open (T := ElfTypes64) oat_platform oat32_file false
    = inr (FormatError "wrong ELF class").
Proof. vm_compute. repeat split. Qed.

End Run32.
