(* ===== verification/ElfLinkFile.v ===== *)
(** * ElfLinkFile: a linked image as a file, from the symbols to the addresses

    The file a linker writes for a list of symbols, without a section
    header table (a stripped image): the ELF header, two program headers
    (PT_LOAD for the whole file at the virtual address 0, PT_DYNAMIC), the
    dynamic section with the entries DT_HASH, DT_STRTAB, DT_SYMTAB and
    DT_NULL, and the three tables of [ElfLinkImage] ([link_bytes],
    [link_file]); [file_linkable] says that the format can hold it.

    [Open] (src/runtime/oat/elf_file_impl.h, lines 44-46) and [Load] (lines
    92-98) are run on this file for every list of symbols, in both layouts:
    the lemmas give the object each of them returns, field by field
    ([Open_link_file] with [opened_object], [Load_link_file] with
    [loaded_object]), and the theorem [linked_file_resolves] composes them in
    the machine of [ElfLifecycle]: the two calls end in [Loaded], and the
    resolver (line 77) on the loaded object is the lookup of the name among
    the symbols, relocated by the start of the span.  What it assumes of the
    platform is what the calls need to succeed: the file is mapped, the span
    is reserved and does not overlap the mapping of the file, the segment
    can be mapped, and the span fits [size_t].  When one of the last three
    fails, [Load] fails with the error of that step
    ([Load_link_file_cases], from [Load_link_file_too_large],
    [Load_link_file_no_room] and [Load_link_file_refused]) and the machine
    is back in [Unopened] ([linked_file_refused]).

    The first part shows that the views of the ELF header, of the program
    headers and of the dynamic section read back what the format lays out,
    from any region of the object that holds it ([GetHeader_held],
    [GetProgramHeader_held], [GetDynamic_held]).  The last part evaluates
    the machine on the file of three symbols, in the 64-bit and in the
    32-bit layouts.

    The values of the symbols are not interpreted: the resolver adds the
    base address to them and does not look at what is there.  The file that
    is written models no code of the loader; the opener, the segment loader,
    the views and the resolver that read it do. *)

From Stdlib Require Import ZArith Lia Bool Ascii String List.
From Stdlib Require Import Strings.Byte.
From S2P Require Import Prelude ElfTypes ElfFile ElfHash ElfLink ElfTables.
From S2P Require Import ElfLinkImage ElfHeaders ElfOpen ElfLoad ElfLifecycle.
From S2P Require Import ElfPipeline.
Import ListNotations.

#[local] Open Scope Z_scope.
#[local] Open Scope elf_scope.

(** ** The file *)

Section File.
Context {T : ElfTypes}.
Variables (syms : list (string * Z)) (nbucket : Z).

(** The identification bytes: the magic, the class of the instantiation,
    little-endian, version 1. *)
Definition link_ident : list byte :=
  ELFMAG ++ [elf_class; ELFDATA2LSB; x01] ++ repeat x00 9.

(** The offsets of the parts of the file, which are their virtual
    addresses too. *)
Definition phdrs_off : nat := sizeof Ehdr.
Definition dynamic_off : nat := phdrs_off + 2 * sizeof Phdr.
Definition hash_off : nat := dynamic_off + 4 * sizeof Dyn.
Definition dynsym_off : nat := hash_off + length (hash_bytes syms nbucket).
Definition dynstr_off : nat := dynsym_off + length (dynsym_bytes syms).
Definition link_size : nat := dynstr_off + length (dynstr_bytes syms).

Definition link_ehdr : Elf_Ehdr :=
  mkElf_Ehdr link_ident 3 (Z.of_nat phdrs_off) 0 (Z.of_nat (sizeof Ehdr))
    (Z.of_nat (sizeof Phdr)) 2 (Z.of_nat (sizeof Shdr)) 0 0.

Definition link_align : Z := 4096.

Definition load_phdr : Elf_Phdr :=
  mkElf_Phdr PT_LOAD 0 0 (Z.of_nat link_size) (Z.of_nat link_size) PF_R
    link_align.

Definition dynamic_phdr : Elf_Phdr :=
  mkElf_Phdr PT_DYNAMIC (Z.of_nat dynamic_off) (Z.of_nat dynamic_off)
    (4 * Z.of_nat (sizeof Dyn)) (4 * Z.of_nat (sizeof Dyn)) PF_R 8.

Definition link_phdrs : list Elf_Phdr := [load_phdr; dynamic_phdr].

Definition link_dynamic : list Elf_Dyn :=
  [mkElf_Dyn DT_HASH (Z.of_nat hash_off);
   mkElf_Dyn DT_STRTAB (Z.of_nat dynstr_off);
   mkElf_Dyn DT_SYMTAB (Z.of_nat dynsym_off);
   mkElf_Dyn DT_NULL 0].

Definition link_bytes : list byte :=
  View.encode_Ehdr link_ehdr
  ++ flat_map View.encode_Phdr link_phdrs
  ++ flat_map View.encode_Dyn link_dynamic
  ++ hash_bytes syms nbucket ++ dynsym_bytes syms ++ dynstr_bytes syms.

Definition link_file (path : string) : File := mkFile path link_bytes.

(** What the format can hold: the tables, and every field of the headers
    and of the dynamic section. *)
Definition file_linkable : bool :=
  linkable syms nbucket &&
  View.fields_fit Ehdr (View.Ehdr_fields link_ehdr) &&
  forallb (fun ph => View.fields_fit Phdr (View.Phdr_fields ph)) link_phdrs &&
  forallb (fun d => View.fields_fit Dyn (View.Dyn_fields d)) link_dynamic &&
  (Z.of_nat link_size <? 2 ^ Addr).

(** The object that the constructor and [SetMap] make of the file. *)
Definition mapped_object (path : string) (m : MemMap) : ElfFileImpl :=
  set_map (new_ElfFileImpl (link_file path)) m.

(** The object [Open] returns for the file mapped as [m]: the pointers to
    the program headers, to the PT_DYNAMIC header and to the dynamic section
    in the file mapping; no section is found without section headers. *)
Definition opened_object (path : string) (m : MemMap) : ElfFileImpl :=
  mkElfFileImpl path m (Some (MemMap_Begin m)) [] None
    (Some (MemMap_Begin m + Z.of_nat phdrs_off)) None
    (Some (MemMap_Begin m + Z.of_nat phdrs_off + Z.of_nat (sizeof Phdr)))
    (Some (MemMap_Begin m + Z.of_nat dynamic_off))
    None None None None None.

(** The segment of the loaded image, and the object [Load] makes of the
    opened one: the pointers to the program headers, to the dynamic section
    and to the three tables are in the segment. *)
Definition link_segment (executable : bool) (base : Z) : MemMap :=
  mkMemMap base link_bytes (seg_prot executable load_phdr).

Definition loaded_object (path : string) (m : MemMap) (executable : bool)
    (base : Z) : ElfFileImpl :=
  mkElfFileImpl path m (Some (MemMap_Begin m))
    [link_segment executable base] (Some base)
    (Some (base + Z.of_nat phdrs_off)) None
    (Some (MemMap_Begin m + Z.of_nat phdrs_off + Z.of_nat (sizeof Phdr)))
    (Some (base + Z.of_nat dynamic_off))
    None (Some (base + Z.of_nat dynsym_off))
    None (Some (base + Z.of_nat dynstr_off))
    (Some (base + Z.of_nat hash_off)).

End File.

(** The file of the three symbols of [ElfLink], in two buckets, in the
    64-bit layouts; the mapping of the file on the platform of [ElfPipeline];
    the two calls of a consumer, into the reservation of [ElfPipeline]. *)
Section Example.
#[local] Existing Instance ElfTypes64.

Definition linked_oat_file : File := link_file oat_symbols 2 "/data/linked.oat".

Definition linked_oat_map : MemMap :=
  mkMemMap 0x10000 (link_bytes oat_symbols 2) PROT_READ.

Definition linked_oat_calls : list Call :=
  [CallOpen linked_oat_file false;
   CallLoad linked_oat_file false false oat_reservation].

End Example.

(** ** The views of the headers read back what was written *)

Section Reads.
Context {T : ElfTypes}.
Hypothesis HT : ElfTypes_ok T = true.

Lemma layouts_ok :
  layout_ok Ehdr = true /\ layout_ok Phdr = true /\ layout_ok Dyn = true /\
  ident_ok Ehdr = true.
Proof. unfold ElfTypes_ok in HT. rewrite !andb_true_iff in HT. tauto. Qed.

(** The layouts have their fields, so they have bytes. *)
Lemma fields_fit_sizeof (L : Layout) (name : string) (v : Z)
    (vals : list (string * Z)) :
  layout_ok L = true -> View.fields_fit L ((name, v) :: vals) = true ->
  (0 < sizeof L)%nat.
Proof.
  intros Hok. unfold View.fields_fit. cbn [forallb fst snd].
  rewrite andb_true_iff. intros [Hn _]. unfold fits in Hn.
  destruct (find_field L name) as [fld|] eqn:E; [|discriminate].
  apply find_field_In in E as [Hin _].
  pose proof (fields_ok_In _ _ _ _ Hok Hin). lia.
Qed.

(** An ELF header whose fields are values of their types and whose
    identification has 16 bytes is read back from its bytes. *)
Lemma decode_encode_Ehdr (h : Elf_Ehdr) :
  View.fields_fit Ehdr (View.Ehdr_fields h) = true ->
  length (e_ident h) = 16%nat ->
  View.decode_Ehdr (View.encode_Ehdr h) = Some h.
Proof.
  intros Hfit Hlen. destruct layouts_ok as (Hok & _ & _ & Hid).
  pose proof (get_encoded Ehdr (View.Ehdr_fields h) Hok
                ltac:(cbn; repeat constructor; cbn; intuition discriminate)
                Hfit) as Hget.
  assert (Hident : View.field_bytes Ehdr "e_ident" (View.encode_Ehdr h)
                   = Some (e_ident h)).
  { specialize (Hget "e_ident"%string (le_combine (e_ident h))
                  ltac:(cbn; tauto)).
    unfold get_field in Hget. unfold View.field_bytes, ident_ok in *.
    destruct (find_field Ehdr "e_ident") as [fd|]; [|discriminate].
    rewrite andb_true_iff, !Nat.eqb_eq in Hid. destruct Hid as [Ho Hn].
    rewrite Ho, Hn in *. fold (View.encode_Ehdr h) in Hget.
    destruct (slice 0 16 (View.encode_Ehdr h)) as [bs|] eqn:Hs;
      [|discriminate].
    injection Hget as Hc. apply slice_length in Hs.
    rewrite <- (le_split_combine bs), <- (le_split_combine (e_ident h)).
    now rewrite Hs, Hlen, Hc. }
  unfold View.decode_Ehdr. rewrite Hident. cbn beta iota.
  unfold View.encode_Ehdr in *.
  rewrite (Hget _ (e_type h)), (Hget _ (e_phoff h)), (Hget _ (e_shoff h)),
    (Hget _ (e_ehsize h)), (Hget _ (e_phentsize h)), (Hget _ (e_phnum h)),
    (Hget _ (e_shentsize h)), (Hget _ (e_shnum h)), (Hget _ (e_shstrndx h))
    by (cbn; tauto).
  now destruct h.
Qed.

Section Object.
Variable f : ElfFileImpl.

(** [GetHeader()] *)
Lemma GetHeader_held (p : Z) (h : Elf_Ehdr) :
  header_ f = Some p -> held f p (View.encode_Ehdr h) ->
  View.fields_fit Ehdr (View.Ehdr_fields h) = true ->
  length (e_ident h) = 16%nat ->
  View.GetHeader f = Some h.
Proof.
  intros Hp Hh Hfit Hlen. destruct layouts_ok as (Hok & _).
  pose proof (encode_struct_length Ehdr (View.Ehdr_fields h) Hok) as Hl.
  fold (View.encode_Ehdr h) in Hl.
  unfold View.GetHeader. rewrite Hp. cbn beta iota. rewrite <- Hl.
  rewrite (held_read_all f p _ Hh).
  - now apply decode_encode_Ehdr.
  - rewrite Hl. eapply fields_fit_sizeof; eassumption.
Qed.

(** The program header at an address. *)
Lemma read_Phdr_held (p : Z) (ph : Elf_Phdr) :
  held f p (View.encode_Phdr ph) ->
  View.fields_fit Phdr (View.Phdr_fields ph) = true ->
  View.read_Phdr f p = Some ph.
Proof.
  intros Hh Hfit. destruct layouts_ok as (_ & Hok & _).
  pose proof (encode_struct_length Phdr (View.Phdr_fields ph) Hok) as Hl.
  fold (View.encode_Phdr ph) in Hl.
  unfold View.read_Phdr. rewrite <- Hl. rewrite (held_read_all f p _ Hh).
  - now apply decode_encode_Phdr.
  - rewrite Hl. eapply fields_fit_sizeof; eassumption.
Qed.

(** [GetProgramHeader(i)], for a table of the headers [phs]. *)
Lemma GetProgramHeader_held (p : Z) (h : Elf_Ehdr) (phs : list Elf_Phdr)
    (i : nat) (ph : Elf_Phdr) :
  View.GetHeader f = Some h -> program_headers_start_ f = Some p ->
  e_phentsize h = Z.of_nat (sizeof Phdr) ->
  e_phnum h = Z.of_nat (length phs) ->
  held f p (flat_map View.encode_Phdr phs) ->
  nth_error phs i = Some ph ->
  View.fields_fit Phdr (View.Phdr_fields ph) = true ->
  View.GetProgramHeader f (Z.of_nat i) = Some ph /\
  View.program_header_ptr f (Z.of_nat i)
  = Some (p + Z.of_nat i * Z.of_nat (sizeof Phdr)).
Proof.
  intros Hh Hp Hsz Hnum Hheld Hi Hfit. destruct layouts_ok as (_ & Hok & _).
  assert (Hlt : (i < length phs)%nat) by (apply nth_error_Some; congruence).
  assert (Hptr : View.program_header_ptr f (Z.of_nat i)
                 = Some (p + Z.of_nat i * Z.of_nat (sizeof Phdr))).
  { unfold View.program_header_ptr, View.GetProgramHeadersStart.
    rewrite Hh, Hp. cbn beta iota. rewrite Hnum, Hsz.
    destruct (Z.leb_spec 0 (Z.of_nat i)); [|lia].
    now destruct (Z.ltb_spec (Z.of_nat i) (Z.of_nat (length phs))); [|lia]. }
  split; [|exact Hptr]. unfold View.GetProgramHeader. rewrite Hptr.
  cbn beta iota. unfold View.read_Phdr.
  rewrite (held_read_entry f p _ Hheld View.encode_Phdr (sizeof Phdr) phs i ph);
    auto.
  - now apply decode_encode_Phdr.
  - intros x. now apply encode_struct_length.
  - eapply fields_fit_sizeof; eassumption.
Qed.

(** [GetDynamic(i)], for a dynamic section with the entries [ds]. *)
Lemma GetDynamic_held (p : Z) (ds : list Elf_Dyn) (i : nat) (d : Elf_Dyn) :
  dynamic_section_start_ f = Some p ->
  View.GetDynamicNum f = Z.of_nat (length ds) ->
  held f p (flat_map View.encode_Dyn ds) ->
  nth_error ds i = Some d ->
  View.fields_fit Dyn (View.Dyn_fields d) = true ->
  View.GetDynamic f (Z.of_nat i) = Some d.
Proof.
  intros Hp Hnum Hheld Hi Hfit. destruct layouts_ok as (_ & _ & Hok & _).
  assert (Hlt : (i < length ds)%nat) by (apply nth_error_Some; congruence).
  unfold View.GetDynamic, View.GetDynamicSectionStart. rewrite Hp, Hnum.
  cbn beta iota. destruct (Z.leb_spec 0 (Z.of_nat i)); [|lia].
  destruct (Z.ltb_spec (Z.of_nat i) (Z.of_nat (length ds))); [|lia].
  cbn [andb].
  rewrite (held_read_entry f p _ Hheld View.encode_Dyn (sizeof Dyn) ds i d);
    auto.
  - now apply decode_encode_Dyn.
  - intros x. now apply encode_struct_length.
  - eapply fields_fit_sizeof; eassumption.
Qed.

End Object.
End Reads.

(** ** The parts of the file *)

Section FileFacts.
Context {T : ElfTypes}.
Variables (syms : list (string * Z)) (nbucket : Z).
Hypothesis HT : ElfTypes_ok T = true.
Hypothesis Hlink : file_linkable syms nbucket = true.

#[local] Abbreviation F := (link_bytes syms nbucket).

Lemma file_linkable_inv :
  linkable syms nbucket = true /\
  View.fields_fit Ehdr (View.Ehdr_fields (link_ehdr)) = true /\
  View.fields_fit Phdr (View.Phdr_fields (load_phdr syms nbucket)) = true /\
  View.fields_fit Phdr (View.Phdr_fields dynamic_phdr) = true /\
  forallb (fun d => View.fields_fit Dyn (View.Dyn_fields d))
    (link_dynamic syms nbucket) = true /\
  Z.of_nat (link_size syms nbucket) < 2 ^ Addr.
Proof.
  unfold file_linkable in Hlink. cbn [forallb link_phdrs] in Hlink.
  rewrite !andb_true_iff, Z.ltb_lt in Hlink. tauto.
Qed.

Lemma link_lengths :
  length (View.encode_Ehdr link_ehdr) = sizeof Ehdr /\
  length (flat_map View.encode_Phdr (link_phdrs syms nbucket))
  = (2 * sizeof Phdr)%nat /\
  length (flat_map View.encode_Dyn (link_dynamic syms nbucket))
  = (4 * sizeof Dyn)%nat.
Proof.
  destruct (layouts_ok HT) as (He & Hp & Hd & _).
  unfold View.encode_Ehdr, link_phdrs, link_dynamic. cbn [flat_map].
  rewrite !length_app. unfold View.encode_Phdr, View.encode_Dyn.
  rewrite !encode_struct_length by assumption. cbn [length]. lia.
Qed.

Lemma link_bytes_length : length F = link_size syms nbucket.
Proof.
  destruct link_lengths as (He & Hp & Hd).
  unfold link_bytes. rewrite !length_app, He, Hp, Hd.
  unfold link_size, dynstr_off, dynsym_off, hash_off, dynamic_off, phdrs_off.
  lia.
Qed.

(** Where each part is in the file. *)
Lemma link_parts :
  slice 0 (sizeof Ehdr) F = Some (View.encode_Ehdr link_ehdr) /\
  slice phdrs_off (2 * sizeof Phdr) F
  = Some (flat_map View.encode_Phdr (link_phdrs syms nbucket)) /\
  slice dynamic_off (4 * sizeof Dyn) F
  = Some (flat_map View.encode_Dyn (link_dynamic syms nbucket)) /\
  slice (hash_off) (length (hash_bytes syms nbucket)) F
  = Some (hash_bytes syms nbucket) /\
  slice (dynsym_off syms nbucket) (length (dynsym_bytes syms)) F
  = Some (dynsym_bytes syms) /\
  slice (dynstr_off syms nbucket) (length (dynstr_bytes syms)) F
  = Some (dynstr_bytes syms).
Proof.
  destruct link_lengths as (He & Hp & Hd).
  unfold link_bytes, dynstr_off, dynsym_off, hash_off, dynamic_off, phdrs_off.
  repeat split.
  - now apply (slice_app_mid []).
  - now apply slice_app_mid.
  - rewrite app_assoc. apply slice_app_mid; [|assumption].
    rewrite length_app. lia.
  - rewrite 2!app_assoc. apply slice_app_mid; [|reflexivity].
    rewrite !length_app. lia.
  - rewrite 3!app_assoc. apply slice_app_mid; [|reflexivity].
    rewrite !length_app. lia.
  - rewrite 4!app_assoc.
    match goal with |- slice ?o ?n (?a ++ ?x) = _ =>
      pose proof (slice_app_mid a x [] o n) as H end.
    rewrite app_nil_r in H. apply H; [|reflexivity].
    rewrite !length_app. lia.
Qed.

End FileFacts.

(** ** The views on an object that holds the file *)

Section OnFile.
Context {T : ElfTypes}.
Variables (syms : list (string * Z)) (nbucket : Z).
Hypothesis HT : ElfTypes_ok T = true.
Hypothesis Hlink : file_linkable syms nbucket = true.

#[local] Abbreviation F := (link_bytes syms nbucket).

Variables (f : ElfFileImpl) (a : Z).
Hypothesis Hf : held f a F.

(** The parts of the file are held where the file is. *)
Lemma held_ehdr : held f a (View.encode_Ehdr link_ehdr).
Proof.
  replace a with (a + Z.of_nat 0) by lia.
  exact (held_sub f a F Hf _ _ _ (proj1 (link_parts syms nbucket HT))).
Qed.

Lemma held_phdrs :
  held f (a + Z.of_nat phdrs_off)
    (flat_map View.encode_Phdr (link_phdrs syms nbucket)).
Proof.
  destruct (link_parts syms nbucket HT) as (_ & H & _).
  exact (held_sub f a F Hf _ _ _ H).
Qed.

Lemma held_dynamic_phdr :
  held f (a + Z.of_nat phdrs_off + Z.of_nat (sizeof Phdr))
    (View.encode_Phdr dynamic_phdr).
Proof.
  destruct (layouts_ok HT) as (_ & Hok & _).
  replace (sizeof Phdr) with (1 * sizeof Phdr)%nat at 1 by lia.
  apply (held_sub f _ _ held_phdrs _ (sizeof Phdr)).
  apply slice_flat_map; [|reflexivity].
  intros x. now apply encode_struct_length.
Qed.

Lemma held_dynamic :
  held f (a + Z.of_nat dynamic_off)
    (flat_map View.encode_Dyn (link_dynamic syms nbucket)).
Proof.
  destruct (link_parts syms nbucket HT) as (_ & _ & H & _).
  exact (held_sub f a F Hf _ _ _ H).
Qed.

Lemma held_tables :
  held f (a + Z.of_nat hash_off) (hash_bytes syms nbucket) /\
  held f (a + Z.of_nat (dynsym_off syms nbucket)) (dynsym_bytes syms) /\
  held f (a + Z.of_nat (dynstr_off syms nbucket)) (dynstr_bytes syms).
Proof.
  destruct (link_parts syms nbucket HT) as (_ & _ & _ & Hh & Hs & Hd).
  repeat split; eapply (held_sub f a F Hf); eassumption.
Qed.

(** Every address of the file is valid. *)
Lemma file_valid (o : Z) :
  0 <= o < Z.of_nat (link_size syms nbucket) ->
  checked f (a + o) = Some (a + o).
Proof.
  intros Ho. unfold checked. rewrite <- (Z2Nat.id o) by lia.
  rewrite (held_valid f a F Hf); [reflexivity|].
  rewrite (link_bytes_length syms nbucket HT). lia.
Qed.

End OnFile.

Section OnFileViews.
Context {T : ElfTypes}.
Variables (syms : list (string * Z)) (nbucket : Z).
Hypothesis HT : ElfTypes_ok T = true.
Hypothesis Hlink : file_linkable syms nbucket = true.
Variable f : ElfFileImpl.

(** The ELF header, read through [header_]. *)
Lemma file_GetHeader (a : Z) :
  held f a (link_bytes syms nbucket) -> header_ f = Some a ->
  View.GetHeader f = Some link_ehdr.
Proof.
  intros Hf Hh.
  destruct (file_linkable_inv syms nbucket Hlink) as (_ & He & _).
  apply (GetHeader_held HT f a); auto.
  exact (held_ehdr syms nbucket HT f a Hf).
Qed.

(** The two program headers, read through [program_headers_start_]. *)
Lemma file_GetProgramHeader (p : Z) :
  View.GetHeader f = Some link_ehdr -> held f p (link_bytes syms nbucket) ->
  program_headers_start_ f = Some (p + Z.of_nat phdrs_off) ->
  View.GetProgramHeaderNum f = 2 /\
  View.GetProgramHeader f 0 = Some (load_phdr syms nbucket) /\
  View.GetProgramHeader f 1 = Some dynamic_phdr /\
  View.program_header_ptr f 1
  = Some (p + Z.of_nat phdrs_off + Z.of_nat (sizeof Phdr)).
Proof.
  intros Hh Hf Hp.
  destruct (file_linkable_inv syms nbucket Hlink) as (_ & _ & Hl & Hd & _).
  pose proof (held_phdrs syms nbucket HT f p Hf) as Hph.
  pose proof (fun i ph => GetProgramHeader_held HT f _ link_ehdr
                (link_phdrs syms nbucket) i ph Hh Hp eq_refl eq_refl Hph)
    as Hget.
  destruct (Hget 0%nat _ eq_refl Hl) as [H0 _].
  destruct (Hget 1%nat _ eq_refl Hd) as [H1 Hptr].
  change (Z.of_nat 0) with 0 in H0. change (Z.of_nat 1) with 1 in H1, Hptr.
  rewrite Z.mul_1_l in Hptr. unfold View.GetProgramHeaderNum. rewrite Hh.
  cbn [e_phnum link_ehdr]. auto.
Qed.

(** The search for the PT_DYNAMIC program header. *)
Lemma file_FindDynamic (p : Z) :
  View.GetHeader f = Some link_ehdr -> held f p (link_bytes syms nbucket) ->
  program_headers_start_ f = Some (p + Z.of_nat phdrs_off) ->
  View.FindProgamHeaderByType f PT_DYNAMIC
  = Some (p + Z.of_nat phdrs_off + Z.of_nat (sizeof Phdr), dynamic_phdr).
Proof.
  intros Hh Hf Hp.
  destruct (file_GetProgramHeader p Hh Hf Hp) as (Hn & H0 & H1 & Hptr).
  unfold View.FindProgamHeaderByType. rewrite Hn.
  change (Z.to_nat 2) with 2%nat. cbn [find_first]. rewrite H0.
  cbn [p_type load_phdr]. change (PT_LOAD =? PT_DYNAMIC) with false.
  cbn iota. change (0 + 1) with 1. rewrite H1. cbn [p_type dynamic_phdr].
  change (PT_DYNAMIC =? PT_DYNAMIC) with true. cbn iota beta.
  now rewrite Hptr.
Qed.

(** The dynamic section, read through the pointer to the PT_DYNAMIC header
    at [a] and the pointer to the section at [b]. *)
Lemma file_GetDynamic (a b : Z) :
  held f a (link_bytes syms nbucket) -> held f b (link_bytes syms nbucket) ->
  dynamic_program_header_ f
  = Some (a + Z.of_nat phdrs_off + Z.of_nat (sizeof Phdr)) ->
  dynamic_section_start_ f = Some (b + Z.of_nat dynamic_off) ->
  View.GetDynamicProgramHeader f = Some dynamic_phdr /\
  View.GetDynamicNum f = 4 /\
  forall (i : nat) (d : Elf_Dyn),
    nth_error (link_dynamic syms nbucket) i = Some d ->
    View.GetDynamic f (Z.of_nat i) = Some d.
Proof.
  intros Ha Hb Hph Hd.
  destruct (file_linkable_inv syms nbucket Hlink) as (_ & _ & _ & Hfp & Hfd
                                                       & _).
  assert (Hpos : (0 < sizeof Dyn)%nat).
  { cbn [forallb link_dynamic] in Hfd. apply andb_true_iff in Hfd as [Hfd _].
    destruct (layouts_ok HT) as (_ & _ & Hok & _).
    eapply (fields_fit_sizeof Dyn); eassumption. }
  assert (Hdyn : View.GetDynamicProgramHeader f = Some dynamic_phdr).
  { unfold View.GetDynamicProgramHeader. rewrite Hph. cbn beta iota.
    apply (read_Phdr_held HT); [|assumption].
    exact (held_dynamic_phdr syms nbucket HT f a Ha). }
  assert (Hnum : View.GetDynamicNum f = 4).
  { unfold View.GetDynamicNum. rewrite Hdyn. cbn [p_filesz dynamic_phdr].
    apply Z.div_mul. lia. }
  repeat split; auto. intros i d Hi.
  apply (GetDynamic_held HT f (b + Z.of_nat dynamic_off)
           (link_dynamic syms nbucket)); auto.
  - exact (held_dynamic syms nbucket HT f b Hb).
  - rewrite forallb_forall in Hfd. apply Hfd. eapply nth_error_In, Hi.
Qed.

(** The loadable program headers. *)
Lemma file_loadable_headers (p : Z) :
  View.GetHeader f = Some link_ehdr -> held f p (link_bytes syms nbucket) ->
  program_headers_start_ f = Some (p + Z.of_nat phdrs_off) ->
  loadable_headers f = Some [load_phdr syms nbucket].
Proof.
  intros Hh Hf Hp.
  destruct (file_GetProgramHeader p Hh Hf Hp) as (Hn & H0 & H1 & _).
  unfold loadable_headers.
  cbn [GetProgramHeaderNum GetProgramHeader View_ProgramHeaderAccess].
  rewrite Hn. change (Z.to_nat 2) with 2%nat. cbn [headers_from].
  cbn [GetProgramHeader View_ProgramHeaderAccess]. rewrite H0.
  change (0 + 1) with 1. rewrite H1. reflexivity.
Qed.

End OnFileViews.

(** ** Open *)

Section Opens.
Context {T : ElfTypes}.
Variables (syms : list (string * Z)) (nbucket : Z).
Hypothesis HT : ElfTypes_ok T = true.
Hypothesis Hlink : file_linkable syms nbucket = true.
Variables (P : Platform) (path : string).

#[local] Abbreviation file := (link_file syms nbucket path).

(** The sizes of the parts, in the order of the file. *)
Lemma link_size_parts :
  (0 < sizeof Ehdr /\ 0 < sizeof Phdr /\ 0 < sizeof Dyn)%nat /\
  (hash_off <= link_size syms nbucket)%nat.
Proof.
  destruct (layouts_ok HT) as (He & Hp & Hd & _).
  destruct (file_linkable_inv syms nbucket Hlink) as (_ & Hfe & Hfl & _ & Hfd
                                                       & _).
  cbn [forallb link_dynamic] in Hfd. apply andb_true_iff in Hfd as [Hfd _].
  repeat split.
  - eapply (fields_fit_sizeof Ehdr); eassumption.
  - eapply (fields_fit_sizeof Phdr); eassumption.
  - eapply (fields_fit_sizeof Dyn); eassumption.
  - unfold link_size, dynstr_off, dynsym_off. lia.
Qed.

(** The string table has a byte, so the three tables start in the file. *)
Lemma link_tables_inside :
  (hash_off <= dynsym_off syms nbucket <= dynstr_off syms nbucket)%nat /\
  (dynstr_off syms nbucket < link_size syms nbucket)%nat.
Proof.
  unfold link_size, dynstr_off, dynsym_off, dynstr_bytes. cbn [length]. lia.
Qed.

Lemma check_ident_link : check_ident link_ehdr = inl tt.
Proof.
  unfold check_ident, ident_byte, link_ehdr, link_ident.
  cbn [e_ident app firstn nth EI_CLASS EI_DATA ELFMAG bytes_eqb negb].
  now rewrite (Byte.byte_dec_lb (x := elf_class) eq_refl).
Qed.

(** Without section headers no section is located. *)
Lemma locate_sections_stripped (f : ElfFileImpl) :
  section_headers_start_ f = None -> locate_sections f = f.
Proof.
  intros Hs. unfold locate_sections, locate_hash, locate_dynsym, locate_symtab.
  cbn [FindSectionByType View_SectionSearch].
  now rewrite (FindSectionByType_stripped f SHT_SYMTAB Hs),
    (FindSectionByType_stripped f SHT_DYNSYM Hs),
    (FindSectionByType_stripped f SHT_HASH Hs).
Qed.

Lemma mapped_object_holds (m : MemMap) :
  mm_bytes m = link_bytes syms nbucket ->
  held (mapped_object syms nbucket path m) (MemMap_Begin m)
    (link_bytes syms nbucket).
Proof.
  intros Hb. rewrite <- Hb.
  exact (held_map (mapped_object syms nbucket path m)).
Qed.

(** The second half of [Setup] on the mapped file. *)
Lemma Setup_tables_link (m : MemMap) :
  mm_bytes m = link_bytes syms nbucket ->
  Setup_tables (mapped_object syms nbucket path m) link_ehdr
  = inl (opened_object path m).
Proof.
  intros Hb. pose proof (mapped_object_holds m Hb) as Hheld.
  destruct link_size_parts as ((He & Hp & Hd) & Hsz).
  set (f0 := mapped_object syms nbucket path m) in *.
  unfold Setup_tables. cbn [e_phoff e_phentsize e_phnum e_shoff link_ehdr].
  change (Begin f0) with (MemMap_Begin m).
  pose proof (file_valid syms nbucket HT f0 _ Hheld) as Hv.
  rewrite Hv by (unfold hash_off, dynamic_off, phdrs_off in *; lia).
  assert (Hin : table_inside f0 (Z.of_nat phdrs_off) (Z.of_nat (sizeof Phdr))
                  2 = true).
  { unfold table_inside, Size, MemMap_Size. cbn [map_ f0 mapped_object set_map].
    rewrite Hb, (link_bytes_length syms nbucket HT). apply Z.leb_le.
    unfold hash_off, dynamic_off, phdrs_off in *. lia. }
  rewrite Hin. change (0 =? 0) with true. cbn [negb andb].
  set (f1 := set_section_headers_start _ None).
  assert (Hheld1 : held f1 (MemMap_Begin m) (link_bytes syms nbucket))
    by (apply (held_mappings f0); [reflexivity|assumption]).
  pose proof (file_GetHeader syms nbucket HT Hlink f1 _ Hheld1 eq_refl) as Hh.
  unfold locate_dynamic.
  cbn [FindProgamHeaderByType View_ProgramHeaderSearch].
  rewrite (file_FindDynamic syms nbucket HT Hlink f1 _ Hh Hheld1 eq_refl).
  change (Begin f1) with (MemMap_Begin m). cbn [p_offset dynamic_phdr].
  pose proof (file_valid syms nbucket HT f1 _ Hheld1) as Hv1.
  rewrite <- Z.add_assoc, !Hv1
    by (unfold hash_off, dynamic_off, phdrs_off in *; lia).
  rewrite locate_sections_stripped by reflexivity.
  now rewrite Z.add_assoc.
Qed.

(** [Open] on the file: the header is validated, the program headers are
    found in the mapping, the PT_DYNAMIC header and the dynamic section are
    located, and no section is looked for. *)
Lemma Open_link_file (low : bool) (m : MemMap) :
  MapFile P file (File_GetLength file) PROT_READ low = Some m ->
  Open P file low = inl (opened_object path m).
Proof.
  intros Hm. pose proof (MapFile_whole P _ _ _ _ Hm) as (_ & Hb & _).
  cbn [File_bytes link_file] in Hb.
  destruct link_size_parts as ((He & Hp & Hd) & Hsz).
  destruct (file_linkable_inv syms nbucket Hlink) as (_ & Hfe & _).
  unfold Open. rewrite (Setup_file P _ _ _ _ Hm).
  unfold File_GetLength. cbn [File_bytes link_file].
  rewrite (link_bytes_length syms nbucket HT).
  destruct (Z.ltb_spec (Z.of_nat (link_size syms nbucket))
              (Z.of_nat (sizeof Ehdr)));
    [unfold hash_off, dynamic_off, phdrs_off in *; lia|].
  destruct (link_parts syms nbucket HT) as (H0 & _). unfold slice in H0.
  destruct (_ <=? _)%nat; [|discriminate]. cbn [skipn] in H0.
  injection H0 as ->. rewrite (decode_encode_Ehdr HT) by (auto; reflexivity).
  rewrite check_ident_link. cbn iota beta.
  change (set_map _ m) with (mapped_object syms nbucket path m).
  now rewrite (Setup_tables_link m Hb).
Qed.

End Opens.

(** ** Load *)

Section Loads.
Context {T : ElfTypes}.
Variables (syms : list (string * Z)) (nbucket : Z).
Hypothesis HT : ElfTypes_ok T = true.
Hypothesis Hlink : file_linkable syms nbucket = true.
Variables (size_t_bits : Z) (P : Platform) (path : string) (m : MemMap).
Hypothesis Hb : mm_bytes m = link_bytes syms nbucket.

#[local] Abbreviation F := (link_bytes syms nbucket).
#[local] Abbreviation file := (link_file syms nbucket path).
#[local] Abbreviation size := (Z.of_nat (link_size syms nbucket)).

Lemma opened_holds : held (opened_object path m) (MemMap_Begin m) F.
Proof. rewrite <- Hb. exact (held_map (opened_object path m)). Qed.

Lemma opened_loadable_headers :
  loadable_headers (opened_object path m) = Some [load_phdr syms nbucket].
Proof.
  apply (file_loadable_headers syms nbucket HT Hlink _ (MemMap_Begin m));
    [|exact opened_holds|reflexivity].
  exact (file_GetHeader syms nbucket HT Hlink _ _ opened_holds eq_refl).
Qed.

(** The loaded range: from 0 to the size of the file, rounded up to the
    alignment of the segment. *)
Lemma GetLoadedAddressRange_link :
  RoundUp size link_align <= 2 ^ size_t_bits ->
  GetLoadedAddressRange size_t_bits (opened_object path m)
  = inl (0, RoundUp size link_align).
Proof.
  intros Hfit.
  destruct (file_linkable_inv syms nbucket Hlink) as (_ & _ & _ & _ & _ & Hlt).
  unfold GetLoadedAddressRange. rewrite opened_loadable_headers.
  assert (Hend : seg_end (load_phdr syms nbucket) = size).
  { unfold seg_end, wrap. cbn [p_vaddr p_memsz load_phdr].
    apply Z.mod_small. lia. }
  cbn [forallb min_vaddr max_vaddr max_align fold_right]. rewrite Hend.
  cbn [p_vaddr load_phdr].
  change (Z.max (seg_align (load_phdr syms nbucket)) 1) with link_align.
  rewrite Z.max_l, Z.min_l by lia. change (RoundDown 0 link_align) with 0.
  destruct (Z.leb_spec 0 size); [|lia]. cbn [andb negb].
  destruct (Z.ltb_spec (2 ^ size_t_bits) (RoundUp size link_align)); [lia|].
  now rewrite Z.sub_0_r.
Qed.

(** The segment: the whole file, at the start of the span. *)
Lemma map_segment_link (executable : bool) (base : Z) :
  can_map P base size = true ->
  map_segment P F executable base (load_phdr syms nbucket)
  = inl (link_segment syms nbucket executable base).
Proof.
  intros Hcan. unfold map_segment, seg_bytes.
  cbn [p_offset p_vaddr p_memsz p_filesz load_phdr].
  rewrite Z.eqb_refl, Z.ltb_irrefl, Z.add_0_r, Hcan, Z.sub_diag, Nat2Z.id.
  cbn [negb Z.to_nat repeat]. unfold slice. cbn [skipn Nat.add].
  rewrite (link_bytes_length syms nbucket HT), Nat.leb_refl.
  rewrite <- (link_bytes_length syms nbucket HT), firstn_all.
  now rewrite app_nil_r.
Qed.

(** The three ways [Load] fails on the file: the span does not fit
    [size_t], there is no room for the span, or the platform refuses the
    segment. *)
Lemma GetLoadedAddressRange_link_too_large :
  2 ^ size_t_bits < RoundUp size link_align ->
  GetLoadedAddressRange size_t_bits (opened_object path m)
  = inr (FormatError "loaded range does not fit the address space").
Proof.
  intros Hbig.
  destruct (file_linkable_inv syms nbucket Hlink) as (_ & _ & _ & _ & _ & Hlt).
  unfold GetLoadedAddressRange. rewrite opened_loadable_headers.
  cbn [forallb min_vaddr max_vaddr max_align fold_right].
  unfold seg_end, wrap. cbn [p_vaddr p_memsz load_phdr].
  rewrite Z.add_0_l, Z.mod_small by lia.
  change (Z.max (seg_align (load_phdr syms nbucket)) 1) with link_align.
  rewrite Z.max_l by lia. destruct (Z.leb_spec 0 size); [|lia].
  cbn [andb negb].
  now destruct (Z.ltb_spec (2 ^ size_t_bits) (RoundUp size link_align));
    [|lia].
Qed.

Lemma Load_link_file_too_large (executable low : bool)
    (res : option (Z * Z)) :
  2 ^ size_t_bits < RoundUp size link_align ->
  Load size_t_bits P (opened_object path m) file executable low res
  = inr (FormatError "loaded range does not fit the address space").
Proof.
  intros Hbig. unfold Load.
  now rewrite (GetLoadedAddressRange_link_too_large Hbig).
Qed.

Lemma Load_link_file_no_room (executable low : bool) (res : option (Z * Z)) :
  RoundUp size link_align <= 2 ^ size_t_bits ->
  reserve P (RoundUp size link_align) low res = None ->
  Load size_t_bits P (opened_object path m) file executable low res
  = inr (AllocationError "failed to reserve the loaded range").
Proof.
  intros Hfit Hres. unfold Load.
  rewrite (GetLoadedAddressRange_link Hfit). cbn beta iota. now rewrite Hres.
Qed.

Lemma Load_link_file_refused (executable low : bool)
    (res res' : option (Z * Z)) (base : Z) :
  RoundUp size link_align <= 2 ^ size_t_bits ->
  reserve P (RoundUp size link_align) low res = Some (base, res') ->
  can_map P base size = false ->
  Load size_t_bits P (opened_object path m) file executable low res
  = inr (AllocationError "failed to map segment").
Proof.
  intros Hfit Hres Hcan. unfold Load.
  rewrite (GetLoadedAddressRange_link Hfit). cbn beta iota. rewrite Hres.
  rewrite opened_loadable_headers. cbn [map_segments File_bytes link_file].
  unfold map_segment, seg_bytes.
  cbn [p_offset p_vaddr p_memsz p_filesz load_phdr].
  rewrite Z.eqb_refl, Z.ltb_irrefl, Z.add_0_r, Hcan, Nat2Z.id.
  cbn [negb Z.to_nat]. unfold slice. cbn [skipn Nat.add].
  now rewrite (link_bytes_length syms nbucket HT), Nat.leb_refl.
Qed.

Section Loaded.
Variables (executable : bool) (base : Z).
Hypothesis Hdis : MemMap_End m <= base \/ base + size <= MemMap_Begin m.

#[local] Abbreviation seg := (link_segment syms nbucket executable base).

(** An object with the file mapping and the segment holds the file at
    both addresses. *)
Lemma loaded_holds (f : ElfFileImpl) :
  map_ f = m -> segments_ f = [seg] ->
  held f (MemMap_Begin m) F /\ held f base F.
Proof.
  intros Hm Hs. split.
  - rewrite <- Hb, <- Hm. exact (held_map f).
  - apply (held_segment f seg [] Hs). unfold End, Begin. rewrite Hm.
    unfold MemMap_End, MemMap_Size, MemMap_Begin in *.
    cbn [mm_begin mm_bytes link_segment].
    rewrite Hb, (link_bytes_length syms nbucket HT) in *. lia.
Qed.

(** One turn of the loop over the dynamic section. *)
Lemma dynamic_pointers_step (f : ElfFileImpl) (i : nat) (d : Elf_Dyn)
    (n : nat) :
  map_ f = m -> segments_ f = [seg] ->
  dynamic_program_header_ f
  = Some (MemMap_Begin m + Z.of_nat phdrs_off + Z.of_nat (sizeof Phdr)) ->
  dynamic_section_start_ f = Some (base + Z.of_nat dynamic_off) ->
  nth_error (link_dynamic syms nbucket) i = Some d ->
  dynamic_pointers f base (Z.of_nat i) (S n)
  = dynamic_pointers (dynamic_pointer f base d) base (Z.of_nat i + 1) n.
Proof.
  intros Hm Hs Hph Hd Hi. destruct (loaded_holds f Hm Hs) as [Hfile Hseg].
  destruct (file_GetDynamic syms nbucket HT Hlink f _ _ Hfile Hseg Hph Hd)
    as (_ & _ & Hget).
  cbn [dynamic_pointers GetDynamic View_DynamicAccess].
  now rewrite (Hget i d Hi).
Qed.

(** What an entry of the dynamic section caches. *)
Lemma dynamic_pointer_link (f : ElfFileImpl) (o : nat) (tag : Z) :
  map_ f = m -> segments_ f = [seg] ->
  (o < link_size syms nbucket)%nat ->
  dynamic_pointer f base (mkElf_Dyn tag (Z.of_nat o))
  = let p := Some (base + Z.of_nat o) in
    if tag =? DT_HASH then set_hash f p
    else if tag =? DT_STRTAB then set_dynsym f (dynsym_section_start_ f) p
    else if tag =? DT_SYMTAB then set_dynsym f p (dynstr_section_start_ f)
    else f.
Proof.
  intros Hm Hs Ho. destruct (loaded_holds f Hm Hs) as [_ Hseg].
  unfold dynamic_pointer. cbn [d_un d_tag].
  now rewrite (file_valid syms nbucket HT f base Hseg) by lia.
Qed.

(** The loop over the four entries: the hash table, the string table and
    the symbol table are cached, in this order. *)
Lemma dynamic_pointers_link (f : ElfFileImpl) :
  map_ f = m -> segments_ f = [seg] ->
  dynamic_program_header_ f
  = Some (MemMap_Begin m + Z.of_nat phdrs_off + Z.of_nat (sizeof Phdr)) ->
  dynamic_section_start_ f = Some (base + Z.of_nat dynamic_off) ->
  dynamic_pointers f base 0 4
  = set_dynsym (set_hash f (Some (base + Z.of_nat hash_off)))
      (Some (base + Z.of_nat (dynsym_off syms nbucket)))
      (Some (base + Z.of_nat (dynstr_off syms nbucket))).
Proof.
  intros Hm Hs Hph Hd.
  destruct (link_tables_inside syms nbucket) as [Hoff Hlast].
  change 0 with (Z.of_nat 0) at 1.
  rewrite (dynamic_pointers_step f 0 _ 3 Hm Hs Hph Hd eq_refl).
  rewrite (dynamic_pointer_link f _ _ Hm Hs) by lia.
  cbv zeta. change (DT_HASH =? DT_HASH) with true. cbn iota.
  set (f1 := set_hash f _). change (Z.of_nat 0 + 1) with (Z.of_nat 1).
  rewrite (dynamic_pointers_step f1 1 _ 2 Hm Hs Hph Hd eq_refl).
  rewrite (dynamic_pointer_link f1 _ _ Hm Hs) by lia.
  cbv zeta. change (DT_STRTAB =? DT_HASH) with false.
  change (DT_STRTAB =? DT_STRTAB) with true. cbn iota.
  set (f2 := set_dynsym f1 _ _). change (Z.of_nat 1 + 1) with (Z.of_nat 2).
  rewrite (dynamic_pointers_step f2 2 _ 1 Hm Hs Hph Hd eq_refl).
  rewrite (dynamic_pointer_link f2 _ _ Hm Hs) by lia.
  cbv zeta. change (DT_SYMTAB =? DT_HASH) with false.
  change (DT_SYMTAB =? DT_STRTAB) with false.
  change (DT_SYMTAB =? DT_SYMTAB) with true. cbn iota.
  set (f3 := set_dynsym f2 _ _). change (Z.of_nat 2 + 1) with (Z.of_nat 3).
  now rewrite (dynamic_pointers_step f3 3 _ 0 Hm Hs Hph Hd eq_refl).
Qed.

(** The pointers [Load] caches, from the segments on. *)
Lemma locate_pointers_link :
  (let! f := locate_program_headers
               (set_loaded (opened_object path m) base [seg]) base in
   inl (resolve_dynamic f base))
  = inl (loaded_object syms nbucket path m executable base).
Proof.
  set (f2 := set_loaded (opened_object path m) base [seg]).
  destruct (link_size_parts syms nbucket HT Hlink) as ((He & Hp & Hd) & Hsz).
  destruct (loaded_holds f2 eq_refl eq_refl) as [Hfile Hseg].
  unfold locate_program_headers. cbn [GetHeader View_HeaderAccess].
  rewrite (file_GetHeader syms nbucket HT Hlink f2 _ Hfile eq_refl).
  cbn [e_phoff link_ehdr].
  rewrite (file_valid syms nbucket HT f2 base Hseg)
    by (unfold hash_off, dynamic_off, phdrs_off in *; lia).
  cbn beta iota.
  set (f3 := set_program_headers_start f2 _).
  destruct (loaded_holds f3 eq_refl eq_refl) as [Hfile3 Hseg3].
  unfold resolve_dynamic.
  destruct (file_GetDynamic syms nbucket HT Hlink f3 _ _ Hfile3 Hfile3
              eq_refl eq_refl) as (Hdyn & _).
  cbn [GetDynamicProgramHeader View_SectionStarts]. rewrite Hdyn.
  cbn [p_vaddr dynamic_phdr].
  rewrite (file_valid syms nbucket HT f3 base Hseg3)
    by (unfold hash_off, dynamic_off, phdrs_off in *; lia).
  set (f4 := set_dynamic f3 _ _).
  destruct (loaded_holds f4 eq_refl eq_refl) as [Hfile4 Hseg4].
  destruct (file_GetDynamic syms nbucket HT Hlink f4 _ _ Hfile4 Hseg4
              eq_refl eq_refl) as (_ & Hnum & _).
  cbn [GetDynamicNum View_DynamicAccess]. rewrite Hnum.
  change (Z.to_nat 4) with 4%nat.
  now rewrite (dynamic_pointers_link f4 eq_refl eq_refl eq_refl eq_refl).
Qed.

(** [Load] on the opened object: one segment with the bytes of the file at
    the start of the span. *)
Lemma Load_link_file (low : bool) (res res' : option (Z * Z)) :
  RoundUp size link_align <= 2 ^ size_t_bits ->
  reserve P (RoundUp size link_align) low res = Some (base, res') ->
  can_map P base size = true ->
  Load size_t_bits P (opened_object path m) file executable low res
  = inl (loaded_object syms nbucket path m executable base, res').
Proof.
  intros Hfit Hres Hcan. unfold Load.
  rewrite (GetLoadedAddressRange_link Hfit). cbn beta iota. rewrite Hres.
  rewrite opened_loadable_headers. cbn [map_segments File_bytes link_file].
  rewrite (map_segment_link executable base Hcan). cbn beta iota.
  pose proof locate_pointers_link as Hp.
  destruct (locate_program_headers _ base) as [f|e]; [|discriminate].
  now injection Hp as ->.
Qed.

(** The loaded object has the three tables where its pointers point. *)
Lemma loaded_holds_tables :
  holds_tables syms nbucket
    (loaded_object syms nbucket path m executable base).
Proof.
  destruct (loaded_holds (loaded_object syms nbucket path m executable base)
              eq_refl eq_refl) as [_ Hseg].
  destruct (held_tables syms nbucket HT _ base Hseg) as (Hh & Hs & Hd).
  split; eexists; (split; [reflexivity|assumption]).
Qed.

End Loaded.
End Loads.

(** ** From the symbols to their addresses *)

(** C35: for every list of symbols with distinct names and every number of
    buckets that the format can hold, in the 32-bit and the 64-bit layouts,
    the loader on the file a linker writes for them ([Open], then [Load]
    into a span that does not overlap the mapping of the file) ends in
    [Loaded] with the object [loaded_object], and the resolver on that
    object is the lookup in the list: the address of a symbol is the start
    of the span plus its value, and another name is not found. *)
Theorem linked_file_resolves {T : ElfTypes} (syms : list (string * Z))
    (nbucket size_t_bits : Z) (P : Platform) (path : string)
    (executable low : bool) (res res' : option (Z * Z)) (m : MemMap)
    (base : Z) :
  ElfTypes_ok T = true -> NoDup (map fst syms) ->
  file_linkable syms nbucket = true ->
  MapFile P (link_file syms nbucket path)
    (File_GetLength (link_file syms nbucket path)) PROT_READ low = Some m ->
  MemMap_End m <= base \/
  base + Z.of_nat (link_size syms nbucket) <= MemMap_Begin m ->
  RoundUp (Z.of_nat (link_size syms nbucket)) link_align <= 2 ^ size_t_bits ->
  reserve P (RoundUp (Z.of_nat (link_size syms nbucket)) link_align) low res
  = Some (base, res') ->
  can_map P base (Z.of_nat (link_size syms nbucket)) = true ->
  loader_run size_t_bits P
    [CallOpen (link_file syms nbucket path) low;
     CallLoad (link_file syms nbucket path) executable low res]
  = Some (Loaded (loaded_object syms nbucket path m executable base)) /\
  forall name : string,
    resolve (R := Hash_SymbolResolver)
      (Loaded (loaded_object syms nbucket path m executable base)) name
    = Some (option_map (fun v => base + v) (value_of name syms)).
Proof.
  intros HT Hnames Hlink Hm Hdis Hfit Hres Hcan.
  pose proof (MapFile_whole P _ _ _ _ Hm) as (_ & Hb & _).
  cbn [File_bytes link_file] in Hb. split.
  - unfold loader_run. cbn [run next ElfFile.Open View_ImageOpener].
    rewrite (Open_link_file syms nbucket HT Hlink P path low m Hm).
    cbn [next ElfFile.Load Mapped_SegmentLoader].
    now rewrite (Load_link_file syms nbucket HT Hlink size_t_bits P path m Hb
                   executable base Hdis low res res' Hfit Hres Hcan).
  - intros name. cbn [resolve]. f_equal.
    destruct (file_linkable_inv syms nbucket Hlink) as (Hl & _).
    destruct (linkable_inv syms nbucket Hl) as ([Hnb _] & _).
    pose proof (loaded_holds_tables syms nbucket HT path m Hb executable
                  base Hdis) as Hheld.
    exact (linked_image_resolves syms nbucket Hnames Hnb _
             (Himg := Mapped_image syms nbucket HT Hl _ Hheld) name).
Qed.

(** [Load] on the opened file of a linker, on every branch.  It fails
    with a format error when the span, the size of the file rounded up to
    the alignment of the segment, does not fit [size_t]; with an allocation
    error when no span can be reserved or when the platform refuses the
    segment; and otherwise it returns the object whose pointers to the
    program headers, the dynamic section and the three tables are in the
    segment, with what is left of the reservation. *)
Theorem Load_link_file_cases {T : ElfTypes} (syms : list (string * Z))
    (nbucket size_t_bits : Z) (P : Platform) (path : string) (m : MemMap)
    (executable low : bool) (res : option (Z * Z)) :
  ElfTypes_ok T = true -> file_linkable syms nbucket = true ->
  mm_bytes m = link_bytes syms nbucket ->
  (forall base res',
     reserve P (RoundUp (Z.of_nat (link_size syms nbucket)) link_align) low
       res = Some (base, res') ->
     MemMap_End m <= base \/
     base + Z.of_nat (link_size syms nbucket) <= MemMap_Begin m) ->
  Load size_t_bits P (opened_object path m) (link_file syms nbucket path)
    executable low res
  = if 2 ^ size_t_bits
       <? RoundUp (Z.of_nat (link_size syms nbucket)) link_align
    then inr (FormatError "loaded range does not fit the address space")
    else
      match reserve P (RoundUp (Z.of_nat (link_size syms nbucket)) link_align)
              low res with
      | None => inr (AllocationError "failed to reserve the loaded range")
      | Some (base, res') =>
          if can_map P base (Z.of_nat (link_size syms nbucket))
          then inl (loaded_object syms nbucket path m executable base, res')
          else inr (AllocationError "failed to map segment")
      end.
Proof.
  intros HT Hlink Hb Hdis.
  destruct (Z.ltb_spec (2 ^ size_t_bits)
              (RoundUp (Z.of_nat (link_size syms nbucket)) link_align))
    as [Hbig|Hfit].
  { now apply Load_link_file_too_large. }
  destruct (reserve P _ low res) as [[base res']|] eqn:Hres.
  - destruct (can_map P base _) eqn:Hcan.
    + exact (Load_link_file syms nbucket HT Hlink size_t_bits P path m Hb
               executable base (Hdis _ _ eq_refl) low res res' Hfit Hres Hcan).
    + now apply (Load_link_file_refused syms nbucket HT Hlink size_t_bits P
                   path m Hb executable low res res' base).
  - now apply Load_link_file_no_room.
Qed.

(** When the platform refuses the segment, the machine is back in
    [Unopened]: no object is left. *)
Lemma linked_file_refused {T : ElfTypes} (syms : list (string * Z))
    (nbucket size_t_bits : Z) (P : Platform) (path : string)
    (executable low : bool) (res res' : option (Z * Z)) (m : MemMap)
    (base : Z) :
  ElfTypes_ok T = true -> file_linkable syms nbucket = true ->
  MapFile P (link_file syms nbucket path)
    (File_GetLength (link_file syms nbucket path)) PROT_READ low = Some m ->
  RoundUp (Z.of_nat (link_size syms nbucket)) link_align <= 2 ^ size_t_bits ->
  reserve P (RoundUp (Z.of_nat (link_size syms nbucket)) link_align) low res
  = Some (base, res') ->
  can_map P base (Z.of_nat (link_size syms nbucket)) = false ->
  loader_run size_t_bits P
    [CallOpen (link_file syms nbucket path) low;
     CallLoad (link_file syms nbucket path) executable low res]
  = Some Unopened.
Proof.
  intros HT Hlink Hm Hfit Hres Hcan.
  pose proof (MapFile_whole P _ _ _ _ Hm) as (_ & Hb & _).
  cbn [File_bytes link_file] in Hb.
  unfold loader_run. cbn [run next ElfFile.Open View_ImageOpener].
  rewrite (Open_link_file syms nbucket HT Hlink P path low m Hm).
  cbn [next ElfFile.Load Mapped_SegmentLoader].
  now rewrite (Load_link_file_refused syms nbucket HT Hlink size_t_bits P path
                 m Hb executable low res res' base Hfit Hres Hcan).
Qed.

(** ** Three symbols in two buckets, from the file to the addresses *)

Section ExampleRun.
#[local] Existing Instance ElfTypes64.

(** The file has 397 bytes: a header of 64, two program headers of 56, four
    entries of the dynamic section of 16, a hash table of 8 words, four
    symbols of 24 and a string table of 29. *)
Lemma linked_oat_file_size :
  File_GetLength linked_oat_file = 397 /\
  (phdrs_off, dynamic_off, hash_off, dynsym_off oat_symbols 2,
   dynstr_off oat_symbols 2) = (64, 176, 240, 272, 368)%nat.
Proof. vm_compute. auto. Qed.

(** The machine on the file, evaluated: the three symbols are found at the
    start of the reservation plus their values, and two other names are
    not found. *)
Lemma linked_oat_run :
  option_map
    (fun s => map (resolve (R := Hash_SymbolResolver) s)
                ["oatdata"; "oatexec"; "oatlastword"; "oatbss"; ""]%string)
    (loader_run 64 oat_platform linked_oat_calls)
  = Some [Some (Some 0x21000); Some (Some 0x22000); Some (Some 0x22ffc);
          Some None; Some None].
Proof. vm_compute. reflexivity. Qed.

Lemma linked_file_resolves_witness :
  loader_run 64 oat_platform linked_oat_calls
  = Some (Loaded (loaded_object oat_symbols 2 "/data/linked.oat"
                    linked_oat_map false 0x20000)) /\
  forall name : string,
    resolve (R := Hash_SymbolResolver)
      (Loaded (loaded_object oat_symbols 2 "/data/linked.oat" linked_oat_map
                 false 0x20000)) name
    = Some (option_map (fun v => 0x20000 + v) (value_of name oat_symbols)).
Proof.
  apply (linked_file_resolves oat_symbols 2 64 oat_platform "/data/linked.oat"
           false false oat_reservation (Some (0x21000, 0xf000))
           linked_oat_map 0x20000).
  - reflexivity.
  - exact oat_symbols_distinct.
  - vm_compute. reflexivity.
  - vm_compute. reflexivity.
  - left. apply Z.leb_le. vm_compute. reflexivity.
  - apply Z.leb_le. vm_compute. reflexivity.
  - vm_compute. reflexivity.
  - reflexivity.
Defined.

(** A platform that maps the file and refuses every segment. *)
Lemma Load_link_file_cases_witness :
  Load 64 (mkPlatform (fun _ _ => Some 0x10000) (fun _ _ => false))
    (opened_object "/data/linked.oat" linked_oat_map) linked_oat_file
    false false oat_reservation
  = inr (AllocationError "failed to map segment").
Proof.
  unfold linked_oat_file.
  rewrite (Load_link_file_cases oat_symbols 2 64
             (mkPlatform (fun _ _ => Some 0x10000) (fun _ _ => false))
             "/data/linked.oat" linked_oat_map false false oat_reservation).
  - vm_compute. reflexivity.
  - reflexivity.
  - vm_compute. reflexivity.
  - reflexivity.
  - intros base res' Hres. vm_compute in Hres. injection Hres as <- _.
    left. apply Z.leb_le. vm_compute. reflexivity.
Defined.

End ExampleRun.

(** The same symbols in the 32-bit layouts (a header of 52 bytes, program
    headers of 32, dynamic entries of 8, symbols of 16), below 4GB. *)
Section ExampleRun32.
#[local] Existing Instance ElfTypes32.

Lemma linked_oat_run32 :
  File_GetLength (link_file oat_symbols 2 "/data/linked32.oat") = 273 /\
  option_map
    (fun s => map (resolve (R := Hash_SymbolResolver) s)
                ["oatdata"; "oatexec"; "oatlastword"; "oatbss"]%string)
    (loader_run 32 oat_platform
       [CallOpen (link_file oat_symbols 2 "/data/linked32.oat") true;
        CallLoad (link_file oat_symbols 2 "/data/linked32.oat") false true
          oat_reservation])
  = Some [Some (Some 0x21000); Some (Some 0x22000); Some (Some 0x22ffc);
          Some None].
Proof. vm_compute. auto. Qed.

End ExampleRun32.
