(* ===== verification/ElfObject.v ===== *)
(** * ElfObject: the loader on two shared objects written by GNU ld

    The bytes of two shared objects that gcc 12.2 and GNU ld 2.40 wrote for
    x86-64 and for i386 from the source

      const char oatdata[16] = "oatdata";
      int oatexec(void) { return 42; }
      const int oatlastword = 7;

    with the options [-shared -nostdlib -fPIC -Os -s] and the linker options
    [--hash-style=sysv --build-id=none -z max-page-size=4096 -z norelro
    -z noseparate-code] ([liboat64_bytes], 1432 bytes; [liboat32_bytes], 940
    bytes).  Unlike the files of [ElfLinkFile] they are not written by the
    encoders of this development: they have a section header table, two
    loadable segments of which the second starts inside a page, a
    PT_GNU_STACK header, and a hash table with the buckets and chains the
    linker chose.

    The views of [ElfHeaders] and [ElfTables] on them return what [readelf]
    prints for the files (the lemmas [..._header], [..._program_headers],
    [..._section_headers], [..._dynamic], [..._tables]): the layouts of
    [ElfTypes] are the layouts of the format.  [Open] and [Load]
    (src/runtime/oat/elf_file_impl.h, lines 44-46 and 92-98) accept them,
    the hash tables are well formed in the sense of [ElfHash]
    ([liboat64_wf], [liboat32_wf]), and the resolver (line 77) returns for
    every name the start of the reservation plus the value of the symbol of
    that name, or nothing when there is no such symbol
    ([liboat64_resolves], [liboat32_resolves]).  An object is refused by the
    instantiation of the other class ([liboat_wrong_class]). *)

From Stdlib Require Import ZArith Lia Bool Ascii String List.
From Stdlib Require Import Strings.Byte.
From S2P Require Import Prelude ElfTypes ElfFile ElfHash ElfLink ElfTables.
From S2P Require Import ElfHeaders ElfOpen ElfLoad ElfLifecycle ElfPipeline.
Import ListNotations.

#[local] Open Scope Z_scope.

(** ** The bytes *)

Definition liboat64_bytes : list byte :=
  [
   x7f; x45; x4c; x46; x02; x01; x01; x00; x00; x00; x00; x00; x00; x00; x00; x00;  (* 0000 *)
   x03; x00; x3e; x00; x01; x00; x00; x00; x00; x00; x00; x00; x00; x00; x00; x00;  (* 0010 *)
   x40; x00; x00; x00; x00; x00; x00; x00; x18; x03; x00; x00; x00; x00; x00; x00;  (* 0020 *)
   x00; x00; x00; x00; x40; x00; x38; x00; x04; x00; x40; x00; x0a; x00; x09; x00;  (* 0030 *)
   x01; x00; x00; x00; x05; x00; x00; x00; x00; x00; x00; x00; x00; x00; x00; x00;  (* 0040 *)
   x00; x00; x00; x00; x00; x00; x00; x00; x00; x00; x00; x00; x00; x00; x00; x00;  (* 0050 *)
   xf0; x01; x00; x00; x00; x00; x00; x00; xf0; x01; x00; x00; x00; x00; x00; x00;  (* 0060 *)
   x00; x10; x00; x00; x00; x00; x00; x00; x01; x00; x00; x00; x06; x00; x00; x00;  (* 0070 *)
   xf0; x01; x00; x00; x00; x00; x00; x00; xf0; x11; x00; x00; x00; x00; x00; x00;  (* 0080 *)
   xf0; x11; x00; x00; x00; x00; x00; x00; xb0; x00; x00; x00; x00; x00; x00; x00;  (* 0090 *)
   xb0; x00; x00; x00; x00; x00; x00; x00; x00; x10; x00; x00; x00; x00; x00; x00;  (* 00a0 *)
   x02; x00; x00; x00; x06; x00; x00; x00; xf0; x01; x00; x00; x00; x00; x00; x00;  (* 00b0 *)
   xf0; x11; x00; x00; x00; x00; x00; x00; xf0; x11; x00; x00; x00; x00; x00; x00;  (* 00c0 *)
   xb0; x00; x00; x00; x00; x00; x00; x00; xb0; x00; x00; x00; x00; x00; x00; x00;  (* 00d0 *)
   x08; x00; x00; x00; x00; x00; x00; x00; x51; xe5; x74; x64; x06; x00; x00; x00;  (* 00e0 *)
   x00; x00; x00; x00; x00; x00; x00; x00; x00; x00; x00; x00; x00; x00; x00; x00;  (* 00f0 *)
   x00; x00; x00; x00; x00; x00; x00; x00; x00; x00; x00; x00; x00; x00; x00; x00;  (* 0100 *)
   x00; x00; x00; x00; x00; x00; x00; x00; x10; x00; x00; x00; x00; x00; x00; x00;  (* 0110 *)
   x03; x00; x00; x00; x04; x00; x00; x00; x00; x00; x00; x00; x02; x00; x00; x00;  (* 0120 *)
   x03; x00; x00; x00; x00; x00; x00; x00; x00; x00; x00; x00; x01; x00; x00; x00;  (* 0130 *)
   x00; x00; x00; x00; x00; x00; x00; x00; x00; x00; x00; x00; x00; x00; x00; x00;  (* 0140 *)
   x00; x00; x00; x00; x00; x00; x00; x00; x00; x00; x00; x00; x00; x00; x00; x00;  (* 0150 *)
   x15; x00; x00; x00; x11; x00; x05; x00; xe0; x01; x00; x00; x00; x00; x00; x00;  (* 0160 *)
   x10; x00; x00; x00; x00; x00; x00; x00; x01; x00; x00; x00; x12; x00; x04; x00;  (* 0170 *)
   xc5; x01; x00; x00; x00; x00; x00; x00; x06; x00; x00; x00; x00; x00; x00; x00;  (* 0180 *)
   x09; x00; x00; x00; x11; x00; x05; x00; xd0; x01; x00; x00; x00; x00; x00; x00;  (* 0190 *)
   x04; x00; x00; x00; x00; x00; x00; x00; x00; x6f; x61; x74; x65; x78; x65; x63;  (* 01a0 *)
   x00; x6f; x61; x74; x6c; x61; x73; x74; x77; x6f; x72; x64; x00; x6f; x61; x74;  (* 01b0 *)
   x64; x61; x74; x61; x00; xb8; x2a; x00; x00; x00; xc3; x00; x00; x00; x00; x00;  (* 01c0 *)
   x07; x00; x00; x00; x00; x00; x00; x00; x00; x00; x00; x00; x00; x00; x00; x00;  (* 01d0 *)
   x6f; x61; x74; x64; x61; x74; x61; x00; x00; x00; x00; x00; x00; x00; x00; x00;  (* 01e0 *)
   x04; x00; x00; x00; x00; x00; x00; x00; x20; x01; x00; x00; x00; x00; x00; x00;  (* 01f0 *)
   x05; x00; x00; x00; x00; x00; x00; x00; xa8; x01; x00; x00; x00; x00; x00; x00;  (* 0200 *)
   x06; x00; x00; x00; x00; x00; x00; x00; x48; x01; x00; x00; x00; x00; x00; x00;  (* 0210 *)
   x0a; x00; x00; x00; x00; x00; x00; x00; x1d; x00; x00; x00; x00; x00; x00; x00;  (* 0220 *)
   x0b; x00; x00; x00; x00; x00; x00; x00; x18; x00; x00; x00; x00; x00; x00; x00;  (* 0230 *)
   x00; x00; x00; x00; x00; x00; x00; x00; x00; x00; x00; x00; x00; x00; x00; x00;  (* 0240 *)
   x00; x00; x00; x00; x00; x00; x00; x00; x00; x00; x00; x00; x00; x00; x00; x00;  (* 0250 *)
   x00; x00; x00; x00; x00; x00; x00; x00; x00; x00; x00; x00; x00; x00; x00; x00;  (* 0260 *)
   x00; x00; x00; x00; x00; x00; x00; x00; x00; x00; x00; x00; x00; x00; x00; x00;  (* 0270 *)
   x00; x00; x00; x00; x00; x00; x00; x00; x00; x00; x00; x00; x00; x00; x00; x00;  (* 0280 *)
   x00; x00; x00; x00; x00; x00; x00; x00; x00; x00; x00; x00; x00; x00; x00; x00;  (* 0290 *)
   x47; x43; x43; x3a; x20; x28; x44; x65; x62; x69; x61; x6e; x20; x31; x32; x2e;  (* 02a0 *)
   x32; x2e; x30; x2d; x31; x34; x2b; x64; x65; x62; x31; x32; x75; x31; x29; x20;  (* 02b0 *)
   x31; x32; x2e; x32; x2e; x30; x00; x00; x2e; x73; x68; x73; x74; x72; x74; x61;  (* 02c0 *)
   x62; x00; x2e; x68; x61; x73; x68; x00; x2e; x64; x79; x6e; x73; x79; x6d; x00;  (* 02d0 *)
   x2e; x64; x79; x6e; x73; x74; x72; x00; x2e; x74; x65; x78; x74; x00; x2e; x72;  (* 02e0 *)
   x6f; x64; x61; x74; x61; x00; x2e; x65; x68; x5f; x66; x72; x61; x6d; x65; x00;  (* 02f0 *)
   x2e; x64; x79; x6e; x61; x6d; x69; x63; x00; x2e; x63; x6f; x6d; x6d; x65; x6e;  (* 0300 *)
   x74; x00; x00; x00; x00; x00; x00; x00; x00; x00; x00; x00; x00; x00; x00; x00;  (* 0310 *)
   x00; x00; x00; x00; x00; x00; x00; x00; x00; x00; x00; x00; x00; x00; x00; x00;  (* 0320 *)
   x00; x00; x00; x00; x00; x00; x00; x00; x00; x00; x00; x00; x00; x00; x00; x00;  (* 0330 *)
   x00; x00; x00; x00; x00; x00; x00; x00; x00; x00; x00; x00; x00; x00; x00; x00;  (* 0340 *)
   x00; x00; x00; x00; x00; x00; x00; x00; x0b; x00; x00; x00; x05; x00; x00; x00;  (* 0350 *)
   x02; x00; x00; x00; x00; x00; x00; x00; x20; x01; x00; x00; x00; x00; x00; x00;  (* 0360 *)
   x20; x01; x00; x00; x00; x00; x00; x00; x24; x00; x00; x00; x00; x00; x00; x00;  (* 0370 *)
   x02; x00; x00; x00; x00; x00; x00; x00; x08; x00; x00; x00; x00; x00; x00; x00;  (* 0380 *)
   x04; x00; x00; x00; x00; x00; x00; x00; x11; x00; x00; x00; x0b; x00; x00; x00;  (* 0390 *)
   x02; x00; x00; x00; x00; x00; x00; x00; x48; x01; x00; x00; x00; x00; x00; x00;  (* 03a0 *)
   x48; x01; x00; x00; x00; x00; x00; x00; x60; x00; x00; x00; x00; x00; x00; x00;  (* 03b0 *)
   x03; x00; x00; x00; x01; x00; x00; x00; x08; x00; x00; x00; x00; x00; x00; x00;  (* 03c0 *)
   x18; x00; x00; x00; x00; x00; x00; x00; x19; x00; x00; x00; x03; x00; x00; x00;  (* 03d0 *)
   x02; x00; x00; x00; x00; x00; x00; x00; xa8; x01; x00; x00; x00; x00; x00; x00;  (* 03e0 *)
   xa8; x01; x00; x00; x00; x00; x00; x00; x1d; x00; x00; x00; x00; x00; x00; x00;  (* 03f0 *)
   x00; x00; x00; x00; x00; x00; x00; x00; x01; x00; x00; x00; x00; x00; x00; x00;  (* 0400 *)
   x00; x00; x00; x00; x00; x00; x00; x00; x21; x00; x00; x00; x01; x00; x00; x00;  (* 0410 *)
   x06; x00; x00; x00; x00; x00; x00; x00; xc5; x01; x00; x00; x00; x00; x00; x00;  (* 0420 *)
   xc5; x01; x00; x00; x00; x00; x00; x00; x06; x00; x00; x00; x00; x00; x00; x00;  (* 0430 *)
   x00; x00; x00; x00; x00; x00; x00; x00; x01; x00; x00; x00; x00; x00; x00; x00;  (* 0440 *)
   x00; x00; x00; x00; x00; x00; x00; x00; x27; x00; x00; x00; x01; x00; x00; x00;  (* 0450 *)
   x02; x00; x00; x00; x00; x00; x00; x00; xd0; x01; x00; x00; x00; x00; x00; x00;  (* 0460 *)
   xd0; x01; x00; x00; x00; x00; x00; x00; x20; x00; x00; x00; x00; x00; x00; x00;  (* 0470 *)
   x00; x00; x00; x00; x00; x00; x00; x00; x10; x00; x00; x00; x00; x00; x00; x00;  (* 0480 *)
   x00; x00; x00; x00; x00; x00; x00; x00; x2f; x00; x00; x00; x01; x00; x00; x00;  (* 0490 *)
   x02; x00; x00; x00; x00; x00; x00; x00; xf0; x01; x00; x00; x00; x00; x00; x00;  (* 04a0 *)
   xf0; x01; x00; x00; x00; x00; x00; x00; x00; x00; x00; x00; x00; x00; x00; x00;  (* 04b0 *)
   x00; x00; x00; x00; x00; x00; x00; x00; x08; x00; x00; x00; x00; x00; x00; x00;  (* 04c0 *)
   x00; x00; x00; x00; x00; x00; x00; x00; x39; x00; x00; x00; x06; x00; x00; x00;  (* 04d0 *)
   x03; x00; x00; x00; x00; x00; x00; x00; xf0; x11; x00; x00; x00; x00; x00; x00;  (* 04e0 *)
   xf0; x01; x00; x00; x00; x00; x00; x00; xb0; x00; x00; x00; x00; x00; x00; x00;  (* 04f0 *)
   x03; x00; x00; x00; x00; x00; x00; x00; x08; x00; x00; x00; x00; x00; x00; x00;  (* 0500 *)
   x10; x00; x00; x00; x00; x00; x00; x00; x42; x00; x00; x00; x01; x00; x00; x00;  (* 0510 *)
   x30; x00; x00; x00; x00; x00; x00; x00; x00; x00; x00; x00; x00; x00; x00; x00;  (* 0520 *)
   xa0; x02; x00; x00; x00; x00; x00; x00; x27; x00; x00; x00; x00; x00; x00; x00;  (* 0530 *)
   x00; x00; x00; x00; x00; x00; x00; x00; x01; x00; x00; x00; x00; x00; x00; x00;  (* 0540 *)
   x01; x00; x00; x00; x00; x00; x00; x00; x01; x00; x00; x00; x03; x00; x00; x00;  (* 0550 *)
   x00; x00; x00; x00; x00; x00; x00; x00; x00; x00; x00; x00; x00; x00; x00; x00;  (* 0560 *)
   xc7; x02; x00; x00; x00; x00; x00; x00; x4b; x00; x00; x00; x00; x00; x00; x00;  (* 0570 *)
   x00; x00; x00; x00; x00; x00; x00; x00; x01; x00; x00; x00; x00; x00; x00; x00;  (* 0580 *)
   x00; x00; x00; x00; x00; x00; x00; x00  (* 0590 *)
  ]%list.

Definition liboat32_bytes : list byte :=
  [
   x7f; x45; x4c; x46; x01; x01; x01; x00; x00; x00; x00; x00; x00; x00; x00; x00;  (* 0000 *)
   x03; x00; x03; x00; x01; x00; x00; x00; x00; x00; x00; x00; x34; x00; x00; x00;  (* 0010 *)
   x1c; x02; x00; x00; x00; x00; x00; x00; x34; x00; x20; x00; x04; x00; x28; x00;  (* 0020 *)
   x0a; x00; x09; x00; x01; x00; x00; x00; x00; x00; x00; x00; x00; x00; x00; x00;  (* 0030 *)
   x00; x00; x00; x00; x50; x01; x00; x00; x50; x01; x00; x00; x05; x00; x00; x00;  (* 0040 *)
   x00; x10; x00; x00; x01; x00; x00; x00; x50; x01; x00; x00; x50; x11; x00; x00;  (* 0050 *)
   x50; x11; x00; x00; x58; x00; x00; x00; x58; x00; x00; x00; x06; x00; x00; x00;  (* 0060 *)
   x00; x10; x00; x00; x02; x00; x00; x00; x50; x01; x00; x00; x50; x11; x00; x00;  (* 0070 *)
   x50; x11; x00; x00; x58; x00; x00; x00; x58; x00; x00; x00; x06; x00; x00; x00;  (* 0080 *)
   x04; x00; x00; x00; x51; xe5; x74; x64; x00; x00; x00; x00; x00; x00; x00; x00;  (* 0090 *)
   x00; x00; x00; x00; x00; x00; x00; x00; x00; x00; x00; x00; x06; x00; x00; x00;  (* 00a0 *)
   x10; x00; x00; x00; x03; x00; x00; x00; x04; x00; x00; x00; x00; x00; x00; x00;  (* 00b0 *)
   x02; x00; x00; x00; x03; x00; x00; x00; x00; x00; x00; x00; x00; x00; x00; x00;  (* 00c0 *)
   x01; x00; x00; x00; x00; x00; x00; x00; x00; x00; x00; x00; x00; x00; x00; x00;  (* 00d0 *)
   x00; x00; x00; x00; x00; x00; x00; x00; x15; x00; x00; x00; x40; x01; x00; x00;  (* 00e0 *)
   x10; x00; x00; x00; x11; x00; x05; x00; x01; x00; x00; x00; x35; x01; x00; x00;  (* 00f0 *)
   x06; x00; x00; x00; x12; x00; x04; x00; x09; x00; x00; x00; x3c; x01; x00; x00;  (* 0100 *)
   x04; x00; x00; x00; x11; x00; x05; x00; x00; x6f; x61; x74; x65; x78; x65; x63;  (* 0110 *)
   x00; x6f; x61; x74; x6c; x61; x73; x74; x77; x6f; x72; x64; x00; x6f; x61; x74;  (* 0120 *)
   x64; x61; x74; x61; x00; xb8; x2a; x00; x00; x00; xc3; x00; x07; x00; x00; x00;  (* 0130 *)
   x6f; x61; x74; x64; x61; x74; x61; x00; x00; x00; x00; x00; x00; x00; x00; x00;  (* 0140 *)
   x04; x00; x00; x00; xb4; x00; x00; x00; x05; x00; x00; x00; x18; x01; x00; x00;  (* 0150 *)
   x06; x00; x00; x00; xd8; x00; x00; x00; x0a; x00; x00; x00; x1d; x00; x00; x00;  (* 0160 *)
   x0b; x00; x00; x00; x10; x00; x00; x00; x00; x00; x00; x00; x00; x00; x00; x00;  (* 0170 *)
   x00; x00; x00; x00; x00; x00; x00; x00; x00; x00; x00; x00; x00; x00; x00; x00;  (* 0180 *)
   x00; x00; x00; x00; x00; x00; x00; x00; x00; x00; x00; x00; x00; x00; x00; x00;  (* 0190 *)
   x00; x00; x00; x00; x00; x00; x00; x00; x47; x43; x43; x3a; x20; x28; x44; x65;  (* 01a0 *)
   x62; x69; x61; x6e; x20; x31; x32; x2e; x32; x2e; x30; x2d; x31; x34; x2b; x64;  (* 01b0 *)
   x65; x62; x31; x32; x75; x31; x29; x20; x31; x32; x2e; x32; x2e; x30; x00; x00;  (* 01c0 *)
   x2e; x73; x68; x73; x74; x72; x74; x61; x62; x00; x2e; x68; x61; x73; x68; x00;  (* 01d0 *)
   x2e; x64; x79; x6e; x73; x79; x6d; x00; x2e; x64; x79; x6e; x73; x74; x72; x00;  (* 01e0 *)
   x2e; x74; x65; x78; x74; x00; x2e; x72; x6f; x64; x61; x74; x61; x00; x2e; x65;  (* 01f0 *)
   x68; x5f; x66; x72; x61; x6d; x65; x00; x2e; x64; x79; x6e; x61; x6d; x69; x63;  (* 0200 *)
   x00; x2e; x63; x6f; x6d; x6d; x65; x6e; x74; x00; x00; x00; x00; x00; x00; x00;  (* 0210 *)
   x00; x00; x00; x00; x00; x00; x00; x00; x00; x00; x00; x00; x00; x00; x00; x00;  (* 0220 *)
   x00; x00; x00; x00; x00; x00; x00; x00; x00; x00; x00; x00; x00; x00; x00; x00;  (* 0230 *)
   x00; x00; x00; x00; x0b; x00; x00; x00; x05; x00; x00; x00; x02; x00; x00; x00;  (* 0240 *)
   xb4; x00; x00; x00; xb4; x00; x00; x00; x24; x00; x00; x00; x02; x00; x00; x00;  (* 0250 *)
   x00; x00; x00; x00; x04; x00; x00; x00; x04; x00; x00; x00; x11; x00; x00; x00;  (* 0260 *)
   x0b; x00; x00; x00; x02; x00; x00; x00; xd8; x00; x00; x00; xd8; x00; x00; x00;  (* 0270 *)
   x40; x00; x00; x00; x03; x00; x00; x00; x01; x00; x00; x00; x04; x00; x00; x00;  (* 0280 *)
   x10; x00; x00; x00; x19; x00; x00; x00; x03; x00; x00; x00; x02; x00; x00; x00;  (* 0290 *)
   x18; x01; x00; x00; x18; x01; x00; x00; x1d; x00; x00; x00; x00; x00; x00; x00;  (* 02a0 *)
   x00; x00; x00; x00; x01; x00; x00; x00; x00; x00; x00; x00; x21; x00; x00; x00;  (* 02b0 *)
   x01; x00; x00; x00; x06; x00; x00; x00; x35; x01; x00; x00; x35; x01; x00; x00;  (* 02c0 *)
   x06; x00; x00; x00; x00; x00; x00; x00; x00; x00; x00; x00; x01; x00; x00; x00;  (* 02d0 *)
   x00; x00; x00; x00; x27; x00; x00; x00; x01; x00; x00; x00; x02; x00; x00; x00;  (* 02e0 *)
   x3c; x01; x00; x00; x3c; x01; x00; x00; x14; x00; x00; x00; x00; x00; x00; x00;  (* 02f0 *)
   x00; x00; x00; x00; x04; x00; x00; x00; x00; x00; x00; x00; x2f; x00; x00; x00;  (* 0300 *)
   x01; x00; x00; x00; x02; x00; x00; x00; x50; x01; x00; x00; x50; x01; x00; x00;  (* 0310 *)
   x00; x00; x00; x00; x00; x00; x00; x00; x00; x00; x00; x00; x04; x00; x00; x00;  (* 0320 *)
   x00; x00; x00; x00; x39; x00; x00; x00; x06; x00; x00; x00; x03; x00; x00; x00;  (* 0330 *)
   x50; x11; x00; x00; x50; x01; x00; x00; x58; x00; x00; x00; x03; x00; x00; x00;  (* 0340 *)
   x00; x00; x00; x00; x04; x00; x00; x00; x08; x00; x00; x00; x42; x00; x00; x00;  (* 0350 *)
   x01; x00; x00; x00; x30; x00; x00; x00; x00; x00; x00; x00; xa8; x01; x00; x00;  (* 0360 *)
   x27; x00; x00; x00; x00; x00; x00; x00; x00; x00; x00; x00; x01; x00; x00; x00;  (* 0370 *)
   x01; x00; x00; x00; x01; x00; x00; x00; x03; x00; x00; x00; x00; x00; x00; x00;  (* 0380 *)
   x00; x00; x00; x00; xcf; x01; x00; x00; x4b; x00; x00; x00; x00; x00; x00; x00;  (* 0390 *)
   x00; x00; x00; x00; x01; x00; x00; x00; x00; x00; x00; x00  (* 03a0 *)
  ]%list.

(** ** The files, the calls and the loaded objects *)

Definition liboat64 : File := mkFile "/data/liboat64.so" liboat64_bytes.

Definition liboat32 : File := mkFile "/data/liboat32.so" liboat32_bytes.

(** The symbols of the dynamic symbol tables, with the values
    [readelf --dyn-syms] prints for them. *)
Definition liboat64_symbols : list (string * Z) :=
  [("oatdata", 0x1e0); ("oatexec", 0x1c5); ("oatlastword", 0x1d0)]%string.

Definition liboat32_symbols : list (string * Z) :=
  [("oatdata", 0x140); ("oatexec", 0x135); ("oatlastword", 0x13c)]%string.

(** The two calls of a consumer. *)
Definition liboat_calls (file : File) : list Call :=
  [CallOpen file false; CallLoad file false false oat_reservation].

(** The object the machine ends with. *)
Definition loaded_of (s : option State) (file : File) : ElfFileImpl :=
  match s with
  | Some (Loaded f) => f
  | _ => new_ElfFileImpl file
  end.

Definition liboat64_loaded : ElfFileImpl :=
  loaded_of (loader_run (T := ElfTypes64) 64 oat_platform (liboat_calls liboat64))
    liboat64.

Definition liboat32_loaded : ElfFileImpl :=
  loaded_of (loader_run (T := ElfTypes32) 32 oat_platform (liboat_calls liboat32))
    liboat32.

(** The dynamic symbol table holds, from the index [i] on, symbols with the
    names and the values of [syms], in this order. *)
Fixpoint lists_symbols {SA : SymbolAccess} {StrA : StringAccess}
    (f : ElfFileImpl) (i : Z) (syms : list (string * Z)) : bool :=
  match syms with
  | [] => true
  | (n, v) :: syms' =>
      match GetSymbol f SHT_DYNSYM i with
      | Some sym =>
          name_matches (GetString f SHT_DYNSYM (st_name sym)) n &&
          (st_value sym =? v) && lists_symbols f (i + 1) syms'
      | None => false
      end
  end.

(** ** Tactics for the entries of a table of a concrete object *)

(** An equation between closed terms. *)
Ltac by_run := vm_compute; repeat split; reflexivity.

(** [H : get f i = Some v] with [i] below [n]: the cases of [i], each
    evaluated. *)
Ltac entry_cases H Hr i :=
  let Hi := fresh "Hi" in
  match type of Hr with
  | _ <= _ < ?n =>
      let k := eval vm_compute in n in
      assert (Hi : In i (map Z.of_nat (seq 0 (Z.to_nat k))))
        by (apply in_map_iff; exists (Z.to_nat i); split;
            [lia | apply in_seq; change n with k in Hr; lia])
  end;
  cbn in Hi; repeat (destruct Hi as [<- | Hi]); try contradiction;
  vm_compute in H; inv H.

(** A closed term on the left, an unknown on the right. *)
Ltac by_eval :=
  lazymatch goal with
  | |- ?l = _ =>
      let v := eval vm_compute in l in
      transitivity v; [vm_compute; reflexivity | reflexivity]
  end.

(** [Hs : GetSymbol f SHT_DYNSYM i = Some sym] and
    [Hm : symbol_matches f name sym = true] with [Hi : 1 <= i < 4]: the
    three cases, with the symbol and the name of each. *)
Ltac symbol_cases Hi Hs Hm :=
  apply symbol_matches_name in Hm;
  lazymatch type of Hi with
  | 1 <= ?i < 4 =>
      let Hc := fresh "Hc" in
      assert (Hc : i = 1 \/ i = 2 \/ i = 3) by lia;
      destruct Hc as [-> | [-> | ->]]
  end;
  vm_compute in Hs; inv Hs; vm_compute in Hm; inv Hm.

(** One link of a chain of a concrete table. *)
Ltac chain_step :=
  first [ apply on_chain_here; lia
        | eapply on_chain_later; [lia | by_eval | by_eval | ] ].

(** The table of a concrete object whose bucket and chain entries are in
    range is well formed. *)
Ltac table_wf Hbucket Hchain :=
  split;
  [ exact Hbucket
  | exact Hchain
  | intros i sym name Hi Hs Hm; symbol_cases Hi Hs Hm;
    (eexists; split; [by_eval | repeat chain_step])
  | intros i j si sj name Hi Hj Hsi Hsj Hmi Hmj;
    symbol_cases Hi Hsi Hmi; symbol_cases Hj Hsj Hmj; reflexivity ].

(** ** The search in index order, against the list of the symbols *)

Section Listed.
Context {HA : HashAccess} {SA : SymbolAccess} {StrA : StringAccess}.
Context {Laws : HashAccessLaws}.
Context (f : ElfFileImpl) (name : string).

Lemma name_matches_sym (o : option string) (n : string) :
  name_matches o n = true -> name_matches o name = String.eqb n name.
Proof.
  destruct o as [s|]; [|discriminate]. cbn. now intros ->%String.eqb_eq.
Qed.

Lemma linear_scan_listed (syms : list (string * Z)) (i : Z) :
  lists_symbols f i syms = true ->
  option_map st_value (linear_scan f name (length syms) i) = value_of name syms.
Proof.
  revert i. induction syms as [|[n v] syms IH]; intros i; [reflexivity|].
  cbn [lists_symbols linear_scan length value_of].
  destruct (GetSymbol f SHT_DYNSYM i) as [sym|]; [|discriminate].
  rewrite !andb_true_iff, Z.eqb_eq. intros [[Hn Hv] Hl].
  unfold symbol_matches. rewrite (name_matches_sym _ _ Hn).
  destruct (String.eqb n name); [cbn; congruence | now apply IH].
Qed.

(** On a well-formed table of the symbols [syms] the resolver is the lookup
    in [syms], relocated by the base address. *)
Lemma resolver_listed (syms : list (string * Z)) (base : Z) :
  hash_table_wf f (Z.of_nat (length syms) + 1) ->
  lists_symbols f 1 syms = true -> GetBaseAddress f = Some base ->
  FindDynamicSymbolAddress f name
  = option_map (fun v => base + v) (value_of name syms).
Proof.
  intros Hwf Hl Hb. unfold FindDynamicSymbolAddress.
  rewrite <- (linear_scan_listed syms 1 Hl), Hb.
  replace (length syms) with (Z.to_nat (Z.of_nat (length syms) + 1 - 1)) by lia.
  fold (LinearScan f name (Z.of_nat (length syms) + 1)).
  destruct (LinearScan f name _) as [sym|] eqn:E.
  - now rewrite (LinearScan_found f name _ Hwf sym E).
  - now rewrite (LinearScan_none f name _ Hwf E).
Qed.

End Listed.

(** ** The 64-bit object *)

Section Object64.
#[local] Existing Instance ElfTypes64.

(** [Open] and [Load] accept the file. *)
Lemma liboat64_run :
  loader_run 64 oat_platform (liboat_calls liboat64)
  = Some (Loaded liboat64_loaded).
Proof. by_run. Qed.

(** The ELF header, as [readelf -h] prints it. *)
Lemma liboat64_header :
  View.GetHeader liboat64_loaded
  = Some (mkElf_Ehdr (firstn 16 liboat64_bytes) 3 64 792 64 56 4 64 10 9).
Proof. by_run. Qed.

(** The program headers, as [readelf -l] prints them: two loadable
    segments, the dynamic section and the GNU stack note. *)
Lemma liboat64_program_headers :
  map (View.GetProgramHeader liboat64_loaded) [0; 1; 2; 3; 4]
  = [Some (mkElf_Phdr PT_LOAD 0 0 0x1f0 0x1f0 (Z.lor PF_R PF_X) 0x1000);
     Some (mkElf_Phdr PT_LOAD 0x1f0 0x11f0 0xb0 0xb0 (Z.lor PF_R PF_W) 0x1000);
     Some (mkElf_Phdr PT_DYNAMIC 0x1f0 0x11f0 0xb0 0xb0 (Z.lor PF_R PF_W) 8);
     Some (mkElf_Phdr 0x6474e551 0 0 0 0 (Z.lor PF_R PF_W) 16);
     None].
Proof. by_run. Qed.

(** The section headers of the tables, as [readelf -S] prints them: .hash,
    .dynsym, .dynstr and .dynamic. *)
Lemma liboat64_section_headers :
  map (View.GetSectionHeader liboat64_loaded) [1; 2; 3; 7; 10]
  = [Some (mkElf_Shdr 11 SHT_HASH 2 0x120 0x120 0x24 2 4);
     Some (mkElf_Shdr 17 SHT_DYNSYM 2 0x148 0x148 0x60 3 0x18);
     Some (mkElf_Shdr 25 SHT_STRTAB 2 0x1a8 0x1a8 0x1d 0 0);
     Some (mkElf_Shdr 57 SHT_DYNAMIC 3 0x11f0 0x1f0 0xb0 3 0x10);
     None].
Proof. by_run. Qed.

(** The dynamic section, as [readelf -d] prints it. *)
Lemma liboat64_dynamic :
  map (View.GetDynamic liboat64_loaded) [0; 1; 2; 3; 4; 5]
  = [Some (mkElf_Dyn DT_HASH 0x120); Some (mkElf_Dyn DT_STRTAB 0x1a8);
     Some (mkElf_Dyn DT_SYMTAB 0x148); Some (mkElf_Dyn 10 29);
     Some (mkElf_Dyn 11 24); Some (mkElf_Dyn DT_NULL 0)].
Proof. by_run. Qed.

(** The span of the two segments, rounded up to their alignment, and the
    pointers of the object after [Load]:
    the tables are read from the segment at the start of the
    reservation. *)
Lemma liboat64_span :
  GetLoadedAddressRange 64 liboat64_loaded = inl (0, 0x2000) /\
  GetBaseAddress liboat64_loaded = Some 0x20000 /\
  map MemMap_Begin (segments_ liboat64_loaded) = [0x20000; 0x211f0] /\
  hash_section_start_ liboat64_loaded = Some 0x20120 /\
  dynsym_section_start_ liboat64_loaded = Some 0x20148 /\
  dynstr_section_start_ liboat64_loaded = Some 0x201a8.
Proof. by_run. Qed.

(** The symbols and their names, as [readelf --dyn-syms] prints them. *)
Lemma liboat64_tables :
  GetHashBucketNum liboat64_loaded = 3 /\ GetHashChainNum liboat64_loaded = 4 /\
  GetSymbol liboat64_loaded SHT_DYNSYM 1 = Some (mkElf_Sym 21 0x1e0 16 0x11 5) /\
  GetSymbol liboat64_loaded SHT_DYNSYM 2 = Some (mkElf_Sym 1 0x1c5 6 0x12 4) /\
  GetSymbol liboat64_loaded SHT_DYNSYM 3 = Some (mkElf_Sym 9 0x1d0 4 0x11 5) /\
  GetString liboat64_loaded SHT_DYNSYM 21 = Some "oatdata"%string /\
  GetString liboat64_loaded SHT_DYNSYM 1 = Some "oatexec"%string /\
  GetString liboat64_loaded SHT_DYNSYM 9 = Some "oatlastword"%string.
Proof. by_run. Qed.

Lemma liboat64_bucket (b v : Z) :
  GetHashBucket liboat64_loaded b = Some v -> 0 <= v < 4.
Proof.
  intros H. pose proof (GetHashBucket_range _ _ _ H) as Hr.
  entry_cases H Hr b; lia.
Qed.

Lemma liboat64_chain (i v : Z) :
  GetHashChain liboat64_loaded i = Some v -> 0 <= v < 4.
Proof.
  intros H. pose proof (GetHashChain_range _ _ _ H) as Hr.
  entry_cases H Hr i; lia.
Qed.

(** The hash table the linker wrote is well formed: every named symbol is
    on the chain of the bucket of its name. *)
Lemma liboat64_wf : hash_table_wf liboat64_loaded 4.
Proof. table_wf liboat64_bucket liboat64_chain. Qed.

(** C37: [Open] and [Load] accept the 64-bit shared object GNU ld wrote,
    and on the loaded object the resolver returns, for every name, the start
    of the reservation plus the value [readelf] prints for the symbol of
    that name, and nothing for a name that is not in the dynamic symbol
    table. *)
Theorem liboat64_resolves (name : string) :
  loader_run 64 oat_platform (liboat_calls liboat64)
  = Some (Loaded liboat64_loaded) /\
  resolve (R := Hash_SymbolResolver) (Loaded liboat64_loaded) name
  = Some (option_map (fun v => 0x20000 + v) (value_of name liboat64_symbols)).
Proof.
  split; [by_run|]. cbn [resolve]. f_equal.
  apply (resolver_listed liboat64_loaded name liboat64_symbols 0x20000);
    [exact liboat64_wf | by_run..].
Qed.

End Object64.

(** ** The 32-bit object *)

Section Object32.
#[local] Existing Instance ElfTypes32.

(** [Open] and [Load] accept the file. *)
Lemma liboat32_run :
  loader_run 32 oat_platform (liboat_calls liboat32)
  = Some (Loaded liboat32_loaded).
Proof. by_run. Qed.

(** The ELF header, as [readelf -h] prints it. *)
Lemma liboat32_header :
  View.GetHeader liboat32_loaded
  = Some (mkElf_Ehdr (firstn 16 liboat32_bytes) 3 52 540 52 32 4 40 10 9).
Proof. by_run. Qed.

(** The program headers, as [readelf -l] prints them: two loadable
    segments, the dynamic section and the GNU stack note. *)
Lemma liboat32_program_headers :
  map (View.GetProgramHeader liboat32_loaded) [0; 1; 2; 3; 4]
  = [Some (mkElf_Phdr PT_LOAD 0 0 0x150 0x150 (Z.lor PF_R PF_X) 0x1000);
     Some (mkElf_Phdr PT_LOAD 0x150 0x1150 0x58 0x58 (Z.lor PF_R PF_W) 0x1000);
     Some (mkElf_Phdr PT_DYNAMIC 0x150 0x1150 0x58 0x58 (Z.lor PF_R PF_W) 4);
     Some (mkElf_Phdr 0x6474e551 0 0 0 0 (Z.lor PF_R PF_W) 16);
     None].
Proof. by_run. Qed.

(** The section headers of the tables, as [readelf -S] prints them: .hash,
    .dynsym, .dynstr and .dynamic. *)
Lemma liboat32_section_headers :
  map (View.GetSectionHeader liboat32_loaded) [1; 2; 3; 7; 10]
  = [Some (mkElf_Shdr 11 SHT_HASH 2 0xb4 0xb4 0x24 2 4);
     Some (mkElf_Shdr 17 SHT_DYNSYM 2 0xd8 0xd8 0x40 3 0x10);
     Some (mkElf_Shdr 25 SHT_STRTAB 2 0x118 0x118 0x1d 0 0);
     Some (mkElf_Shdr 57 SHT_DYNAMIC 3 0x1150 0x150 0x58 3 8);
     None].
Proof. by_run. Qed.

(** The dynamic section, as [readelf -d] prints it. *)
Lemma liboat32_dynamic :
  map (View.GetDynamic liboat32_loaded) [0; 1; 2; 3; 4; 5]
  = [Some (mkElf_Dyn DT_HASH 0xb4); Some (mkElf_Dyn DT_STRTAB 0x118);
     Some (mkElf_Dyn DT_SYMTAB 0xd8); Some (mkElf_Dyn 10 29);
     Some (mkElf_Dyn 11 16); Some (mkElf_Dyn DT_NULL 0)].
Proof. by_run. Qed.

(** The span of the two segments, rounded up to their alignment, and the
    pointers of the object after [Load]:
    the tables are read from the segment at the start of the
    reservation. *)
Lemma liboat32_span :
  GetLoadedAddressRange 32 liboat32_loaded = inl (0, 0x2000) /\
  GetBaseAddress liboat32_loaded = Some 0x20000 /\
  map MemMap_Begin (segments_ liboat32_loaded) = [0x20000; 0x21150] /\
  hash_section_start_ liboat32_loaded = Some 0x200b4 /\
  dynsym_section_start_ liboat32_loaded = Some 0x200d8 /\
  dynstr_section_start_ liboat32_loaded = Some 0x20118.
Proof. by_run. Qed.

(** The symbols and their names, as [readelf --dyn-syms] prints them. *)
Lemma liboat32_tables :
  GetHashBucketNum liboat32_loaded = 3 /\ GetHashChainNum liboat32_loaded = 4 /\
  GetSymbol liboat32_loaded SHT_DYNSYM 1 = Some (mkElf_Sym 21 0x140 16 0x11 5) /\
  GetSymbol liboat32_loaded SHT_DYNSYM 2 = Some (mkElf_Sym 1 0x135 6 0x12 4) /\
  GetSymbol liboat32_loaded SHT_DYNSYM 3 = Some (mkElf_Sym 9 0x13c 4 0x11 5) /\
  GetString liboat32_loaded SHT_DYNSYM 21 = Some "oatdata"%string /\
  GetString liboat32_loaded SHT_DYNSYM 1 = Some "oatexec"%string /\
  GetString liboat32_loaded SHT_DYNSYM 9 = Some "oatlastword"%string.
Proof. by_run. Qed.

Lemma liboat32_bucket (b v : Z) :
  GetHashBucket liboat32_loaded b = Some v -> 0 <= v < 4.
Proof.
  intros H. pose proof (GetHashBucket_range _ _ _ H) as Hr.
  entry_cases H Hr b; lia.
Qed.

Lemma liboat32_chain (i v : Z) :
  GetHashChain liboat32_loaded i = Some v -> 0 <= v < 4.
Proof.
  intros H. pose proof (GetHashChain_range _ _ _ H) as Hr.
  entry_cases H Hr i; lia.
Qed.

(** The hash table the linker wrote is well formed: every named symbol is
    on the chain of the bucket of its name. *)
Lemma liboat32_wf : hash_table_wf liboat32_loaded 4.
Proof. table_wf liboat32_bucket liboat32_chain. Qed.

(** The same for the 32-bit object, whose symbols have their fields in
    another order. *)
Lemma liboat32_resolves (name : string) :
  loader_run 32 oat_platform (liboat_calls liboat32)
  = Some (Loaded liboat32_loaded) /\
  resolve (R := Hash_SymbolResolver) (Loaded liboat32_loaded) name
  = Some (option_map (fun v => 0x20000 + v) (value_of name liboat32_symbols)).
Proof.
  split; [by_run|]. cbn [resolve]. f_equal.
  apply (resolver_listed liboat32_loaded name liboat32_symbols 0x20000);
    [exact liboat32_wf | by_run..].
Qed.

End Object32.

(** ** An object of the other class *)

Lemma liboat_wrong_class :
  @ElfFile.Open (@View_ImageOpener ElfTypes32 oat_platform) liboat64 false
  = inr (FormatError "wrong ELF class") /\
  @ElfFile.Open (@View_ImageOpener ElfTypes64 oat_platform) liboat32 false
  = inr (FormatError "wrong ELF class").
Proof. by_run. Qed.
