(* ===== verification/ElfSpace.v ===== *)
(** * ElfSpace: the regions of the address space, mapped and unmapped

    A [MemMap] is an owned mapping: it is made by a call that maps a range
    and its destructor unmaps the range.  [Open] (elf_file_impl.h, lines
    44-46) maps the file and [Load] (lines 92-98) one region for each
    segment; the design document asks that a failure of either leaves
    nothing mapped, and that the destruction of the object unmaps all that
    it owns.  [ElfOpen] and [ElfLoad] give the result of the two
    operations; this file adds the address space to them.

    The address space is the multiset of the ranges that are mapped
    ([Space]).  [Open_in] and [Load_in] are [Open] and [Load] with every
    call that maps or unmaps written out: the file mapping is unmapped when
    the validation fails, the loop over the segments keeps the regions it
    has mapped and unmaps them when a later segment fails, and so does the
    step after the loop.  [Destroy_in] is the destructor.  The machine of
    [ElfLifecycle] runs on pairs of an address space and a state
    ([next_in]), with the destruction of the object as a third action.

    The theorems show that the operations with the address space return
    what the operations without it return, that in every reachable state
    the address space is the one the machine started in plus the regions
    the object owns, and so that nothing stays mapped once the object is
    gone. *)

From stdpp Require Import base gmultiset.
From Stdlib Require Import ZArith Lia Bool String List.
From Stdlib Require Import Strings.Byte.
From S2P Require Import Prelude ElfTypes ElfFile ElfHash ElfTables ElfHeaders.
From S2P Require Import ElfOpen ElfLoad ElfLifecycle ElfImage ElfPipeline.
Import ListNotations.

#[local] Open Scope Z_scope.
#[local] Open Scope elf_scope.

(** ** The address space *)

(** A range of addresses: where it begins and how long it is. *)
Definition Region : Type := Z * Z.

Definition Space : Type := gmultiset Region.

Definition region_of (m : MemMap) : Region := (MemMap_Begin m, MemMap_Size m).

(** The ranges of a list of regions. *)
Definition regions_of (ms : list MemMap) : Space :=
  list_to_set_disj (map region_of ms).

(** What the constructor and the destructor of a [MemMap] do to the address
    space. *)
Definition mmap (m : MemMap) (sp : Space) : Space := sp ⊎ {[+ region_of m +]}.

Definition munmap (m : MemMap) (sp : Space) : Space :=
  sp ∖ {[+ region_of m +]}.

(** The destructor of a [std::vector<MemMap>]. *)
Fixpoint unmap_all (ms : list MemMap) (sp : Space) : Space :=
  match ms with
  | [] => sp
  | m :: ms' => unmap_all ms' (munmap m sp)
  end.

(** ** The operations, with the address space *)

Section Accounted.
Context {T : ElfTypes}.
Variables (size_t_bits : Z) (P : Platform).

(** What [Open] does with a mapping of the file: [SetMap], the second half
    of [Setup], and [CheckSectionsExist]. *)
Definition validate (file : File) (m : MemMap) : Result ElfFileImpl :=
  let! f := SetMap (new_ElfFileImpl file) (Some m) in
  match View.GetHeader f with
  | None => inr (FormatError "the mapping does not hold an ELF header")
  | Some h =>
      let! f := Setup_tables f h in
      let! _ := CheckSectionsExist f in
      inl f
  end.

(** [Open]: the file is mapped; when the validation fails the object is
    destroyed and its mapping goes with it. *)
Definition Open_in (file : File) (low_4gb : bool) (sp : Space)
  : Space * Result ElfFileImpl :=
  if File_GetLength file <? Z.of_nat (sizeof Ehdr)
  then (sp, inr (FormatError "file too small for an ELF header"))
  else
    match MapFile P file (File_GetLength file) PROT_READ low_4gb with
    | None => (sp, inr (AllocationError "failed to map the file"))
    | Some m =>
        let sp := mmap m sp in
        match validate file m with
        | inl f => (sp, inl f)
        | inr e => (munmap m sp, inr e)
        end
    end.

(** The loop of [Load] over the loadable segments, in header order: [acc]
    holds the regions mapped so far, the last one first; a segment that
    cannot be mapped ends the loop, and the regions of [acc] are
    unmapped. *)
Fixpoint map_segments_in (file : list byte) (executable : bool) (base : Z)
    (acc : list MemMap) (l : list Elf_Phdr) (sp : Space)
  : Space * Result (list MemMap) :=
  match l with
  | [] => (sp, inl (rev acc))
  | ph :: l' =>
      match map_segment P file executable base ph with
      | inr e => (unmap_all acc sp, inr e)
      | inl m =>
          map_segments_in file executable base (m :: acc) l' (mmap m sp)
      end
  end.

(** [Load]: the regions of the segments are kept when the program headers
    are found in them, and unmapped otherwise. *)
Definition Load_in (f : ElfFileImpl) (file : File)
    (executable low_4gb : bool) (reservation : option (Z * Z)) (sp : Space)
  : Space * Result (ElfFileImpl * option (Z * Z)) :=
  match GetLoadedAddressRange size_t_bits f with
  | inr e => (sp, inr e)
  | inl (_, size) =>
      match reserve P size low_4gb reservation, loadable_headers f with
      | None, _ =>
          (sp, inr (AllocationError "failed to reserve the loaded range"))
      | Some _, None =>
          (sp, inr (BoundsError "program header outside the mapping"))
      | Some (base, reservation'), Some l =>
          match map_segments_in (File_bytes file) executable base [] l sp
          with
          | (sp, inr e) => (sp, inr e)
          | (sp, inl ms) =>
              match locate_program_headers (set_loaded f base ms) base with
              | inr e => (unmap_all ms sp, inr e)
              | inl f' => (sp, inl (resolve_dynamic f' base, reservation'))
              end
          end
      end
  end.

(** The destructor of the object: the file mapping and the segments. *)
Definition Destroy_in (f : ElfFileImpl) (sp : Space) : Space :=
  unmap_all (mappings f) sp.

(** ** The machine, with the address space *)

(** What a consumer does with an object: the two calls, and its
    destruction. *)
Inductive Action : Type :=
| Do (c : Call)
| Destroy.

(** A failed [Open] has destroyed the object it made; an object that
    [Load] failed on is destroyed by the consumer. *)
Definition next_in (c : Space * State) (a : Action)
  : option (Space * State) :=
  match a, c with
  | Do (CallOpen file low_4gb), (sp, Unopened) =>
      Some match Open_in file low_4gb sp with
           | (sp, inl f) => (sp, HeaderValidated f)
           | (sp, inr _) => (sp, Unopened)
           end
  | Do (CallLoad file executable low_4gb reservation),
    (sp, HeaderValidated f) =>
      Some match Load_in f file executable low_4gb reservation sp with
           | (sp, inl (f', _)) => (sp, Loaded f')
           | (sp, inr _) => (Destroy_in f sp, Unopened)
           end
  | Destroy, (sp, HeaderValidated f) | Destroy, (sp, Loaded f) =>
      Some (Destroy_in f sp, Unopened)
  | _, _ => None
  end.

Fixpoint run_in (c : Space * State) (acts : list Action)
  : option (Space * State) :=
  match acts with
  | [] => Some c
  | a :: acts' => let? c' := next_in c a in run_in c' acts'
  end.

(** The account of a state: the address space is the one the machine
    started in, and the regions the object owns. *)
Definition accounted (sp0 : Space) (c : Space * State) : Prop :=
  state_ok (snd c) = true /\ fst c = sp0 ⊎ regions_of (owned (snd c)).

End Accounted.

(** A platform with room for the ranges that end at 0x12000 or below. *)
Definition small_platform : Platform := {|
  place := fun _ _ => Some 0x10000;
  can_map := fun a n => a + n <=? 0x12000
|}.

(** ** Mapping and unmapping *)

Section SpaceFacts.
Implicit Types (m : MemMap) (ms : list MemMap) (sp : Space).

Lemma munmap_mmap m sp : munmap m (mmap m sp) = sp.
Proof. unfold munmap, mmap. multiset_solver. Qed.

Lemma regions_of_nil : regions_of [] = ∅.
Proof. reflexivity. Qed.

Lemma regions_of_cons m ms :
  regions_of (m :: ms) = {[+ region_of m +]} ⊎ regions_of ms.
Proof. reflexivity. Qed.

Lemma regions_of_app ms ms' :
  regions_of (ms ++ ms') = regions_of ms ⊎ regions_of ms'.
Proof.
  unfold regions_of. rewrite List.map_app. apply list_to_set_disj_app.
Qed.

Lemma regions_of_rev ms : regions_of (rev ms) = regions_of ms.
Proof.
  induction ms as [|m ms IH]; [reflexivity|]. cbn [rev].
  rewrite regions_of_app, IH, !regions_of_cons. multiset_solver.
Qed.

(** Unmapping a list of regions takes their ranges away. *)
Lemma unmap_all_difference ms sp : unmap_all ms sp = sp ∖ regions_of ms.
Proof.
  revert sp. induction ms as [|m ms IH]; intros sp; cbn [unmap_all].
  - rewrite regions_of_nil. multiset_solver.
  - rewrite IH, regions_of_cons. unfold munmap. multiset_solver.
Qed.

(** Unmapping what was mapped gives the address space back. *)
Lemma unmap_all_mapped ms sp : unmap_all ms (sp ⊎ regions_of ms) = sp.
Proof. rewrite unmap_all_difference. multiset_solver. Qed.

End SpaceFacts.

(** Equations between address spaces that are sums of the ranges of lists
    of regions. *)
Ltac account :=
  cbn [fst snd owned]; unfold mappings, mmap, munmap;
  rewrite ?regions_of_cons, ?regions_of_nil;
  repeat match goal with H : _ |- _ => clear H end; multiset_solver.

(** ** The operations with the address space and without it *)

Section AccountedFacts.
Context {T : ElfTypes}.
Variables (size_t_bits : Z) (P : Platform).
Implicit Types (sp : Space) (f : ElfFileImpl).

(** [Open] is the validation of the mapping of the file. *)
Lemma Open_validate (file : File) (low_4gb : bool) :
  Open P file low_4gb =
  if File_GetLength file <? Z.of_nat (sizeof Ehdr)
  then inr (FormatError "file too small for an ELF header")
  else match MapFile P file (File_GetLength file) PROT_READ low_4gb with
       | None => inr (AllocationError "failed to map the file")
       | Some m => validate file m
       end.
Proof.
  unfold Open, Setup, validate.
  destruct (File_GetLength file <? _); [reflexivity|].
  destruct (MapFile P file _ PROT_READ low_4gb) as [m|]; [|reflexivity].
  destruct (SetMap _ (Some m)) as [f|]; [|reflexivity].
  destruct (View.GetHeader f); [|reflexivity].
  now destruct (Setup_tables f _).
Qed.

(** The object that the validation returns owns the mapping it was given
    and nothing else. *)
Lemma validate_owns (file : File) (m : MemMap) f :
  validate file m = inl f -> mappings f = [m].
Proof.
  unfold validate, SetMap.
  destruct (View.GetHeader (set_map _ m)) as [h|]; [|discriminate].
  destruct (check_ident h); [|discriminate]. cbv beta iota.
  destruct (View.GetHeader (set_map _ m)) as [h'|]; [|discriminate].
  unfold Setup_tables. destruct (checked _ _); [|discriminate].
  destruct (negb (table_inside _ _ _ _)); [discriminate|].
  destruct (_ && _); [discriminate|].
  destruct (CheckSectionsExist _); [|discriminate]. intros [= <-].
  now rewrite locate_sections_same, locate_dynamic_same,
    set_section_headers_start_same, set_program_headers_start_same.
Qed.

(** [Open_in] returns what [Open] returns; it leaves the file mapping in
    the address space when it returns an object, and the address space as
    it was when it fails. *)
Lemma Open_in_spec (file : File) (low_4gb : bool) sp :
  Open_in P file low_4gb sp =
  (match Open P file low_4gb with
   | inl f => sp ⊎ regions_of (mappings f)
   | inr _ => sp
   end, Open P file low_4gb).
Proof.
  unfold Open_in. rewrite Open_validate.
  destruct (File_GetLength file <? _); [reflexivity|].
  destruct (MapFile P file _ PROT_READ low_4gb) as [m|]; [|reflexivity].
  destruct (validate file m) as [f|e] eqn:Hv.
  - apply validate_owns in Hv as ->. f_equal. unfold mmap.
    rewrite regions_of_cons, regions_of_nil. multiset_solver.
  - now rewrite munmap_mmap.
Qed.

(** The loop with the address space maps what the loop of [Load] maps, and
    unmaps what it had mapped when that loop fails. *)
Lemma map_segments_in_spec (file : list byte) (ex : bool) (base : Z)
    (l : list Elf_Phdr) :
  forall (acc : list MemMap) sp,
    map_segments_in P file ex base acc l sp =
    match map_segments P file ex base l with
    | inl ms => (sp ⊎ regions_of ms, inl (rev acc ++ ms))
    | inr e => (sp ∖ regions_of acc, inr e)
    end.
Proof.
  induction l as [|ph l IH]; intros acc sp; cbn [map_segments_in map_segments].
  - rewrite app_nil_r, regions_of_nil. f_equal. multiset_solver.
  - destruct (map_segment P file ex base ph) as [m|e].
    + rewrite IH. unfold mmap.
      destruct (map_segments P file ex base l) as [ms|e]; f_equal;
        rewrite ?regions_of_cons; try multiset_solver.
      cbn [rev]. now rewrite <- app_assoc.
    + now rewrite unmap_all_difference.
Qed.

(** [Load_in] returns what [Load] returns; it leaves the regions of the
    segments in the address space when it returns the loaded object, and
    the address space as it was when it fails. *)
Lemma Load_in_spec f (file : File) (ex low_4gb : bool)
    (res : option (Z * Z)) sp :
  Load_in size_t_bits P f file ex low_4gb res sp =
  (match Load size_t_bits P f file ex low_4gb res with
   | inl (f', _) => sp ⊎ regions_of (segments_ f')
   | inr _ => sp
   end, Load size_t_bits P f file ex low_4gb res).
Proof.
  unfold Load_in, Load.
  destruct (GetLoadedAddressRange size_t_bits f) as [[b size]|];
    [|reflexivity].
  destruct (reserve P size low_4gb res) as [[base res']|]; [|reflexivity].
  destruct (loadable_headers f) as [l|]; [|reflexivity].
  rewrite map_segments_in_spec.
  destruct (map_segments P (File_bytes file) ex base l) as [ms|];
    cbn [rev app]; [|rewrite regions_of_nil; f_equal; multiset_solver].
  destruct (locate_program_headers _ base) as [f'|] eqn:Hl.
  - apply locate_program_headers_same in Hl as (_ & Hs & _).
    destruct (resolve_dynamic_same f' base) as (_ & -> & _). now rewrite Hs.
  - now rewrite unmap_all_mapped.
Qed.

End AccountedFacts.

(** ** The machine with the address space *)

Section MachineFacts.
Context {T : ElfTypes}.
Variables (size_t_bits : Z) (P : Platform).
Implicit Types (sp : Space) (s : State) (c : Space * State).

#[local] Abbreviation Laws := (View_Laws size_t_bits P).

#[local] Abbreviation next_pure :=
  (next (O := View_ImageOpener P) (L := Mapped_SegmentLoader size_t_bits P)).

(** One action keeps the account. *)
Lemma next_in_accounted (sp0 : Space) c (a : Action) c' :
  accounted sp0 c -> next_in size_t_bits P c a = Some c' -> accounted sp0 c'.
Proof.
  destruct c as [sp s]. intros [Hok Hsp]. cbn [fst snd] in *. subst sp.
  destruct a as [[file low|file ex low res]|], s as [|f|f]; cbn [next_in];
    try discriminate; intros [= <-]; unfold Destroy_in;
    rewrite ?unmap_all_mapped; try (split; [reflexivity|account]).
  - rewrite Open_in_spec.
    pose proof (Open_promise (LoaderLaws := Laws) file low) as Hprom.
    cbn [ElfFile.Open View_ImageOpener] in Hprom.
    destruct (Open P file low) as [f|]; [|split; [reflexivity|account]].
    destruct (Hprom f eq_refl) as (Hseg & Hb & Hv). split; [|account].
    cbn [snd state_ok]. now rewrite Hseg, Hb, Hv.
  - rewrite Load_in_spec. cbn [state_ok] in Hok.
    apply andb_true_iff in Hok as [Hok Hv].
    apply andb_true_iff in Hok as [Hseg _].
    destruct (segments_ f) eqn:Es; [clear Hseg|discriminate].
    pose proof (Load_promise (LoaderLaws := Laws) f file ex low res) as Hprom.
    cbn [ElfFile.Load Mapped_SegmentLoader] in Hprom.
    destruct (Load size_t_bits P f file ex low res) as [[f' res']|].
    + destruct (Hprom f' res' Es Hv eq_refl) as (Hb & Hv' & Hm). split.
      * cbn [snd state_ok]. rewrite Hv'. now destruct (GetBaseAddress f').
      * cbn [fst snd owned]. unfold mappings. rewrite Hm, Es. account.
    + rewrite unmap_all_mapped. split; [reflexivity|account].
Qed.

(** The machine with the address space refines the machine of the
    states: an action that is a call is legal in the same states, and the
    state it leads to is the state the call leads to without the address
    space.  The operations with every mapping and unmapping written out
    return what [Open] and [Load] return. *)
Lemma next_in_refines sp s (call : Call) :
  option_map snd (next_in size_t_bits P (sp, s) (Do call)) = next_pure s call.
Proof.
  destruct s as [|f|f], call as [file low|file ex low res]; cbn [next_in next];
    try reflexivity.
  - rewrite Open_in_spec. cbn. now destruct (Open P file low).
  - rewrite Load_in_spec. cbn.
    now destruct (Load size_t_bits P f file ex low res) as [[f' r]|].
Qed.

(** C15: whatever the files and the platform, after every sequence of
    calls and destructions the address space is the one the machine started
    in plus the regions the object owns, the file mapping and the segments:
    a call that fails has unmapped what it mapped, and once the object is
    gone nothing that the loader mapped is left. *)
Theorem reachable_accounted (sp0 : Space) (acts : list Action) c :
  run_in size_t_bits P (sp0, Unopened) acts = Some c ->
  fst c = sp0 ⊎ regions_of (owned (snd c)) /\
  (snd c = Unopened -> fst c = sp0).
Proof.
  assert (H : forall c0, accounted sp0 c0 ->
                run_in size_t_bits P c0 acts = Some c -> accounted sp0 c).
  { induction acts as [|a acts IH]; intros c0 H0; cbn [run_in].
    - now intros [= <-].
    - destruct (next_in size_t_bits P c0 a) as [c1|] eqn:E; [|discriminate].
      eauto using next_in_accounted. }
  intros Hr. destruct (H (sp0, Unopened)) as [_ Hsp]; [|assumption|].
  - split; [reflexivity|account].
  - split; [assumption|]. intros Hs. rewrite Hsp, Hs. account.
Qed.

End MachineFacts.

(** ** The image of [ElfPipeline] in the address space *)

Section OatSpace.
#[local] Existing Instance ElfTypes64.

(** The file is mapped at 0x10000 and the segment at 0x20000; after the
    destruction of the object the address space is empty again, and so it
    is after the failed [Open] of a damaged file. *)
Lemma oat_file_accounted :
  run_in 64 oat_platform (∅, Unopened) (map Do oat_calls)
  = Some ({[+ (0x10000, 0x3000) +]} ⊎ {[+ (0x20000, 0x3000) +]},
          Loaded oat_loaded) /\
  run_in 64 oat_platform (∅, Unopened) (map Do oat_calls ++ [Destroy])
  = Some (∅, Unopened) /\
  run_in 64 oat_platform (∅, Unopened) [Do (CallOpen no_hash_file false)]
  = Some (∅, Unopened).
Proof. vm_compute. repeat split. Qed.

(** A second segment that the platform refuses: the region of the first
    segment is unmapped, and the address space is as it was. *)
Lemma second_segment_refused (sp : Space) :
  map_segments_in small_platform (File_bytes one_file) false 0x10000 []
    [one_segment; high_segment] sp
  = (sp, inr (AllocationError "failed to map segment")).
Proof.
  rewrite map_segments_in_spec.
  assert (E : map_segments small_platform (File_bytes one_file) false 0x10000
                [one_segment; high_segment]
              = inr (AllocationError "failed to map segment"))
    by (vm_compute; reflexivity).
  rewrite E, regions_of_nil. f_equal. multiset_solver.
Qed.

Lemma reachable_accounted_witness :
  let c := ({[+ (0x10000, 0x3000) +]} ⊎ {[+ (0x20000, 0x3000) +]},
            Loaded oat_loaded) in
  fst c = ∅ ⊎ regions_of (owned (snd c)) /\ (snd c = Unopened -> fst c = ∅).
Proof.
  apply (reachable_accounted 64 oat_platform ∅ (map Do oat_calls)).
  vm_compute. reflexivity.
Defined.

End OatSpace.
