(* ===== verification/GTest.v ===== *)
(** * GTest: the control flow of a googletest body, as a state monad

    The tests of [src/runtime/oat/oat_file_test.cc] are written with the
    googletest macros.  Their behaviour depends on the difference between
    [ASSERT_*] (records a fatal failure and returns from the current function),
    [EXPECT_*] (records a failure and goes on), [GTEST_SKIP] (records a skip and
    returns), [ASSERT_NO_FATAL_FAILURE] (returns if the statement recorded a
    fatal failure), on [android::base::make_scope_guard] (runs a cleanup when
    the block is left, however it is left, unless [Disable] was called) and on
    destructors of [std::unique_ptr] locals.

    This file gives those constructs a semantics: a computation [Test A] takes
    the test's state (the world of the collaborators, the trace of calls made
    to them, the list of recorded test parts and the stack of scope guards) and
    gives the new state and either a value ([Next]) or the fact that the
    current function returned ([Exit]). *)

From Stdlib Require Import ZArith Lia Bool String List.
From S2P Require Import Prelude.
Import ListNotations.

(** ** Recorded test parts and the verdict *)

(** One entry of googletest's [TestPartResult] array. *)
Inductive TestPart : Type :=
| NonFatalFailure (msg : string)
| FatalFailure (msg : string)
| Skip (msg : string).

Definition is_failure (p : TestPart) : bool :=
  match p with Skip _ => false | _ => true end.

Definition is_fatal (p : TestPart) : bool :=
  match p with FatalFailure _ => true | _ => false end.

Definition is_skip (p : TestPart) : bool :=
  match p with Skip _ => true | _ => false end.

Inductive Verdict : Type := Passed | Failed | Skipped.

(** [TestResult::Failed()] is "some part is a failure"; [Skipped()] is "not
    failed and some part is a skip". *)
Definition verdict (log : list TestPart) : Verdict :=
  if existsb is_failure log then Failed
  else if existsb is_skip log then Skipped
  else Passed.

(** How a statement ends: it falls through with a value, or the enclosing
    function returns. *)
Inductive Flow (A : Type) : Type :=
| Next (a : A)
| Exit.
Arguments Next {A} a.
Arguments Exit {A}.

(** ** The monad *)

Section Monad.
Context {E W : Type}.

(** [world]: the state of everything outside the test (file system, loaded
    images, the dynamic linker); [trace]: the calls made so far, oldest first;
    [log]: the recorded test parts, oldest first; [guards]: the [active_] flags
    of the scope guards alive, innermost first. *)
Record TestState : Type := mkTestState {
  world : W;
  trace : list E;
  log : list TestPart;
  guards : list bool
}.

Definition Test (A : Type) : Type := TestState -> Flow A * TestState.

Definition ret {A} (a : A) : Test A := fun s => (Next a, s).

Definition bind {A B} (m : Test A) (k : A -> Test B) : Test B :=
  fun s =>
    match m s with
    | (Next a, s') => k a s'
    | (Exit, s') => (Exit, s')
    end.

(** A call to a collaborator: it changes the world and is logged with [ev]. *)
Definition perform {A} (op : W -> A * W) (ev : A -> E) : Test A :=
  fun s =>
    let (a, w) := op (world s) in
    (Next a, mkTestState w (trace s ++ [ev a]) (log s) (guards s)).

(** Reading a value of the fixture: no call is logged. *)
Definition read {A} (f : W -> A) : Test A := fun s => (Next (f (world s)), s).

Definition record (p : TestPart) : Test unit :=
  fun s => (Next tt, mkTestState (world s) (trace s) (log s ++ [p]) (guards s)).

(** A helper (such as the fixture's [GenerateOatForTest]) whose own assertions
    record test parts: the parts are appended in order. *)
Definition record_all (ps : list TestPart) : Test unit :=
  fun s => (Next tt, mkTestState (world s) (trace s) (log s ++ ps) (guards s)).

Definition exit {A} : Test A := fun s => (Exit, s).

(** [ASSERT_TRUE(c) << msg], and with [c] computed by the caller every other
    [ASSERT_*] comparison. *)
Definition ASSERT_TRUE (c : bool) (msg : string) : Test unit :=
  if c then ret tt else bind (record (FatalFailure msg)) (fun _ => exit).

(** [EXPECT_TRUE(c) << msg]: the failure is recorded and the body goes on. *)
Definition EXPECT_TRUE (c : bool) (msg : string) : Test unit :=
  if c then ret tt else record (NonFatalFailure msg).

(** [GTEST_SKIP() << msg]. *)
Definition GTEST_SKIP (msg : string) : Test unit :=
  bind (record (Skip msg)) (fun _ => exit).

(** [ASSERT_NO_FATAL_FAILURE(statement)].  googletest intercepts the parts
    reported while the statement runs, forwards them to the log, and returns
    from the caller when one of them was fatal.  The statement is a call of a
    helper function, so its own [Exit] ends the helper, not the caller; a
    helper that leaves early without a fatal failure would leave its
    out-parameter unset, and the caller is ended there too (no helper of the
    modelled file does this). *)
Definition ASSERT_NO_FATAL_FAILURE {A} (statement : Test A) : Test A :=
  fun s =>
    match statement (mkTestState (world s) (trace s) [] (guards s)) with
    | (r, s') =>
        if existsb is_fatal (log s') then
          (Exit, mkTestState (world s') (trace s')
                   (log s ++ log s' ++ [FatalFailure
                      "Expected: statement doesn't generate new fatal failures"])
                   (guards s'))
        else (r, mkTestState (world s') (trace s') (log s ++ log s')
                   (guards s'))
    end.

(** Code that runs when a block is left, by falling through or by a return
    inside it: the destructor of a local.  The flow of [cleanup] itself is
    dropped (a destructor cannot return from the enclosing function). *)
Definition with_cleanup {A} (cleanup : Test unit) (body : Test A) : Test A :=
  fun s =>
    match body s with
    | (r, s') => (r, snd (cleanup s'))
    end.

Definition push_guard : Test unit :=
  fun s => (Next tt, mkTestState (world s) (trace s) (log s) (true :: guards s)).

(** [cleanup.Disable()] on the innermost guard. *)
Definition Disable : Test unit :=
  fun s =>
    (Next tt, mkTestState (world s) (trace s) (log s)
                match guards s with
                | [] => []
                | _ :: gs => false :: gs
                end).

(** The destructor of the innermost scope guard: it is popped, and its
    function runs if it is still active. *)
Definition pop_guard (f : Test unit) : Test unit :=
  fun s =>
    match guards s with
    | [] => (Next tt, s)
    | g :: gs =>
        let s0 := mkTestState (world s) (trace s) (log s) gs in
        if g then (Next tt, snd (f s0)) else (Next tt, s0)
    end.

(** [auto cleanup = make_scope_guard(f); body] up to the end of the block. *)
Definition with_scope_guard {A} (f : Test unit) (body : Test A) : Test A :=
  bind push_guard (fun _ => with_cleanup (pop_guard f) body).

(** Running a test body from the world [w]: every list starts empty. *)
Definition init (w : W) : TestState := mkTestState w [] [] [].

Definition run_test (body : Test unit) (w : W) : Verdict * TestState :=
  let s := snd (body (init w)) in (verdict (log s), s).

End Monad.

Arguments TestState : clear implicits.
Arguments Test : clear implicits.

(** The notation of the monad, for the files that write test bodies. *)
Module TestNotations.
Declare Scope test_scope.
Delimit Scope test_scope with test.
Notation "x <- c1 ;; c2" := (bind c1 (fun x => c2))
  (at level 61, c1 at next level, right associativity) : test_scope.
Notation "' pat <- c1 ;; c2" := (bind c1 (fun x => match x with pat => c2 end))
  (at level 61, pat pattern, c1 at next level, right associativity) : test_scope.
Notation "c1 ;; c2" := (bind c1 (fun _ => c2))
  (at level 61, right associativity) : test_scope.
End TestNotations.

(** ** Symbolic execution of a test body

    [gtest_unfold] exposes the state transformer behind the constructs;
    [gtest_step] splits on the innermost value a [match] of the goal (or of the
    hypothesis [H]) waits for, which is the answer of a collaborator or the
    outcome of a comparison; [gtest_exec] runs to the end of every path. *)

Ltac innermost x :=
  match x with
  | context [match ?y with _ => _ end] => innermost y
  | _ => x
  end.

Ltac gtest_unfold :=
  unfold with_scope_guard, with_cleanup, ASSERT_NO_FATAL_FAILURE, ASSERT_TRUE,
    EXPECT_TRUE, GTEST_SKIP, run_test, init in *;
  unfold bind, ret, perform, read, record, record_all, exit, push_guard,
    pop_guard, Disable in *.

Ltac absurd_path :=
  match goal with
  | H : false = true |- _ => discriminate H
  | H : true = false |- _ => discriminate H
  end.

Ltac gtest_step :=
  match goal with
  | |- context [match ?x with _ => _ end] =>
      let y := innermost x in destruct y eqn:?
  end; cbn in *; try absurd_path.

Ltac gtest_step_in H :=
  match type of H with
  | context [match ?x with _ => _ end] =>
      let y := innermost x in destruct y eqn:?
  end; cbn in *; try absurd_path.

Ltac gtest_exec := cbn in *; repeat gtest_step.

Ltac gtest_exec_in H := cbn in *; repeat gtest_step_in H; try discriminate H.

(** ** Laws of the monad and of the constructs *)

Section Laws.
Context {E W : Type}.
Implicit Types (s : TestState E W).

Lemma bind_ret_l {A B} (a : A) (k : A -> Test E W B) s :
  bind (ret a) k s = k a s.
Proof. reflexivity. Qed.

Lemma bind_ret_r {A} (m : Test E W A) s : bind m ret s = m s.
Proof. unfold bind, ret. destruct (m s) as [[a|] s']; reflexivity. Qed.

Lemma bind_assoc {A B C} (m : Test E W A) (k : A -> Test E W B)
    (h : B -> Test E W C) s :
  bind (bind m k) h s = bind m (fun a => bind (k a) h) s.
Proof. unfold bind. destruct (m s) as [[a|] s']; reflexivity. Qed.

(** Nothing runs after an [Exit]. *)
Lemma bind_exit {A B} (m : Test E W A) (k : A -> Test E W B) s s' :
  m s = (Exit, s') -> bind m k s = (Exit, s').
Proof. unfold bind. intros ->. reflexivity. Qed.

Lemma verdict_failed_app (l1 l2 : list TestPart) :
  verdict l1 = Failed -> verdict (l1 ++ l2) = Failed.
Proof.
  unfold verdict. rewrite existsb_app.
  destruct (existsb is_failure l1); [reflexivity|].
  destruct (existsb is_skip l1); discriminate.
Qed.

Lemma verdict_passed_iff (l : list TestPart) : verdict l = Passed <-> l = [].
Proof.
  split; [|intros ->; reflexivity].
  unfold verdict. destruct l as [|p l]; [reflexivity|].
  cbn. destruct p; cbn; try discriminate.
  destruct (existsb is_failure l); discriminate.
Qed.

Lemma verdict_failed_iff (l : list TestPart) :
  verdict l = Failed <-> exists p, In p l /\ is_failure p = true.
Proof.
  unfold verdict. rewrite <- existsb_exists.
  destruct (existsb is_failure l); [tauto|].
  split; [|discriminate]. destruct (existsb is_skip l); discriminate.
Qed.

End Laws.

#[export] Hint Resolve verdict_failed_app : elf.
