(* ===== verification/OatFileTest.v ===== *)
(** * OatFileTest: the tests of src/runtime/oat/oat_file_test.cc

    The file holds one helper ([GetFirstDexFileOffset]) and four test bodies
    ([LoadOat], [ChangingMultiDexUncompressed], [DlOpenLoad], [RejectsCdex]).
    Everything they call is a collaborator that lives outside the sources at
    hand: the fixture ([GetScratchDir], [Copy], [GenerateOatForTest], ...),
    [OatFile], [VdexFile], [File], [dlerror] and [dladdr].  The collaborators
    are the fields of the interface [Env]; the test bodies are written once,
    against the interface, line by line after the source, in the monad of
    [GTest].  Pointers ([std::unique_ptr], [const uint8_t*]) are [option]s of
    an address or handle, [nullptr] being [None].

    The calls of the collaborators unfold with the hint database
    [test_calls] (tactic [test_unfold]); [read_trace], [count_events],
    [passed], [in_trace] and [path_facts] are the steps the proofs share. *)

From Stdlib Require Import ZArith Lia Bool Ascii String List.
From Stdlib Require Import Strings.Byte.
From S2P Require Import Prelude GTest.
Import ListNotations.
Import TestNotations.

#[local] Open Scope string_scope.
#[local] Open Scope Z_scope.
#[local] Open Scope test_scope.

(** ** Data *)

(** The two [CompilerFilter::Filter] values the tests pass. *)
Variant CompilerFilter : Type := kSpeed | kVerify.

(** The instruction set the tests pass: always [kRuntimeISA]. *)
Variant InstructionSet : Type := kRuntimeISA.

(** Pointers to the collaborators' objects ([OatFile*], [VdexFile*],
    [File*]), as the addresses they are. *)
Definition OatFilePtr : Type := Z.
Definition VdexFilePtr : Type := Z.
Definition FilePtr : Type := Z.

(** The two fields of [Dl_info] the test reads; a [const char*] may be null. *)
Record Dl_info : Type := mkDl_info {
  dli_fname : option string;
  dli_sname : option string
}.

(** The collaborators.  An operation that changes the world returns the new
    world; an out-parameter ([std::string* error_msg], [std::string*
    oat_location]) is passed in with its present value and returned.
    [OatFile_GetVdexFile] gives every oat file a vdex file: line 79 uses the
    result without a check, and an oat file without one is outside the
    interface.  [File_delete] is the destructor of a [File]; it may change
    the world in any way, and the trace records the deletion only. *)
Record Env (W : Type) : Type := mkEnv {
  GetScratchDir : W -> string;
  GetDexSrc1 : W -> string;
  GetTestDexFileName : string -> W -> string;
  GetVdexFilename : string -> string;
  Copy : string -> string -> W -> unit * W;
  GenerateOatForTest : string -> CompilerFilter -> W -> list TestPart * W;
  GenerateOdexForTest : string -> string -> CompilerFilter -> W ->
                        list TestPart * W;
  DexLocationToOatFilename : string -> InstructionSet -> string -> string ->
                             W -> bool * string * string;
  OatFile_Open : Z -> string -> string -> bool -> bool -> string -> string ->
                 W -> (option OatFilePtr * string) * W;
  OatFile_OpenFromVdex : Z -> VdexFilePtr -> string -> option Z -> string ->
                         W -> (option OatFilePtr * string) * W;
  OatFile_GetVdexFile : OatFilePtr -> W -> VdexFilePtr;
  OatFile_VdexBegin : OatFilePtr -> W -> Z;
  OatFile_GetOatDexFiles_size : OatFilePtr -> W -> Z;
  OatFile_Begin : OatFilePtr -> W -> Z;
  OatFile_delete : OatFilePtr -> W -> unit * W;
  VdexFile_Open : string -> bool -> string -> W ->
                  (option VdexFilePtr * string) * W;
  VdexFile_GetNextDexFileData : VdexFilePtr -> option Z -> Z -> W -> option Z;
  VdexFile_Begin : VdexFilePtr -> W -> Z;
  VdexFile_End : VdexFilePtr -> W -> Z;
  VdexFile_delete : VdexFilePtr -> W -> unit * W;
  OS_OpenFileReadWrite : string -> W -> option FilePtr * W;
  File_GetLength : FilePtr -> W -> Z;
  File_PwriteFully : FilePtr -> list byte -> Z -> Z -> W -> bool * W;
  File_FlushClose : FilePtr -> W -> Z * W;
  File_delete : FilePtr -> W -> unit * W;
  dlerror : W -> option string * W;
  dladdr : Z -> W -> option Dl_info
}.

Arguments GetScratchDir {W}.
Arguments GetDexSrc1 {W}.
Arguments GetTestDexFileName {W}.
Arguments GetVdexFilename {W}.
Arguments Copy {W}.
Arguments GenerateOatForTest {W}.
Arguments GenerateOdexForTest {W}.
Arguments DexLocationToOatFilename {W}.
Arguments OatFile_Open {W}.
Arguments OatFile_OpenFromVdex {W}.
Arguments OatFile_GetVdexFile {W}.
Arguments OatFile_VdexBegin {W}.
Arguments OatFile_GetOatDexFiles_size {W}.
Arguments OatFile_Begin {W}.
Arguments OatFile_delete {W}.
Arguments VdexFile_Open {W}.
Arguments VdexFile_GetNextDexFileData {W}.
Arguments VdexFile_Begin {W}.
Arguments VdexFile_End {W}.
Arguments VdexFile_delete {W}.
Arguments OS_OpenFileReadWrite {W}.
Arguments File_GetLength {W}.
Arguments File_PwriteFully {W}.
Arguments File_FlushClose {W}.
Arguments File_delete {W}.
Arguments dlerror {W}.
Arguments dladdr {W}.

(** The calls the trace records, with the result where a test branches on it. *)
Inductive Event : Type :=
| EvCopy (src dst : string)
| EvGenerateOat (dex_location : string) (filter : CompilerFilter)
| EvGenerateOdex (dex_location odex_location : string) (filter : CompilerFilter)
| EvOatOpen (filename : string) (executable : bool) (r : option OatFilePtr)
    (error_msg : string)
| EvOatOpenFromVdex (vdex : VdexFilePtr) (r : option OatFilePtr) (error_msg : string)
| EvOatDelete (f : OatFilePtr)
| EvVdexOpen (filename : string) (r : option VdexFilePtr)
| EvVdexDelete (f : VdexFilePtr)
| EvFileOpen (path : string) (r : option FilePtr)
| EvGetLength (f : FilePtr) (len : Z)
| EvPwrite (f : FilePtr) (data : list byte) (count offset : Z) (ok : bool)
| EvFlushClose (f : FilePtr) (rc : Z)
| EvFileDelete (f : FilePtr)
| EvDlerror (r : option string).

Definition is_FlushClose (f : FilePtr) (e : Event) : bool :=
  match e with EvFlushClose g _ => Z.eqb f g | _ => false end.

Definition is_FileOpened (f : FilePtr) (e : Event) : bool :=
  match e with EvFileOpen _ (Some g) => Z.eqb f g | _ => false end.

Definition is_FileDelete (f : FilePtr) (e : Event) : bool :=
  match e with EvFileDelete g => Z.eqb f g | _ => false end.

Definition is_Pwrite (e : Event) : bool :=
  match e with EvPwrite _ _ _ _ _ => true | _ => false end.

Definition is_OatOpened (f : OatFilePtr) (e : Event) : bool :=
  match e with
  | EvOatOpen _ _ (Some g) _ | EvOatOpenFromVdex _ (Some g) _ => Z.eqb f g
  | _ => false
  end.

Definition is_OatDelete (f : OatFilePtr) (e : Event) : bool :=
  match e with EvOatDelete g => Z.eqb f g | _ => false end.

Definition is_Copy (e : Event) : bool :=
  match e with EvCopy _ _ => true | _ => false end.

Definition count {A} (p : A -> bool) (l : list A) : nat := length (filter p l).

(** [constexpr std::string_view kCdexMagic = "cdex001\0"sv]: eight bytes, the
    last one the NUL that the [sv] literal keeps. *)
Definition kCdexMagic : list byte :=
  [x63; x64; x65; x78; x30; x30; x31; x00].

(** ** Vocabulary and tactics of the properties *)

(** The events a computation appends to the trace of [s]. *)
Definition appends {W A} (m : Test Event W A) (s : TestState Event W)
    (evs : list Event) : Prop :=
  trace (snd (m s)) = (trace s ++ evs)%list.

Create HintDb test_calls.

(** Unfolds the calls to the collaborators, which the database [test_calls]
    lists, then the constructs of [GTest]. *)
Ltac test_unfold := autounfold with test_calls in *; gtest_unfold.

(** Closes the goal [exists evs, appends m s evs /\ P evs] at the end of a
    path: the events are read off the trace. *)
Ltac read_trace :=
  unfold appends; cbn; rewrite <- ?app_assoc; cbn;
  eexists; split; [reflexivity|]; cbn.

(** Closes an equation between two counts over a trace that was read off. *)
Ltac count_events := unfold count; cbn; repeat break_match; reflexivity.

(** A test that passed recorded no part at all: [passed H] turns the
    hypothesis [H : verdict log = Passed] into the consequences of [log = []],
    closing the paths that recorded a failure or a skip. *)
Ltac passed H :=
  first
    [ discriminate H
    | apply verdict_passed_iff in H; cbn in H;
      first [ discriminate H
            | symmetry in H; apply app_cons_not_nil in H; destruct H
            | subst ] ].

(** Closes a goal [In e tr] for a trace [tr] that was read off, instantiating
    the unknowns of [e] with the first event of [tr] that fits. *)
Ltac in_trace := solve [repeat (first [left; reflexivity | right])].

(** Turns the boolean facts a path has collected into equations. *)
Ltac path_facts :=
  repeat match goal with
    | E : negb _ = false |- _ => apply negb_false_iff in E
    | E : negb _ = true |- _ => apply negb_true_iff in E
    | E : String.eqb _ _ = true |- _ => apply String.eqb_eq in E; subst
    | E : Z.eqb _ _ = true |- _ => apply Z.eqb_eq in E
    | E : Z.leb _ _ = true |- _ => apply Z.leb_le in E
    | E : Z.ltb _ _ = true |- _ => apply Z.ltb_lt in E
    end.

(** ** The test bodies *)

Section Tests.
Context {W : Type} (env : Env W).

(** The width of [size_t] on the host that runs the tests: 32 or 64. *)
Context (size_t_bits : Z).

#[local] Abbreviation T := (Test Event W).

(** *** Calls to the collaborators, with the event each leaves *)

Definition call_Copy (src dst : string) : T unit :=
  perform (Copy env src dst) (fun _ => EvCopy src dst).

Definition call_GenerateOatForTest (dex_location : string)
    (filter : CompilerFilter) : T unit :=
  parts <- perform (GenerateOatForTest env dex_location filter)
             (fun _ => EvGenerateOat dex_location filter) ;;
  record_all parts.

Definition call_GenerateOdexForTest (dex_location odex_location : string)
    (filter : CompilerFilter) : T unit :=
  parts <- perform (GenerateOdexForTest env dex_location odex_location filter)
             (fun _ => EvGenerateOdex dex_location odex_location filter) ;;
  record_all parts.

Definition call_OatFile_Open (zip_fd : Z) (filename location : string)
    (executable low_4gb : bool) (abs_dex_location error_msg : string)
  : T (option OatFilePtr * string) :=
  perform (OatFile_Open env zip_fd filename location executable low_4gb
             abs_dex_location error_msg)
    (fun r => EvOatOpen filename executable (fst r) (snd r)).

Definition call_OatFile_OpenFromVdex (zip_fd : Z) (vdex_file : VdexFilePtr)
    (location : string) (context : option Z) (error_msg : string)
  : T (option OatFilePtr * string) :=
  perform (OatFile_OpenFromVdex env zip_fd vdex_file location context error_msg)
    (fun r => EvOatOpenFromVdex vdex_file (fst r) (snd r)).

Definition call_VdexFile_Open (filename : string) (low_4gb : bool)
    (error_msg : string) : T (option VdexFilePtr * string) :=
  perform (VdexFile_Open env filename low_4gb error_msg)
    (fun r => EvVdexOpen filename (fst r)).

Definition call_OpenFileReadWrite (path : string) : T (option FilePtr) :=
  perform (OS_OpenFileReadWrite env path) (fun r => EvFileOpen path r).

Definition call_GetLength (f : FilePtr) : T Z :=
  perform (fun w => (File_GetLength env f w, w)) (fun len => EvGetLength f len).

Definition call_PwriteFully (f : FilePtr) (data : list byte) (count offset : Z)
  : T bool :=
  perform (File_PwriteFully env f data count offset)
    (fun ok => EvPwrite f data count offset ok).

Definition call_FlushClose (f : FilePtr) : T Z :=
  perform (File_FlushClose env f) (fun rc => EvFlushClose f rc).

Definition call_dlerror : T (option string) :=
  perform (dlerror env) (fun r => EvDlerror r).

(** The destructor of a [std::unique_ptr<X>] local: [delete] unless null. *)
Definition delete_OatFile (p : option OatFilePtr) : T unit :=
  match p with
  | Some f => perform (OatFile_delete env f) (fun _ => EvOatDelete f)
  | None => ret tt
  end.

Definition delete_VdexFile (p : option VdexFilePtr) : T unit :=
  match p with
  | Some f => perform (VdexFile_delete env f) (fun _ => EvVdexDelete f)
  | None => ret tt
  end.

Definition delete_File (p : option FilePtr) : T unit :=
  match p with
  | Some f => perform (File_delete env f) (fun _ => EvFileDelete f)
  | None => ret tt
  end.

(** [ASSERT_NE(p, nullptr) << msg] followed by the uses of [*p]. *)
Definition ASSERT_NE_nullptr {A} (p : option A) (msg : string) : T A :=
  match p with
  | Some a => ret a
  | None => record (FatalFailure msg) ;; exit
  end.

(** [EXPECT_STREQ(a, b)]: equal contents, or both null. *)
Definition streq (a b : option string) : bool :=
  match a, b with
  | Some x, Some y => String.eqb x y
  | None, None => true
  | _, _ => false
  end.

(** [val1 <= val2] for [val1] a [size_t] of [bits] bits and [val2] an
    [int64_t], as [ASSERT_LE] compares them.  The usual arithmetic conversions
    apply: a 64-bit [size_t] turns [val2] into an unsigned 64-bit value; a
    narrower [size_t] is itself converted to [int64_t] and the comparison is
    signed. *)
Definition le_size_t_int64 (bits val1 val2 : Z) : bool :=
  if bits <? 64 then Z.leb val1 val2 else Z.leb val1 (wrap 64 val2).

(** *** GetFirstDexFileOffset (lines 44-54) *)

Definition GetFirstDexFileOffset (vdex_filename : string) : T Z :=
  let error_msg := "" in
  '(vdex_file, error_msg) <-
     call_VdexFile_Open vdex_filename false error_msg ;;
  with_cleanup (delete_VdexFile vdex_file) (
    vdex <- ASSERT_NE_nullptr vdex_file error_msg ;;
    ptr <- read (VdexFile_GetNextDexFileData env vdex None 0) ;;
    ptr <- ASSERT_NE_nullptr ptr "No dex code in vdex" ;;
    vbegin <- read (VdexFile_Begin env vdex) ;;
    ASSERT_TRUE (vbegin <=? ptr) "ptr >= vdex_file->Begin()" ;;
    vend <- read (VdexFile_End env vdex) ;;
    ASSERT_TRUE (ptr <? vend) "ptr < vdex_file->End()" ;;
    ret (ptr - vbegin)).

(** *** LoadOat (lines 58-80) *)

Definition LoadOat : T unit :=
  scratch <- read (GetScratchDir env) ;;
  let dex_location := (scratch ++ "/LoadOat.jar")%string in
  src <- read (GetDexSrc1 env) ;;
  call_Copy src dex_location ;;
  call_GenerateOatForTest dex_location kSpeed ;;
  '(ok, oat_location, error_msg) <-
     read (DexLocationToOatFilename env dex_location kRuntimeISA "" "") ;;
  ASSERT_TRUE ok error_msg ;;
  '(odex_file, error_msg) <-
     call_OatFile_Open (-1) oat_location oat_location false false
       dex_location error_msg ;;
  with_cleanup (delete_OatFile odex_file) (
    odex <- ASSERT_NE_nullptr odex_file "odex_file.get() != nullptr" ;;
    vdex <- read (OatFile_GetVdexFile env odex) ;;
    vdex_begin <- read (VdexFile_Begin env vdex) ;;
    expected <- read (OatFile_VdexBegin env odex) ;;
    EXPECT_TRUE (vdex_begin =? expected)
      "odex_file->GetVdexFile()->Begin() == odex_file->VdexBegin()").

(** *** ChangingMultiDexUncompressed (lines 82-121) *)

(** Lines 95-105: "Ensure we can load that file. Just a precondition."  The
    block's [odex_file] is destroyed at its end; [error_msg] outlives it. *)
Definition ChangingMultiDexUncompressed_precondition
    (oat_location dex_location error_msg : string) : T string :=
  '(odex_file, error_msg) <-
     call_OatFile_Open (-1) oat_location oat_location false false
       dex_location error_msg ;;
  with_cleanup (delete_OatFile odex_file) (
    odex <- ASSERT_NE_nullptr odex_file "odex_file != nullptr" ;;
    n <- read (OatFile_GetOatDexFiles_size env odex) ;;
    ASSERT_TRUE (2 =? n) "2u == odex_file->GetOatDexFiles().size()" ;;
    ret error_msg).

Definition ChangingMultiDexUncompressed : T unit :=
  scratch <- read (GetScratchDir env) ;;
  let dex_location := (scratch ++ "/MultiDexUncompressedAligned.jar")%string in
  src <- read (GetTestDexFileName env "MultiDexUncompressedAligned") ;;
  call_Copy src dex_location ;;
  call_GenerateOatForTest dex_location kVerify ;;
  '(ok, oat_location, error_msg) <-
     read (DexLocationToOatFilename env dex_location kRuntimeISA "" "") ;;
  ASSERT_TRUE ok error_msg ;;
  error_msg <-
     ChangingMultiDexUncompressed_precondition oat_location dex_location
       error_msg ;;
  src <- read (GetTestDexFileName env "MainUncompressedAligned") ;;
  call_Copy src dex_location ;;
  '(odex_file, error_msg) <-
     call_OatFile_Open (-1) oat_location oat_location false false
       dex_location error_msg ;;
  with_cleanup (delete_OatFile odex_file) (
    EXPECT_TRUE (negb (isSome odex_file)) "odex_file == nullptr" ;;
    EXPECT_TRUE
      (has_substr "expected 2 uncompressed dex files, but found 1" error_msg)
      error_msg).

(** *** DlOpenLoad (lines 123-173) *)

(** Lines 147-160: the check of [error_msg] after a successful open.  The
    preprocessor branch is the parameter [GLIBC]. *)
Definition DlOpenLoad_check_error_msg (GLIBC : bool) (error_msg : string)
  : T unit :=
  if GLIBC then
    if negb (String.eqb error_msg "") then
      ASSERT_TRUE
        (String.eqb error_msg
           "DlOpen does not support read-only .dynamic section.")
        error_msg ;;
      GTEST_SKIP error_msg
    else ret tt
  else
    ASSERT_TRUE (String.eqb error_msg "") error_msg.

Definition DlOpenLoad (GLIBC : bool) : T unit :=
  scratch <- read (GetScratchDir env) ;;
  let dex_location := (scratch ++ "/LoadOat.jar")%string in
  src <- read (GetDexSrc1 env) ;;
  call_Copy src dex_location ;;
  call_GenerateOatForTest dex_location kSpeed ;;
  '(ok, oat_location, error_msg) <-
     read (DexLocationToOatFilename env dex_location kRuntimeISA "" "") ;;
  ASSERT_TRUE ok error_msg ;;
  call_dlerror ;;
  let error_msg := "" in
  '(odex_file, error_msg) <-
     call_OatFile_Open (-1) oat_location oat_location true false
       dex_location error_msg ;;
  with_cleanup (delete_OatFile odex_file) (
    odex <- ASSERT_NE_nullptr odex_file error_msg ;;
    DlOpenLoad_check_error_msg GLIBC error_msg ;;
    dlerror_msg <- call_dlerror ;;
    ASSERT_TRUE (negb (isSome dlerror_msg)) "dlerror_msg == nullptr" ;;
    addr <- read (OatFile_Begin env odex) ;;
    info <- read (dladdr env addr) ;;
    info <- ASSERT_NE_nullptr info "dladdr(odex_file->Begin(), &info) != 0" ;;
    EXPECT_TRUE (streq (dli_fname info) (Some oat_location)) "dli_fname" ;;
    EXPECT_TRUE (streq (dli_sname info) (Some "oatdata")) "dli_sname").

(** *** RejectsCdex (lines 175-226) *)

(** Lines 184-196: "Patch the generated vdex file to simulate that it
    contains cdex."  At the end of the block the scope guard is destroyed
    first, then the [std::unique_ptr<File>]. *)
Definition RejectsCdex_patch (vdex_location : string) : T unit :=
  dex_offset <- ASSERT_NO_FATAL_FAILURE (GetFirstDexFileOffset vdex_location) ;;
  vdex_file <- call_OpenFileReadWrite vdex_location ;;
  with_cleanup (delete_File vdex_file) (
    file <- ASSERT_NE_nullptr vdex_file "strerror(errno)" ;;
    with_scope_guard (call_FlushClose file ;; ret tt) (
      len <- call_GetLength file ;;
      ASSERT_TRUE
        (le_size_t_int64 size_t_bits
           (wrap size_t_bits (dex_offset + Z.of_nat (length kCdexMagic))) len)
        "Dex file too short" ;;
      success <- call_PwriteFully file kCdexMagic
                   (Z.of_nat (length kCdexMagic)) dex_offset ;;
      ASSERT_TRUE success "strerror(errno)" ;;
      Disable ;;
      rc <- call_FlushClose file ;;
      ASSERT_TRUE (rc =? 0) "vdex_file->FlushClose() == 0")).

(** Lines 198-210: opening the odex file next to the patched vdex fails. *)
Definition RejectsCdex_from_odex (odex_location dex_location : string)
  : T unit :=
  let error_msg := "" in
  '(odex_file, error_msg) <-
     call_OatFile_Open (-1) odex_location odex_location false false
       dex_location error_msg ;;
  with_cleanup (delete_OatFile odex_file) (
    EXPECT_TRUE (negb (isSome odex_file)) "Cdex accepted unexpectedly" ;;
    EXPECT_TRUE (has_substr "invalid dex file magic" error_msg) error_msg).

(** Lines 212-225: opening from the vdex file alone fails too.  [vdex_file]
    is moved into [OpenFromVdex], so this block never deletes it. *)
Definition RejectsCdex_from_vdex (vdex_location : string) : T unit :=
  let error_msg := "" in
  '(vdex_file, error_msg) <- call_VdexFile_Open vdex_location false error_msg ;;
  vdex <- ASSERT_NE_nullptr vdex_file "vdex_file != nullptr" ;;
  '(odex_file, error_msg) <-
     call_OatFile_OpenFromVdex (-1) vdex vdex_location None error_msg ;;
  with_cleanup (delete_OatFile odex_file) (
    EXPECT_TRUE (negb (isSome odex_file)) "Cdex accepted unexpectedly" ;;
    EXPECT_TRUE
      (has_substr "found dex file with invalid dex file version" error_msg)
      error_msg).

(** A block [{ ... }] of a test body: a return inside it returns from the
    test, so the block is just its statements. *)
Definition RejectsCdex : T unit :=
  scratch <- read (GetScratchDir env) ;;
  let dex_location := (scratch ++ "/LoadOat.jar")%string in
  let odex_location := (scratch ++ "/LoadOat.odex")%string in
  let vdex_location := GetVdexFilename env odex_location in
  src <- read (GetDexSrc1 env) ;;
  call_Copy src dex_location ;;
  ASSERT_NO_FATAL_FAILURE
    (call_GenerateOdexForTest dex_location odex_location kSpeed) ;;
  RejectsCdex_patch vdex_location ;;
  RejectsCdex_from_odex odex_location dex_location ;;
  RejectsCdex_from_vdex vdex_location.

(** *** Vocabulary of the properties *)

(** The message the glibc branch of [DlOpenLoad] accepts. *)
Definition kReadOnlyDynamic : string :=
  "DlOpen does not support read-only .dynamic section.".

#[local] Hint Unfold call_Copy call_GenerateOatForTest
  call_GenerateOdexForTest call_OatFile_Open call_OatFile_OpenFromVdex
  call_VdexFile_Open call_OpenFileReadWrite call_GetLength call_PwriteFully
  call_FlushClose call_dlerror delete_OatFile delete_VdexFile delete_File
  ASSERT_NE_nullptr : test_calls.

(** ** Properties of the test bodies

    Every statement below holds for every implementation [env] of the
    collaborators and every starting state. *)

#[local] Close Scope string_scope.
#[local] Open Scope list_scope.

(** Comparisons stay folded during symbolic execution: a path splits on the
    outcome of the comparison, not on the shape of its operands. *)
#[local] Arguments Z.eqb : simpl never.
#[local] Arguments Z.leb : simpl never.
#[local] Arguments Z.ltb : simpl never.
#[local] Arguments String.eqb : simpl never.

(** *** The comparison of a [size_t] with an [int64_t] *)

Lemma le_size_t_int64_sound (bits a b : Z) :
  0 <= b < 2 ^ 63 -> le_size_t_int64 bits a b = true -> a <= b.
Proof.
  unfold le_size_t_int64, wrap. intros Hb.
  rewrite (Z.mod_small b) by lia.
  destruct (bits <? 64); intros H; now apply Z.leb_le in H.
Qed.

Lemma wrap_64_negative (b : Z) : - 2 ^ 63 <= b < 0 -> wrap 64 b = b + 2 ^ 64.
Proof.
  intros Hb. unfold wrap. rewrite <- (Z.mod_add _ 1) by lia.
  rewrite Z.mul_1_l. apply Z.mod_small. lia.
Qed.

Lemma wrap_add_small (bits off n : Z) :
  0 <= off -> 0 <= n -> off + n < 2 ^ bits -> wrap bits (off + n) = off + n.
Proof. intros. apply wrap_small. unfold in_range. lia. Qed.

(** *** GetFirstDexFileOffset *)

Lemma GetFirstDexFileOffset_cases (name : string) (s : TestState Event W) :
  let '(r, s') := GetFirstDexFileOffset name s in
  let '(vdex_file, msg, w1) := VdexFile_Open env name false ""%string (world s) in
  match vdex_file with
  | None =>
      r = Exit /\ world s' = w1 /\
      trace s' = trace s ++ [EvVdexOpen name None] /\
      log s' = log s ++ [FatalFailure msg]
  | Some vdex =>
      world s' = snd (VdexFile_delete env vdex w1) /\
      trace s' = trace s ++ [EvVdexOpen name (Some vdex); EvVdexDelete vdex] /\
      match r with
      | Next off => log s' = log s
      | Exit => exists m, log s' = log s ++ [FatalFailure m]
      end
  end /\ guards s' = guards s.
Proof.
  unfold GetFirstDexFileOffset. test_unfold. gtest_exec.
  all: rewrite <- ?app_assoc; cbn; repeat split; eauto.
Qed.

(** C4: an offset that [GetFirstDexFileOffset] returns is the distance from
    the start of the vdex file that [VdexFile::Open] returned to the data of
    its first dex file, and lies inside the file. *)
Theorem GetFirstDexFileOffset_in_bounds (name : string)
    (s s' : TestState Event W) (off : Z) :
  GetFirstDexFileOffset name s = (Next off, s') ->
  exists vdex msg w1,
    VdexFile_Open env name false ""%string (world s) = (Some vdex, msg, w1) /\
    VdexFile_GetNextDexFileData env vdex None 0 w1
      = Some (VdexFile_Begin env vdex w1 + off) /\
    0 <= off < VdexFile_End env vdex w1 - VdexFile_Begin env vdex w1.
Proof.
  unfold GetFirstDexFileOffset. test_unfold. gtest_exec; intros H; inv H.
  path_facts. eexists _, _, _. split; [reflexivity|].
  split; [|lia]. etransitivity; [eassumption|]. f_equal. lia.
Qed.

(** C25: [GetFirstDexFileOffset] returns without an offset exactly when it
    recorded a fatal failure, which is then the only part it recorded. *)
Theorem GetFirstDexFileOffset_failure_is_fatal (name : string)
    (s : TestState Event W) :
  fst (GetFirstDexFileOffset name s) = Exit <->
  exists msg, log (snd (GetFirstDexFileOffset name s))
              = log s ++ [FatalFailure msg].
Proof.
  pose proof (GetFirstDexFileOffset_cases name s) as C.
  destruct (GetFirstDexFileOffset name s) as [r s'].
  destruct (VdexFile_Open _ _ _ _ _) as [[[vdex|] msg] w1]; cbn.
  - destruct C as [(_ & _ & C) _]. destruct r as [off|].
    + split; [discriminate|]. intros [m Hm].
      rewrite C in Hm. apply (f_equal (@length _)) in Hm.
      rewrite length_app in Hm. cbn in Hm. lia.
    + split; eauto.
  - destruct C as [(-> & _ & _ & C) _]. split; eauto.
Qed.

(** C26: on every path [GetFirstDexFileOffset] calls [VdexFile::Open] once,
    and deletes the vdex file it got before it returns; it makes no other
    call that changes the world. *)
Theorem GetFirstDexFileOffset_releases_vdex (name : string)
    (s : TestState Event W) :
  appends (GetFirstDexFileOffset name) s
    (let r := fst (fst (VdexFile_Open env name false ""%string (world s))) in
     EvVdexOpen name r ::
     match r with Some vdex => [EvVdexDelete vdex] | None => [] end).
Proof.
  unfold appends.
  pose proof (GetFirstDexFileOffset_cases name s) as C.
  destruct (GetFirstDexFileOffset name s) as [r s'].
  destruct (VdexFile_Open _ _ _ _ _) as [[[vdex|] msg] w1]; cbn; intuition.
Qed.

(** *** The block of RejectsCdex that patches the vdex file *)

(** C3: on every path through the patch block, every file that was opened is
    closed with [FlushClose] exactly once: by the scope guard on the paths
    that leave the block early, by the explicit call after [Disable] on the
    path that reaches the end; no file is closed that was not opened. *)
Theorem RejectsCdex_patch_closes_once (loc : string) (s : TestState Event W) :
  exists evs, appends (RejectsCdex_patch loc) s evs /\
    forall f, count (is_FlushClose f) evs = count (is_FileOpened f) evs.
Proof.
  unfold appends, RejectsCdex_patch, GetFirstDexFileOffset. test_unfold.
  gtest_exec.
  all: read_trace.
  all: intros f'; count_events.
Qed.

(** C2: the only write of the patch block writes the eight bytes of
    [kCdexMagic], and comes directly after the call of [GetLength] on the same
    file; when that call returned a length (not an error) and the offset plus
    eight does not overflow [size_t], the bytes written lie inside the
    file. *)
Theorem RejectsCdex_patch_write_checked (loc : string)
    (s : TestState Event W) :
  exists evs, appends (RejectsCdex_patch loc) s evs /\
    forall i f data cnt off ok,
      nth_error evs i = Some (EvPwrite f data cnt off ok) ->
      data = kCdexMagic /\ cnt = 8 /\
      exists j len,
        i = S j /\ nth_error evs j = Some (EvGetLength f len) /\
        (0 <= len < 2 ^ 63 -> 0 <= off -> off + 8 < 2 ^ size_t_bits ->
         off + cnt <= len).
Proof.
  unfold appends, RejectsCdex_patch, GetFirstDexFileOffset. test_unfold.
  gtest_exec.
  all: read_trace.
  all: intros i f' data cnt off ok Hi.
  all: repeat (destruct i as [|i]; cbn in Hi; try discriminate Hi).
  all: inv Hi; repeat split; eexists _, _; repeat split; intros.
  all: match goal with
       | H : le_size_t_int64 _ _ _ = true |- _ =>
           apply le_size_t_int64_sound in H; [|assumption];
           rewrite wrap_add_small in H; lia
       end.
Qed.

(** C21: where [size_t] has 64 bits, the length check of the patch block
    does not stop the test when [GetLength] reports an error as -1: the
    write is attempted all the same. *)
Theorem RejectsCdex_patch_negative_length (loc : string)
    (s : TestState Event W) :
  size_t_bits = 64 ->
  exists evs, appends (RejectsCdex_patch loc) s evs /\
    forall i f, nth_error evs i = Some (EvGetLength f (-1)) ->
      exists off ok,
        nth_error evs (S i) = Some (EvPwrite f kCdexMagic 8 off ok).
Proof.
  intros ->. unfold appends, RejectsCdex_patch, GetFirstDexFileOffset.
  test_unfold. gtest_exec.
  all: read_trace.
  all: intros i f' Hi.
  all: repeat (destruct i as [|i]; cbn in Hi; try discriminate Hi).
  all: inv Hi; cbn; eauto.
  all: match goal with
       | H : le_size_t_int64 64 (wrap 64 ?x) ?b = false, E : ?b = -1 |- _ =>
           rewrite E in H; unfold le_size_t_int64 in H;
           change (64 <? 64) with false in H; cbv iota in H;
           apply Z.leb_gt in H; rewrite wrap_64_negative in H by lia;
           pose proof (wrap_range 64 x ltac:(lia)) as Hr;
           unfold in_range in Hr; lia
       end.
Qed.

(** *** DlOpenLoad *)

(** C20: the check of [error_msg] after the open, on each branch: an empty
    message lets the test go on; on glibc the message about the read-only
    .dynamic section skips the test; any other message is a fatal failure. *)
Theorem DlOpenLoad_check_error_msg_spec (GLIBC : bool) (error_msg : string)
    (s : TestState Event W) :
  DlOpenLoad_check_error_msg GLIBC error_msg s =
  if String.eqb error_msg ""%string then (Next tt, s)
  else (Exit,
        mkTestState (world s) (trace s)
          (log s ++ [if GLIBC && String.eqb error_msg kReadOnlyDynamic
                     then Skip error_msg else FatalFailure error_msg])
          (guards s)).
Proof.
  unfold DlOpenLoad_check_error_msg, kReadOnlyDynamic. test_unfold.
  destruct GLIBC, (String.eqb error_msg ""); cbn;
    try destruct (String.eqb error_msg _); reflexivity.
Qed.

(** C8: when [DlOpenLoad] passes, [OatFile::Open] was called with
    [executable = true], returned an oat file and left [error_msg] empty, and
    [dladdr] maps the start of that oat file to the file it was opened from
    and to the symbol "oatdata". *)
Theorem DlOpenLoad_passed_sound (GLIBC : bool) (w : W) :
  fst (run_test (DlOpenLoad GLIBC) w) = Passed ->
  exists oat odex w' info,
    In (EvOatOpen oat true (Some odex) ""%string)
       (trace (snd (run_test (DlOpenLoad GLIBC) w))) /\
    dladdr env (OatFile_Begin env odex w') w' = Some info /\
    dli_fname info = Some oat /\ dli_sname info = Some "oatdata"%string.
Proof.
  unfold DlOpenLoad, DlOpenLoad_check_error_msg. test_unfold.
  destruct GLIBC; gtest_exec; intros H; passed H.
  all: unfold streq in *; repeat break_match_hyp; try discriminate.
  all: path_facts.
  all: eexists _, _, _, _; split; [cbn; eauto 8|]; eauto.
Qed.

(** C9: when the only part [DlOpenLoad] records is a skip (and the fixture's
    generator records none), the test ran on glibc, [OatFile::Open] returned
    an oat file together with the message about the read-only .dynamic
    section, and the test returned right after deleting that oat file. *)
Theorem DlOpenLoad_skip_sound (GLIBC : bool) (w : W) (msg : string) :
  (forall dex w0 p,
     In p (fst (GenerateOatForTest env dex kSpeed w0)) -> is_skip p = false) ->
  log (snd (run_test (DlOpenLoad GLIBC) w)) = [Skip msg] ->
  GLIBC = true /\ msg = kReadOnlyDynamic /\
  exists src dex o oat odex,
    trace (snd (run_test (DlOpenLoad GLIBC) w)) =
      [EvCopy src dex; EvGenerateOat dex kSpeed; EvDlerror o;
       EvOatOpen oat true (Some odex) msg; EvOatDelete odex].
Proof.
  intros Hgen. unfold DlOpenLoad, DlOpenLoad_check_error_msg, kReadOnlyDynamic.
  test_unfold. destruct GLIBC; gtest_exec; intros H.
  all: match goal with
       | E : GenerateOatForTest _ ?d _ ?w0 = (?l, _) |- _ =>
           pose proof (Hgen d w0) as Hl; rewrite E in Hl; cbn in Hl;
           destruct l as [|? [|? ?]]; cbn in H
       end; try discriminate H.
  all: try (inv H; specialize (Hl _ (or_introl eq_refl)); discriminate Hl).
  inv H. path_facts. split; [reflexivity|]. split; [reflexivity|].
  eexists _, _, _, _, _. reflexivity.
Qed.

(** *** The four tests *)

(** C5: in every run of each of the four tests, every oat file that an open
    returned is deleted exactly as often as it was returned: no
    [std::unique_ptr<OatFile>] leaks on a path that an [ASSERT_*] leaves
    early, and none is deleted twice. *)
Theorem tests_delete_every_OatFile (w : W) (GLIBC : bool) (f : OatFilePtr) :
  let balanced body :=
    count (is_OatOpened f) (trace (snd (run_test body w)))
    = count (is_OatDelete f) (trace (snd (run_test body w))) in
  balanced LoadOat /\ balanced ChangingMultiDexUncompressed /\
  balanced (DlOpenLoad GLIBC) /\ balanced RejectsCdex.
Proof.
  cbn zeta. repeat split.
  - unfold LoadOat. test_unfold. gtest_exec.
    all: count_events.
  - unfold ChangingMultiDexUncompressed,
      ChangingMultiDexUncompressed_precondition. test_unfold. gtest_exec.
    all: count_events.
  - unfold DlOpenLoad, DlOpenLoad_check_error_msg. test_unfold. gtest_exec.
    all: count_events.
  - unfold RejectsCdex, RejectsCdex_patch, RejectsCdex_from_odex,
      RejectsCdex_from_vdex, GetFirstDexFileOffset. test_unfold. gtest_exec.
    all: count_events.
Qed.

(** C6: when [LoadOat] passes, [OatFile::Open] returned an oat file for the
    generated location, opened as not executable, and the vdex file of that
    oat file begins where the oat file says its vdex data begins. *)
Theorem LoadOat_passed_sound (w : W) :
  fst (run_test LoadOat w) = Passed ->
  exists oat odex msg w',
    In (EvOatOpen oat false (Some odex) msg)
       (trace (snd (run_test LoadOat w))) /\
    VdexFile_Begin env (OatFile_GetVdexFile env odex w') w'
    = OatFile_VdexBegin env odex w'.
Proof.
  unfold LoadOat. test_unfold. gtest_exec; intros H; passed H.
  eexists _, _, _, _. split; [cbn; eauto 6|]. apply Z.eqb_eq. eassumption.
Qed.

(** C7: when [ChangingMultiDexUncompressed] passes, the run was: copy the
    dex file with two dex files, generate, open the oat file (which has two
    oat dex files) and delete it, copy the dex file with one dex file over
    the first, and open again, which fails with the message about the number
    of uncompressed dex files. *)
Theorem ChangingMultiDexUncompressed_passed_sound (w : W) :
  fst (run_test ChangingMultiDexUncompressed w) = Passed ->
  exists src1 src2 dex oat odex msg1 msg2 w',
    trace (snd (run_test ChangingMultiDexUncompressed w)) =
      [EvCopy src1 dex; EvGenerateOat dex kVerify;
       EvOatOpen oat false (Some odex) msg1; EvOatDelete odex;
       EvCopy src2 dex; EvOatOpen oat false None msg2] /\
    OatFile_GetOatDexFiles_size env odex w' = 2 /\
    has_substr "expected 2 uncompressed dex files, but found 1" msg2 = true.
Proof.
  unfold ChangingMultiDexUncompressed,
    ChangingMultiDexUncompressed_precondition.
  test_unfold. gtest_exec; intros H; passed H.
  eexists _, _, _, _, _, _, _, _. split; [reflexivity|].
  split; [symmetry; apply Z.eqb_eq; eassumption | assumption].
Qed.

(** C27: whenever [ChangingMultiDexUncompressed] copies a dex file, no oat
    file is open: the file an open oat file was generated from is never
    replaced under it. *)
Theorem ChangingMultiDexUncompressed_copy_without_image (w : W) (i : nat)
    (src dst : string) (f : OatFilePtr) :
  let tr := trace (snd (run_test ChangingMultiDexUncompressed w)) in
  nth_error tr i = Some (EvCopy src dst) ->
  count (is_OatOpened f) (firstn i tr) = count (is_OatDelete f) (firstn i tr).
Proof.
  unfold ChangingMultiDexUncompressed,
    ChangingMultiDexUncompressed_precondition.
  test_unfold. gtest_exec; intros Hi.
  all: repeat (destruct i as [|i]; cbn in Hi; try discriminate Hi).
  all: count_events.
Qed.

(** C28: [ChangingMultiDexUncompressed] replaces the dex file only after the
    precondition held: a run with a second copy opened the oat file before
    it, and that oat file had two oat dex files. *)
Theorem ChangingMultiDexUncompressed_precondition_guards (w : W) :
  let tr := trace (snd (run_test ChangingMultiDexUncompressed w)) in
  (count is_Copy tr <= 2)%nat /\
  (count is_Copy tr = 2%nat ->
   exists src dex oat odex msg rest w',
     tr = EvCopy src dex :: EvGenerateOat dex kVerify ::
          EvOatOpen oat false (Some odex) msg :: EvOatDelete odex :: rest /\
     OatFile_GetOatDexFiles_size env odex w' = 2).
Proof.
  unfold ChangingMultiDexUncompressed,
    ChangingMultiDexUncompressed_precondition.
  test_unfold. gtest_exec.
  all: split; [unfold count; cbn; lia|]; unfold count; cbn; intros H;
    try discriminate H.
  all: path_facts; eexists _, _, _, _, _, _, _; split; [reflexivity|];
    symmetry; eassumption.
Qed.

(** C29: when the generator of the odex file records a fatal failure,
    [RejectsCdex] fails and returns at once: it opens, patches and loads
    nothing. *)
Theorem RejectsCdex_stops_on_generate_failure (w : W) :
  let dex := (GetScratchDir env w ++ "/LoadOat.jar")%string in
  let odex := (GetScratchDir env w ++ "/LoadOat.odex")%string in
  let w1 := snd (Copy env (GetDexSrc1 env w) dex w) in
  existsb is_fatal (fst (GenerateOdexForTest env dex odex kSpeed w1)) = true ->
  fst (run_test RejectsCdex w) = Failed /\
  trace (snd (run_test RejectsCdex w)) =
    [EvCopy (GetDexSrc1 env w) dex; EvGenerateOdex dex odex kSpeed].
Proof.
  cbn zeta. unfold RejectsCdex. test_unfold. cbn.
  destruct (Copy env _ _ w) as [[] w1]. cbn.
  destruct (GenerateOdexForTest env _ _ kSpeed w1) as [parts w2]. cbn.
  intros Hf. rewrite Hf. cbn. split; [|reflexivity].
  apply verdict_failed_iff. exists (FatalFailure
    "Expected: statement doesn't generate new fatal failures").
  split; [apply in_or_app; right; now left|reflexivity].
Qed.

(** C1: when [RejectsCdex] passes, the magic of a compact dex file was
    written into the vdex file and the file was closed without error, and
    then both ways of loading were refused: [OatFile::Open] on the odex file
    returned null with a message about the dex file magic, and
    [OatFile::OpenFromVdex] returned null with a message about the dex file
    version. *)
Theorem RejectsCdex_passed_sound (w : W) :
  fst (run_test RejectsCdex w) = Passed ->
  exists f off odex msg1 vdex msg2,
    let tr := trace (snd (run_test RejectsCdex w)) in
    In (EvPwrite f kCdexMagic 8 off true) tr /\
    In (EvFlushClose f 0) tr /\
    In (EvOatOpen odex false None msg1) tr /\
    has_substr "invalid dex file magic" msg1 = true /\
    In (EvOatOpenFromVdex vdex None msg2) tr /\
    has_substr "found dex file with invalid dex file version" msg2 = true.
Proof.
  unfold RejectsCdex, RejectsCdex_patch, RejectsCdex_from_odex,
    RejectsCdex_from_vdex, GetFirstDexFileOffset.
  test_unfold. gtest_exec; intros H; passed H.
  all: try match goal with l : list TestPart |- _ => destruct l; discriminate H end.
  path_facts. subst.
  eexists _, _, _, _, _, _. cbn. repeat split; first [eassumption | in_trace].
Qed.

End Tests.

#[export] Hint Unfold call_Copy call_GenerateOatForTest
  call_GenerateOdexForTest call_OatFile_Open call_OatFile_OpenFromVdex
  call_VdexFile_Open call_OpenFileReadWrite call_GetLength call_PwriteFully
  call_FlushClose call_dlerror delete_OatFile delete_VdexFile delete_File
  ASSERT_NE_nullptr : test_calls.
