(* ===== verification/OatFileHandles.v ===== *)
(** * OatFileHandles: what the tests do with the objects they own

    The tests of src/runtime/oat/oat_file_test.cc own three kinds of object:
    oat files and vdex files behind a [std::unique_ptr], and the [File] of
    the patch block of [RejectsCdex], which is closed by a scope guard or by
    hand before its [std::unique_ptr] deletes it.  This file states, for the
    test bodies of [OatFileTest] as they are and for every behaviour of the
    collaborators,

    - the protocol of the handles as an automaton over the trace ([follow]):
      a handle is used only between the call that returned it and its
      release, a file is written and measured only while open, closed once
      and deleted only after it was closed, and at the end of a test nothing
      is left;
    - that every object a call returns is released later in the trace
      ([released_later]);
    - that the patch block with its scope guard is the same computation as
      the block written with the cleanup spelled out on every path that
      leaves it ([RejectsCdex_patch_explicit]). *)

From Stdlib Require Import ZArith Lia Bool Ascii String List.
From Stdlib Require Import Strings.Byte.
From S2P Require Import Prelude GTest OatFileTest.
Import ListNotations.
Import TestNotations.

#[local] Open Scope string_scope.
#[local] Open Scope Z_scope.
#[local] Open Scope test_scope.
#[local] Open Scope elf_scope.

(** ** The protocol of the handles *)

(** The handles a test holds: the files that are open, the files that are
    closed and not yet deleted, the oat files and the vdex files. *)
Record Handles : Type := mkHandles {
  open_files : list FilePtr;
  closed_files : list FilePtr;
  oat_files : list OatFilePtr;
  vdex_files : list VdexFilePtr
}.

Definition no_handles : Handles := mkHandles [] [] [] [].

(** [l] without the first occurrence of [x]; nothing if [x] is not in
    [l]. *)
Fixpoint take (x : Z) (l : list Z) : option (list Z) :=
  match l with
  | [] => None
  | y :: l' => if Z.eqb x y then Some l' else option_map (cons y) (take x l')
  end.

(** One event: a call that returns an object adds its handle, a use needs
    the handle, a release removes it.  [OatFile::OpenFromVdex] takes the vdex
    file over, whether it succeeds or not. *)
Definition handle_step (h : Handles) (e : Event) : option Handles :=
  match e with
  | EvFileOpen _ (Some f) =>
      Some (mkHandles (f :: open_files h) (closed_files h) (oat_files h)
              (vdex_files h))
  | EvGetLength f _ | EvPwrite f _ _ _ _ =>
      if existsb (Z.eqb f) (open_files h) then Some h else None
  | EvFlushClose f _ =>
      let? l := take f (open_files h) in
      Some (mkHandles l (f :: closed_files h) (oat_files h) (vdex_files h))
  | EvFileDelete f =>
      let? l := take f (closed_files h) in
      Some (mkHandles (open_files h) l (oat_files h) (vdex_files h))
  | EvOatOpen _ _ (Some g) _ =>
      Some (mkHandles (open_files h) (closed_files h) (g :: oat_files h)
              (vdex_files h))
  | EvOatOpenFromVdex v r _ =>
      let? l := take v (vdex_files h) in
      Some (mkHandles (open_files h) (closed_files h)
              (match r with Some g => g :: oat_files h | None => oat_files h
               end) l)
  | EvOatDelete g =>
      let? l := take g (oat_files h) in
      Some (mkHandles (open_files h) (closed_files h) l (vdex_files h))
  | EvVdexOpen _ (Some v) =>
      Some (mkHandles (open_files h) (closed_files h) (oat_files h)
              (v :: vdex_files h))
  | EvVdexDelete v =>
      let? l := take v (vdex_files h) in
      Some (mkHandles (open_files h) (closed_files h) (oat_files h) l)
  | _ => Some h
  end.

(** The handles after a trace, if every event of it was legal. *)
Fixpoint follow (h : Handles) (tr : list Event) : option Handles :=
  match tr with
  | [] => Some h
  | e :: tr' => let? h' := handle_step h e in follow h' tr'
  end.

(** ** Acquire and release *)

Variant Kind : Type := AFile | AnOatFile | AVdexFile.

(** The object an event returns to the test. *)
Definition acquires (e : Event) : option (Kind * Z) :=
  match e with
  | EvFileOpen _ (Some f) => Some (AFile, f)
  | EvOatOpen _ _ (Some g) _ | EvOatOpenFromVdex _ (Some g) _ =>
      Some (AnOatFile, g)
  | EvVdexOpen _ (Some v) => Some (AVdexFile, v)
  | _ => None
  end.

(** The event gives up the object [h] of the kind [k]. *)
Definition releases (k : Kind) (h : Z) (e : Event) : bool :=
  match k, e with
  | AFile, EvFileDelete f => Z.eqb h f
  | AnOatFile, EvOatDelete g => Z.eqb h g
  | AVdexFile, EvVdexDelete v | AVdexFile, EvOatOpenFromVdex v _ _ =>
      Z.eqb h v
  | _, _ => false
  end.

(** Every object that an event of the trace returns is given up by a later
    event. *)
Definition released_later (tr : list Event) : Prop :=
  forall i e k h,
    nth_error tr i = Some e -> acquires e = Some (k, h) ->
    exists j e', (i < j)%nat /\ nth_error tr j = Some e' /\
                 releases k h e' = true.

(** The same, as a check. *)
Fixpoint all_released (tr : list Event) : bool :=
  match tr with
  | [] => true
  | e :: tr' =>
      match acquires e with
      | Some (k, h) => existsb (releases k h) tr'
      | None => true
      end && all_released tr'
  end.

(** ** The patch block without the scope guard *)

Section Explicit.
Context {W : Type} (env : Env W) (size_t_bits : Z).

#[local] Abbreviation T := (Test Event W).

(** [ASSERT_TRUE(c) << msg] in a function whose cleanup is written out: the
    failure is recorded, the cleanup runs, the function returns. *)
Definition ASSERT_TRUE_else (c : bool) (msg : string) (cleanup : T unit)
  : T unit :=
  if c then ret tt else (record (FatalFailure msg) ;; cleanup ;; exit).

(** Lines 184-196 of the test file, with [FlushClose] before every return
    in place of [make_scope_guard] and [Disable]. *)
Definition RejectsCdex_patch_explicit (vdex_location : string) : T unit :=
  dex_offset <- ASSERT_NO_FATAL_FAILURE
                  (GetFirstDexFileOffset env vdex_location) ;;
  vdex_file <- call_OpenFileReadWrite env vdex_location ;;
  with_cleanup (delete_File env vdex_file) (
    file <- ASSERT_NE_nullptr vdex_file "strerror(errno)" ;;
    let close := (call_FlushClose env file ;; ret tt) in
    len <- call_GetLength env file ;;
    ASSERT_TRUE_else
      (le_size_t_int64 size_t_bits
         (wrap size_t_bits (dex_offset + Z.of_nat (length kCdexMagic))) len)
      "Dex file too short" close ;;
    success <- call_PwriteFully env file kCdexMagic
                 (Z.of_nat (length kCdexMagic)) dex_offset ;;
    ASSERT_TRUE_else success "strerror(errno)" close ;;
    rc <- call_FlushClose env file ;;
    ASSERT_TRUE (rc =? 0) "vdex_file->FlushClose() == 0").

End Explicit.

(** ** Lemmas on the checks *)

Lemma take_same (x : Z) (l : list Z) : take x (x :: l) = Some l.
Proof. cbn. now rewrite Z.eqb_refl. Qed.

Lemma all_released_sound (tr : list Event) :
  all_released tr = true -> released_later tr.
Proof.
  induction tr as [|e0 tr IH]; intros H i e k h Hi Ha.
  - now destruct i.
  - cbn [all_released] in H. apply andb_true_iff in H as [H0 H].
    destruct i as [|i]; cbn [nth_error] in Hi.
    + injection Hi as ->. rewrite Ha in H0.
      apply existsb_exists in H0 as (e' & Hin & Hr).
      apply In_nth_error in Hin as [j Hj]. exists (S j), e'.
      repeat split; auto. lia.
    + destruct (IH H i e k h Hi Ha) as (j & e' & Hlt & Hj & Hr).
      exists (S j), e'. repeat split; auto. lia.
Qed.

(** [handles]: evaluates a check of the handles on a trace that was read
    off; a handle compared with itself is the only comparison that decides
    anything. *)
Ltac handles :=
  repeat match goal with
         | H : context [Z.eqb ?x ?x] |- _ => rewrite Z.eqb_refl in H; cbn in H
         end;
  try discriminate;
  cbn; repeat (progress (rewrite ?Z.eqb_refl, ?orb_true_r; cbn));
  reflexivity.

(** ** The tests and their handles *)

Section HandleTheorems.
Context {W : Type} (env : Env W) (size_t_bits : Z).

(** Comparisons stay folded during symbolic execution. *)
#[local] Arguments Z.eqb : simpl never.
#[local] Arguments Z.leb : simpl never.
#[local] Arguments Z.ltb : simpl never.
#[local] Arguments String.eqb : simpl never.

(** C10: the trace of every run of each of the four tests follows the
    protocol of the handles, and ends with no handle left: an oat file, a
    vdex file or a file is used and released only while the test holds it,
    a file is measured and written only while it is open, it is closed
    exactly once, and deleted only after it was closed. *)
Theorem tests_follow_protocol (w : W) (GLIBC : bool) :
  let ok body :=
    follow no_handles (trace (snd (run_test body w))) = Some no_handles in
  ok (LoadOat env) /\ ok (ChangingMultiDexUncompressed env) /\
  ok (DlOpenLoad env GLIBC) /\ ok (RejectsCdex env size_t_bits).
Proof.
  cbn zeta. repeat split.
  - unfold LoadOat. test_unfold. gtest_exec.
    all: handles.
  - unfold ChangingMultiDexUncompressed,
      ChangingMultiDexUncompressed_precondition. test_unfold. gtest_exec.
    all: handles.
  - unfold DlOpenLoad, DlOpenLoad_check_error_msg. test_unfold. gtest_exec.
    all: handles.
  - unfold RejectsCdex, RejectsCdex_patch, RejectsCdex_from_odex,
      RejectsCdex_from_vdex, GetFirstDexFileOffset. test_unfold. gtest_exec.
    all: handles.
Qed.

(** C18: in every run of each of the four tests, every object that a call
    returned to the test (an oat file, a vdex file, a file) is given up by
    a later event of the trace: it is deleted, or, for the vdex file of the
    last block of [RejectsCdex], handed over to [OatFile::OpenFromVdex]. *)
Theorem tests_release_later (w : W) (GLIBC : bool) :
  let ok body := released_later (trace (snd (run_test body w))) in
  ok (LoadOat env) /\ ok (ChangingMultiDexUncompressed env) /\
  ok (DlOpenLoad env GLIBC) /\ ok (RejectsCdex env size_t_bits).
Proof.
  cbn zeta. repeat split; apply all_released_sound.
  - unfold LoadOat. test_unfold. gtest_exec.
    all: handles.
  - unfold ChangingMultiDexUncompressed,
      ChangingMultiDexUncompressed_precondition. test_unfold. gtest_exec.
    all: handles.
  - unfold DlOpenLoad, DlOpenLoad_check_error_msg. test_unfold. gtest_exec.
    all: handles.
  - unfold RejectsCdex, RejectsCdex_patch, RejectsCdex_from_odex,
      RejectsCdex_from_vdex, GetFirstDexFileOffset. test_unfold. gtest_exec.
    all: handles.
Qed.

(** C11: the patch block of [RejectsCdex], which closes the file through a
    scope guard that is disabled on the path to the explicit [FlushClose],
    is the same computation as the block with the call of [FlushClose]
    written before every return: from every state, with every behaviour of
    the collaborators, the two end in the same state with the same flow. *)
Theorem RejectsCdex_patch_explicit_equiv (loc : string)
    (s : TestState Event W) :
  RejectsCdex_patch env size_t_bits loc s
  = RejectsCdex_patch_explicit env size_t_bits loc s.
Proof.
  unfold RejectsCdex_patch, RejectsCdex_patch_explicit, ASSERT_TRUE_else,
    GetFirstDexFileOffset.
  test_unfold. gtest_exec.
  all: reflexivity.
Qed.

End HandleTheorems.
