(* ===== verification/ScratchWorld.v ===== *)
(** * ScratchWorld: a small executable world for the tests

    The theorems of [OatFileTest] hold for every implementation of the
    collaborators' interface [Env].  To evaluate the tests, and to apply the
    theorems at a concrete input, this file gives one implementation: a file
    system as a finite map from paths to bytes, a toy compiler that writes an
    ".odex" and a ".vdex" file next to a jar, and toy loaders that check the
    magic and the number of the dex files.  Nothing here models code of the
    repository: it is the test double the witnesses run against.

    Formats of the toy: a jar is the concatenation of its dex files, each
    twelve bytes that start with "dex\n035\0"; a vdex file is "vdex" followed
    by the dex files; an odex file is one byte, the number of dex files. *)

From stdpp Require Import base strings gmap list.
From Stdlib Require Import ZArith Strings.Byte.
From S2P Require Import Prelude GTest OatFileTest.

#[local] Open Scope string_scope.
#[local] Open Scope Z_scope.

Record World : Type := mkWorld {
  fs : gmap string (list byte);
  fds : gmap Z string;
  vdexes : gmap Z (list byte);
  oats : gmap Z (bool * string * Z);
  next_handle : Z;
  dl_error : option string
}.

(** How the toy loaders behave where the tests branch. *)
Record Quirks : Type := mkQuirks {
  dlopen_works : bool;
  accepts_bad_magic : bool;
  length_fails : bool
}.

Definition sane : Quirks := mkQuirks true false false.

Definition byte_eqb (a b : byte) : bool := Byte.eqb a b.

Fixpoint bytes_eqb (a b : list byte) : bool :=
  match a, b with
  | [], [] => true
  | x :: a', y :: b' => Byte.eqb x y && bytes_eqb a' b'
  | _, _ => false
  end.

Definition dex_magic : list byte := [x64; x65; x78; x0a; x30; x33; x35; x00].
Definition vdex_magic : list byte := [x76; x64; x65; x78].

Definition dex_file (a b c d : byte) : list byte :=
  (dex_magic ++ [a; b; c; d])%list.

Definition digit (n : Z) : string :=
  match n with
  | 0 => "0" | 1 => "1" | 2 => "2" | 3 => "3" | 4 => "4"
  | 5 => "5" | 6 => "6" | 7 => "7" | 8 => "8" | _ => "9"
  end.

Definition count_dex (jar : list byte) : Z := Z.of_nat (length jar) / 12.

Definition pwrite (old data : list byte) (offset : nat) : list byte :=
  (take offset old ++ data ++ drop (offset + length data) old)%list.

Definition toy_Copy (src dst : string) (w : World) : unit * World :=
  match fs w !! src with
  | Some bytes =>
      (tt, mkWorld (<[dst := bytes]> (fs w)) (fds w) (vdexes w) (oats w)
             (next_handle w) (dl_error w))
  | None => (tt, w)
  end.

Definition toy_Generate (dex_location odex_location : string) (w : World)
  : list TestPart * World :=
  match fs w !! dex_location with
  | Some jar =>
      let n := Byte.of_nat (Z.to_nat (count_dex jar)) in
      ([], mkWorld
             (<[odex_location ++ ".vdex" := (vdex_magic ++ jar)%list]>
                (<[odex_location := [default x00 n]]> (fs w)))
             (fds w) (vdexes w) (oats w) (next_handle w) (dl_error w))
  | None => ([FatalFailure "dex2oat failed"], w)
  end.

Definition toy_check (q : Quirks) (filename dex_location : string)
    (w : World) : option string :=
  match fs w !! filename, fs w !! (filename ++ ".vdex"), fs w !! dex_location with
  | Some [n], Some vdex, Some jar =>
      if negb (accepts_bad_magic q) &&
         negb (bytes_eqb (take 4 (drop 4 vdex)) (take 4 dex_magic))
      then Some "Failed to open dex file: invalid dex file magic"
      else if negb (Z.of_nat (Byte.to_nat n) =? count_dex jar)
      then Some ("expected " ++ digit (Z.of_nat (Byte.to_nat n)) ++
                 " uncompressed dex files, but found " ++
                 digit (count_dex jar))
      else None
  | _, _, _ => Some "Failed to open oat file"
  end.

Definition toy_OatFile_Open (q : Quirks) (zip_fd : Z)
    (filename location : string) (executable low_4gb : bool)
    (dex_location error_msg : string) (w : World)
  : (option OatFilePtr * string) * World :=
  match toy_check q filename dex_location w with
  | Some msg => ((None, msg), w)
  | None =>
      let h := next_handle w in
      let n := count_dex (default [] (fs w !! dex_location)) in
      let dl := executable && dlopen_works q in
      ((Some h,
        if executable && negb (dlopen_works q)
        then "DlOpen does not support read-only .dynamic section."
        else error_msg),
       mkWorld (fs w) (fds w)
         (<[h := default [] (fs w !! (filename ++ ".vdex"))]> (vdexes w))
         (<[h := (dl, filename, n)]> (oats w)) (h + 1) (dl_error w))
  end.

Definition toy_VdexFile_Open (filename : string) (low_4gb : bool)
    (error_msg : string) (w : World) : (option VdexFilePtr * string) * World :=
  match fs w !! filename with
  | Some bytes =>
      let h := next_handle w in
      ((Some h, error_msg),
       mkWorld (fs w) (fds w) (<[h := bytes]> (vdexes w)) (oats w) (h + 1)
         (dl_error w))
  | None => ((None, "Could not open vdex file"), w)
  end.

Definition toy_OpenFromVdex (q : Quirks) (zip_fd : Z) (vdex : VdexFilePtr)
    (location : string) (context : option Z) (error_msg : string) (w : World)
  : (option OatFilePtr * string) * World :=
  let bytes := default [] (vdexes w !! vdex) in
  if accepts_bad_magic q || bytes_eqb (take 8 (drop 4 bytes)) dex_magic then
    let h := next_handle w in
    ((Some h, error_msg),
     mkWorld (fs w) (fds w) (vdexes w)
       (<[h := (false, location, count_dex (drop 4 bytes))]> (oats w))
       (h + 1) (dl_error w))
  else ((None, "found dex file with invalid dex file version"), w).

Definition base_of (h : Z) : Z := 65536 * h.

Definition toy_GetNextDexFileData (v : VdexFilePtr) (cursor : option Z)
    (index : Z) (w : World) : option Z :=
  match vdexes w !! v with
  | Some bytes =>
      if (4 <? Z.of_nat (length bytes)) && (index =? 0)
      then Some (base_of v + 4) else None
  | None => None
  end.

Definition toy_OpenFileReadWrite (path : string) (w : World)
  : option FilePtr * World :=
  match fs w !! path with
  | Some _ =>
      let h := next_handle w in
      (Some h, mkWorld (fs w) (<[h := path]> (fds w)) (vdexes w) (oats w)
                 (h + 1) (dl_error w))
  | None => (None, w)
  end.

Definition toy_GetLength (q : Quirks) (f : FilePtr) (w : World) : Z :=
  if length_fails q then -1 else
  match fds w !! f with
  | Some path => Z.of_nat (length (default [] (fs w !! path)))
  | None => -1
  end.

Definition toy_PwriteFully (f : FilePtr) (data : list byte) (count offset : Z)
    (w : World) : bool * World :=
  match fds w !! f with
  | Some path =>
      let old := default [] (fs w !! path) in
      if (0 <=? offset) && (offset <=? Z.of_nat (length old)) then
        (true, mkWorld
                 (<[path := pwrite old (take (Z.to_nat count) data)
                              (Z.to_nat offset)]> (fs w))
                 (fds w) (vdexes w) (oats w) (next_handle w) (dl_error w))
      else (false, w)
  | None => (false, w)
  end.

Definition toy_FlushClose (f : FilePtr) (w : World) : Z * World :=
  match fds w !! f with
  | Some _ =>
      (0, mkWorld (fs w) (delete f (fds w)) (vdexes w) (oats w)
            (next_handle w) (dl_error w))
  | None => (-1, w)
  end.

Definition toy_dladdr (addr : Z) (w : World) : option Dl_info :=
  match oats w !! (addr / 65536) with
  | Some (true, path, _) =>
      if addr mod 65536 =? 0
      then Some (mkDl_info (Some path) (Some "oatdata")) else None
  | _ => None
  end.

Definition toy_env (q : Quirks) : Env World := {|
  GetScratchDir := fun _ => "/scratch";
  GetDexSrc1 := fun _ => "/data/Main.jar";
  GetTestDexFileName := fun name _ => "/data/" ++ name ++ ".jar";
  GetVdexFilename := fun odex => odex ++ ".vdex";
  Copy := toy_Copy;
  GenerateOatForTest := fun dex _ => toy_Generate dex (dex ++ ".odex");
  GenerateOdexForTest := fun dex odex _ => toy_Generate dex odex;
  DexLocationToOatFilename := fun dex _ _ msg _ => (true, dex ++ ".odex", msg);
  OatFile_Open := toy_OatFile_Open q;
  OatFile_OpenFromVdex := toy_OpenFromVdex q;
  OatFile_GetVdexFile := fun f _ => f;
  OatFile_VdexBegin := fun f _ => base_of f;
  OatFile_GetOatDexFiles_size :=
    fun f w => match oats w !! f with Some (_, _, n) => n | None => 0 end;
  OatFile_Begin := fun f _ => base_of f;
  OatFile_delete :=
    fun f w => (tt, mkWorld (fs w) (fds w) (delete f (vdexes w))
                      (delete f (oats w)) (next_handle w) (dl_error w));
  VdexFile_Open := toy_VdexFile_Open;
  VdexFile_GetNextDexFileData := toy_GetNextDexFileData;
  VdexFile_Begin := fun v _ => base_of v;
  VdexFile_End :=
    fun v w => base_of v + Z.of_nat (length (default [] (vdexes w !! v)));
  VdexFile_delete :=
    fun v w => (tt, mkWorld (fs w) (fds w) (delete v (vdexes w)) (oats w)
                      (next_handle w) (dl_error w));
  OS_OpenFileReadWrite := toy_OpenFileReadWrite;
  File_GetLength := toy_GetLength q;
  File_PwriteFully := toy_PwriteFully;
  File_FlushClose := toy_FlushClose;
  File_delete :=
    fun f w => (tt, mkWorld (fs w) (delete f (fds w)) (vdexes w) (oats w)
                      (next_handle w) (dl_error w));
  dlerror :=
    fun w => (dl_error w, mkWorld (fs w) (fds w) (vdexes w) (oats w)
                            (next_handle w) None);
  dladdr := toy_dladdr
|}.

(** The world before a test: the three jars of the test data, nothing open. *)
Definition world0 : World := {|
  fs := <["/data/Main.jar" := dex_file x01 x02 x03 x04]>
        (<["/data/MainUncompressedAligned.jar" := dex_file x05 x06 x07 x08]>
        (<["/data/MultiDexUncompressedAligned.jar" :=
             (dex_file x09 x0a x0b x0c ++ dex_file x0d x0e x0f x10)%list]> ∅));
  fds := ∅;
  vdexes := ∅;
  oats := ∅;
  next_handle := 1;
  dl_error := Some "stale error"
|}.

(** A world whose jar is missing: the fixture's helper fails. *)
Definition world_empty : World := mkWorld ∅ ∅ ∅ ∅ 1 None.

(** The world after the first two steps of [RejectsCdex]: the jar copied to
    the scratch directory and compiled. *)
Definition world_generated : World :=
  snd (toy_Generate "/scratch/LoadOat.jar" "/scratch/LoadOat.odex"
         (snd (toy_Copy "/data/Main.jar" "/scratch/LoadOat.jar" world0))).

(** A host whose loader cannot [dlopen] the oat file. *)
Definition no_dlopen : Quirks := mkQuirks false false false.

(** A host where [GetLength] fails. *)
Definition no_length : Quirks := mkQuirks true false true.

(** ** The tests evaluate *)

Lemma LoadOat_passes : fst (run_test (LoadOat (toy_env sane)) world0) = Passed.
Proof. vm_compute. reflexivity. Qed.

Lemma ChangingMultiDexUncompressed_passes :
  fst (run_test (ChangingMultiDexUncompressed (toy_env sane)) world0) = Passed.
Proof. vm_compute. reflexivity. Qed.

Lemma DlOpenLoad_passes (GLIBC : bool) :
  fst (run_test (DlOpenLoad (toy_env sane) GLIBC) world0) = Passed.
Proof. destruct GLIBC; vm_compute; reflexivity. Qed.

Lemma DlOpenLoad_skips_on_glibc :
  fst (run_test (DlOpenLoad (toy_env no_dlopen) true) world0)
  = Skipped.
Proof. vm_compute. reflexivity. Qed.

Lemma DlOpenLoad_fails_elsewhere :
  fst (run_test (DlOpenLoad (toy_env no_dlopen) false) world0)
  = Failed.
Proof. vm_compute. reflexivity. Qed.

Lemma RejectsCdex_passes :
  fst (run_test (RejectsCdex (toy_env sane) 64) world0) = Passed.
Proof. vm_compute. reflexivity. Qed.

Lemma RejectsCdex_detects_acceptance :
  fst (run_test (RejectsCdex (toy_env (mkQuirks true true false)) 64) world0)
  = Failed.
Proof. vm_compute. reflexivity. Qed.

(** On a host where [GetLength] fails, a 64-bit [size_t] lets the patch go
    on to the write, and the test passes; a 32-bit [size_t] stops it. *)
Lemma RejectsCdex_length_error :
  fst (run_test (RejectsCdex (toy_env no_length) 64) world0) = Passed /\
  fst (run_test (RejectsCdex (toy_env no_length) 32) world0) = Failed.
Proof. vm_compute. auto. Qed.

(** ** The theorems of [OatFileTest] at this world *)

Lemma toy_Generate_no_skip (dex odex : string) (w : World) (p : TestPart) :
  In p (fst (toy_Generate dex odex w)) -> is_skip p = false.
Proof.
  unfold toy_Generate. destruct (fs w !! dex); cbn; [tauto|].
  intros [<-|[]]. reflexivity.
Qed.

Lemma RejectsCdex_passed_sound_witness :
  exists f off odex msg1 vdex msg2,
    let tr := trace (snd (run_test (RejectsCdex (toy_env sane) 64) world0)) in
    In (EvPwrite f kCdexMagic 8 off true) tr /\
    In (EvFlushClose f 0) tr /\
    In (EvOatOpen odex false None msg1) tr /\
    has_substr "invalid dex file magic" msg1 = true /\
    In (EvOatOpenFromVdex vdex None msg2) tr /\
    has_substr "found dex file with invalid dex file version" msg2 = true.
Proof.
  apply (RejectsCdex_passed_sound (toy_env sane) 64 world0).
  vm_compute. reflexivity.
Defined.

Lemma GetFirstDexFileOffset_in_bounds_witness :
  exists vdex msg w1,
    VdexFile_Open (toy_env sane) "/scratch/LoadOat.odex.vdex" false ""
      world_generated = (Some vdex, msg, w1) /\
    VdexFile_GetNextDexFileData (toy_env sane) vdex None 0 w1
      = Some (VdexFile_Begin (toy_env sane) vdex w1 + 4) /\
    0 <= 4 < VdexFile_End (toy_env sane) vdex w1
             - VdexFile_Begin (toy_env sane) vdex w1.
Proof.
  apply (GetFirstDexFileOffset_in_bounds (toy_env sane)
           "/scratch/LoadOat.odex.vdex" (init world_generated)
           (snd (GetFirstDexFileOffset (toy_env sane)
                   "/scratch/LoadOat.odex.vdex" (init world_generated)))).
  vm_compute. reflexivity.
Defined.

Lemma LoadOat_passed_sound_witness :
  exists oat odex msg w',
    In (EvOatOpen oat false (Some odex) msg)
       (trace (snd (run_test (LoadOat (toy_env sane)) world0))) /\
    VdexFile_Begin (toy_env sane)
      (OatFile_GetVdexFile (toy_env sane) odex w') w'
    = OatFile_VdexBegin (toy_env sane) odex w'.
Proof.
  apply (LoadOat_passed_sound (toy_env sane) world0). vm_compute. reflexivity.
Defined.

Lemma ChangingMultiDexUncompressed_passed_sound_witness :
  exists src1 src2 dex oat odex msg1 msg2 w',
    trace (snd (run_test (ChangingMultiDexUncompressed (toy_env sane)) world0))
    = [EvCopy src1 dex; EvGenerateOat dex kVerify;
       EvOatOpen oat false (Some odex) msg1; EvOatDelete odex;
       EvCopy src2 dex; EvOatOpen oat false None msg2] /\
    OatFile_GetOatDexFiles_size (toy_env sane) odex w' = 2 /\
    has_substr "expected 2 uncompressed dex files, but found 1" msg2 = true.
Proof.
  apply (ChangingMultiDexUncompressed_passed_sound (toy_env sane) world0).
  vm_compute. reflexivity.
Defined.

Lemma DlOpenLoad_passed_sound_witness :
  exists oat odex w' info,
    In (EvOatOpen oat true (Some odex) "")
       (trace (snd (run_test (DlOpenLoad (toy_env sane) true) world0))) /\
    dladdr (toy_env sane) (OatFile_Begin (toy_env sane) odex w') w'
      = Some info /\
    dli_fname info = Some oat /\ dli_sname info = Some "oatdata".
Proof.
  apply (DlOpenLoad_passed_sound (toy_env sane) true world0).
  vm_compute. reflexivity.
Defined.

Lemma DlOpenLoad_skip_sound_witness :
  true = true /\ kReadOnlyDynamic = kReadOnlyDynamic /\
  exists src dex o oat odex,
    trace (snd (run_test (DlOpenLoad (toy_env no_dlopen) true) world0)) =
      [EvCopy src dex; EvGenerateOat dex kSpeed; EvDlerror o;
       EvOatOpen oat true (Some odex) kReadOnlyDynamic; EvOatDelete odex].
Proof.
  apply (DlOpenLoad_skip_sound (toy_env no_dlopen) true world0
           kReadOnlyDynamic).
  - intros dex w0 p. apply toy_Generate_no_skip.
  - vm_compute. reflexivity.
Defined.

Lemma RejectsCdex_patch_negative_length_witness :
  exists evs,
    appends (RejectsCdex_patch (toy_env no_length) 64
               "/scratch/LoadOat.odex.vdex") (init world_generated) evs /\
    forall i f, nth_error evs i = Some (EvGetLength f (-1)) ->
      exists off ok,
        nth_error evs (S i) = Some (EvPwrite f kCdexMagic 8 off ok).
Proof.
  apply (RejectsCdex_patch_negative_length (toy_env no_length) 64
           "/scratch/LoadOat.odex.vdex" (init world_generated)).
  reflexivity.
Defined.

Lemma ChangingMultiDexUncompressed_copy_without_image_witness :
  let tr :=
    trace (snd (run_test (ChangingMultiDexUncompressed (toy_env sane)) world0))
  in
  count (is_OatOpened 1) (firstn 4 tr) = count (is_OatDelete 1) (firstn 4 tr).
Proof.
  apply (ChangingMultiDexUncompressed_copy_without_image (toy_env sane) world0
           4%nat "/data/MainUncompressedAligned.jar"
           "/scratch/MultiDexUncompressedAligned.jar" 1).
  vm_compute. reflexivity.
Defined.

Lemma RejectsCdex_stops_on_generate_failure_witness :
  fst (run_test (RejectsCdex (toy_env sane) 64) world_empty) = Failed /\
  trace (snd (run_test (RejectsCdex (toy_env sane) 64) world_empty)) =
    [EvCopy "/data/Main.jar" "/scratch/LoadOat.jar";
     EvGenerateOdex "/scratch/LoadOat.jar" "/scratch/LoadOat.odex" kSpeed].
Proof.
  apply (RejectsCdex_stops_on_generate_failure (toy_env sane) 64 world_empty).
  vm_compute. reflexivity.
Defined.

